(** * Sizing engine of the modular lattice tower (trusspole) optimiser

    Shallow embedding of the member-and-connection sizing code:
    [utilitarios/verif_normativas.py], [utilitarios/ligacoes.py],
    [utilitarios/ferramentas_montantes.py], [utilitarios/io_excel.py],
    [utilitarios/geral.py], [utilitarios/wrappers.py] and
    [dimensionamento.py].

    Python [float] is IEEE-754 binary64, which is Rocq's primitive [float];
    Python [int] is [Z]; a function that may raise returns [res]; a [dict]
    is an association list kept in insertion order; a pandas table is the
    list of its rows. *)

From Stdlib Require Import ZArith QArith List String Ascii Bool Lia Floats.
From Stdlib Require Import Permutation.
From Stdlib Require Import Sorted.
From Stdlib Require OrderedTypeEx.
Import ListNotations.

Set Warnings "-inexact-float".

Local Open Scope string_scope.
Local Open Scope Z_scope.

(* ===================================================================== *)
(** * Python runtime fragments *)
(* ===================================================================== *)

(** The exceptions the modelled code can raise. A [ValueError] carries a
    short tag for the message of the [raise] statement it comes from. *)
Inductive exn : Type :=
| ZeroDivisionError
| OverflowError
| ValueError (msg : string)
| KeyError (chave : string)
| IndexError
| TypeError
| AttributeError
| UnboundLocalError.

(** The name of the class of an exception. *)
Definition nome_da_classe (e : exn) : string :=
  match e with
  | ZeroDivisionError => "ZeroDivisionError"
  | OverflowError => "OverflowError"
  | ValueError _ => "ValueError"
  | KeyError _ => "KeyError"
  | IndexError => "IndexError"
  | TypeError => "TypeError"
  | AttributeError => "AttributeError"
  | UnboundLocalError => "UnboundLocalError"
  end.

(** Outcome of a call: a value, an exception that unwinds the call, or no
    return at all (a [while True] loop that never reaches a [break]). *)
Inductive res (A : Type) : Type :=
| Ok (a : A)
| Raise (e : exn)
| NaoRetorna.
Arguments Ok {A} a.
Arguments Raise {A} e.
Arguments NaoRetorna {A}.

Definition bind {A B : Type} (c : res A) (k : A -> res B) : res B :=
  match c with
  | Ok a => k a
  | Raise e => Raise e
  | NaoRetorna => NaoRetorna
  end.

(** Arithmetic on, or subscripting of, a value that may be [None]: Python
    raises [TypeError] on [None]. *)
Definition nao_none {A : Type} (o : option A) : res A :=
  match o with
  | Some a => Ok a
  | None => Raise TypeError
  end.

(** ** Floats *)

(** [bool(x)] of a float: every value but the two zeros is true. *)
Definition truthy (x : float) : bool := negb (x =? 0)%float.

(** [a / b] on floats raises when the divisor is (plus or minus) zero. *)
Definition py_div (a b : float) : res float :=
  if (b =? 0)%float then Raise ZeroDivisionError else Ok (a / b)%float.

(** [x ** 2]: the C library's [pow(x, 2.0)], taken as the correctly rounded
    square; CPython turns an overflow of a finite base into
    [OverflowError]. *)
Definition py_pow2 (x : float) : res float :=
  let y := (x * x)%float in
  if is_finite x && is_infinity y then Raise OverflowError else Ok y.

(** The two kinds of binary64 number the code computes with. A cell of a
    row taken with [.iloc] and a cell of the material table read with
    [.loc] are [numpy.float64]; the rows of [iterrows()] over a table with
    text columns, the values of a [dict], literals, [float(...)] and the
    results of [math] functions are Python [float]s. An operation with a
    [numpy.float64] operand is numpy's and gives a [numpy.float64]. *)
Inductive origem : Type := Python | Numpy.

(** The kind of the result of an arithmetic operation. *)
Definition junta (a b : origem) : origem :=
  match a, b with
  | Python, Python => Python
  | _, _ => Numpy
  end.

(** [a / b] where [o] is the kind of the operation: numpy returns the
    IEEE-754 quotient (an infinity or [nan] for a zero divisor, with a
    warning) where Python raises. *)
Definition divide (o : origem) (a b : float) : res float :=
  match o with
  | Python => py_div a b
  | Numpy => Ok (a / b)%float
  end.

(** [x ** 2] where [o] is the kind of [x]: numpy returns the overflowed
    square where Python raises. *)
Definition quadrado (o : origem) (x : float) : res float :=
  match o with
  | Python => py_pow2 x
  | Numpy => Ok (x * x)%float
  end.

(** [math.sqrt]: a negative argument is a domain error. *)
Definition py_sqrt (x : float) : res float :=
  if (x <? 0)%float then Raise (ValueError "math domain error")
  else Ok (PrimFloat.sqrt x).

(** [math.pi]. *)
Definition py_pi : float := 0x1.921fb54442d18p+1%float.

(** [max(a, b)]: the second argument wins only when strictly greater. *)
Definition py_max (a b : float) : float := if (a <? b)%float then b else a.

(** Conversion of an [int] operand in mixed arithmetic: round to nearest
    even, [OverflowError] when the integer is beyond the float range. *)
Definition float_of_int (z : Z) : res float :=
  let f := SF2Prim (binary_normalize prec emax z 0 false) in
  if is_infinity f then Raise OverflowError else Ok f.

(** [int(round(x))]: round half to even; [nan] is a [ValueError], an
    infinity an [OverflowError]. *)
Definition round_half_even (m : positive) (e : Z) : Z :=
  match e with
  | Z0 => Zpos m
  | Zpos p => Zpos m * 2 ^ Zpos p
  | Zneg p =>
      let d := 2 ^ Zpos p in
      let q := Zpos m / d in
      let r := Zpos m mod d in
      match (2 * r ?= d) with
      | Lt => q
      | Gt => q + 1
      | Eq => if Z.even q then q else q + 1
      end
  end.

Definition int_round (x : float) : res Z :=
  match Prim2SF x with
  | S754_zero _ => Ok 0
  | S754_infinity _ => Raise OverflowError
  | S754_nan => Raise (ValueError "cannot convert float NaN to integer")
  | S754_finite s m e =>
      let n := round_half_even m e in
      Ok (if s then - n else n)
  end.

(** ** Strings *)

Fixpoint startswith (s p : string) : bool :=
  match p, s with
  | EmptyString, _ => true
  | String _ _, EmptyString => false
  | String a p', String b s' => Ascii.eqb a b && startswith s' p'
  end.

(** [sub in s]. *)
Fixpoint contem (sub s : string) : bool :=
  startswith s sub ||
  match s with
  | EmptyString => false
  | String _ s' => contem sub s'
  end.

(** A string holds the UTF-8 encoding of the Python text, byte by byte.
    [caracteres s] cuts it into its characters: the lead byte gives the
    length of each. *)
Definition comprimento_utf8 (c : ascii) : nat :=
  let n := nat_of_ascii c in
  if (n <? 192)%nat then 1%nat
  else if (n <? 224)%nat then 2%nat
  else if (n <? 240)%nat then 3%nat
  else 4%nat.

Fixpoint toma (n : nat) (s : string) : string :=
  match n, s with
  | S n', String c s' => String c (toma n' s')
  | _, _ => EmptyString
  end.

Fixpoint salta (n : nat) (s : string) : string :=
  match n, s with
  | S n', String _ s' => salta n' s'
  | _, _ => s
  end.

Fixpoint caracteres_de (passos : nat) (s : string) : list string :=
  match passos, s with
  | S passos', String c _ =>
      let n := comprimento_utf8 c in
      toma n s :: caracteres_de passos' (salta n s)
  | _, _ => []
  end.

Definition caracteres (s : string) : list string :=
  caracteres_de (String.length s) s.

Fixpoint de_bytes (l : list nat) : string :=
  match l with
  | [] => EmptyString
  | n :: l' => String (ascii_of_nat n) (de_bytes l')
  end.

(** The white space of [str.strip]: U+0009 to U+000D, U+001C to U+0020,
    U+0085, U+00A0, U+1680, U+2000 to U+200A, U+2028, U+2029, U+202F,
    U+205F and U+3000. *)
Definition espacos_unicode : list string :=
  map de_bytes
    [[194; 133]; [194; 160]; [225; 154; 128];
     [226; 128; 128]; [226; 128; 129]; [226; 128; 130]; [226; 128; 131];
     [226; 128; 132]; [226; 128; 133]; [226; 128; 134]; [226; 128; 135];
     [226; 128; 136]; [226; 128; 137]; [226; 128; 138];
     [226; 128; 168]; [226; 128; 169]; [226; 128; 175];
     [226; 129; 159]; [227; 128; 128]]%nat.

Definition is_space (c : string) : bool :=
  match c with
  | String b EmptyString =>
      let n := nat_of_ascii b in
      ((9 <=? n)%nat && (n <=? 13)%nat) || ((28 <=? n)%nat && (n <=? 32)%nat)
  | _ => existsb (String.eqb c) espacos_unicode
  end.

Fixpoint salta_espacos (cs : list string) : list string :=
  match cs with
  | [] => []
  | c :: cs' => if is_space c then salta_espacos cs' else cs
  end.

Definition lstrip (s : string) : string :=
  String.concat EmptyString (salta_espacos (caracteres s)).

Definition rstrip (s : string) : string :=
  String.concat EmptyString (rev (salta_espacos (rev (caracteres s)))).

Definition strip (s : string) : string := rstrip (lstrip s).

(** ** Dictionaries: association lists in insertion order *)

Section Dict.
Context {K V : Type} (eqb : K -> K -> bool).

Fixpoint dict_get (d : list (K * V)) (k : K) : option V :=
  match d with
  | [] => None
  | (k', v) :: d' => if eqb k k' then Some v else dict_get d' k
  end.

(** [d[k] = v]: an existing key keeps its position. *)
Fixpoint dict_set (d : list (K * V)) (k : K) (v : V) : list (K * V) :=
  match d with
  | [] => [(k, v)]
  | (k', v') :: d' =>
      if eqb k k' then (k', v) :: d' else (k', v') :: dict_set d' k v
  end.

Definition dict_mem (d : list (K * V)) (k : K) : bool :=
  match dict_get d k with
  | Some _ => true
  | None => false
  end.
End Dict.

Definition sget {V : Type} (d : list (string * V)) (k : string) : option V :=
  dict_get String.eqb d k.

Definition sset {V : Type} (d : list (string * V)) (k : string) (v : V) :=
  dict_set String.eqb d k v.

(** [d[k]] on a string-keyed dictionary. *)
Definition sitem {V : Type} (d : list (string * V)) (k : string) : res V :=
  match sget d k with
  | Some v => Ok v
  | None => Raise (KeyError k)
  end.

Declare Scope res_scope.
Delimit Scope res_scope with res.
Notation "x <- c ;; k" := (bind c (fun x => k))
  (at level 61, c at next level, right associativity) : res_scope.
Notation "' pat <- c ;; k" := (bind c (fun x => match x with pat => k end))
  (at level 61, pat pattern, c at next level, right associativity) : res_scope.
Local Open Scope res_scope.

(* ===================================================================== *)
(** * [utilitarios/constantes.py] *)
(* ===================================================================== *)

Definition LIMITE_ESBELTEZ_TRACAO : float := 375.
Definition LIMITE_ESBELTEZ_MONTANTE : float := 150.
Definition LIMITE_ESBELTEZ_DIAG_HORIZ : float := 200.
Definition MODULO_ELASTICIDADE_ACO : float := 2038894.
Definition COEF_MINORACAO_PADRAO : float := 0.90.
Definition LIMITE_TAXA_TRABALHO_DIAG_HORIZ : float := 0.90.
Definition FATOR_ESMAGAMENTO_PADRAO : float := (1.3 / 1.2)%float.

(* ===================================================================== *)
(** * Catalogues ([utilitarios/io_excel.py]) *)
(* ===================================================================== *)

(** A row of the profile table; the field names follow the columns. *)
Record perfil : Type := mk_perfil {
  Perfil : string;             (* "Perfil" *)
  A_cm2 : float;               (* "A(cm2)" *)
  rx_cm : float;               (* "rx(cm)" *)
  rz_cm : float;               (* "rz(cm)" *)
  b_cm : float;                (* "b(cm)" *)
  t_cm : float;                (* "t(cm)" *)
  raio_lam_cm : float;         (* "raio lam.(cm)" *)
  Wx_cm3 : float;              (* "Wx(cm3)" *)
  Peso_kg_m : float;           (* "Peso(kg/m)" *)
  D_max : option float;        (* "D max", [None] for a missing cell *)
  Notas : option string;       (* "Notas", [None] for a missing cell *)
  Aco : string;                (* steel grade *)
  Np_min : float;              (* "Np min" *)
  Qtd_furos_An : float         (* "Qtd furos An" *)
}.

(** A row of the material table, indexed by the grade name. *)
Record material : Type := mk_material {
  fy : float;                  (* "fy (kgf/cm2)" *)
  fu : float;                  (* "fu (kgf/cm2)" *)
  fc : float                   (* "fc (kgf/cm2)", bolt shear stress *)
}.

Definition tabela_perfis : Type := list perfil.
Definition tabela_materiais : Type := list (string * material).

(** [df_materiais.loc[aco, coluna]]. *)
Definition loc (df_materiais : tabela_materiais) (aco : string) : res material :=
  sitem df_materiais aco.

(** The stresses come from [df_materiais.loc[aco, coluna]], a
    [numpy.float64]. *)
Definition obter_fy (linha_perfil : perfil) (df_materiais : tabela_materiais)
  : res float :=
  m <- loc df_materiais (Aco linha_perfil) ;; Ok (fy m).

Definition obter_fu (linha_perfil : perfil) (df_materiais : tabela_materiais)
  : res float :=
  m <- loc df_materiais (Aco linha_perfil) ;; Ok (fu m).

(** [df[df["Perfil"].str.strip() == nome.strip()]]. *)
Definition linhas_do_perfil (df : tabela_perfis) (nome : string) : tabela_perfis :=
  filter (fun p => String.eqb (strip (Perfil p)) (strip nome)) df.

(** [.iloc[0]]. *)
Definition iloc0 {A : Type} (l : list A) : res A :=
  match l with
  | x :: _ => Ok x
  | [] => Raise IndexError
  end.

Definition dmax_compativel (diametro_cm : float) (p : perfil) : bool :=
  match D_max p with
  | None => true
  | Some d => (diametro_cm <=? d)%float
  end.

Definition filtrar_por_diametro_parafuso (tabela : tabela_perfis)
  (diametro_cm : float) : tabela_perfis :=
  filter (dmax_compativel diametro_cm) tabela.

Definition nota_proibe_montante (p : perfil) : bool :=
  match Notas p with
  | None => false
  | Some n => contem "Não utilizar em montante" n
  end.

Definition filtrar_perfis_montante_reforco (tabela : tabela_perfis)
  (diametro_cm : float) : tabela_perfis :=
  filtrar_por_diametro_parafuso
    (filter (fun p => negb (nota_proibe_montante p)) tabela) diametro_cm.

(* ===================================================================== *)
(** * [utilitarios/verif_normativas.py] *)
(* ===================================================================== *)

(** [tipo_barra.startswith("montante")]. *)
Definition e_montante (tipo_barra : string) : bool :=
  startswith tipo_barra "montante".

(** [num] is the kind of the quotient [comprimento / raio_giracao]: that of
    the radius when the length is a Python float. *)
Definition calcular_esbeltez_corrigida (num : origem) (tipo_barra : string)
  (comprimento raio_giracao : float) : res float :=
  esbeltez <- divide num comprimento raio_giracao ;;
  if e_montante tipo_barra then Ok esbeltez
  else if (esbeltez <=? 120)%float then Ok (60 + 0.5 * esbeltez)%float
  else Ok esbeltez.

(** [num] is the kind of the cells of [dados_perfil], [num_fy] that of
    [tensao_fy_nominal]; the modulus is a Python float. The corrected stress
    is returned with its kind, which depends on the branch taken. *)
Definition corrigir_fy_por_flambagem_local (num : origem)
  (dados_perfil : perfil) (modulo_elasticidade tensao_fy_nominal : float)
  (num_fy : origem) : res (float * origem) :=
  let fy_mpa := (tensao_fy_nominal / 10.1972)%float in
  let e_mpa := (modulo_elasticidade / 10.1972)%float in
  let largura_aba := b_cm dados_perfil in
  let espessura_aba := t_cm dados_perfil in
  let raio_laminacao := raio_lam_cm dados_perfil in
  let largura_util := (largura_aba - espessura_aba - raio_laminacao)%float in
  rel_w_t <- divide num largura_util espessura_aba ;;
  raiz <- py_sqrt fy_mpa ;;
  limite_inferior <- py_div 209.6 raiz ;;
  raiz' <- py_sqrt fy_mpa ;;
  limite_superior <- py_div 377.28 raiz' ;;
  '(fy_corrigido_mpa, num_corrigido) <-
    (if (rel_w_t <=? limite_inferior)%float then Ok (fy_mpa, num_fy)
     else if (rel_w_t <=? limite_superior)%float then
       q <- divide num rel_w_t limite_inferior ;;
       let fator_reducao := (1.677 - 0.677 * q)%float in
       Ok ((fator_reducao * fy_mpa)%float, junta num num_fy)
     else
       pi2 <- py_pow2 py_pi ;;
       w2 <- quadrado num rel_w_t ;;
       fy_elastico <- divide num (0.0332 * pi2 * e_mpa)%float w2 ;;
       Ok (fy_elastico, num)) ;;
  Ok ((fy_corrigido_mpa * 10.1972)%float, num_corrigido).

(** [num_esbeltez] and [num_fy] are the kinds of [esbeltez_corrigida] and
    of [tensao_fy_corrigida]; the modulus is a Python float. The admissible
    stress is returned with its kind. *)
Definition fa_asce (num_esbeltez : origem)
  (esbeltez_corrigida modulo_elasticidade tensao_fy_corrigida : float)
  (num_fy : origem) : res (float * origem) :=
  q <- divide num_fy (2 * modulo_elasticidade)%float tensao_fy_corrigida ;;
  raiz <- py_sqrt q ;;
  let cc := (py_pi * raiz)%float in
  if (esbeltez_corrigida <=? cc)%float then
    r <- divide num_esbeltez esbeltez_corrigida cc ;;
    r2 <- quadrado num_esbeltez r ;;
    Ok (((1 - 0.5 * r2) * tensao_fy_corrigida)%float,
        junta num_esbeltez num_fy)
  else
    pi2 <- py_pow2 py_pi ;;
    e2 <- quadrado num_esbeltez esbeltez_corrigida ;;
    fa <- divide num_esbeltez (pi2 * modulo_elasticidade)%float e2 ;;
    Ok (fa, num_esbeltez).

Definition verifica_flexao_simples (tipo_barra : string)
  (angulo_graus comprimento modulo_resistencia_flexao_x tensao_fy
   coef_minoracao : float) : bool :=
  if e_montante tipo_barra then true
  else if negb (((0 <=? angulo_graus) && (angulo_graus <=? 45))
                || ((135 <=? angulo_graus) && (angulo_graus <=? 225))
                || ((315 <=? angulo_graus) && (angulo_graus <=? 360)))%float
  then true
  else
    let momento_solicitante := ((100 * comprimento) / 4)%float in
    let momento_resistente :=
      (modulo_resistencia_flexao_x * tensao_fy * coef_minoracao)%float in
    (momento_solicitante <=? momento_resistente)%float.

Inductive solicitacao : Type := tracao | compressao.

Definition solicitacao_eqb (a b : solicitacao) : bool :=
  match a, b with
  | tracao, tracao | compressao, compressao => true
  | _, _ => false
  end.

(** The dictionary [calcula_tensao_axial_admissivel] returns; a field is
    [None] where the dictionary holds [None]. The two admissible stresses,
    by which [dimensionar_barras] divides later, are kept with the kind of
    number they are. *)
Record verificacao_axial : Type := mk_verificacao_axial {
  va_solicitacao : solicitacao;
  va_viavel : bool;
  va_tensao_solicitante : option float;
  va_area_bruta : option float;
  va_area_efetiva : option float;
  va_forca_axial_admissivel : option float;
  va_taxa_trabalho : option float;
  va_esbeltez_corrigida : option float;
  va_tensao_fy_corrigida : option float;
  va_Fa : option float;
  va_Fa_reduzido : option (float * origem);
  va_ft_admissivel : option (float * origem);
  va_esbeltez_tracao : option float
}.

Definition dicionario_inviavel (s : solicitacao) : verificacao_axial :=
  {| va_solicitacao := s;
     va_viavel := false;
     va_tensao_solicitante := None;
     va_area_bruta := None;
     va_area_efetiva := None;
     va_forca_axial_admissivel := None;
     va_taxa_trabalho := None;
     va_esbeltez_corrigida := None;
     va_tensao_fy_corrigida := None;
     va_Fa := None;
     va_Fa_reduzido := None;
     va_ft_admissivel := None;
     va_esbeltez_tracao := None |}.

(** The base class of a bar type, as the nested conditionals on
    ["montante" in tipo] and ["diagonal" in tipo] compute it. *)
Definition tipo_base_de (tipo_barra : string) : string :=
  if contem "montante" tipo_barra then "montante"
  else if contem "diagonal" tipo_barra then "diagonal"
  else "horizontal".

Definition calcular_area_liquida_efetiva (dados_perfil : perfil)
  (diametro_furo ct : float) (tipo_barra : string)
  (descontos_area_liquida : option (list (string * Z))) : res float :=
  let area_bruta := A_cm2 dados_perfil in
  let espessura_aba := t_cm dados_perfil in
  n_furos <-
    match descontos_area_liquida with
    | Some descontos =>
        let tipo_base :=
          if contem "montante" tipo_barra then Some "montante"
          else if contem "diagonal" tipo_barra then Some "diagonal"
          else if contem "horizontal" tipo_barra then Some "horizontal"
          else None in
        match tipo_base with
        | Some tb =>
            match sget descontos tb with
            | Some n => float_of_int n
            | None => Ok (Qtd_furos_An dados_perfil)
            end
        | None => Ok (Qtd_furos_An dados_perfil)
        end
    | None => Ok (Qtd_furos_An dados_perfil)
    end ;;
  let diametro_ajustado := (diametro_furo + 0.3175)%float in
  let area_liquida :=
    (area_bruta - n_furos * diametro_ajustado * espessura_aba)%float in
  let area_efetiva := (area_liquida * ct)%float in
  Ok area_efetiva.

(** [comprimento_efetivo / raio_giracao if raio_giracao else 9999]. *)
Definition esbeltez_real_de (comprimento_efetivo raio_giracao : float) : float :=
  if truthy raio_giracao then (comprimento_efetivo / raio_giracao)%float
  else 9999%float.

(** Bloco 2 of [calcula_tensao_axial_admissivel]: [true] when one of the
    three slenderness limits makes the function return
    [dicionario_inviavel(solicitacao)]. *)
Definition reprovada_por_esbeltez (num : origem) (solicitacao : solicitacao)
  (tipo_barra : string) (comprimento_efetivo raio_giracao : float)
  (limitar_esbeltez_tracao forcar_verificacao_compressao : bool) : res bool :=
  let esbeltez_real := esbeltez_real_de comprimento_efetivo raio_giracao in
  if solicitacao_eqb solicitacao compressao || forcar_verificacao_compressao
  then
    if e_montante tipo_barra then
      Ok (LIMITE_ESBELTEZ_MONTANTE <? esbeltez_real)%float
    else
      esbeltez_corrigida <-
        calcular_esbeltez_corrigida num tipo_barra comprimento_efetivo
          raio_giracao ;;
      Ok (LIMITE_ESBELTEZ_DIAG_HORIZ <? esbeltez_corrigida)%float
  else
    Ok (limitar_esbeltez_tracao
        && (LIMITE_ESBELTEZ_TRACAO <? esbeltez_real)%float).

(** The utilisation of Bloco 5:
    [abs(forca_axial) / forca_axial_admissivel
     if (forca_axial_admissivel and forca_axial_admissivel > 1e-9) else 9999]. *)
Definition taxa_de_trabalho (forca_axial forca_axial_admissivel : float)
  : float :=
  if truthy forca_axial_admissivel && (1e-9 <? forca_axial_admissivel)%float
  then (abs forca_axial / forca_axial_admissivel)%float
  else 9999%float.

(** Blocos 3 to 5 of [calcula_tensao_axial_admissivel]: the capacity of a
    profile that passed the slenderness limits. [num] is the kind of the
    cells of [dados_perfil], [num_fy] that of [tensao_fy_nominal]. *)
Definition capacidade_axial (num : origem) (dados_perfil : perfil)
  (forca_axial : float) (tipo_barra : string)
  (comprimento_efetivo coef_minoracao diametro_furo modulo_elasticidade : float)
  (descontos_area_liquida : option (list (string * Z)))
  (solicitacao : solicitacao) (ct raio_giracao tensao_fy_nominal : float)
  (num_fy : origem) : res verificacao_axial :=
  let area_bruta := A_cm2 dados_perfil in
  (* Bloco 3 *)
  area_efetiva <-
    calcular_area_liquida_efetiva dados_perfil diametro_furo ct tipo_barra
      descontos_area_liquida ;;
  let secao_utilizada :=
    match solicitacao with
    | compressao => area_bruta
    | tracao => area_efetiva
    end in
  let tensao_solicitante :=
    if truthy secao_utilizada then (abs forca_axial / secao_utilizada)%float
    else 1e12%float in
  (* Bloco 4 *)
  match solicitacao with
  | compressao =>
      esbeltez_corrigida <-
        calcular_esbeltez_corrigida num tipo_barra comprimento_efetivo
          raio_giracao ;;
      '(tensao_fy_corrigida, num_corrigido) <-
        corrigir_fy_por_flambagem_local num dados_perfil modulo_elasticidade
          tensao_fy_nominal num_fy ;;
      '(tensao_adm_compressao, num_adm) <-
        fa_asce num esbeltez_corrigida modulo_elasticidade
          tensao_fy_corrigida num_corrigido ;;
      let tensao_adm_reduzida :=
        (coef_minoracao * tensao_adm_compressao)%float in
      let viavel := (tensao_solicitante <=? tensao_adm_reduzida)%float in
      let forca_axial_admissivel := (tensao_adm_reduzida * area_bruta)%float in
      (* Bloco 5 *)
      Ok {| va_solicitacao := solicitacao;
            va_viavel := viavel;
            va_tensao_solicitante := Some tensao_solicitante;
            va_area_bruta := Some area_bruta;
            va_area_efetiva := Some area_efetiva;
            va_forca_axial_admissivel := Some forca_axial_admissivel;
            va_taxa_trabalho :=
              Some (taxa_de_trabalho forca_axial forca_axial_admissivel);
            va_esbeltez_corrigida := Some esbeltez_corrigida;
            va_tensao_fy_corrigida := Some tensao_fy_corrigida;
            va_Fa := Some tensao_adm_compressao;
            va_Fa_reduzido := Some (tensao_adm_reduzida, num_adm);
            va_ft_admissivel := None;
            va_esbeltez_tracao := None |}
  | tracao =>
      let ft_admissivel := (coef_minoracao * tensao_fy_nominal)%float in
      let esbeltez_tracao :=
        esbeltez_real_de comprimento_efetivo raio_giracao in
      let viavel := (tensao_solicitante <=? ft_admissivel)%float in
      let forca_axial_admissivel := (ft_admissivel * area_efetiva)%float in
      (* Bloco 5 *)
      Ok {| va_solicitacao := solicitacao;
            va_viavel := viavel;
            va_tensao_solicitante := Some tensao_solicitante;
            va_area_bruta := Some area_bruta;
            va_area_efetiva := Some area_efetiva;
            va_forca_axial_admissivel := Some forca_axial_admissivel;
            va_taxa_trabalho :=
              Some (taxa_de_trabalho forca_axial forca_axial_admissivel);
            va_esbeltez_corrigida := None;
            va_tensao_fy_corrigida := Some tensao_fy_nominal;
            va_Fa := None;
            va_Fa_reduzido := None;
            va_ft_admissivel := Some (ft_admissivel, num_fy);
            va_esbeltez_tracao := Some esbeltez_tracao |}
  end.

(** [solicitacao = "tracao" if forca_axial > 0 else "compressao"]. *)
Definition solicitacao_de (forca_axial : float) : solicitacao :=
  if (0 <? forca_axial)%float then tracao else compressao.

(** [raio_giracao]: ["rx(cm)"] for a leg, ["rz(cm)"] otherwise. *)
Definition raio_de_giracao (tipo_barra : string) (dados_perfil : perfil)
  : float :=
  if e_montante tipo_barra then rx_cm dados_perfil else rz_cm dados_perfil.

(** [num] is the kind of the cells of [dados_perfil]: [Python] for a
    [dict] or a row of [iterrows()], [Numpy] for a row taken with [.iloc].
    The yield stress is read from the material table with [.loc]. *)
Definition calcula_tensao_axial_admissivel (df_materiais : tabela_materiais)
  (num : origem) (dados_perfil : perfil) (forca_axial : float)
  (tipo_barra : string)
  (comprimento_efetivo coef_minoracao diametro_furo modulo_elasticidade : float)
  (limitar_esbeltez_tracao forcar_verificacao_compressao : bool)
  (descontos_area_liquida : option (list (string * Z)))
  : res verificacao_axial :=
  (* Bloco 1 *)
  let solicitacao := solicitacao_de forca_axial in
  let ct := if e_montante tipo_barra then 1.0%float else 0.9%float in
  let raio_giracao := raio_de_giracao tipo_barra dados_perfil in
  tensao_fy_nominal <- obter_fy dados_perfil df_materiais ;;
  (* Bloco 2 *)
  rejeitada <-
    reprovada_por_esbeltez num solicitacao tipo_barra comprimento_efetivo
      raio_giracao limitar_esbeltez_tracao forcar_verificacao_compressao ;;
  if (rejeitada : bool) then Ok (dicionario_inviavel solicitacao)
  else
    (* Blocos 3 to 5 *)
    capacidade_axial num dados_perfil forca_axial tipo_barra
      comprimento_efetivo coef_minoracao diametro_furo modulo_elasticidade
      descontos_area_liquida solicitacao ct raio_giracao tensao_fy_nominal
      Numpy.

(* ===================================================================== *)
(** * [utilitarios/ligacoes.py]: the connection designer *)
(* ===================================================================== *)

(** The dictionary [dimensionar_ligacao] returns. *)
Record dados_ligacao : Type := mk_dados_ligacao {
  ligacao_viavel : bool;
  np : option Z;
  forca_adm_cisalhamento : float;
  forca_adm_esmagamento : float;
  tx_lig : float;
  d_furo : float;
  area_parafuso : float;
  fator_fp : option float;
  planos : Z;
  coef_minoracao_lig : float
}.

(** [range(a, b)]. *)
Definition py_range (a b : Z) : list Z :=
  map (fun i => a + Z.of_nat i) (seq 0 (Z.to_nat (b - a))).

(** [coef_minoracao * np * area_parafuso * fv_parafuso *
    num_planos_cisalhamento], the two integers converted as Python does. *)
Definition forca_adm_cisalhamento_de (coef_minoracao : float) (np : Z)
  (area_parafuso fv_parafuso : float) (num_planos_cisalhamento : Z)
  : res float :=
  npf <- float_of_int np ;;
  pf <- float_of_int num_planos_cisalhamento ;;
  Ok (coef_minoracao * npf * area_parafuso * fv_parafuso * pf)%float.

(** The minimum bolt count: 1 for diagonals and horizontals; for a leg the
    rounded ["Np min"] of the profile, 4 when the lookup fails inside the
    [try] block. [perfil_nome] is [None] when a caller passes [None]. *)
Definition np_min_de (tipo_base : string) (df_perfis : tabela_perfis)
  (perfil_nome : option string) : res Z :=
  if String.eqb tipo_base "montante" then
    match perfil_nome with
    | None => Raise AttributeError
    | Some nome =>
        match linhas_do_perfil df_perfis nome with
        | [] => Ok 4
        | dados_perfil :: _ =>
            match int_round (Np_min dados_perfil) with
            | Ok n => Ok n
            | Raise (ValueError _) => Ok 4
            | Raise (KeyError _) => Ok 4
            | Raise IndexError => Ok 4
            | Raise e => Raise e
            | NaoRetorna => NaoRetorna
            end
        end
    end
  else Ok 1.

(** The pairs in the order the two nested loops visit them: bolt counts
    ascending, bearing factors in list order. *)
Definition combinacoes (nps : list Z) (fatores : list float)
  : list (Z * float) :=
  flat_map (fun np => map (pair np) fatores) nps.

Section dimensionar_ligacao.

Variable forca_axial : float.
Variable tipo_barra : string.
Variable perfil_nome : option string.
(** The thickness and the bolt shear stress come with their kind: callers
    pass a cell of a profile row and a cell of the material table. The force
    and the hole diameters are Python floats. *)
Variable num_espessura : origem.
Variable espessura_aba : float.
Variable diametros_furos : list (string * float).
Variable num_fv : origem.
Variable fv_parafuso : float.
(** [None] stands for the empty selection a caller may pass; it fails where
    the code applies [float(...)] to it. *)
Variable fu_peca : option float.
Variable limite_parafusos : option (list (string * Z)).
Variable planos_cisalhamento : option (list (string * Z)).
Variable fatores_esmagamento : option (list float).
Variable df_perfis : tabela_perfis.
Variable coef_minoracao : float.

Definition lig_tipo_base : string := tipo_base_de tipo_barra.

Definition lig_d_furo : float :=
  match sget diametros_furos lig_tipo_base with
  | Some d => d
  | None => 1.59%float
  end.

Definition lig_area_parafuso : res float :=
  q <- py_pow2 (lig_d_furo / 2)%float ;; Ok (py_pi * q)%float.

(** The record built by the [return] inside the two loops. *)
Definition ligacao_aceita (np : Z) (fator_fp : float)
  (forca_adm_cisalhamento forca_adm_esmagamento tx_ligacao area_parafuso : float)
  (num_planos_cisalhamento : Z) : dados_ligacao :=
  {| ligacao_viavel := true;
     np := Some np;
     forca_adm_cisalhamento := forca_adm_cisalhamento;
     forca_adm_esmagamento := forca_adm_esmagamento;
     tx_lig := tx_ligacao;
     d_furo := lig_d_furo;
     area_parafuso := area_parafuso;
     fator_fp := Some fator_fp;
     planos := num_planos_cisalhamento;
     coef_minoracao_lig := coef_minoracao |}.

(** The record returned when the loops end without a [return]. *)
Definition ligacao_inviavel (area_parafuso : float)
  (num_planos_cisalhamento : Z) : dados_ligacao :=
  {| ligacao_viavel := false;
     np := None;
     forca_adm_cisalhamento := 0;
     forca_adm_esmagamento := 0;
     tx_lig := 999;
     d_furo := lig_d_furo;
     area_parafuso := area_parafuso;
     fator_fp := None;
     planos := num_planos_cisalhamento;
     coef_minoracao_lig := coef_minoracao |}.

(** One pass of the body of [for fator_fp in fatores_esmagamento]:
    [Some] record when the body returns, [None] when it falls through. *)
Definition testa_fator (np : Z) (forca_adm_cisalhamento area_parafuso : float)
  (num_planos_cisalhamento : Z) (fator_fp : float)
  : res (option dados_ligacao) :=
  fu <- nao_none fu_peca ;;
  let tensao_adm_esmagamento := (coef_minoracao * fator_fp * fu)%float in
  npf <- float_of_int np ;;
  let area_contato := (npf * lig_d_furo * espessura_aba)%float in
  tensao_solicitante_esmagamento <-
    divide num_espessura (abs forca_axial) area_contato ;;
  let forca_adm_esmagamento := (tensao_adm_esmagamento * area_contato)%float in
  if (tensao_solicitante_esmagamento <=? tensao_adm_esmagamento)%float then
    tx_cisalhamento <-
      divide num_fv (abs forca_axial) forca_adm_cisalhamento ;;
    tx_esmagamento <-
      divide num_espessura tensao_solicitante_esmagamento
        tensao_adm_esmagamento ;;
    let tx_ligacao := py_max tx_cisalhamento tx_esmagamento in
    if (tx_ligacao <=? 1.0)%float then
      Ok (Some (ligacao_aceita np fator_fp forca_adm_cisalhamento
                  forca_adm_esmagamento tx_ligacao area_parafuso
                  num_planos_cisalhamento))
    else Ok None
  else Ok None.

(** [for fator_fp in fatores_esmagamento: ...]. *)
Fixpoint laco_fatores (np : Z) (forca_adm_cisalhamento area_parafuso : float)
  (num_planos_cisalhamento : Z) (fatores : list float)
  : res (option dados_ligacao) :=
  match fatores with
  | [] => Ok None
  | fator_fp :: resto =>
      r <- testa_fator np forca_adm_cisalhamento area_parafuso
             num_planos_cisalhamento fator_fp ;;
      match r with
      | Some lig => Ok (Some lig)
      | None =>
          laco_fatores np forca_adm_cisalhamento area_parafuso
            num_planos_cisalhamento resto
      end
  end.

(** One pass of the body of [for np in range(np_min, np_max + 1)]. *)
Definition testa_np (area_parafuso : float) (num_planos_cisalhamento : Z)
  (np : Z) : res (option dados_ligacao) :=
  if String.eqb lig_tipo_base "montante" && negb (np mod 2 =? 0) then Ok None
  else
    forca_adm_cisalhamento <-
      forca_adm_cisalhamento_de coef_minoracao np area_parafuso fv_parafuso
        num_planos_cisalhamento ;;
    if (forca_adm_cisalhamento <? abs forca_axial)%float then Ok None
    else
      fatores <- nao_none fatores_esmagamento ;;
      laco_fatores np forca_adm_cisalhamento area_parafuso
        num_planos_cisalhamento fatores.

(** [for np in range(np_min, np_max + 1): ...] followed by the final
    [return] of the infeasible record. *)
Fixpoint laco_parafusos (area_parafuso : float) (num_planos_cisalhamento : Z)
  (nps : list Z) : res dados_ligacao :=
  match nps with
  | [] => Ok (ligacao_inviavel area_parafuso num_planos_cisalhamento)
  | np :: resto =>
      r <- testa_np area_parafuso num_planos_cisalhamento np ;;
      match r with
      | Some lig => Ok lig
      | None => laco_parafusos area_parafuso num_planos_cisalhamento resto
      end
  end.

(** The checks of the two loops seen from one (bolt count, bearing factor)
    pair: parity, shear, then the body of the inner loop. *)
Definition avalia_par (area_parafuso : float) (num_planos_cisalhamento : Z)
  (par : Z * float) : res (option dados_ligacao) :=
  let np := fst par in
  if String.eqb lig_tipo_base "montante" && negb (np mod 2 =? 0) then Ok None
  else
    forca_adm_cisalhamento <-
      forca_adm_cisalhamento_de coef_minoracao np area_parafuso fv_parafuso
        num_planos_cisalhamento ;;
    if (forca_adm_cisalhamento <? abs forca_axial)%float then Ok None
    else
      testa_fator np forca_adm_cisalhamento area_parafuso
        num_planos_cisalhamento (snd par).

Definition dimensionar_ligacao : res dados_ligacao :=
  area_parafuso <- lig_area_parafuso ;;
  limites <- nao_none limite_parafusos ;;
  np_max <- sitem limites lig_tipo_base ;;
  planos_d <- nao_none planos_cisalhamento ;;
  num_planos_cisalhamento <- sitem planos_d lig_tipo_base ;;
  np_min <- np_min_de lig_tipo_base df_perfis perfil_nome ;;
  laco_parafusos area_parafuso num_planos_cisalhamento
    (py_range np_min (np_max + 1)).

End dimensionar_ligacao.

(** The product the spec describes for the admissible shear force, over
    exact rational arithmetic: coefficient x bolt count x bolt area x shear
    stress x plane count. *)
Definition forca_adm_cisalhamento_exata (coef_minoracao : Q) (np : Z)
  (area_parafuso fv_parafuso : Q) (num_planos_cisalhamento : Z) : Q :=
  (coef_minoracao * inject_Z np * area_parafuso * fv_parafuso
   * inject_Z num_planos_cisalhamento)%Q.

(* ===================================================================== *)
(** * Built-in [min], [max], [sorted] and sets *)
(* ===================================================================== *)

(** [max(cur :: l, key=key)]: a later element replaces the current one only
    when its key is strictly greater. *)
Fixpoint py_max_by {A : Type} (key : A -> float) (cur : A) (l : list A) : A :=
  match l with
  | [] => cur
  | x :: l' => py_max_by key (if (key cur <? key x)%float then x else cur) l'
  end.

(** [min(cur :: l, key=key)]. *)
Fixpoint py_min_by {A : Type} (key : A -> float) (cur : A) (l : list A) : A :=
  match l with
  | [] => cur
  | x :: l' => py_min_by key (if (key x <? key cur)%float then x else cur) l'
  end.

(** [max(l)] and [min(l)] of a list of floats ([None] for an empty list,
    where Python raises [ValueError] unless a default is given). *)
Definition py_max_lista (l : list float) : option float :=
  match l with
  | [] => None
  | x :: l' => Some (py_max_by (fun v => v) x l')
  end.

Definition py_min_lista (l : list float) : option float :=
  match l with
  | [] => None
  | x :: l' => Some (py_min_by (fun v => v) x l')
  end.

(** A [set] of strings: a list without repetition. *)
Definition set_mem (x : string) (s : list string) : bool :=
  existsb (String.eqb x) s.

Definition set_add (s : list string) (x : string) : list string :=
  if set_mem x s then s else (s ++ [x])%list.

Definition set_union (s1 s2 : list string) : list string :=
  fold_left set_add s2 s1.

(** [d.setdefault(k, []).append(v)]. *)
Fixpoint dict_append {K V : Type} (eqb : K -> K -> bool)
  (d : list (K * list V)) (k : K) (v : V) : list (K * list V) :=
  match d with
  | [] => [(k, [v])]
  | (k', l) :: d' =>
      if eqb k k' then (k', (l ++ [v])%list) :: d'
      else (k', l) :: dict_append eqb d' k v
  end.

(** In-place change of the value held under a key. *)
Fixpoint dict_update {K V : Type} (eqb : K -> K -> bool)
  (d : list (K * V)) (k : K) (f : V -> V) : list (K * V) :=
  match d with
  | [] => []
  | (k', v) :: d' =>
      if eqb k k' then (k', f v) :: d'
      else (k', v) :: dict_update eqb d' k f
  end.

(** Sequencing of a loop body that may raise over the items of a list. *)
Fixpoint for_each {A S : Type} (l : list A) (s : S)
  (corpo : S -> A -> res S) : res S :=
  match l with
  | [] => Ok s
  | x :: l' => s' <- corpo s x ;; for_each l' s' corpo
  end.

Fixpoint map_res {A B : Type} (f : A -> res B) (l : list A) : res (list B) :=
  match l with
  | [] => Ok []
  | x :: l' => y <- f x ;; ys <- map_res f l' ;; Ok (y :: ys)
  end.

(* ===================================================================== *)
(** * [utilitarios/geral.py] *)
(* ===================================================================== *)

Definition is_digit (c : ascii) : bool :=
  let n := nat_of_ascii c in ((48 <=? n)%nat && (n <=? 57)%nat).

Definition is_alpha (c : ascii) : bool :=
  let n := nat_of_ascii c in
  ((65 <=? n)%nat && (n <=? 90)%nat) || ((97 <=? n)%nat && (n <=? 122)%nat).

Fixpoint filtra_string (f : ascii -> bool) (s : string) : string :=
  match s with
  | EmptyString => EmptyString
  | String c s' => if f c then String c (filtra_string f s') else filtra_string f s'
  end.

(** [int(s)] for a string of decimal digits. *)
Fixpoint int_de_digitos (acc : Z) (s : string) : Z :=
  match s with
  | EmptyString => acc
  | String c s' => int_de_digitos (10 * acc + Z.of_nat (nat_of_ascii c - 48)) s'
  end.

(** Bar identifiers are kept as the text [str(id_barra)]: ["6"] for the
    integer key 6, ["6a"] for a split segment. *)
Definition ordenar_id_barra (id_barra : string) : res (Z * string) :=
  match filtra_string is_digit id_barra with
  | EmptyString => Raise (ValueError "invalid literal for int()")
  | ds => Ok (int_de_digitos 0 ds, filtra_string is_alpha id_barra)
  end.

Definition divisao_segura (numerador denominador : float) : float :=
  if truthy denominador then (numerador / denominador)%float else infinity.

(** Tuple order on the sorting keys. *)
Definition chave_lt (a b : Z * string) : bool :=
  (fst a <? fst b) || ((fst a =? fst b) && String.ltb (snd a) (snd b)).

Fixpoint insere_ordenado {A : Type} (x : (Z * string) * A)
  (l : list ((Z * string) * A)) : list ((Z * string) * A) :=
  match l with
  | [] => [x]
  | y :: l' =>
      if chave_lt (fst x) (fst y) then x :: y :: l'
      else y :: insere_ordenado x l'
  end.

(** [sorted(ids, key=ordenar_id_barra)]: a stable sort. *)
Definition sorted_por_id (ids : list string) : res (list string) :=
  chaves <- map_res (fun i => k <- ordenar_id_barra i ;; Ok (k, i)) ids ;;
  Ok (map snd (fold_left (fun acc x => insere_ordenado x acc) chaves [])).

(* ===================================================================== *)
(** * Member metadata and sizing records *)
(* ===================================================================== *)

(** The metadata dictionary of a bar; an optional key is [None] when the
    dictionary lacks it (or holds [None]). *)
Record metadados_barra : Type := mk_metadados_barra {
  mb_tipo : string;
  mb_comprimento : float;
  mb_alfa_graus : option float;
  mb_comprimento_destravado : option float;
  mb_modulo : option Z;
  mb_y_min : option float;
  mb_y_max : option float;
  mb_base_modulo : option bool;
  mb_topo_modulo : option bool;
  mb_topo_estrutura : option bool;
  mb_perfil_escolhido : option string;
  mb_t : option float
}.

Definition metadados_t : Type := list (string * metadados_barra).

(** Forces: [{hypothesis: {bar: force}}]. *)
Definition esforcos_t : Type := list (string * list (string * float)).

(** [dados.get(flag)] used as a condition. *)
Definition marcado (o : option bool) : bool :=
  match o with
  | Some b => b
  | None => false
  end.

(** The shapes a connection dictionary takes: [{}], the two-key record that
    marks a group infeasible, and the full record of the designer. *)
Inductive ligacao : Type :=
| LigVazia
| LigMarcada
| LigCompleta (d : dados_ligacao).

(** [lig.get("ligacao_viavel", True)]. *)
Definition lig_viavel_ou_true (l : ligacao) : bool :=
  match l with
  | LigVazia => true
  | LigMarcada => false
  | LigCompleta d => ligacao_viavel d
  end.

(** [lig.get("tx_lig", 0)]. *)
Definition lig_tx_ou_zero (l : ligacao) : float :=
  match l with
  | LigCompleta d => tx_lig d
  | _ => 0%float
  end.

(** [bool(lig)]. *)
Definition lig_truthy (l : ligacao) : bool :=
  match l with
  | LigVazia => false
  | _ => true
  end.

(** [lig[chave]] for a key only the full record has. *)
Definition lig_completa (chave : string) (l : ligacao) : res dados_ligacao :=
  match l with
  | LigCompleta d => Ok d
  | _ => Raise (KeyError chave)
  end.

(** The per-hypothesis dictionary of a bar. *)
Record dados_hipotese : Type := mk_dados_hipotese {
  h_solicitacao : option solicitacao;
  h_viavel : bool;
  h_tensao_solicitante : option float;
  h_area_bruta : option float;
  h_area_efetiva : option float;
  h_forca_axial_admissivel : option float;
  h_taxa_trabalho : option float;
  h_esbeltez_corrigida : option float;
  h_tensao_fy_corrigida : option float;
  h_Fa : option float;
  h_Fa_reduzido : option (float * origem);
  h_ft_admissivel : option (float * origem);
  h_esbeltez_tracao : option float;
  h_verificacao_ligacao : option ligacao;
  h_perfil_escolhido : string;
  h_forca_axial : float;
  h_tipo : string;
  h_alfa : float;
  h_raio : option float;
  h_modulo_resistencia_flexao_x : option float;
  h_modulo : option Z;
  h_comprimento : float;
  h_comprimento_destravado : option float;
  h_simulada : bool;
  h_verificacao_axial : option verificacao_axial;
  h_tx_flexao : option float;
  h_tx_trabalho : option float
}.

(** The entry of a bar in [resultado_final]: the scalar keys and, in
    insertion order, the hypothesis dictionaries. *)
Record resultado_barra : Type := mk_resultado_barra {
  rb_pior_caso : string;
  rb_pior_ligacao : string;
  rb_perfil_escolhido : string;
  rb_forcado_forca_simulada : bool;
  rb_hipotese_tracao : string;
  rb_hipotese_compressao : string;
  rb_hipoteses : list (string * dados_hipotese);
  rb_taxa_trabalho_final : option float;
  rb_tx_lig_final : option float
}.

Definition resultados_t : Type := list (string * resultado_barra).
Definition ligacoes_t : Type := list (string * ligacao).

(* ===================================================================== *)
(** * [utilitarios/ferramentas_montantes.py]: positions and symmetry *)
(* ===================================================================== *)

(** [esforcos_por_barra.setdefault(id_barra, []).append(esforco)] over all
    hypotheses. *)
Definition esforcos_por_barra_de (esforcos_por_hipotese : esforcos_t)
  : list (string * list float) :=
  fold_left
    (fun acc (hip : string * list (string * float)) =>
       fold_left
         (fun acc' (b : string * float) =>
            dict_append String.eqb acc' (fst b) (snd b))
         (snd hip) acc)
    esforcos_por_hipotese [].

Definition com_marcas (dados : metadados_barra)
  (base topo topo_e : option bool) : metadados_barra :=
  {| mb_tipo := mb_tipo dados;
     mb_comprimento := mb_comprimento dados;
     mb_alfa_graus := mb_alfa_graus dados;
     mb_comprimento_destravado := mb_comprimento_destravado dados;
     mb_modulo := mb_modulo dados;
     mb_y_min := mb_y_min dados;
     mb_y_max := mb_y_max dados;
     mb_base_modulo := base;
     mb_topo_modulo := topo;
     mb_topo_estrutura := topo_e;
     mb_perfil_escolhido := mb_perfil_escolhido dados;
     mb_t := mb_t dados |}.

Definition com_perfil_escolhido (dados : metadados_barra) (p : string)
  : metadados_barra :=
  {| mb_tipo := mb_tipo dados;
     mb_comprimento := mb_comprimento dados;
     mb_alfa_graus := mb_alfa_graus dados;
     mb_comprimento_destravado := mb_comprimento_destravado dados;
     mb_modulo := mb_modulo dados;
     mb_y_min := mb_y_min dados;
     mb_y_max := mb_y_max dados;
     mb_base_modulo := mb_base_modulo dados;
     mb_topo_modulo := mb_topo_modulo dados;
     mb_topo_estrutura := mb_topo_estrutura dados;
     mb_perfil_escolhido := Some p;
     mb_t := mb_t dados |}.

(** The leg members of each module, with the extents read when grouping:
    [montantes_por_modulo.setdefault(modulo, []).append((id_barra, dados))]. *)
Definition montantes_por_modulo_de (metadados : metadados_t)
  : list (Z * list (string * (float * float))) :=
  fold_left
    (fun acc (b : string * metadados_barra) =>
       let dados := snd b in
       if negb (contem "montante" (mb_tipo dados)) then acc
       else
         match mb_modulo dados, mb_y_min dados, mb_y_max dados with
         | Some modulo, Some y_min, Some y_max =>
             dict_append Z.eqb acc modulo (fst b, (y_min, y_max))
         | _, _, _ => acc
         end)
    metadados [].

Definition perto (a b : float) : bool := (abs (a - b) <? 1e-3)%float.

Definition marca_base_topo (metadados : metadados_t)
  (lista : list (string * (float * float))) : metadados_t :=
  match py_min_lista (map (fun b => fst (snd b)) lista),
        py_max_lista (map (fun b => snd (snd b)) lista) with
  | Some menor_y, Some maior_y =>
      fold_left
        (fun md (b : string * (float * float)) =>
           dict_update String.eqb md (fst b)
             (fun dados =>
                com_marcas dados
                  (Some (perto (fst (snd b)) menor_y))
                  (Some (perto (snd (snd b)) maior_y))
                  (Some false)))
        lista metadados
  | _, _ => metadados
  end.

Definition marca_topo_estrutura (metadados : metadados_t)
  (lista_topo : list (string * (float * float))) : metadados_t :=
  match py_max_lista (map (fun b => snd (snd b)) lista_topo) with
  | Some y_topo_estrutura =>
      fold_left
        (fun md (b : string * (float * float)) =>
           dict_update String.eqb md (fst b)
             (fun dados =>
                com_marcas dados (mb_base_modulo dados) (mb_topo_modulo dados)
                  (Some (perto (snd (snd b)) y_topo_estrutura))))
        lista_topo metadados
  | None => metadados
  end.

Definition marcar_montantes_em_extremidades (metadados : metadados_t)
  : metadados_t :=
  let montantes_por_modulo := montantes_por_modulo_de metadados in
  let md :=
    fold_left (fun md g => marca_base_topo md (snd g))
      montantes_por_modulo metadados in
  match map fst montantes_por_modulo with
  | [] => md
  | m :: ms =>
      let modulo_topo := fold_left Z.min ms m in
      match dict_get Z.eqb montantes_por_modulo modulo_topo with
      | Some lista_topo => marca_topo_estrutura md lista_topo
      | None => md
      end
  end.

Definition chave_grupo_eqb (a b : Z * string) : bool :=
  (fst a =? fst b) && String.eqb (snd a) (snd b).

(** The running choice of the most tensioned and most compressed bar. *)
Record extremos : Type := mk_extremos {
  melhor_tracao : option string;
  melhor_compressao : option string;
  tracao_maxima : float;
  compressao_maxima : float
}.

Definition extremos_iniciais : extremos :=
  mk_extremos None None neg_infinity infinity.

Definition atualiza_extremos (e : extremos) (id_barra : string)
  (esforco_axial_maximo esforco_axial_minimo : float) : extremos :=
  let e1 :=
    if (tracao_maxima e <? esforco_axial_maximo)%float
    then mk_extremos (Some id_barra) (melhor_compressao e)
           esforco_axial_maximo (compressao_maxima e)
    else e in
  if (esforco_axial_minimo <? compressao_maxima e1)%float
  then mk_extremos (melhor_tracao e1) (Some id_barra)
         (tracao_maxima e1) esforco_axial_minimo
  else e1.

(** [if melhor: conjunto.add(melhor)]: an identifier is true unless empty. *)
Definition adiciona_se_valido (s : list string) (o : option string)
  : list string :=
  match o with
  | Some i => if String.eqb i "" then s else set_add s i
  | None => s
  end.

Definition identificar_montantes_com_ligacao (metadados : metadados_t)
  (esforcos_por_hipotese : esforcos_t) : list string :=
  let esforcos_por_barra := esforcos_por_barra_de esforcos_por_hipotese in
  let grupos :=
    fold_left
      (fun acc (b : string * metadados_barra) =>
         let dados := snd b in
         if negb (e_montante (mb_tipo dados)) then acc
         else
           match mb_modulo dados with
           | None => acc
           | Some modulo =>
               let acc1 :=
                 if marcado (mb_base_modulo dados)
                 then dict_append chave_grupo_eqb acc (modulo, "base") (fst b)
                 else acc in
               if marcado (mb_topo_estrutura dados)
               then dict_append chave_grupo_eqb acc1 (modulo, "topo") (fst b)
               else acc1
           end)
      metadados [] in
  fold_left
    (fun ids (g : (Z * string) * list string) =>
       let e :=
         fold_left
           (fun e id_barra =>
              match sget esforcos_por_barra id_barra with
              | Some (x :: l) =>
                  atualiza_extremos e id_barra
                    (py_max_by (fun v => v) x l) (py_min_by (fun v => v) x l)
              | _ => e
              end)
           (snd g) extremos_iniciais in
       adiciona_se_valido (adiciona_se_valido ids (melhor_tracao e))
         (melhor_compressao e))
    grupos [].

Definition simetricos_de (metadados : metadados_t) (tolerancia : float)
  (id_referencia : string) : list string :=
  match sget metadados id_referencia with
  | None => []
  | Some dados_ref =>
      if negb (e_montante (mb_tipo dados_ref)) then []
      else
        match mb_modulo dados_ref, mb_y_min dados_ref, mb_y_max dados_ref with
        | Some modulo_ref, Some y_ref_min, Some y_ref_max =>
            let tipo_ref := mb_tipo dados_ref in
            let tipo_procurado :=
              if contem "esq" tipo_ref then "montante_dir"
              else if contem "dir" tipo_ref then "montante_esq"
              else "montante" in
            map fst
              (filter
                 (fun c : string * metadados_barra =>
                    let dados_candidato := snd c in
                    negb (String.eqb (fst c) id_referencia)
                    && startswith (mb_tipo dados_candidato) tipo_procurado
                    && match mb_modulo dados_candidato with
                       | Some m => m =? modulo_ref
                       | None => false
                       end
                    && match mb_y_min dados_candidato,
                             mb_y_max dados_candidato with
                       | Some y_min, Some y_max =>
                           let mesmo_topo :=
                             (abs (y_ref_max - y_max) <? tolerancia)%float in
                           let mesma_base :=
                             (abs (y_ref_min - y_min) <? tolerancia)%float in
                           mesmo_topo || mesma_base
                       | _, _ => false
                       end)
                 metadados)
        | _, _, _ => []
        end
  end.

Definition expandir_ligacoes_montantes_simetricos (metadados : metadados_t)
  (ids_originais : list string) (tolerancia : float) : list string :=
  let ids_adicionais :=
    fold_left
      (fun acc id_referencia =>
         set_union acc (simetricos_de metadados tolerancia id_referencia))
      ids_originais [] in
  set_union ids_originais ids_adicionais.

(* ===================================================================== *)
(** * Combined checks used by the reinforcement
      ([verificar_axial_flexao], [wrapper_ligacao_montante]) *)
(* ===================================================================== *)

(** [num] is the kind of the cells of the row [perfil]. *)
Definition verificar_axial_flexao (num : origem) (perfil : perfil)
  (forca : float)
  (descontos_area_liquida : option (list (string * Z)))
  (coef_minoracao : float) (tipo_barra : string) (comprimento : float)
  (angulo_graus : float) (df_materiais : tabela_materiais)
  (diametros_furos : option (list (string * float))) : res float :=
  let diam_furo :=
    match diametros_furos with
    | None => 1.59%float
    | Some d =>
        match sget d "montante" with
        | Some v => v
        | None => 1.59%float
        end
    end in
  ver_axial <-
    calcula_tensao_axial_admissivel df_materiais num perfil forca tipo_barra
      comprimento coef_minoracao diam_furo MODULO_ELASTICIDADE_ACO
      false true descontos_area_liquida ;;
  let tx_axial := va_taxa_trabalho ver_axial in
  tensao_fy <- obter_fy perfil df_materiais ;;
  let flex_ok :=
    verifica_flexao_simples tipo_barra angulo_graus comprimento
      (Wx_cm3 perfil) tensao_fy coef_minoracao in
  let tx_flex := if flex_ok then 0.0%float else 999.0%float in
  (* [max(tx_axial, tx_flex)] compares with [None] when the axial record
     is the infeasible one *)
  tx <- nao_none tx_axial ;;
  Ok (py_max tx tx_flex).

(** [num] is the kind of the cells of the row [perfil]; the bolt shear
    stress is read from the material table with [.loc]. *)
Definition wrapper_ligacao_montante (num : origem) (perfil : perfil)
  (forca : float)
  (diametros_furos : list (string * float))
  (limite_parafusos planos : option (list (string * Z)))
  (fatores_esmagamento : option (list float)) (coef_minoracao : float)
  (df_materiais : tabela_materiais) (df_perfis : tabela_perfis)
  (tipo_barra : string) : res (dados_ligacao * float) :=
  a394 <- loc df_materiais "A394" ;;
  fu_peca <- obter_fu perfil df_materiais ;;
  lig <-
    dimensionar_ligacao forca tipo_barra (Some (Perfil perfil)) num
      (t_cm perfil) diametros_furos Numpy (fc a394) (Some fu_peca)
      limite_parafusos planos fatores_esmagamento df_perfis coef_minoracao ;;
  Ok (lig, tx_lig lig).

(* ===================================================================== *)
(** * [reforcar_montante_ate_viavel] *)
(* ===================================================================== *)

(** [df.sort_values("A(cm2)")] puts the rows in ascending order of area
    and the rows whose area is [nan] last. It sorts with numpy's quicksort,
    which promises no order among rows of equal area, so the code that sorts
    takes the sorting function as a parameter, bound by this contract. *)
Definition area_ausente (p : perfil) : bool := is_nan (A_cm2 p).

Definition ordenada_por_area (df tabela : tabela_perfis) : Prop :=
  Permutation df tabela /\
  exists validas ausentes,
    tabela = (validas ++ ausentes)%list /\
    Forall (fun p => area_ausente p = false) validas /\
    Forall (fun p => area_ausente p = true) ausentes /\
    StronglySorted (fun p q => (A_cm2 p <=? A_cm2 q)%float = true) validas.

(** One sorting function that meets the contract: rows of equal area, and
    the rows without area, keep the table order. *)
Fixpoint insere_por_area (p : perfil) (l : tabela_perfis) : tabela_perfis :=
  match l with
  | [] => [p]
  | q :: l' =>
      if (A_cm2 p <? A_cm2 q)%float then p :: q :: l'
      else q :: insere_por_area p l'
  end.

Definition sort_values_area (df : tabela_perfis) : tabela_perfis :=
  (fold_left (fun acc p => insere_por_area p acc)
     (filter (fun p => negb (area_ausente p)) df) []
   ++ filter area_ausente df)%list.

(** Position of the first row whose stripped name is the given one, 0 when
    there is none. *)
Fixpoint indice_do_perfil (tabela : tabela_perfis) (nome : string) : nat :=
  match tabela with
  | [] => 0
  | p :: l =>
      if String.eqb (strip (Perfil p)) (strip nome) then 0
      else
        match linhas_do_perfil l nome with
        | [] => 0
        | _ => S (indice_do_perfil l nome)
        end
  end.

Section reforcar_montante_ate_viavel.

(** [df.sort_values("A(cm2)")], see [ordenada_por_area]. *)
Variable sort_values : tabela_perfis -> tabela_perfis.
Variable id_barra : string.
Variable perfil_atual : string.
Variable forca_axial : float.
Variable df_perfis : tabela_perfis.
Variable df_materiais : tabela_materiais.
Variable diametros_furos : list (string * float).
Variable limite_parafusos : option (list (string * Z)).
Variable planos_cisalhamento : option (list (string * Z)).
Variable fatores_esmagamento : option (list float).
Variable coef_minoracao : float.
Variable descontos_area_liquida : option (list (string * Z)).
(** The two callables receive the row with the kind of its cells. *)
Variable criterios_norma_fn :
  origem -> perfil -> float -> option (list (string * Z)) -> float ->
  string -> float -> float -> tabela_materiais ->
  option (list (string * float)) -> res float.
Variable criterios_ligacao_fn :
  origem -> perfil -> float -> list (string * float) ->
  option (list (string * Z)) -> option (list (string * Z)) ->
  option (list float) -> float -> tabela_materiais -> tabela_perfis ->
  string -> res (dados_ligacao * float).
Variable tipo_barra : string.
Variable comprimento : float.
Variable angulo_graus : float.
Variable interromper_se_inviavel : bool.

(** [for idx in range(idx_atual, len(tabela)): ...] and what follows it;
    [linha = tabela.iloc[idx]] is a row of [numpy.float64] cells. *)
Fixpoint laco_reforco_perfis (linhas : tabela_perfis)
  : res (option (string * dados_ligacao)) :=
  match linhas with
  | [] =>
      if interromper_se_inviavel
      then Raise (ValueError "nenhum perfil atende ligacao e criterios normativos")
      else Ok None
  | linha :: resto =>
      let perfil_nome := Perfil linha in
      '(melhor_lig, tx_lig) <-
        criterios_ligacao_fn Numpy linha forca_axial diametros_furos
          limite_parafusos planos_cisalhamento fatores_esmagamento
          coef_minoracao df_materiais df_perfis tipo_barra ;;
      tx_norma <-
        criterios_norma_fn Numpy linha forca_axial descontos_area_liquida
          coef_minoracao tipo_barra comprimento angulo_graus df_materiais
          (Some diametros_furos) ;;
      if (tx_lig <=? 1.0)%float && (tx_norma <=? 1.0)%float
      then Ok (Some (perfil_nome, melhor_lig))
      else laco_reforco_perfis resto
  end.

Definition reforcar_montante_ate_viavel
  : res (option (string * dados_ligacao)) :=
  let diametro_furo :=
    match sget diametros_furos "montante" with
    | Some d => d
    | None => 1.59%float
    end in
  let df_filtrado := filtrar_perfis_montante_reforco df_perfis diametro_furo in
  let tabela := sort_values df_filtrado in
  let idx_atual := indice_do_perfil tabela perfil_atual in
  laco_reforco_perfis (skipn idx_atual tabela).

End reforcar_montante_ate_viavel.

(* ===================================================================== *)
(** * [igualar_perfis_montantes_por_modulo] *)
(* ===================================================================== *)

(** [dados_hipotese.update(novos_dados)] for the thirteen keys of an axial
    record. *)
Definition com_axial (h : dados_hipotese) (nd : verificacao_axial)
  : dados_hipotese :=
  {| h_solicitacao := Some (va_solicitacao nd);
     h_viavel := va_viavel nd;
     h_tensao_solicitante := va_tensao_solicitante nd;
     h_area_bruta := va_area_bruta nd;
     h_area_efetiva := va_area_efetiva nd;
     h_forca_axial_admissivel := va_forca_axial_admissivel nd;
     h_taxa_trabalho := va_taxa_trabalho nd;
     h_esbeltez_corrigida := va_esbeltez_corrigida nd;
     h_tensao_fy_corrigida := va_tensao_fy_corrigida nd;
     h_Fa := va_Fa nd;
     h_Fa_reduzido := va_Fa_reduzido nd;
     h_ft_admissivel := va_ft_admissivel nd;
     h_esbeltez_tracao := va_esbeltez_tracao nd;
     h_verificacao_ligacao := h_verificacao_ligacao h;
     h_perfil_escolhido := h_perfil_escolhido h;
     h_forca_axial := h_forca_axial h;
     h_tipo := h_tipo h;
     h_alfa := h_alfa h;
     h_raio := h_raio h;
     h_modulo_resistencia_flexao_x := h_modulo_resistencia_flexao_x h;
     h_modulo := h_modulo h;
     h_comprimento := h_comprimento h;
     h_comprimento_destravado := h_comprimento_destravado h;
     h_simulada := h_simulada h;
     h_verificacao_axial := h_verificacao_axial h;
     h_tx_flexao := h_tx_flexao h;
     h_tx_trabalho := h_tx_trabalho h |}.

(** The keys written on top of the axial ones by the equalisation:
    ["perfil_escolhido"], ["raio"], ["area_bruta"], ["esbeltez_corrigida"]. *)
Definition com_perfil_igualado (h : dados_hipotese) (perfil_final : string)
  (raio area_bruta esbeltez_corrigida : float) : dados_hipotese :=
  {| h_solicitacao := h_solicitacao h;
     h_viavel := h_viavel h;
     h_tensao_solicitante := h_tensao_solicitante h;
     h_area_bruta := Some area_bruta;
     h_area_efetiva := h_area_efetiva h;
     h_forca_axial_admissivel := h_forca_axial_admissivel h;
     h_taxa_trabalho := h_taxa_trabalho h;
     h_esbeltez_corrigida := Some esbeltez_corrigida;
     h_tensao_fy_corrigida := h_tensao_fy_corrigida h;
     h_Fa := h_Fa h;
     h_Fa_reduzido := h_Fa_reduzido h;
     h_ft_admissivel := h_ft_admissivel h;
     h_esbeltez_tracao := h_esbeltez_tracao h;
     h_verificacao_ligacao := h_verificacao_ligacao h;
     h_perfil_escolhido := perfil_final;
     h_forca_axial := h_forca_axial h;
     h_tipo := h_tipo h;
     h_alfa := h_alfa h;
     h_raio := Some raio;
     h_modulo_resistencia_flexao_x := h_modulo_resistencia_flexao_x h;
     h_modulo := h_modulo h;
     h_comprimento := h_comprimento h;
     h_comprimento_destravado := h_comprimento_destravado h;
     h_simulada := h_simulada h;
     h_verificacao_axial := h_verificacao_axial h;
     h_tx_flexao := h_tx_flexao h;
     h_tx_trabalho := h_tx_trabalho h |}.

Definition com_rb_perfil (r : resultado_barra) (perfil_final : string)
  (hs : list (string * dados_hipotese)) : resultado_barra :=
  {| rb_pior_caso := rb_pior_caso r;
     rb_pior_ligacao := rb_pior_ligacao r;
     rb_perfil_escolhido := perfil_final;
     rb_forcado_forca_simulada := rb_forcado_forca_simulada r;
     rb_hipotese_tracao := rb_hipotese_tracao r;
     rb_hipotese_compressao := rb_hipotese_compressao r;
     rb_hipoteses := hs;
     rb_taxa_trabalho_final := rb_taxa_trabalho_final r;
     rb_tx_lig_final := rb_tx_lig_final r |}.

(** The module of a bar: that of its first hypothesis dictionary whose type
    is a leg and whose module is not [None]. *)
Fixpoint modulo_do_montante (hs : list (string * dados_hipotese)) : option Z :=
  match hs with
  | [] => None
  | (_, dados_hipotese) :: resto =>
      if negb (contem "montante" (h_tipo dados_hipotese))
      then modulo_do_montante resto
      else
        match h_modulo dados_hipotese with
        | Some modulo => Some modulo
        | None => modulo_do_montante resto
        end
  end.

(** Step 1: [montantes_por_modulo]. *)
Definition agrupar_montantes_por_modulo (resultados : resultados_t)
  : list (Z * list string) :=
  fold_left
    (fun acc (b : string * resultado_barra) =>
       if String.eqb (rb_perfil_escolhido (snd b)) "" then acc
       else
         match modulo_do_montante (rb_hipoteses (snd b)) with
         | Some modulo => dict_append Z.eqb acc modulo (fst b)
         | None => acc
         end)
    resultados [].

Section igualar_perfis_montantes_por_modulo.

Variable df_montantes : tabela_perfis.
Variable df_materiais : tabela_materiais.
Variable coef_minoracao : float.
Variable diametros_furos : list (string * float).
Variable descontos_area_liquida : option (list (string * Z)).

(** [perfis_areas]: area and name for the bars whose profile is in the leg
    table. *)
Definition perfis_areas_de (resultados : resultados_t)
  (lista_barras : list string) : res (list (float * string)) :=
  pares <-
    map_res
      (fun id_barra =>
         r <- sitem resultados id_barra ;;
         let nome_perfil := rb_perfil_escolhido r in
         match linhas_do_perfil df_montantes nome_perfil with
         | [] => Ok None
         | linha :: _ => Ok (Some (A_cm2 linha, nome_perfil))
         end)
      lista_barras ;;
  Ok (flat_map (fun o : option (float * string) =>
                  match o with Some p => [p] | None => [] end) pares).

(** Step 3, for one hypothesis dictionary; [linha_final] was taken with
    [.iloc[0]], so its cells are [numpy.float64]. *)
Definition reverificar_hipotese (linha_final : perfil) (perfil_final : string)
  (dados_hip : dados_hipotese) : res dados_hipotese :=
  let forca_axial := h_forca_axial dados_hip in
  let tipo_barra := h_tipo dados_hip in
  comprimento <-
    match h_comprimento_destravado dados_hip with
    | Some c => Ok c
    | None => Raise (KeyError "comprimento_destravado")
    end ;;
  let diametro_furo :=
    match sget diametros_furos "montante" with
    | Some d => d
    | None => 1.59%float
    end in
  novos_dados <-
    calcula_tensao_axial_admissivel df_materiais Numpy linha_final
      forca_axial tipo_barra comprimento coef_minoracao diametro_furo
      MODULO_ELASTICIDADE_ACO (0 <? forca_axial)%float
      (forca_axial <? 0)%float descontos_area_liquida ;;
  let raio_giracao := rx_cm linha_final in
  esbeltez_corrigida <-
    calcular_esbeltez_corrigida Numpy "montante" comprimento raio_giracao ;;
  Ok (com_perfil_igualado (com_axial dados_hip novos_dados) perfil_final
        raio_giracao (A_cm2 linha_final) esbeltez_corrigida).

Definition reverificar_barra (linha_final : perfil) (perfil_final : string)
  (r : resultado_barra) : res resultado_barra :=
  hs <-
    map_res
      (fun nh : string * dados_hipotese =>
         h' <- reverificar_hipotese linha_final perfil_final (snd nh) ;;
         Ok (fst nh, h'))
      (rb_hipoteses r) ;;
  Ok (com_rb_perfil r perfil_final hs).

(** Steps 2 and 3 for one module. *)
Definition igualar_modulo (resultados : resultados_t)
  (lista_barras : list string) : res resultados_t :=
  perfis_areas <- perfis_areas_de resultados lista_barras ;;
  match perfis_areas with
  | [] => Ok resultados
  | pa :: resto =>
      let perfil_final := snd (py_max_by fst pa resto) in
      linha_final <- iloc0 (linhas_do_perfil df_montantes perfil_final) ;;
      for_each lista_barras resultados
        (fun res_atual id_barra =>
           r <- sitem res_atual id_barra ;;
           r' <- reverificar_barra linha_final perfil_final r ;;
           Ok (sset res_atual id_barra r'))
  end.

Definition igualar_perfis_montantes_por_modulo (resultados : resultados_t)
  : res resultados_t :=
  for_each (agrupar_montantes_por_modulo resultados) resultados
    (fun res_atual g => igualar_modulo res_atual (snd g)).

(** [modulo_igualado antes depois lista]: the bars of [lista] hold in
    [depois] what steps 2 and 3 make of their entries in [antes]: nothing
    changes when no profile of the module is in the leg table, otherwise
    every bar is re-verified against the first table row of the profile that
    [max] picks by gross area. *)
Definition modulo_igualado (antes depois : resultados_t)
  (lista_barras : list string) : Prop :=
  exists perfis_areas,
    perfis_areas_de antes lista_barras = Ok perfis_areas /\
    match perfis_areas with
    | [] => forall id_barra, In id_barra lista_barras ->
              sget depois id_barra = sget antes id_barra
    | pa :: resto =>
        let perfil_final := snd (py_max_by fst pa resto) in
        exists linha_final,
          iloc0 (linhas_do_perfil df_montantes perfil_final) = Ok linha_final
          /\ forall id_barra, In id_barra lista_barras ->
               exists r r',
                 sget antes id_barra = Some r /\
                 reverificar_barra linha_final perfil_final r = Ok r' /\
                 sget depois id_barra = Some r'
    end.

End igualar_perfis_montantes_por_modulo.

(* ===================================================================== *)
(** * [otimizar_ligacoes_montantes_extremidades] *)
(* ===================================================================== *)

(** What the local variable [linha] holds when the loop over the candidates
    is left: nothing yet, the empty selection, or a row. *)
Inductive estado_linha : Type :=
| LinhaIndefinida
| LinhaVazia
| LinhaDe (p : perfil).

(** The locals [perfil_nome] and [linha], which outlive the loop that
    assigns them and are read again by the bolt-count escalation. *)
Record locais_otimizar : Type := mk_locais_otimizar {
  v_perfil_nome : option (option string);
  v_linha : estado_linha
}.

Definition chave_extremidade : Type := (Z * string) * float.

Definition chave_extremidade_eqb (a b : chave_extremidade) : bool :=
  chave_grupo_eqb (fst a) (fst b) && (snd a =? snd b)%float.

(** [grupos_por_modulo]: the leg members of each (module, position, level). *)
Definition grupos_por_modulo_de (metadados : metadados_t)
  : list (chave_extremidade * list string) :=
  fold_left
    (fun acc (b : string * metadados_barra) =>
       let dados := snd b in
       if negb (e_montante (mb_tipo dados)) then acc
       else
         match mb_modulo dados, mb_y_min dados, mb_y_max dados with
         | Some modulo, Some y_min, Some y_max =>
             let acc1 :=
               if marcado (mb_base_modulo dados)
               then dict_append chave_extremidade_eqb acc
                      ((modulo, "base"), y_min) (fst b)
               else acc in
             if marcado (mb_topo_modulo dados)
                || marcado (mb_topo_estrutura dados)
             then dict_append chave_extremidade_eqb acc1
                    ((modulo, "topo"), y_max) (fst b)
             else acc1
         | _, _, _ => acc
         end)
    metadados [].

(** [(a1, a2) > (b1, b2)] on tuples of floats. *)
Definition tupla_gt (a b : float * float) : bool :=
  if (fst a =? fst b)%float then
    if (snd a =? snd b)%float then false else (snd b <? snd a)%float
  else (fst b <? fst a)%float.

Definition criterio_resistencia (lig : dados_ligacao) : float * float :=
  (forca_adm_cisalhamento lig, forca_adm_esmagamento lig).

(** [max(cur :: l, key=criterio_resistencia)]. *)
Fixpoint max_por_resistencia (cur : dados_ligacao) (l : list dados_ligacao)
  : dados_ligacao :=
  match l with
  | [] => cur
  | x :: l' =>
      max_por_resistencia
        (if tupla_gt (criterio_resistencia x) (criterio_resistencia cur)
         then x else cur) l'
  end.

(** [max(lista, key=abs)] of the forces of a bar. *)
Definition forca_critica_de (esforcos_por_barra : list (string * list float))
  (id_barra : string) : res float :=
  lista <- sitem esforcos_por_barra id_barra ;;
  match lista with
  | [] => Raise (ValueError "max() arg is an empty sequence")
  | x :: l => Ok (py_max_by abs x l)
  end.

Section otimizar_ligacoes_montantes_extremidades.

(** The order in which CPython iterates the set [candidatos]; it is not
    fixed by the language, so the model takes it as a parameter. *)
Variable ordem_conjunto : list string -> list string.

Variable metadados : metadados_t.
Variable esforcos_por_hipotese : esforcos_t.
Variable df_materiais : tabela_materiais.
Variable diametros_furos : list (string * float).
Variable limite_parafusos : option (list (string * Z)).
Variable planos_cisalhamento : option (list (string * Z)).
Variable fatores_esmagamento : option (list float).
Variable df_perfis : tabela_perfis.
Variable coef_minoracao : float.

Definition oti_esforcos_por_barra : list (string * list float) :=
  esforcos_por_barra_de esforcos_por_hipotese.

(** The most tensioned and the most compressed member of a group. *)
Definition candidatos_de (ids_barra : list string) : list string :=
  let e :=
    fold_left
      (fun e id_barra =>
         let lista_esforco_axial :=
           match sget oti_esforcos_por_barra id_barra with
           | Some l => l
           | None => []
           end in
         match lista_esforco_axial with
         | [] => atualiza_extremos e id_barra 0 0
         | x :: l =>
             atualiza_extremos e id_barra
               (py_max_by (fun v => v) x l) (py_min_by (fun v => v) x l)
         end)
      ids_barra extremos_iniciais in
  ordem_conjunto
    (adiciona_se_valido (adiciona_se_valido [] (melhor_tracao e))
       (melhor_compressao e)).

(** Body of the first [for id_barra in candidatos]. *)
Definition dimensiona_candidato
  (st : locais_otimizar * list (string * dados_ligacao)) (id_barra : string)
  : res (locais_otimizar * list (string * dados_ligacao)) :=
  let '(locais, ligacoes_candidatas) := st in
  dados <- sitem metadados id_barra ;;
  let tipo := mb_tipo dados in
  let perfil_nome := mb_perfil_escolhido dados in
  let locais1 := mk_locais_otimizar (Some perfil_nome) (v_linha locais) in
  match perfil_nome with
  | None => Ok (locais1, ligacoes_candidatas)
  | Some nome =>
      if String.eqb nome "NENHUM" then Ok (locais1, ligacoes_candidatas)
      else
        match linhas_do_perfil df_perfis nome with
        | [] =>
            Ok (mk_locais_otimizar (Some perfil_nome) LinhaVazia,
                ligacoes_candidatas)
        | linha :: _ =>
            let locais2 :=
              mk_locais_otimizar (Some perfil_nome) (LinhaDe linha) in
            (* [float(linha["t(cm)"])] *)
            let espessura_aba := t_cm linha in
            forca_axial_critica <-
              forca_critica_de oti_esforcos_por_barra id_barra ;;
            a394 <- loc df_materiais "A394" ;;
            fu_peca <- obter_fu linha df_materiais ;;
            verif <-
              dimensionar_ligacao forca_axial_critica tipo perfil_nome
                Python espessura_aba diametros_furos Numpy (fc a394)
                (Some fu_peca) limite_parafusos planos_cisalhamento
                fatores_esmagamento df_perfis coef_minoracao ;;
            Ok (locais2, sset ligacoes_candidatas id_barra verif)
        end
  end.

(** The test at the head of the [while True] body: [true] when the body
    goes on to redesign the connection, [false] at a [break]. *)
Definition deve_reforcar (forca_axial_critica : float) (tipo : string)
  (melhor_ligacao : dados_ligacao) : res bool :=
  let forca_adm_cisalhamento := forca_adm_cisalhamento melhor_ligacao in
  let forca_adm_esmagamento := forca_adm_esmagamento melhor_ligacao in
  if (abs forca_axial_critica <=? forca_adm_cisalhamento)%float
     && (abs forca_axial_critica <=? forca_adm_esmagamento)%float
  then Ok false
  else
    match np melhor_ligacao with
    | None => Ok false
    | Some n =>
        let novo_np := n + (if e_montante tipo then 2 else 1) in
        let tipo_base :=
          if contem "montante" tipo then "montante"
          else if contem "horizontal" tipo then "horizontal"
          else "diagonal" in
        limites <- nao_none limite_parafusos ;;
        limite <- sitem limites tipo_base ;;
        Ok (negb (limite <? novo_np))
    end.

(** The call that redesigns the connection inside the [while True]; its
    arguments do not change from one pass to the next. *)
Definition redimensiona (locais : locais_otimizar)
  (forca_axial_critica : float) (tipo : string) (espessura_aba : float)
  : res dados_ligacao :=
  perfil_nome <-
    match v_perfil_nome locais with
    | Some p => Ok p
    | None => Raise UnboundLocalError
    end ;;
  a394 <- loc df_materiais "A394" ;;
  fu_peca <-
    match v_linha locais with
    | LinhaDe linha => fu <- obter_fu linha df_materiais ;; Ok (Some fu)
    | LinhaVazia => Ok None
    | LinhaIndefinida => Raise UnboundLocalError
    end ;;
  dimensionar_ligacao forca_axial_critica tipo perfil_nome Python
    espessura_aba diametros_furos Numpy (fc a394) fu_peca limite_parafusos
    planos_cisalhamento fatores_esmagamento df_perfis coef_minoracao.

(** The [while True] loop. After one redesign every further pass sees the
    same state (the redesign is a pure call on unchanged arguments), so a
    second pass that does not [break] repeats for ever. *)
Definition laco_while_ligacao (locais : locais_otimizar)
  (forca_axial_critica : float) (tipo : string) (espessura_aba : float)
  (melhor_ligacao : dados_ligacao) : res dados_ligacao :=
  continua <- deve_reforcar forca_axial_critica tipo melhor_ligacao ;;
  if negb continua then Ok melhor_ligacao
  else
    nova <- redimensiona locais forca_axial_critica tipo espessura_aba ;;
    continua' <- deve_reforcar forca_axial_critica tipo nova ;;
    if negb continua' then Ok nova else NaoRetorna.

(** Body of the second [for id_barra in candidatos]. *)
Definition verifica_candidato (locais : locais_otimizar)
  (melhor_ligacao : dados_ligacao) (id_barra : string) : res dados_ligacao :=
  forca_axial_critica <- forca_critica_de oti_esforcos_por_barra id_barra ;;
  dados <- sitem metadados id_barra ;;
  let tipo := mb_tipo dados in
  let espessura_aba :=
    match mb_t dados with
    | Some t => t
    | None => 0.0%float
    end in
  laco_while_ligacao locais forca_axial_critica tipo espessura_aba
    melhor_ligacao.

(** [ligacoes_forcadas[id_barra] = lig] for every member of the group. *)
Definition atribui_a_todos (ligacoes_forcadas : ligacoes_t)
  (ids_barra : list string) (lig : ligacao) : ligacoes_t :=
  fold_left (fun m id_barra => sset m id_barra lig) ids_barra ligacoes_forcadas.

(** Body of [for (modulo, posicao, nivel_y), ids_barra in
    grupos_por_modulo.items()]. *)
Definition processa_grupo (st : locais_otimizar * ligacoes_t)
  (ids_barra : list string) : res (locais_otimizar * ligacoes_t) :=
  let '(locais, ligacoes_forcadas) := st in
  let candidatos := candidatos_de ids_barra in
  '(locais1, ligacoes_candidatas) <-
    for_each candidatos (locais, []) dimensiona_candidato ;;
  match map snd ligacoes_candidatas with
  | [] => Ok (locais1, ligacoes_forcadas)
  | c :: cs =>
      let melhor_ligacao := max_por_resistencia c cs in
      match np melhor_ligacao with
      | None =>
          Ok (locais1, atribui_a_todos ligacoes_forcadas ids_barra LigMarcada)
      | Some _ =>
          final <-
            for_each candidatos melhor_ligacao (verifica_candidato locais1) ;;
          Ok (locais1,
              atribui_a_todos ligacoes_forcadas ids_barra (LigCompleta final))
      end
  end.

Definition otimizar_ligacoes_montantes_extremidades : res ligacoes_t :=
  '(_, ligacoes_forcadas) <-
    for_each (map snd (grupos_por_modulo_de metadados))
      (mk_locais_otimizar None LinhaIndefinida, []) processa_grupo ;;
  Ok ligacoes_forcadas.

End otimizar_ligacoes_montantes_extremidades.

(* ===================================================================== *)
(** * [dimensionamento.py]: record updates *)
(* ===================================================================== *)

(** [lig["tx_lig"] = tx]. *)
Definition com_tx_lig (l : dados_ligacao) (tx : float) : dados_ligacao :=
  {| ligacao_viavel := ligacao_viavel l;
     np := np l;
     forca_adm_cisalhamento := forca_adm_cisalhamento l;
     forca_adm_esmagamento := forca_adm_esmagamento l;
     tx_lig := tx;
     d_furo := d_furo l;
     area_parafuso := area_parafuso l;
     fator_fp := fator_fp l;
     planos := planos l;
     coef_minoracao_lig := coef_minoracao_lig l |}.

(** The copy with ["forca_adm_esmagamento"] and ["tx_lig"] replaced. *)
Definition com_esmagamento_e_tx (l : dados_ligacao) (fe tx : float) : dados_ligacao :=
  {| ligacao_viavel := ligacao_viavel l;
     np := np l;
     forca_adm_cisalhamento := forca_adm_cisalhamento l;
     forca_adm_esmagamento := fe;
     tx_lig := tx;
     d_furo := d_furo l;
     area_parafuso := area_parafuso l;
     fator_fp := fator_fp l;
     planos := planos l;
     coef_minoracao_lig := coef_minoracao_lig l |}.

(** [h["verificacao_ligacao"] = lig]. *)
Definition com_verificacao_ligacao (h : dados_hipotese) (lig : ligacao) : dados_hipotese :=
  {| h_solicitacao := h_solicitacao h;
     h_viavel := h_viavel h;
     h_tensao_solicitante := h_tensao_solicitante h;
     h_area_bruta := h_area_bruta h;
     h_area_efetiva := h_area_efetiva h;
     h_forca_axial_admissivel := h_forca_axial_admissivel h;
     h_taxa_trabalho := h_taxa_trabalho h;
     h_esbeltez_corrigida := h_esbeltez_corrigida h;
     h_tensao_fy_corrigida := h_tensao_fy_corrigida h;
     h_Fa := h_Fa h;
     h_Fa_reduzido := h_Fa_reduzido h;
     h_ft_admissivel := h_ft_admissivel h;
     h_esbeltez_tracao := h_esbeltez_tracao h;
     h_verificacao_ligacao := Some lig;
     h_perfil_escolhido := h_perfil_escolhido h;
     h_forca_axial := h_forca_axial h;
     h_tipo := h_tipo h;
     h_alfa := h_alfa h;
     h_raio := h_raio h;
     h_modulo_resistencia_flexao_x := h_modulo_resistencia_flexao_x h;
     h_modulo := h_modulo h;
     h_comprimento := h_comprimento h;
     h_comprimento_destravado := h_comprimento_destravado h;
     h_simulada := h_simulada h;
     h_verificacao_axial := h_verificacao_axial h;
     h_tx_flexao := h_tx_flexao h;
     h_tx_trabalho := h_tx_trabalho h |}.

(** The two keys the reinforcement writes: ["perfil_escolhido"] and
    ["verificacao_ligacao"]. *)
Definition com_reforco (h : dados_hipotese) (novo_perfil : string) (lig : ligacao) : dados_hipotese :=
  {| h_solicitacao := h_solicitacao h;
     h_viavel := h_viavel h;
     h_tensao_solicitante := h_tensao_solicitante h;
     h_area_bruta := h_area_bruta h;
     h_area_efetiva := h_area_efetiva h;
     h_forca_axial_admissivel := h_forca_axial_admissivel h;
     h_taxa_trabalho := h_taxa_trabalho h;
     h_esbeltez_corrigida := h_esbeltez_corrigida h;
     h_tensao_fy_corrigida := h_tensao_fy_corrigida h;
     h_Fa := h_Fa h;
     h_Fa_reduzido := h_Fa_reduzido h;
     h_ft_admissivel := h_ft_admissivel h;
     h_esbeltez_tracao := h_esbeltez_tracao h;
     h_verificacao_ligacao := Some lig;
     h_perfil_escolhido := novo_perfil;
     h_forca_axial := h_forca_axial h;
     h_tipo := h_tipo h;
     h_alfa := h_alfa h;
     h_raio := h_raio h;
     h_modulo_resistencia_flexao_x := h_modulo_resistencia_flexao_x h;
     h_modulo := h_modulo h;
     h_comprimento := h_comprimento h;
     h_comprimento_destravado := h_comprimento_destravado h;
     h_simulada := h_simulada h;
     h_verificacao_axial := h_verificacao_axial h;
     h_tx_flexao := h_tx_flexao h;
     h_tx_trabalho := h_tx_trabalho h |}.

(** The keys step 5 writes after the axial ones. *)
Definition com_verificacao_final (h : dados_hipotese) (perfil_final : string)
  (lig : ligacao) (raio area_bruta comprimento_real comprimento_destravado
   forca_axial : float) (tipo_barra : string) (modulo : option Z)
  (solicitacao : solicitacao) (angulo : float) (esbeltez_corrigida : float)
  (simulada : bool) : dados_hipotese :=
  {| h_solicitacao := Some solicitacao;
     h_viavel := h_viavel h;
     h_tensao_solicitante := h_tensao_solicitante h;
     h_area_bruta := Some area_bruta;
     h_area_efetiva := h_area_efetiva h;
     h_forca_axial_admissivel := h_forca_axial_admissivel h;
     h_taxa_trabalho := h_taxa_trabalho h;
     h_esbeltez_corrigida := Some esbeltez_corrigida;
     h_tensao_fy_corrigida := h_tensao_fy_corrigida h;
     h_Fa := h_Fa h;
     h_Fa_reduzido := h_Fa_reduzido h;
     h_ft_admissivel := h_ft_admissivel h;
     h_esbeltez_tracao := h_esbeltez_tracao h;
     h_verificacao_ligacao := Some lig;
     h_perfil_escolhido := perfil_final;
     h_forca_axial := forca_axial;
     h_tipo := tipo_barra;
     h_alfa := angulo;
     h_raio := Some raio;
     h_modulo_resistencia_flexao_x := h_modulo_resistencia_flexao_x h;
     h_modulo := modulo;
     h_comprimento := comprimento_real;
     h_comprimento_destravado := Some comprimento_destravado;
     h_simulada := simulada || h_simulada h;
     h_verificacao_axial := h_verificacao_axial h;
     h_tx_flexao := h_tx_flexao h;
     h_tx_trabalho := h_tx_trabalho h |}.

(** The keys step 7-3 writes when the re-verification fails. *)
Definition com_reprovacao (h : dados_hipotese) (va : verificacao_axial)
  (tx_flexao : float) : dados_hipotese :=
  {| h_solicitacao := h_solicitacao h;
     h_viavel := false;
     h_tensao_solicitante := h_tensao_solicitante h;
     h_area_bruta := h_area_bruta h;
     h_area_efetiva := h_area_efetiva h;
     h_forca_axial_admissivel := h_forca_axial_admissivel h;
     h_taxa_trabalho := h_taxa_trabalho h;
     h_esbeltez_corrigida := h_esbeltez_corrigida h;
     h_tensao_fy_corrigida := h_tensao_fy_corrigida h;
     h_Fa := h_Fa h;
     h_Fa_reduzido := h_Fa_reduzido h;
     h_ft_admissivel := h_ft_admissivel h;
     h_esbeltez_tracao := h_esbeltez_tracao h;
     h_verificacao_ligacao := h_verificacao_ligacao h;
     h_perfil_escolhido := h_perfil_escolhido h;
     h_forca_axial := h_forca_axial h;
     h_tipo := h_tipo h;
     h_alfa := h_alfa h;
     h_raio := h_raio h;
     h_modulo_resistencia_flexao_x := h_modulo_resistencia_flexao_x h;
     h_modulo := h_modulo h;
     h_comprimento := h_comprimento h;
     h_comprimento_destravado := h_comprimento_destravado h;
     h_simulada := h_simulada h;
     h_verificacao_axial := Some va;
     h_tx_flexao := Some tx_flexao;
     h_tx_trabalho := h_tx_trabalho h |}.

(** The keys step 7-3 writes when the re-verification passes. *)
Definition com_revalidacao (h : dados_hipotese) (va : verificacao_axial) : dados_hipotese :=
  {| h_solicitacao := h_solicitacao h;
     h_viavel := true;
     h_tensao_solicitante := h_tensao_solicitante h;
     h_area_bruta := h_area_bruta h;
     h_area_efetiva := h_area_efetiva h;
     h_forca_axial_admissivel := h_forca_axial_admissivel h;
     h_taxa_trabalho := h_taxa_trabalho h;
     h_esbeltez_corrigida := h_esbeltez_corrigida h;
     h_tensao_fy_corrigida := h_tensao_fy_corrigida h;
     h_Fa := h_Fa h;
     h_Fa_reduzido := va_Fa_reduzido va;
     h_ft_admissivel := va_ft_admissivel va;
     h_esbeltez_tracao := h_esbeltez_tracao h;
     h_verificacao_ligacao := h_verificacao_ligacao h;
     h_perfil_escolhido := h_perfil_escolhido h;
     h_forca_axial := h_forca_axial h;
     h_tipo := h_tipo h;
     h_alfa := h_alfa h;
     h_raio := h_raio h;
     h_modulo_resistencia_flexao_x := h_modulo_resistencia_flexao_x h;
     h_modulo := h_modulo h;
     h_comprimento := h_comprimento h;
     h_comprimento_destravado := h_comprimento_destravado h;
     h_simulada := h_simulada h;
     h_verificacao_axial := Some va;
     h_tx_flexao := h_tx_flexao h;
     h_tx_trabalho := va_taxa_trabalho va |}.

(** Replacement of the hypothesis dictionaries of a bar. *)
Definition com_hipoteses (r : resultado_barra) (hs : list (string * dados_hipotese)) : resultado_barra :=
  {| rb_pior_caso := rb_pior_caso r;
     rb_pior_ligacao := rb_pior_ligacao r;
     rb_perfil_escolhido := rb_perfil_escolhido r;
     rb_forcado_forca_simulada := rb_forcado_forca_simulada r;
     rb_hipotese_tracao := rb_hipotese_tracao r;
     rb_hipotese_compressao := rb_hipotese_compressao r;
     rb_hipoteses := hs;
     rb_taxa_trabalho_final := rb_taxa_trabalho_final r;
     rb_tx_lig_final := rb_tx_lig_final r |}.

(** [r["pior_ligacao"] = nome]. *)
Definition com_pior_ligacao (r : resultado_barra) (nome : string) : resultado_barra :=
  {| rb_pior_caso := rb_pior_caso r;
     rb_pior_ligacao := nome;
     rb_perfil_escolhido := rb_perfil_escolhido r;
     rb_forcado_forca_simulada := rb_forcado_forca_simulada r;
     rb_hipotese_tracao := rb_hipotese_tracao r;
     rb_hipotese_compressao := rb_hipotese_compressao r;
     rb_hipoteses := rb_hipoteses r;
     rb_taxa_trabalho_final := rb_taxa_trabalho_final r;
     rb_tx_lig_final := rb_tx_lig_final r |}.

(** [r["taxa_trabalho_final"] = tx]. *)
Definition com_taxa_final (r : resultado_barra) (tx : float) : resultado_barra :=
  {| rb_pior_caso := rb_pior_caso r;
     rb_pior_ligacao := rb_pior_ligacao r;
     rb_perfil_escolhido := rb_perfil_escolhido r;
     rb_forcado_forca_simulada := rb_forcado_forca_simulada r;
     rb_hipotese_tracao := rb_hipotese_tracao r;
     rb_hipotese_compressao := rb_hipotese_compressao r;
     rb_hipoteses := rb_hipoteses r;
     rb_taxa_trabalho_final := Some tx;
     rb_tx_lig_final := rb_tx_lig_final r |}.

(** [r["tx_lig_final"] = tx]. *)
Definition com_tx_lig_final (r : resultado_barra) (tx : float) : resultado_barra :=
  {| rb_pior_caso := rb_pior_caso r;
     rb_pior_ligacao := rb_pior_ligacao r;
     rb_perfil_escolhido := rb_perfil_escolhido r;
     rb_forcado_forca_simulada := rb_forcado_forca_simulada r;
     rb_hipotese_tracao := rb_hipotese_tracao r;
     rb_hipotese_compressao := rb_hipotese_compressao r;
     rb_hipoteses := rb_hipoteses r;
     rb_taxa_trabalho_final := rb_taxa_trabalho_final r;
     rb_tx_lig_final := Some tx |}.


(* ===================================================================== *)
(** * [dimensionamento.py]: [dimensionar_barras] *)
(* ===================================================================== *)

(** An entry of [perfis_viaveis]: the row and its axial record (the other
    keys of the entry are columns of the row). *)
Definition perfil_viavel : Type := perfil * verificacao_axial.

(** The record stored when a hypothesis has no viable profile. *)
Definition hipotese_nenhum (forca_axial : float) (tipo_barra : string)
  (angulo comprimento : float) : dados_hipotese :=
  {| h_solicitacao := None;
     h_viavel := false;
     h_tensao_solicitante := None;
     h_area_bruta := Some 0.0%float;
     h_area_efetiva := None;
     h_forca_axial_admissivel := None;
     h_taxa_trabalho := None;
     h_esbeltez_corrigida := None;
     h_tensao_fy_corrigida := None;
     h_Fa := None;
     h_Fa_reduzido := None;
     h_ft_admissivel := None;
     h_esbeltez_tracao := None;
     h_verificacao_ligacao := None;
     h_perfil_escolhido := "NENHUM";
     h_forca_axial := forca_axial;
     h_tipo := tipo_barra;
     h_alfa := angulo;
     h_raio := None;
     h_modulo_resistencia_flexao_x := None;
     h_modulo := None;
     h_comprimento := comprimento;
     h_comprimento_destravado := None;
     h_simulada := false;
     h_verificacao_axial := None;
     h_tx_flexao := None;
     h_tx_trabalho := None |}.

(** The record stored for the lightest viable profile of a hypothesis. *)
Definition hipotese_viavel (melhor : perfil_viavel) (lig : ligacao)
  (forca_axial : float) (tipo_barra : string) (angulo : float)
  (modulo : option Z) (comprimento_real comprimento_destravado : float)
  : dados_hipotese :=
  let p := fst melhor in
  let va := snd melhor in
  {| h_solicitacao := Some (va_solicitacao va);
     h_viavel := true;
     h_tensao_solicitante := va_tensao_solicitante va;
     h_area_bruta := Some (A_cm2 p);
     h_area_efetiva := va_area_efetiva va;
     h_forca_axial_admissivel := va_forca_axial_admissivel va;
     h_taxa_trabalho := va_taxa_trabalho va;
     h_esbeltez_corrigida := va_esbeltez_corrigida va;
     h_tensao_fy_corrigida := va_tensao_fy_corrigida va;
     h_Fa := va_Fa va;
     h_Fa_reduzido := va_Fa_reduzido va;
     h_ft_admissivel := va_ft_admissivel va;
     h_esbeltez_tracao := va_esbeltez_tracao va;
     h_verificacao_ligacao := Some lig;
     h_perfil_escolhido := Perfil p;
     h_forca_axial := forca_axial;
     h_tipo := tipo_barra;
     h_alfa := angulo;
     h_raio := Some (if e_montante tipo_barra then rx_cm p else rz_cm p);
     h_modulo_resistencia_flexao_x := Some (Wx_cm3 p);
     h_modulo := modulo;
     h_comprimento := comprimento_real;
     h_comprimento_destravado := Some comprimento_destravado;
     h_simulada := false;
     h_verificacao_axial := None;
     h_tx_flexao := None;
     h_tx_trabalho := None |}.

(** [a / b if b else 999]. *)
Definition taxa_ou_999 (a b : float) : float :=
  if truthy b then (a / b)%float else 999%float.

(** [h[chave]] for a key the dictionary may lack. *)
Definition chave_de {A : Type} (chave : string) (o : option A) : res A :=
  match o with
  | Some a => Ok a
  | None => Raise (KeyError chave)
  end.

(** The set of solicitations met for a bar: (tension seen, compression
    seen). *)
Definition tipos_por_barra_t : Type := list (string * (bool * bool)).

Definition regista_solicitacao (t : tipos_por_barra_t) (id_barra : string)
  (forca_axial : float) : tipos_por_barra_t :=
  let e_tracao := (0 <? forca_axial)%float in
  match sget t id_barra with
  | Some (tr, co) => sset t id_barra (tr || e_tracao, co || negb e_tracao)
  | None => sset t id_barra (e_tracao, negb e_tracao)
  end.

(** Step 1, first loop: solicitation types and metadata of every bar. *)
Definition coleta_metadados (esforcos_por_hipotese : esforcos_t)
  (estruturas_por_hipotese : list (string * metadados_t))
  : res (tipos_por_barra_t * metadados_t) :=
  for_each esforcos_por_hipotese ([], [])
    (fun st (hip : string * list (string * float)) =>
       estrutura <- sitem estruturas_por_hipotese (fst hip) ;;
       for_each (snd hip) st
         (fun st' (b : string * float) =>
            let '(tipos_por_barra, metadados_barras) := st' in
            let tipos' := regista_solicitacao tipos_por_barra (fst b) (snd b) in
            match sget metadados_barras (fst b) with
            | Some _ => Ok (tipos', metadados_barras)
            | None =>
                m <- sitem estrutura (fst b) ;;
                Ok (tipos', sset metadados_barras (fst b) m)
            end)).

(** [{hip: barras.get(id_barra) for hip, barras in ... if id_barra in barras}]. *)
Definition esforcos_da_barra (esforcos_por_hipotese : esforcos_t)
  (id_barra : string) : list (string * float) :=
  flat_map
    (fun hip : string * list (string * float) =>
       match sget (snd hip) id_barra with
       | Some f => [(fst hip, f)]
       | None => []
       end)
    esforcos_por_hipotese.

(** [max((hip for hip in esforcos_barra if esforcos_barra[hip] > 0),
    key=..., default=None)]. *)
Definition hipotese_de_maior_tracao (esforcos_barra : list (string * float))
  : option string :=
  match filter (fun hf : string * float => (0 <? snd hf)%float) esforcos_barra with
  | [] => None
  | x :: l => Some (fst (py_max_by snd x l))
  end.

Definition hipotese_de_maior_compressao (esforcos_barra : list (string * float))
  : option string :=
  match filter (fun hf : string * float => (snd hf <? 0)%float) esforcos_barra with
  | [] => None
  | x :: l => Some (fst (py_min_by snd x l))
  end.

(** [not hipotese]: [None] or the empty name. *)
Definition hipotese_ausente (o : option string) : bool :=
  match o with
  | None => true
  | Some n => String.eqb n ""
  end.

(** [esforcos_por_hipotese.setdefault(nome, {})[id_barra] = forca]. *)
Definition regista_esforco (esforcos_por_hipotese : esforcos_t)
  (nome id_barra : string) (forca : float) : esforcos_t :=
  match sget esforcos_por_hipotese nome with
  | Some barras => sset esforcos_por_hipotese nome (sset barras id_barra forca)
  | None => sset esforcos_por_hipotese nome [(id_barra, forca)]
  end.

Section dimensionar_barras.

Variable ordem_conjunto : list string -> list string.
(** [df.sort_values("A(cm2)")] of the reinforcement, see
    [ordenada_por_area]. *)
Variable sort_values : tabela_perfis -> tabela_perfis.
Variable estruturas_por_hipotese : list (string * metadados_t).
Variable df_montantes : tabela_perfis.
Variable df_diagonais_horizontais : tabela_perfis.
Variable df_materiais : tabela_materiais.
Variable df_perfis : tabela_perfis.
Variable coef_minoracao : float.
(** [diametros_furos] after the default of step 1 has been applied. *)
Variable diametros_furos : list (string * float).
Variable descontos_area_liquida : option (list (string * Z)).
Variable limite_parafusos : option (list (string * Z)).
Variable planos_cisalhamento : option (list (string * Z)).
Variable fatores_esmagamento : option (list float).
Variable interromper_se_inviavel : bool.

Definition diametro_do_tipo (tipo_barra : string) : float :=
  match sget diametros_furos (tipo_base_de tipo_barra) with
  | Some d => d
  | None => 1.59%float
  end.

(** The connection of a bar for a profile row, as steps 3 and 5 ask it;
    [num] is the kind of the cells of the row. *)
Definition ligacao_do_perfil (forca_axial : float) (tipo_barra : string)
  (nome : string) (num : origem) (linha : perfil) : res dados_ligacao :=
  a394 <- loc df_materiais "A394" ;;
  fu_peca <- obter_fu linha df_materiais ;;
  dimensionar_ligacao forca_axial tipo_barra (Some nome) num (t_cm linha)
    diametros_furos Numpy (fc a394) (Some fu_peca) limite_parafusos
    planos_cisalhamento fatores_esmagamento df_perfis coef_minoracao.

(** Step 3, body of [for _, dados_perfil in df_perf.iterrows()]. The state
    is [perfis_viaveis] and the local [verificacao_ligacao], which keeps the
    connection of the last profile that reached the connection check. The
    rows of [iterrows()] hold Python floats. *)
Definition avalia_perfil (tipo_barra : string) (angulo comprimento : float)
  (limitar_esbeltez_tracao forcar_verificacao_compressao : bool)
  (forca_axial : float)
  (st : list perfil_viavel * option dados_ligacao) (dados_perfil : perfil)
  : res (list perfil_viavel * option dados_ligacao) :=
  let '(perfis_viaveis, verificacao_ligacao) := st in
  let diametro_furo := diametro_do_tipo tipo_barra in
  let largura_aba := b_cm dados_perfil in
  let espessura_aba := t_cm dados_perfil in
  let raio_laminacao := raio_lam_cm dados_perfil in
  let largura_util := (largura_aba - espessura_aba - raio_laminacao)%float in
  rel_w_t <- divide Python largura_util espessura_aba ;;
  if (25 <? rel_w_t)%float then Ok st
  else
    verificacao_axial <-
      calcula_tensao_axial_admissivel df_materiais Python dados_perfil
        forca_axial tipo_barra comprimento coef_minoracao diametro_furo
        MODULO_ELASTICIDADE_ACO limitar_esbeltez_tracao
        forcar_verificacao_compressao descontos_area_liquida ;;
    if negb (va_viavel verificacao_axial) then Ok st
    else
      let modulo_resistencia_flexao_x := Wx_cm3 dados_perfil in
      tensao_fy <- obter_fy dados_perfil df_materiais ;;
      let flexao_ok :=
        verifica_flexao_simples tipo_barra angulo comprimento
          modulo_resistencia_flexao_x tensao_fy coef_minoracao in
      if negb flexao_ok then Ok st
      else
        '(ligacao_ok, verificacao_ligacao') <-
          (if negb (e_montante tipo_barra) then
             lig <-
               ligacao_do_perfil forca_axial tipo_barra (Perfil dados_perfil)
                 Python dados_perfil ;;
             if (forca_adm_cisalhamento lig =? 0)%float
                || (forca_adm_esmagamento lig =? 0)%float
             then Ok (false, Some lig)
             else
               let forca_normal := abs forca_axial in
               let tx_lig :=
                 py_max
                   (taxa_ou_999 forca_normal (forca_adm_cisalhamento lig))
                   (taxa_ou_999 forca_normal (forca_adm_esmagamento lig)) in
               Ok (negb (1.0 <? tx_lig)%float, Some lig)
           else Ok (true, verificacao_ligacao)) ;;
        if negb ligacao_ok then Ok (perfis_viaveis, verificacao_ligacao')
        else
          taxa_alta <-
            (if startswith tipo_barra "diagonal"
                || startswith tipo_barra "horizontal"
             then
               taxa <- nao_none (va_taxa_trabalho verificacao_axial) ;;
               Ok (LIMITE_TAXA_TRABALHO_DIAG_HORIZ <? taxa)%float
             else Ok false) ;;
          if taxa_alta then Ok (perfis_viaveis, verificacao_ligacao')
          else
            Ok ((perfis_viaveis ++ [(dados_perfil, verificacao_axial)])%list,
                verificacao_ligacao').

(** The acceptance criteria of the sweep as the specification lists them:
    flange width over thickness at most 25, axial check passed, bending
    check passed and, for bars that are not legs, a connection with
    non-zero admissible forces and utilisation at most 1, for diagonals and
    horizontals an axial utilisation at most 0.90. [verificacao_axial] is
    the axial record kept with the profile. *)
Definition perfil_sobrevive (tipo_barra : string) (angulo comprimento : float)
  (limitar_esbeltez_tracao forcar_verificacao_compressao : bool)
  (forca_axial : float) (dados_perfil : perfil)
  (verificacao_axial : verificacao_axial) : Prop :=
  (exists rel_w_t,
     divide Python
       (b_cm dados_perfil - t_cm dados_perfil - raio_lam_cm dados_perfil)
       (t_cm dados_perfil) = Ok rel_w_t /\
     (25 <? rel_w_t)%float = false) /\
  calcula_tensao_axial_admissivel df_materiais Python dados_perfil
    forca_axial tipo_barra comprimento coef_minoracao
    (diametro_do_tipo tipo_barra)
    MODULO_ELASTICIDADE_ACO limitar_esbeltez_tracao
    forcar_verificacao_compressao descontos_area_liquida
    = Ok verificacao_axial /\
  va_viavel verificacao_axial = true /\
  (exists tensao_fy,
     obter_fy dados_perfil df_materiais = Ok tensao_fy /\
     verifica_flexao_simples tipo_barra angulo comprimento
       (Wx_cm3 dados_perfil) tensao_fy coef_minoracao = true) /\
  (e_montante tipo_barra = false ->
   exists lig,
     ligacao_do_perfil forca_axial tipo_barra (Perfil dados_perfil)
       Python dados_perfil = Ok lig /\
     (forca_adm_cisalhamento lig =? 0)%float = false /\
     (forca_adm_esmagamento lig =? 0)%float = false /\
     (1.0 <? py_max
               (taxa_ou_999 (abs forca_axial) (forca_adm_cisalhamento lig))
               (taxa_ou_999 (abs forca_axial) (forca_adm_esmagamento lig)))%float
       = false) /\
  (startswith tipo_barra "diagonal" || startswith tipo_barra "horizontal"
     = true ->
   exists taxa,
     va_taxa_trabalho verificacao_axial = Some taxa /\
     (LIMITE_TAXA_TRABALHO_DIAG_HORIZ <? taxa)%float = false).

(** [min(perfis_viaveis, key=lambda x: x["peso"])]. *)
Definition mais_leve (perfis_viaveis : list perfil_viavel)
  : option perfil_viavel :=
  match perfis_viaveis with
  | [] => None
  | x :: l => Some (py_min_by (fun pv => Peso_kg_m (fst pv)) x l)
  end.

(** Step 3 for one critical hypothesis: the sweep and the record stored in
    [melhores_por_hipotese]. *)
Definition dimensiona_hipotese (df_perf : tabela_perfis) (tipo_barra : string)
  (angulo comprimento comprimento_real comprimento_destravado : float)
  (modulo : option Z)
  (limitar_esbeltez_tracao forcar_verificacao_compressao : bool)
  (forca_axial : float) (verificacao_ligacao : option dados_ligacao)
  : res (dados_hipotese * option dados_ligacao) :=
  '(perfis_viaveis, verificacao_ligacao') <-
    for_each df_perf ([], verificacao_ligacao)
      (avalia_perfil tipo_barra angulo comprimento limitar_esbeltez_tracao
         forcar_verificacao_compressao forca_axial) ;;
  match mais_leve perfis_viaveis with
  | None =>
      Ok (hipotese_nenhum forca_axial tipo_barra angulo comprimento,
          verificacao_ligacao')
  | Some melhor =>
      lig <-
        (if negb (e_montante tipo_barra) then
           match verificacao_ligacao' with
           | Some l => Ok (LigCompleta l)
           | None => Raise UnboundLocalError
           end
         else Ok LigVazia) ;;
      Ok (hipotese_viavel melhor lig forca_axial tipo_barra angulo modulo
            comprimento_real comprimento_destravado,
          verificacao_ligacao')
  end.

(** [area_trabalho] of step 4. The records it is applied to come from the
    viable branch of step 3, where both stress keys are present; [None] is
    then the value [None]. *)
Definition area_trabalho (dados : dados_hipotese) : res float :=
  s <- chave_de "solicitacao" (h_solicitacao dados) ;;
  match s with
  | compressao =>
      '(d, num) <- nao_none (h_Fa_reduzido dados) ;;
      divide num (abs (h_forca_axial dados)) d
  | tracao =>
      '(d, num) <- nao_none (h_ft_admissivel dados) ;;
      divide num (abs (h_forca_axial dados)) d
  end.

(** Step 4: the name of the governing hypothesis; [None] for the
    [continue] that drops the bar. *)
Definition escolhe_hipotese_critica
  (melhores_por_hipotese : list (string * dados_hipotese))
  : res (option string) :=
  match melhores_por_hipotese with
  | [] => Raise IndexError
  | [(nome, _)] => Ok (Some nome)
  | (n0, d0) :: (n1, d1) :: _ =>
      let perf_hip0 := h_perfil_escolhido d0 in
      let perf_hip1 := h_perfil_escolhido d1 in
      if String.eqb perf_hip0 perf_hip1 then
        let hipoteses_viaveis :=
          filter
            (fun nd : string * dados_hipotese =>
               negb (String.eqb (h_perfil_escolhido (snd nd)) "NENHUM"))
            melhores_por_hipotese in
        chaves <-
          map_res
            (fun nd : string * dados_hipotese =>
               a <- area_trabalho (snd nd) ;; Ok (fst nd, a))
            hipoteses_viaveis ;;
        match chaves with
        | [] => Ok None
        | x :: l => Ok (Some (fst (py_max_by snd x l)))
        end
      else
        chaves <-
          map_res
            (fun nd : string * dados_hipotese =>
               a <- chave_de "area_bruta" (h_area_bruta (snd nd)) ;;
               Ok (fst nd, a))
            melhores_por_hipotese ;;
        match chaves with
        | [] => Raise IndexError
        | x :: l => Ok (Some (fst (py_max_by snd x l)))
        end
  end.

(** Step 5: the row of the final profile, looked up in the two tables. *)
Definition linha_do_perfil_final (perfil_final : string) : option perfil :=
  match linhas_do_perfil df_montantes perfil_final with
  | p :: _ => Some p
  | [] =>
      match linhas_do_perfil df_diagonais_horizontais perfil_final with
      | p :: _ => Some p
      | [] => None
      end
  end.

(** Step 5 for one critical hypothesis; [dados_perfil] was taken with
    [.iloc[0]], so its cells are [numpy.float64]. *)
Definition reverifica_hipotese_final (esforcos_por_hipotese : esforcos_t)
  (id_barra tipo_barra : string)
  (angulo comprimento comprimento_real comprimento_destravado : float)
  (modulo : option Z) (perfil_final : string) (dados_perfil : option perfil)
  (melhores_por_hipotese : list (string * dados_hipotese))
  (nome_hipotese : string) : res (list (string * dados_hipotese)) :=
  barras <- sitem esforcos_por_hipotese nome_hipotese ;;
  forca_axial <- sitem barras id_barra ;;
  let solicitacao := if (0 <? forca_axial)%float then tracao else compressao in
  let diametro_furo := diametro_do_tipo tipo_barra in
  dados_perfil <- nao_none dados_perfil ;;
  verificacao_axial <-
    calcula_tensao_axial_admissivel df_materiais Numpy dados_perfil
      forca_axial tipo_barra comprimento coef_minoracao diametro_furo
      MODULO_ELASTICIDADE_ACO (solicitacao_eqb solicitacao tracao)
      (solicitacao_eqb solicitacao compressao) descontos_area_liquida ;;
  verificacao_ligacao_final <-
    ligacao_do_perfil forca_axial tipo_barra perfil_final Numpy
      dados_perfil ;;
  let forca_normal := abs forca_axial in
  let tx_cis :=
    taxa_ou_999 forca_normal (forca_adm_cisalhamento verificacao_ligacao_final) in
  let tx_esm :=
    taxa_ou_999 forca_normal (forca_adm_esmagamento verificacao_ligacao_final) in
  let verificacao_ligacao_final' :=
    com_tx_lig verificacao_ligacao_final (py_max tx_cis tx_esm) in
  let raio_giracao :=
    if e_montante tipo_barra then rx_cm dados_perfil else rz_cm dados_perfil in
  esbeltez_corrigida <-
    calcular_esbeltez_corrigida Numpy tipo_barra comprimento raio_giracao ;;
  anterior <- sitem melhores_por_hipotese nome_hipotese ;;
  Ok (sset melhores_por_hipotese nome_hipotese
        (com_verificacao_final (com_axial anterior verificacao_axial)
           perfil_final (LigCompleta verificacao_ligacao_final') raio_giracao
           (A_cm2 dados_perfil) comprimento_real comprimento_destravado
           forca_axial tipo_barra modulo solicitacao angulo esbeltez_corrigida
           (startswith nome_hipotese "hip_0"))).

(** [max(melhores_por_hipotese.items(), key=tx_lig of the connection)]. *)
Definition tx_lig_da_hipotese (d : dados_hipotese) : float :=
  match h_verificacao_ligacao d with
  | Some l => lig_tx_ou_zero l
  | None => 0%float
  end.

(** The state the loop over the bars threads: the forces (to which
    simulated hypotheses are added), [resultado_final], and the local
    [verificacao_ligacao]. *)
Definition estado_barras : Type :=
  (esforcos_t * resultados_t) * option dados_ligacao.

(** Steps 2 to 5 for one bar: body of
    [for id_barra, solicitacoes in tipos_por_barra.items()]. *)
Definition dimensiona_barra (metadados_barras : metadados_t)
  (st : estado_barras) (b : string * (bool * bool)) : res estado_barras :=
  let '((esforcos_por_hipotese, resultado_final), verificacao_ligacao) := st in
  let id_barra := fst b in
  let solicitacoes := snd b in
  dados_barra <- sitem metadados_barras id_barra ;;
  let forca_axial_simulada_minima := 0.01%float in
  let esforcos_barra := esforcos_da_barra esforcos_por_hipotese id_barra in
  let hipotese_critica_tracao := hipotese_de_maior_tracao esforcos_barra in
  let hipotese_critica_compressao :=
    hipotese_de_maior_compressao esforcos_barra in
  let '(esforcos_barra1, esforcos1, hipotese_critica_tracao) :=
    if hipotese_ausente hipotese_critica_tracao
    then (sset esforcos_barra "hip_0_t" forca_axial_simulada_minima,
          regista_esforco esforcos_por_hipotese "hip_0_t" id_barra
            forca_axial_simulada_minima,
          "hip_0_t")
    else (esforcos_barra, esforcos_por_hipotese,
          match hipotese_critica_tracao with Some n => n | None => "" end) in
  let '(esforcos_barra2, esforcos2, hipotese_critica_compressao) :=
    if hipotese_ausente hipotese_critica_compressao
    then (sset esforcos_barra1 "hip_0_c" (- forca_axial_simulada_minima)%float,
          regista_esforco esforcos1 "hip_0_c" id_barra
            (- forca_axial_simulada_minima)%float,
          "hip_0_c")
    else (esforcos_barra1, esforcos1,
          match hipotese_critica_compressao with Some n => n | None => "" end) in
  let barra_tem_forca_simulada :=
    dict_mem String.eqb esforcos_barra2 "hip_0_t"
    || dict_mem String.eqb esforcos_barra2 "hip_0_c" in
  ft <- sitem esforcos_barra2 hipotese_critica_tracao ;;
  fcp <- sitem esforcos_barra2 hipotese_critica_compressao ;;
  let esforcos_filtrados :=
    sset (sset [] hipotese_critica_tracao ft) hipotese_critica_compressao fcp in
  let comprimento_real := mb_comprimento dados_barra in
  let tipo_barra := mb_tipo dados_barra in
  let angulo :=
    match mb_alfa_graus dados_barra with Some a => a | None => 0%float end in
  let comprimento_destravado :=
    if e_montante tipo_barra then
      match mb_comprimento_destravado dados_barra with
      | Some c => c
      | None => comprimento_real
      end
    else comprimento_real in
  let comprimento := comprimento_destravado in
  let df_perf :=
    if e_montante tipo_barra then df_montantes else df_diagonais_horizontais in
  let df_perf :=
    filtrar_por_diametro_parafuso df_perf (diametro_do_tipo tipo_barra) in
  let limitar_esbeltez_tracao := fst solicitacoes && negb (snd solicitacoes) in
  let forcar_verificacao_compressao := negb limitar_esbeltez_tracao in
  (* step 3 *)
  '(melhores_por_hipotese, verificacao_ligacao1) <-
    for_each (map fst esforcos_filtrados) ([], verificacao_ligacao)
      (fun st3 nome_hipotese =>
         let '(melhores, vl) := st3 in
         barras <- sitem esforcos2 nome_hipotese ;;
         forca_axial <- sitem barras id_barra ;;
         '(registo, vl') <-
           dimensiona_hipotese df_perf tipo_barra angulo comprimento
             comprimento_real comprimento_destravado (mb_modulo dados_barra)
             limitar_esbeltez_tracao forcar_verificacao_compressao
             forca_axial vl ;;
         let melhores' := sset melhores nome_hipotese registo in
         if forallb
              (fun nd : string * dados_hipotese =>
                 String.eqb (h_perfil_escolhido (snd nd)) "NENHUM")
              melhores'
            && interromper_se_inviavel
         then Raise (ValueError "Nenhum perfil viavel para a barra")
         else Ok (melhores', vl')) ;;
  (* step 4 *)
  critica <- escolhe_hipotese_critica melhores_por_hipotese ;;
  match critica with
  | None => Ok ((esforcos2, resultado_final), verificacao_ligacao1)
  | Some hipotese_critica =>
      hc <- sitem melhores_por_hipotese hipotese_critica ;;
      let perfil_final := h_perfil_escolhido hc in
      (* step 5 *)
      let dados_perfil := linha_do_perfil_final perfil_final in
      melhores_finais <-
        for_each (map fst esforcos_filtrados) melhores_por_hipotese
          (reverifica_hipotese_final esforcos2 id_barra tipo_barra angulo
             comprimento comprimento_real comprimento_destravado
             (mb_modulo dados_barra) perfil_final dados_perfil) ;;
      hipotese_critica_ligacao <-
        match melhores_finais with
        | [] => Raise (ValueError "max() arg is an empty sequence")
        | x :: l =>
            Ok (fst (py_max_by (fun nd => tx_lig_da_hipotese (snd nd)) x l))
        end ;;
      Ok ((esforcos2,
           sset resultado_final id_barra
             {| rb_pior_caso := hipotese_critica;
                rb_pior_ligacao := hipotese_critica_ligacao;
                rb_perfil_escolhido := perfil_final;
                rb_forcado_forca_simulada := barra_tem_forca_simulada;
                rb_hipotese_tracao := hipotese_critica_tracao;
                rb_hipotese_compressao := hipotese_critica_compressao;
                rb_hipoteses := melhores_finais;
                rb_taxa_trabalho_final := None;
                rb_tx_lig_final := None |}),
          verificacao_ligacao1)
  end.

(** After the loop over the bars: the chosen profile of every sized bar is
    written into its metadata. *)
Definition atualiza_metadados (metadados_barras : metadados_t)
  (resultado_final : resultados_t) : res metadados_t :=
  for_each resultado_final metadados_barras
    (fun md (b : string * resultado_barra) =>
       let nome_hipotese_critica := rb_pior_caso (snd b) in
       caso <- sitem (rb_hipoteses (snd b)) nome_hipotese_critica ;;
       _ <- sitem md (fst b) ;;
       Ok (dict_update String.eqb md (fst b)
             (fun dados => com_perfil_escolhido dados (h_perfil_escolhido caso)))).

(** [r[nome][...] = ...] on the hypothesis dictionary [nome] of a bar. *)
Definition altera_hipotese (resultado_final : resultados_t)
  (id_barra nome : string) (f : dados_hipotese -> dados_hipotese)
  : resultados_t :=
  dict_update String.eqb resultado_final id_barra
    (fun r => com_hipoteses r (dict_update String.eqb (rb_hipoteses r) nome f)).

(** Step 6, second half: the bearing force and the rate of the governing
    hypothesis recomputed with the thickness of the bar's own profile. *)
Definition injeta_ligacao (ligacoes_forcadas : ligacoes_t)
  (resultado_final : resultados_t) (id_barra : string) : res resultados_t :=
  match sget resultado_final id_barra, sget ligacoes_forcadas id_barra with
  | Some r, Some lig =>
      let nome_hipotese_critica := rb_pior_caso r in
      caso <- sitem (rb_hipoteses r) nome_hipotese_critica ;;
      let forca_axial := abs (h_forca_axial caso) in
      let perfil_nome := h_perfil_escolhido caso in
      match linhas_do_perfil df_perfis perfil_nome with
      | [] => Ok resultado_final
      | linha :: _ =>
          let espessura_aba := t_cm linha in
          fu <- obter_fu linha df_materiais ;;
          l <- lig_completa "d_furo" lig ;;
          let diametro_furo := d_furo l in
          qtd_parafusos <- nao_none (np l) ;;
          fator_fp <- nao_none (fator_fp l) ;;
          let forca_adm_cisalhamento := forca_adm_cisalhamento l in
          qf <- float_of_int qtd_parafusos ;;
          let forca_adm_esmagamento_corrigido :=
            (qf * diametro_furo * espessura_aba * fator_fp * fu
             * coef_minoracao)%float in
          let tx_cisalhamento := taxa_ou_999 forca_axial forca_adm_cisalhamento in
          let tx_esmagamento :=
            taxa_ou_999 forca_axial forca_adm_esmagamento_corrigido in
          let tx_ligacao := py_max tx_cisalhamento tx_esmagamento in
          let nova_ligacao :=
            com_esmagamento_e_tx l forca_adm_esmagamento_corrigido tx_ligacao in
          Ok (altera_hipotese resultado_final id_barra nome_hipotese_critica
                (fun h => com_verificacao_ligacao h (LigCompleta nova_ligacao)))
      end
  | _, _ => Ok resultado_final
  end.

Definition injeta_ligacoes (metadados_barras : metadados_t)
  (ligacoes_forcadas : ligacoes_t) (resultado_final : resultados_t)
  : res resultados_t :=
  for_each ligacoes_forcadas resultado_final
    (fun rf (il : string * ligacao) =>
       let ids_simetricos :=
         expandir_ligacoes_montantes_simetricos metadados_barras [fst il]
           1e-3 in
       for_each ids_simetricos rf (injeta_ligacao ligacoes_forcadas)).

(** Step 7-2: the hypothesis whose connection rate is largest, as
    [max(resultado_final[id_barra], key=...)] finds it: the six scalar keys
    come first with key [False], so the first of them stands unless a
    hypothesis has a rate above zero. *)
Definition nome_da_pior_ligacao (r : resultado_barra) : string :=
  fst (py_max_by snd ("pior_caso", 0%float)
         (map (fun nd : string * dados_hipotese =>
                 (fst nd, tx_lig_da_hipotese (snd nd)))
              (rb_hipoteses r))).

(** The state of the reinforcement loop. *)
Record estado_reforco : Type := mk_estado_reforco {
  er_resultado_final : resultados_t;
  er_ligacoes_forcadas : ligacoes_t;
  er_barras_reforcadas : list string
}.

(** Step 7-2, body of [for id_barra in sorted(ids_ligacao_necessaria, ...)].
    The state is [resultado_final], [ligacoes_iter] and [todos_ok]. *)
Definition reforca_barra (metadados_barras : metadados_t)
  (st : (resultados_t * list (string * dados_ligacao)) * bool)
  (id_barra : string)
  : res ((resultados_t * list (string * dados_ligacao)) * bool) :=
  let '((resultado_final, ligacoes_iter), todos_ok) := st in
  match sget resultado_final id_barra with
  | None => Ok ((resultado_final, ligacoes_iter), false)
  | Some r =>
      if String.eqb (rb_perfil_escolhido r) "NENHUM"
      then Ok ((resultado_final, ligacoes_iter), false)
      else
        let nome_hip := rb_pior_caso r in
        caso <- sitem (rb_hipoteses r) nome_hip ;;
        let perfil_ini := h_perfil_escolhido caso in
        let N := abs (h_forca_axial caso) in
        dados <- sitem metadados_barras id_barra ;;
        let tipo_barra := mb_tipo dados in
        let angulo :=
          match mb_alfa_graus dados with Some a => a | None => 0.0%float end in
        let comprimento :=
          if e_montante tipo_barra then
            match mb_comprimento_destravado dados with
            | Some c => c
            | None => mb_comprimento dados
            end
          else mb_comprimento dados in
        reforco <-
          reforcar_montante_ate_viavel sort_values perfil_ini N df_perfis
            df_materiais
            diametros_furos limite_parafusos planos_cisalhamento
            fatores_esmagamento coef_minoracao descontos_area_liquida
            verificar_axial_flexao wrapper_ligacao_montante tipo_barra
            comprimento angulo interromper_se_inviavel ;;
        match reforco with
        | Some (novo_perfil, dados_lig) =>
            Ok ((altera_hipotese resultado_final id_barra nome_hip
                   (fun h => com_reforco h novo_perfil (LigCompleta dados_lig)),
                 sset ligacoes_iter id_barra dados_lig),
                todos_ok)
        | None => Ok ((resultado_final, ligacoes_iter), false)
        end
  end.

(** Step 7-2, one cycle: the body of [for tentativa in range(10)] up to
    the test of [todos_ok], whose value is returned with the state. *)
Definition ciclo_reforco (metadados_barras : metadados_t)
  (ids_ligacao_necessaria : list string) (st : estado_reforco)
  : res (estado_reforco * bool) :=
  ordenados <- sorted_por_id ids_ligacao_necessaria ;;
  '((resultado_final, ligacoes_iter), todos_ok) <-
    for_each ordenados ((er_resultado_final st, []), true)
      (reforca_barra metadados_barras) ;;
  let ligacoes_forcadas :=
    fold_left
      (fun m (il : string * dados_ligacao) =>
         sset m (fst il) (LigCompleta (snd il)))
      ligacoes_iter (er_ligacoes_forcadas st) in
  let resultado_final' :=
    fold_left
      (fun rf (il : string * dados_ligacao) =>
         dict_update String.eqb rf (fst il)
           (fun r => com_pior_ligacao r (nome_da_pior_ligacao r)))
      ligacoes_iter resultado_final in
  let barras_reforcadas :=
    set_union (er_barras_reforcadas st) (map fst ligacoes_iter) in
  Ok (mk_estado_reforco resultado_final' ligacoes_forcadas barras_reforcadas,
      todos_ok).

(** How the [for tentativa in range(10)] loop ends: by [break] with the
    state reached, or by exhaustion, when its [else] clause runs. The number
    of cycles run is kept beside the outcome. *)
Inductive fim_do_laco : Type :=
| Convergiu (st : estado_reforco)
| Esgotou.

Fixpoint laco_reforco (metadados_barras : metadados_t)
  (ids_ligacao_necessaria : list string) (tentativas : list Z)
  (st : estado_reforco) (ciclos : nat) : res (fim_do_laco * nat) :=
  match tentativas with
  | [] => Ok (Esgotou, ciclos)
  | _ :: resto =>
      '(st', todos_ok) <-
        ciclo_reforco metadados_barras ids_ligacao_necessaria st ;;
      if (todos_ok : bool) then Ok (Convergiu st', S ciclos)
      else
        laco_reforco metadados_barras ids_ligacao_necessaria resto st'
          (S ciclos)
  end.

(** Step 7-2 whole: the loop over [range(10)] and its [else] clause.
    [None] is the return of [None, None, None]. *)
Definition reforco_iterativo (metadados_barras : metadados_t)
  (ids_ligacao_necessaria : list string) (st : estado_reforco)
  : res (option estado_reforco) :=
  '(fim, _) <-
    laco_reforco metadados_barras ids_ligacao_necessaria (py_range 0 10) st 0 ;;
  match fim with
  | Convergiu st' => Ok (Some st')
  | Esgotou =>
      if interromper_se_inviavel
      then Raise (ValueError "Reforço de ligação não convergiu em 10 ciclos.")
      else Ok None
  end.

(** [ciclos_falhos md ids k st st']: [k] consecutive cycles run from [st],
    each one ending with [todos_ok] false, leave the state [st']. *)
Inductive ciclos_falhos (metadados_barras : metadados_t)
  (ids_ligacao_necessaria : list string)
  : nat -> estado_reforco -> estado_reforco -> Prop :=
| ciclos_falhos_nenhum (st : estado_reforco) :
    ciclos_falhos metadados_barras ids_ligacao_necessaria 0 st st
| ciclos_falhos_mais (k : nat) (st st1 st2 : estado_reforco) :
    ciclo_reforco metadados_barras ids_ligacao_necessaria st
      = Ok (st1, false) ->
    ciclos_falhos metadados_barras ids_ligacao_necessaria k st1 st2 ->
    ciclos_falhos metadados_barras ids_ligacao_necessaria (S k) st st2.

(** Step 7-3 for one hypothesis dictionary of a reinforced bar. *)
Definition revalida_hipotese (esforcos_por_hipotese : esforcos_t)
  (exclusivamente_tracionada : bool) (id_barra tipo_barra : string)
  (angulo comprimento diametro_furo : float)
  (nh : string * dados_hipotese) : res (string * dados_hipotese) :=
  let nome_hipotese := fst nh in
  let dados_hip := snd nh in
  let perfil_nome := h_perfil_escolhido dados_hip in
  if String.eqb perfil_nome "NENHUM" then Ok nh
  else
    dados_perfil <- iloc0 (linhas_do_perfil df_perfis perfil_nome) ;;
    barras <- sitem esforcos_por_hipotese nome_hipotese ;;
    forca_axial <- sitem barras id_barra ;;
    limitar_esbeltez_tracao <-
      (if exclusivamente_tracionada then
         s <- chave_de "solicitacao" (h_solicitacao dados_hip) ;;
         Ok (solicitacao_eqb s tracao)
       else Ok false) ;;
    verificacao_axial <-
      calcula_tensao_axial_admissivel df_materiais Numpy dados_perfil
        forca_axial tipo_barra comprimento coef_minoracao diametro_furo
        MODULO_ELASTICIDADE_ACO limitar_esbeltez_tracao
        (negb limitar_esbeltez_tracao) descontos_area_liquida ;;
    tensao_fy <- obter_fy dados_perfil df_materiais ;;
    let flexao_ok :=
      verifica_flexao_simples tipo_barra angulo comprimento
        (Wx_cm3 dados_perfil) tensao_fy coef_minoracao in
    let barra_viavel := va_viavel verificacao_axial && flexao_ok in
    if negb barra_viavel then
      if interromper_se_inviavel
      then Raise (ValueError "Apos reforco da ligacao, a barra reprovou")
      else
        Ok (nome_hipotese,
            com_reprovacao dados_hip verificacao_axial
              (if negb flexao_ok then 999.0%float else 0.0%float))
    else Ok (nome_hipotese, com_revalidacao dados_hip verificacao_axial).

(** Step 7-3: re-verification of every reinforced bar. *)
Definition revalida_reforcadas (metadados_barras : metadados_t)
  (esforcos_por_hipotese : esforcos_t) (tipos_por_barra : tipos_por_barra_t)
  (barras_reforcadas : list string) (resultado_final : resultados_t)
  : res resultados_t :=
  ordenadas <- sorted_por_id barras_reforcadas ;;
  for_each ordenadas resultado_final
    (fun rf id_barra =>
       dados_barra <- sitem metadados_barras id_barra ;;
       let tipo_barra := mb_tipo dados_barra in
       let angulo :=
         match mb_alfa_graus dados_barra with
         | Some a => a
         | None => 0.0%float
         end in
       let comp_real := mb_comprimento dados_barra in
       let comp_destravado :=
         match mb_comprimento_destravado dados_barra with
         | Some c => c
         | None => comp_real
         end in
       let comprimento :=
         if e_montante tipo_barra then comp_destravado else comp_real in
       let diametro_furo := diametro_do_tipo tipo_barra in
       let exclusivamente_tracionada :=
         match sget tipos_por_barra id_barra with
         | Some (tr, co) => tr && negb co
         | None => false
         end in
       r <- sitem rf id_barra ;;
       hs <-
         map_res
           (revalida_hipotese esforcos_por_hipotese exclusivamente_tracionada
              id_barra tipo_barra angulo comprimento diametro_furo)
           (rb_hipoteses r) ;;
       Ok (sset rf id_barra (com_hipoteses r hs))).

(** The six keys of a bar's entry that hold no dictionary. *)
Definition chaves_escalares : list string :=
  ["pior_caso"; "pior_ligacao"; "perfil_escolhido"; "forcado_forca_simulada";
   "hipotese_tracao"; "hipotese_compressao"].

(** [r.get(nome, {}).get("verificacao_ligacao")]. *)
Definition ligacao_da_hipotese (r : resultado_barra) (nome : string)
  : res (option ligacao) :=
  match sget (rb_hipoteses r) nome with
  | Some h => Ok (h_verificacao_ligacao h)
  | None =>
      if set_mem nome chaves_escalares then Raise AttributeError else Ok None
  end.

(** After step 7-4: the connections designed on the equalised profiles are
    written into the governing hypothesis of each bar. *)
Definition regista_ligacoes_finais (ligacoes_forcadas : ligacoes_t)
  (resultado_final : resultados_t) : res resultados_t :=
  for_each ligacoes_forcadas resultado_final
    (fun rf (il : string * ligacao) =>
       r <- sitem rf (fst il) ;;
       let nome_hip := rb_pior_caso r in
       _ <- sitem (rb_hipoteses r) nome_hip ;;
       Ok (altera_hipotese rf (fst il) nome_hip
             (fun h => com_verificacao_ligacao h (snd il)))).

(** Step 7-5: [true] when some required connection still has a rate above
    1.0. *)
Fixpoint alguma_ligacao_reprovada (resultado_final : resultados_t)
  (ids_ligacao_necessaria : list string) : res bool :=
  match ids_ligacao_necessaria with
  | [] => Ok false
  | id_barra :: resto =>
      r <- sitem resultado_final id_barra ;;
      let nome_lig := rb_pior_ligacao r in
      if String.eqb nome_lig ""
      then alguma_ligacao_reprovada resultado_final resto
      else
        lig <- ligacao_da_hipotese r nome_lig ;;
        match lig with
        | Some l =>
            if lig_truthy l && (1.0 <? lig_tx_ou_zero l)%float then Ok true
            else alguma_ligacao_reprovada resultado_final resto
        | None => alguma_ligacao_reprovada resultado_final resto
        end
  end.

(** [x.get("forca_axial_admissivel", 1e-6)] used as a divisor:
    [abs(n) / f if f else 0]. *)
Definition taxa_ou_zero (n : float) (f : option float) : float :=
  match f with
  | Some v => if truthy v then (abs n / v)%float else 0%float
  | None => 0%float
  end.

(** Step 8 for one bar. *)
Definition taxas_finais (r : resultado_barra) : res resultado_barra :=
  let perfil := rb_perfil_escolhido r in
  if String.eqb perfil "NENHUM" then Ok r
  else
    match linhas_do_perfil df_perfis perfil with
    | [] => Ok r
    | dados_perfil :: _ =>
        let hs := map snd (rb_hipoteses r) in
        let tipo :=
          match hs with
          | h :: _ => h_tipo h
          | [] => ""
          end in
        let comprimento_destravado :=
          match flat_map
                  (fun h => match h_comprimento_destravado h with
                            | Some c => [c]
                            | None => []
                            end) hs with
          | c :: _ => c
          | [] => 1%float
          end in
        let d_furo := diametro_do_tipo tipo in
        let forca_normal_tracao :=
          match filter (fun f => (0 <? f)%float) (map h_forca_axial hs) with
          | [] => 0%float
          | x :: l => py_max_by (fun v => v) x l
          end in
        let forca_normal_compressao :=
          match filter (fun f => (f <? 0)%float) (map h_forca_axial hs) with
          | [] => 0%float
          | x :: l => py_min_by (fun v => v) x l
          end in
        vt <-
          calcula_tensao_axial_admissivel df_materiais Numpy dados_perfil
            forca_normal_tracao tipo comprimento_destravado coef_minoracao
            d_furo MODULO_ELASTICIDADE_ACO true false descontos_area_liquida ;;
        let forca_admissivel_tracao := va_forca_axial_admissivel vt in
        vc <-
          calcula_tensao_axial_admissivel df_materiais Numpy dados_perfil
            forca_normal_compressao tipo comprimento_destravado coef_minoracao
            d_furo MODULO_ELASTICIDADE_ACO false true descontos_area_liquida ;;
        let forca_admissivel_compressao := va_forca_axial_admissivel vc in
        let tx_axial_trac :=
          taxa_ou_zero forca_normal_tracao forca_admissivel_tracao in
        let tx_axial_comp :=
          taxa_ou_zero forca_normal_compressao forca_admissivel_compressao in
        let r1 := com_taxa_final r (py_max tx_axial_trac tx_axial_comp) in
        lig <- ligacao_da_hipotese r1 (rb_pior_ligacao r1) ;;
        match lig with
        | None => Ok r1
        | Some LigVazia => Ok r1
        | Some l =>
            let '(forca_admissivel_cisalhamento, forca_admissivel_esmagamento) :=
              match l with
              | LigCompleta d =>
                  (forca_adm_cisalhamento d, forca_adm_esmagamento d)
              | _ => (1%float, 1%float)
              end in
            let tx_lig_trac :=
              if truthy forca_normal_tracao then
                py_max
                  (divisao_segura (abs forca_normal_tracao)
                     forca_admissivel_cisalhamento)
                  (divisao_segura (abs forca_normal_tracao)
                     forca_admissivel_esmagamento)
              else 0%float in
            let tx_lig_comp :=
              if truthy forca_normal_tracao then
                py_max
                  (divisao_segura (abs forca_normal_compressao)
                     forca_admissivel_cisalhamento)
                  (divisao_segura (abs forca_normal_compressao)
                     forca_admissivel_esmagamento)
              else 0%float in
            Ok (com_tx_lig_final r1 (py_max tx_lig_trac tx_lig_comp))
        end
    end.

(** The three results; [None] is the return of [None, None, None]. *)
Definition saida_dimensionamento : Type :=
  option ((resultados_t * ligacoes_t) * list string).

Definition otimizar_ligacoes (metadados_barras : metadados_t)
  (esforcos_por_hipotese : esforcos_t) : res ligacoes_t :=
  otimizar_ligacoes_montantes_extremidades ordem_conjunto metadados_barras
    esforcos_por_hipotese df_materiais diametros_furos limite_parafusos
    planos_cisalhamento fatores_esmagamento df_perfis coef_minoracao.

Definition igualar_perfis (resultado_final : resultados_t) : res resultados_t :=
  igualar_perfis_montantes_por_modulo df_montantes df_materiais coef_minoracao
    diametros_furos descontos_area_liquida resultado_final.

(** Steps 7-3 to 9. *)
Definition conclui_dimensionamento (metadados_barras : metadados_t)
  (esforcos_por_hipotese : esforcos_t) (tipos_por_barra : tipos_por_barra_t)
  (ids_ligacao_necessaria : list string) (st : estado_reforco)
  : res saida_dimensionamento :=
  rf3 <-
    revalida_reforcadas metadados_barras esforcos_por_hipotese tipos_por_barra
      (er_barras_reforcadas st) (er_resultado_final st) ;;
  rf4 <- igualar_perfis rf3 ;;
  ligacoes_forcadas <- otimizar_ligacoes metadados_barras esforcos_por_hipotese ;;
  rf5 <- regista_ligacoes_finais ligacoes_forcadas rf4 ;;
  reprovada <- alguma_ligacao_reprovada rf5 ids_ligacao_necessaria ;;
  if (reprovada : bool) then
    if interromper_se_inviavel
    then Raise (ValueError "Ligacao da barra ainda reprovada apos reforco.")
    else Ok None
  else
    rf8 <-
      map_res
        (fun b : string * resultado_barra =>
           r <- taxas_finais (snd b) ;; Ok (fst b, r))
        rf5 ;;
    Ok (Some ((rf8, ligacoes_forcadas), ids_ligacao_necessaria)).

Definition dimensionar_barras_corpo (esforcos_por_hipotese : esforcos_t)
  : res saida_dimensionamento :=
  (* step 1 *)
  '(tipos_por_barra, metadados_barras) <-
    coleta_metadados esforcos_por_hipotese estruturas_por_hipotese ;;
  let metadados_barras := marcar_montantes_em_extremidades metadados_barras in
  let ids_ligacao_necessaria :=
    identificar_montantes_com_ligacao metadados_barras esforcos_por_hipotese in
  let ids_ligacao_necessaria :=
    expandir_ligacoes_montantes_simetricos metadados_barras
      ids_ligacao_necessaria 1e-3 in
  (* steps 2 to 5 *)
  '((esforcos_por_hipotese, resultado_final), _) <-
    for_each tipos_por_barra ((esforcos_por_hipotese, []), None)
      (dimensiona_barra metadados_barras) ;;
  let barras_sem_perfil :=
    filter
      (fun b : string * resultado_barra =>
         String.eqb (rb_perfil_escolhido (snd b)) "NENHUM")
      resultado_final in
  match barras_sem_perfil with
  | _ :: _ =>
      if interromper_se_inviavel
      then Raise (ValueError "Dimensionamento inviavel!")
      else Ok None
  | [] =>
      metadados_barras <- atualiza_metadados metadados_barras resultado_final ;;
      (* step 6 *)
      ligacoes_forcadas <-
        otimizar_ligacoes metadados_barras esforcos_por_hipotese ;;
      if existsb (fun il : string * ligacao => negb (lig_viavel_ou_true (snd il)))
           ligacoes_forcadas
      then
        if interromper_se_inviavel
        then Raise (ValueError "Pelo menos uma ligação de montante ficou inviável.")
        else Ok None
      else
        resultado_final <-
          injeta_ligacoes metadados_barras ligacoes_forcadas resultado_final ;;
        (* step 7-1 *)
        resultado_final <- igualar_perfis resultado_final ;;
        (* step 7-2 *)
        reforco <-
          reforco_iterativo metadados_barras ids_ligacao_necessaria
            (mk_estado_reforco resultado_final ligacoes_forcadas []) ;;
        match reforco with
        | None => Ok None
        | Some st =>
            conclui_dimensionamento metadados_barras esforcos_por_hipotese
              tipos_por_barra ids_ligacao_necessaria st
        end
  end.

End dimensionar_barras.

(** The entry point: the default of [diametros_furos], then the body. *)
Definition dimensionar_barras (ordem_conjunto : list string -> list string)
  (sort_values : tabela_perfis -> tabela_perfis)
  (esforcos_por_hipotese : esforcos_t)
  (estruturas_por_hipotese : list (string * metadados_t))
  (df_montantes df_diagonais_horizontais : tabela_perfis)
  (df_materiais : tabela_materiais) (df_perfis : tabela_perfis)
  (coef_minoracao : float) (diametros_furos : option (list (string * float)))
  (descontos_area_liquida limite_parafusos planos_cisalhamento
     : option (list (string * Z)))
  (fatores_esmagamento : option (list float))
  (interromper_se_inviavel : bool) : res saida_dimensionamento :=
  let diametros_furos :=
    match diametros_furos with
    | Some d => d
    | None =>
        [("montante", 1.59%float); ("diagonal", 1.59%float);
         ("horizontal", 1.59%float)]
    end in
  dimensionar_barras_corpo ordem_conjunto sort_values
    estruturas_por_hipotese df_montantes
    df_diagonais_horizontais df_materiais df_perfis coef_minoracao
    diametros_furos descontos_area_liquida limite_parafusos
    planos_cisalhamento fatores_esmagamento interromper_se_inviavel
    esforcos_por_hipotese.

(* ===================================================================== *)
(** * Example data *)
(* ===================================================================== *)

(** A one-row profile table, a material table with the steel of the profile
    and of the bolts, and the per-class limits of the default configuration,
    used to run the definitions above on concrete inputs. *)

Definition perfil_exemplo : perfil :=
  mk_perfil "L 50x50x5" 4.8 1.5 0.98 5.0 0.5 0.6 3.0 3.77
    (Some 1.6%float) (Some "OK!") "A572-50" 4 2.

Definition materiais_exemplo : tabela_materiais :=
  [("A572-50", mk_material 3515 4570 0); ("A394", mk_material 0 0 3200)].

Definition diametros_exemplo : list (string * float) :=
  [("montante", 1.59%float); ("diagonal", 1.59%float);
   ("horizontal", 1.59%float)].

Definition limite_parafusos_exemplo : option (list (string * Z)) :=
  Some [("montante", 20); ("diagonal", 2); ("horizontal", 2)].

Definition planos_exemplo : option (list (string * Z)) :=
  Some [("montante", 1); ("diagonal", 1); ("horizontal", 1)].

Definition fatores_exemplo : option (list float) :=
  Some [FATOR_ESMAGAMENTO_PADRAO; 1.25%float].

(** A leg connection under 5000 kgf on the example profile, the thickness
    a Python float and the bolt stress a cell of the material table. *)
Definition ligacao_exemplo (espessura_aba : float) : res dados_ligacao :=
  dimensionar_ligacao 5000 "montante_esq" (Some "L 50x50x5") Python
    espessura_aba diametros_exemplo Numpy 3200 (Some 4570%float)
    limite_parafusos_exemplo planos_exemplo fatores_exemplo [perfil_exemplo]
    0.9.

(** A diagonal of the given length with no other attribute set. *)
Definition diagonal_exemplo (comprimento : float) : metadados_barra :=
  mk_metadados_barra "diagonal" comprimento (Some 60%float) None None
    (Some 0%float) (Some 100%float) None None None None None.

(** One load case with one diagonal of 10 m in tension: no profile of the
    table passes the slenderness limit. *)
Definition dimensionamento_exemplo (interromper : bool)
  : res saida_dimensionamento :=
  dimensionar_barras (fun l => l) sort_values_area
    [("H1", [("1", 500%float)])] [("H1", [("1", diagonal_exemplo 1000)])]
    [perfil_exemplo] [perfil_exemplo] materiais_exemplo [perfil_exemplo]
    0.9 None None limite_parafusos_exemplo planos_exemplo fatores_exemplo
    interromper.

(** The example profile with a zero minimum radius of gyration. *)
Definition perfil_degenerado : perfil :=
  mk_perfil "L 50x50x5" 4.8 1.5 0 5.0 0.5 0.6 3.0 3.77
    (Some 1.6%float) (Some "OK!") "A572-50" 4 2.

(** A diagonal of 1 m on the degenerate profile, given as a [dict] or a
    row of [iterrows()], under 500 kgf of compression. *)
Definition axial_degenerado : res verificacao_axial :=
  calcula_tensao_axial_admissivel materiais_exemplo Python perfil_degenerado
    (-500) "diagonal" 100 0.9 1.59 MODULO_ELASTICIDADE_ACO false false None.

(** The admissible shear force of the designer for the default coefficient,
    the bolt of the example configuration and the shear stress of the A394
    bolt steel. *)
Definition cisalhamento_exemplo (planos n : Z) : res float :=
  area <- lig_area_parafuso "montante" diametros_exemplo ;;
  forca_adm_cisalhamento_de 0.9 n area 3200 planos.

(** [true] when the example shear force is defined and strictly larger at
    [n + 1] than at [n]. *)
Definition cisalhamento_cresce (planos n : Z) : bool :=
  match cisalhamento_exemplo planos n, cisalhamento_exemplo planos (n + 1) with
  | Ok f, Ok g => (f <? g)%float
  | _, _ => false
  end.

(** The reinforcement loop started on a bar that requires a connection and
    was never sized: every cycle reports a failing member. *)
Definition reforco_exemplo (interromper : bool)
  : res (option estado_reforco) :=
  reforco_iterativo sort_values_area materiais_exemplo [perfil_exemplo] 0.9
    diametros_exemplo None limite_parafusos_exemplo planos_exemplo fatores_exemplo interromper
    [] ["9"] (mk_estado_reforco [] [] []).

(** A second, larger leg profile and the leg table of the two. *)
Definition perfil_maior : perfil :=
  mk_perfil "L 75x75x6" 8.7 2.3 1.48 7.5 0.6 0.8 8.4 6.87
    (Some 1.6%float) (Some "OK!") "A572-50" 4 2.

Definition montantes_exemplo : tabela_perfis := [perfil_exemplo; perfil_maior].

(** A leg of module 1, 1 m long, with one hypothesis of 1000 kgf of
    compression, sized with the given profile. *)
Definition hipotese_montante_exemplo (perfil_nome : string) : dados_hipotese :=
  mk_dados_hipotese (Some compressao) true None None None None None None None
    None None None None None perfil_nome (-1000) "montante_esq" 0 None None
    (Some 1) 100 (Some 100%float) false None None None.

Definition barra_exemplo (perfil_nome : string) : resultado_barra :=
  mk_resultado_barra "H1" "H1" perfil_nome false "hip_0_t" "H1"
    [("H1", hipotese_montante_exemplo perfil_nome)] None None.

Definition resultados_exemplo : resultados_t :=
  [("1", barra_exemplo "L 50x50x5"); ("2", barra_exemplo "L 75x75x6")].

Definition igualacao_exemplo (resultados : resultados_t) : res resultados_t :=
  igualar_perfis_montantes_por_modulo montantes_exemplo materiais_exemplo 0.9
    diametros_exemplo None resultados.

(** The example profile with a zero flange thickness, followed in the
    table by the larger profile. *)
Definition perfil_sem_espessura : perfil :=
  mk_perfil "L 50x50x5" 4.8 1.5 0.98 5.0 0 0.6 3.0 3.77
    (Some 1.6%float) (Some "OK!") "A572-50" 4 2.

Definition montantes_sem_espessura : tabela_perfis :=
  [perfil_sem_espessura; perfil_maior].

(** The example profile with a zero radius of gyration about x, and the
    equalisation against a leg table that holds only this row. *)
Definition perfil_sem_raio : perfil :=
  mk_perfil "L 50x50x5" 4.8 0 0.98 5.0 0.5 0.6 3.0 3.77
    (Some 1.6%float) (Some "OK!") "A572-50" 4 2.

Definition igualacao_sem_raio (resultados : resultados_t) : res resultados_t :=
  igualar_perfis_montantes_por_modulo [perfil_sem_raio] materiais_exemplo 0.9
    diametros_exemplo None resultados.

(** Three legs of one module: leg 1 spans the module, legs 2 and 3 are its
    lower and upper halves on the other face, so that leg 1 is in the base
    group with leg 2 and in the top group with leg 3. *)
Definition montante_exemplo (tipo : string) (y_min y_max : float)
  : metadados_barra :=
  mk_metadados_barra tipo (y_max - y_min) (Some 90%float) None (Some 1)
    (Some y_min) (Some y_max) None None None (Some "L 50x50x5") None.

Definition metadados_sobrepostos : metadados_t :=
  marcar_montantes_em_extremidades
    [("1", montante_exemplo "montante_esq" 0 1000);
     ("2", montante_exemplo "montante_dir" 0 500);
     ("3", montante_exemplo "montante_dir" 500 1000)].

Definition esforcos_sobrepostos : esforcos_t :=
  [("H1", [("1", 2000%float); ("2", 20000%float); ("3", 3000%float)])].

Definition otimizacao_exemplo (ordem_conjunto : list string -> list string)
  : res ligacoes_t :=
  otimizar_ligacoes_montantes_extremidades ordem_conjunto
    metadados_sobrepostos esforcos_sobrepostos materiais_exemplo
    diametros_exemplo limite_parafusos_exemplo planos_exemplo fatores_exemplo
    [perfil_exemplo] 0.9.

(** One leg of 1 m with 8000 kgf of tension in hypothesis T and 7000 kgf
    of compression in hypothesis C, sized on the example profile. *)
Definition metadados_montante_exemplo : metadados_t :=
  [("1", mk_metadados_barra "montante_esq" 100 (Some 90%float) None (Some 1)
           (Some 0%float) (Some 100%float) None None None None None)].

Definition esforcos_montante_exemplo : esforcos_t :=
  [("T", [("1", 8000%float)]); ("C", [("1", (-7000)%float)])].

Definition dimensionamento_montante_exemplo : res saida_dimensionamento :=
  dimensionar_barras (fun l => l) sort_values_area esforcos_montante_exemplo
    [("T", metadados_montante_exemplo); ("C", metadados_montante_exemplo)]
    [perfil_exemplo] [perfil_exemplo] materiais_exemplo [perfil_exemplo]
    0.9 None None limite_parafusos_exemplo planos_exemplo fatores_exemplo
    true.

(* ===================================================================== *)
(** * Properties *)
(* ===================================================================== *)

Local Open Scope list_scope.

(** ** Order of binary64 numbers *)

(** Order facts on binary64, from the specification of the primitives. *)

Lemma cmp_lex_lt_trans (e1 e2 e3 : Z) (m1 m2 m3 : positive) :
  match e1 ?= e2 with Lt => Lt | Gt => Gt | Eq => Pos.compare_cont Eq m1 m2 end = Lt ->
  match e2 ?= e3 with Lt => Lt | Gt => Gt | Eq => Pos.compare_cont Eq m2 m3 end = Lt ->
  match e1 ?= e3 with Lt => Lt | Gt => Gt | Eq => Pos.compare_cont Eq m1 m3 end = Lt.
Proof.
  change (Pos.compare_cont Eq m1 m2) with (Pos.compare m1 m2).
  change (Pos.compare_cont Eq m2 m3) with (Pos.compare m2 m3).
  change (Pos.compare_cont Eq m1 m3) with (Pos.compare m1 m3).
  destruct (Z.compare_spec e1 e2), (Z.compare_spec e2 e3); try discriminate;
    subst; intros H1 H2.
  - rewrite Z.compare_refl. rewrite Pos.compare_lt_iff in *. lia.
  - destruct (Z.compare_spec e2 e3); try lia. reflexivity.
  - destruct (Z.compare_spec e1 e3); try lia. reflexivity.
  - destruct (Z.compare_spec e1 e3); try lia. reflexivity.
Qed.

Lemma cmp_lex_gt_trans (e1 e2 e3 : Z) (m1 m2 m3 : positive) :
  match e1 ?= e2 with Lt => Gt | Gt => Lt | Eq => CompOpp (Pos.compare_cont Eq m1 m2) end = Lt ->
  match e2 ?= e3 with Lt => Gt | Gt => Lt | Eq => CompOpp (Pos.compare_cont Eq m2 m3) end = Lt ->
  match e1 ?= e3 with Lt => Gt | Gt => Lt | Eq => CompOpp (Pos.compare_cont Eq m1 m3) end = Lt.
Proof.
  change (Pos.compare_cont Eq m1 m2) with (Pos.compare m1 m2).
  change (Pos.compare_cont Eq m2 m3) with (Pos.compare m2 m3).
  change (Pos.compare_cont Eq m1 m3) with (Pos.compare m1 m3).
  destruct (Z.compare_spec e1 e2), (Z.compare_spec e2 e3); try discriminate;
    subst; intros H1 H2.
  - rewrite Z.compare_refl.
    destruct (Pos.compare_spec m1 m2), (Pos.compare_spec m2 m3); try discriminate.
    destruct (Pos.compare_spec m1 m3); try lia. reflexivity.
  - destruct (Z.compare_spec e2 e3); try lia. reflexivity.
  - destruct (Z.compare_spec e1 e3); try lia. reflexivity.
  - destruct (Z.compare_spec e1 e3); try lia. reflexivity.
Qed.

Lemma SFcompare_lt_trans (a b c : spec_float) :
  SFcompare a b = Some Lt -> SFcompare b c = Some Lt -> SFcompare a c = Some Lt.
Proof.
  destruct a as [sa|sa| |sa ma ea], b as [sb|sb| |sb mb eb],
    c as [sc|sc| |sc mc ec]; simpl; try discriminate;
    try (destruct sa, sb, sc; (discriminate || reflexivity)).
  all: try (destruct sa, sb; (discriminate || reflexivity)).
  all: try (destruct sa, sc; (discriminate || reflexivity)).
  all: try (destruct sb, sc; (discriminate || reflexivity)).
  all: try (destruct sa; (discriminate || reflexivity)).
  all: try (destruct sb; (discriminate || reflexivity)).
  all: try (destruct sc; (discriminate || reflexivity)).
  all: destruct sa, sb, sc; try discriminate; try reflexivity.
  all: intros H1 H2; injection H1 as H1; injection H2 as H2; f_equal.
  - eapply cmp_lex_gt_trans; eassumption.
  - eapply cmp_lex_lt_trans; eassumption.
Qed.

Lemma SFcompare_lt_gt (a b : spec_float) :
  SFcompare a b = Some Lt -> SFcompare b a = Some Gt.
Proof.
  destruct a as [sa|sa| |sa ma ea], b as [sb|sb| |sb mb eb]; simpl;
    try discriminate; try (destruct sa, sb; (discriminate || reflexivity));
    try (destruct sa; (discriminate || reflexivity));
    try (destruct sb; (discriminate || reflexivity)).
  change (Pos.compare_cont Eq ma mb) with (Pos.compare ma mb).
  change (Pos.compare_cont Eq mb ma) with (Pos.compare mb ma).
  rewrite (Z.compare_antisym ea eb), (Pos.compare_antisym ma mb).
  destruct sa, sb; try discriminate; try reflexivity;
    destruct (ea ?= eb); simpl; try discriminate; try reflexivity;
    destruct (ma ?= mb)%positive; simpl; try discriminate; reflexivity.
Qed.

Lemma SFcompare_eq_lt (a b c : spec_float) :
  SFcompare a b = Some Eq -> SFcompare b c = Some Lt -> SFcompare a c = Some Lt.
Proof.
  destruct a as [sa|sa| |sa ma ea], b as [sb|sb| |sb mb eb]; simpl;
    try discriminate; try (destruct sa, sb; discriminate);
    try (destruct sa; discriminate); try (destruct sb; discriminate).
  - intros _. destruct c; simpl; auto.
  - destruct sa, sb; try discriminate; intros _; destruct c; simpl; auto.
  - change (Pos.compare_cont Eq ma mb) with (Pos.compare ma mb).
    intros H.
    assert (sa = sb /\ ea = eb /\ ma = mb) as (-> & -> & ->).
    { destruct sa, sb; try discriminate; injection H as H;
        destruct (Z.compare_spec ea eb); try discriminate;
        destruct (Pos.compare_spec ma mb); try discriminate; auto. }
    auto.
Qed.

Lemma flt_trans (a b c : float) :
  (a <? b)%float = true -> (b <? c)%float = true -> (a <? c)%float = true.
Proof.
  rewrite !ltb_spec. unfold SFltb.
  destruct (SFcompare (Prim2SF a) (Prim2SF b)) as [[]|] eqn:H1; try discriminate.
  destruct (SFcompare (Prim2SF b) (Prim2SF c)) as [[]|] eqn:H2; try discriminate.
  now rewrite (SFcompare_lt_trans _ _ _ H1 H2).
Qed.

Lemma flt_asym (a b : float) :
  (a <? b)%float = true -> (b <? a)%float = false.
Proof.
  rewrite !ltb_spec. unfold SFltb.
  destruct (SFcompare (Prim2SF a) (Prim2SF b)) as [[]|] eqn:H1; try discriminate.
  now rewrite (SFcompare_lt_gt _ _ H1).
Qed.

Lemma flt_not_leb (a b : float) :
  (a <? b)%float = true -> (b <=? a)%float = false.
Proof.
  rewrite ltb_spec, leb_spec. unfold SFltb, SFleb.
  destruct (SFcompare (Prim2SF a) (Prim2SF b)) as [[]|] eqn:H1; try discriminate.
  now rewrite (SFcompare_lt_gt _ _ H1).
Qed.

Lemma fle_flt_trans (a b c : float) :
  (a <=? b)%float = true -> (b <? c)%float = true -> (a <? c)%float = true.
Proof.
  rewrite leb_spec, !ltb_spec. unfold SFltb, SFleb.
  destruct (SFcompare (Prim2SF a) (Prim2SF b)) as [[]|] eqn:H1; try discriminate;
  destruct (SFcompare (Prim2SF b) (Prim2SF c)) as [[]|] eqn:H2; try discriminate;
  intros _ _.
  - now rewrite (SFcompare_eq_lt _ _ _ H1 H2).
  - now rewrite (SFcompare_lt_trans _ _ _ H1 H2).
Qed.

Lemma SFcompare_lt_eq (a b c : spec_float) :
  SFcompare a b = Some Lt -> SFcompare b c = Some Eq -> SFcompare a c = Some Lt.
Proof.
  intros H1 H2. revert H1.
  destruct b as [sb|sb| |sb mb eb], c as [sc|sc| |sc mc ec]; simpl in H2;
    try discriminate; try (destruct sb, sc; discriminate);
    try (destruct sb; discriminate); try (destruct sc; discriminate).
  - destruct a; simpl; auto.
  - destruct sb, sc; try discriminate; destruct a; simpl; auto.
  - change (Pos.compare_cont Eq mb mc) with (Pos.compare mb mc) in H2.
    assert (sb = sc /\ eb = ec /\ mb = mc) as (-> & -> & ->).
    { destruct sb, sc; try discriminate; injection H2 as H2;
        destruct (Z.compare_spec eb ec); try discriminate;
        destruct (Pos.compare_spec mb mc); try discriminate; auto. }
    auto.
Qed.

Lemma SFcompare_eq_eq (a b c : spec_float) :
  SFcompare a b = Some Eq -> SFcompare b c = Some Eq -> SFcompare a c = Some Eq.
Proof.
  intros H1 H2. revert H1.
  destruct b as [sb|sb| |sb mb eb], c as [sc|sc| |sc mc ec]; simpl in H2;
    try discriminate; try (destruct sb, sc; discriminate);
    try (destruct sb; discriminate); try (destruct sc; discriminate).
  - destruct a; simpl; auto.
  - destruct sb, sc; try discriminate; destruct a; simpl; auto.
  - change (Pos.compare_cont Eq mb mc) with (Pos.compare mb mc) in H2.
    assert (sb = sc /\ eb = ec /\ mb = mc) as (-> & -> & ->).
    { destruct sb, sc; try discriminate; injection H2 as H2;
        destruct (Z.compare_spec eb ec); try discriminate;
        destruct (Pos.compare_spec mb mc); try discriminate; auto. }
    auto.
Qed.

Lemma fle_trans (a b c : float) :
  (a <=? b)%float = true -> (b <=? c)%float = true -> (a <=? c)%float = true.
Proof.
  rewrite !leb_spec. unfold SFleb.
  destruct (SFcompare (Prim2SF a) (Prim2SF b)) as [[]|] eqn:H1; try discriminate;
  destruct (SFcompare (Prim2SF b) (Prim2SF c)) as [[]|] eqn:H2; try discriminate;
  intros _ _.
  - now rewrite (SFcompare_eq_eq _ _ _ H1 H2).
  - now rewrite (SFcompare_eq_lt _ _ _ H1 H2).
  - now rewrite (SFcompare_lt_eq _ _ _ H1 H2).
  - now rewrite (SFcompare_lt_trans _ _ _ H1 H2).
Qed.

(** The comparison read the other way round. *)
Lemma SFcompare_antisym (a b : spec_float) :
  SFcompare b a = option_map CompOpp (SFcompare a b).
Proof.
  destruct a as [sa|sa| |sa ma ea], b as [sb|sb| |sb mb eb]; simpl;
    try reflexivity; try (destruct sa, sb; reflexivity);
    try (destruct sa; reflexivity); try (destruct sb; reflexivity).
  change (Pos.compare_cont Eq ma mb) with (Pos.compare ma mb).
  change (Pos.compare_cont Eq mb ma) with (Pos.compare mb ma).
  rewrite (Z.compare_antisym ea eb), (Pos.compare_antisym ma mb).
  destruct sa, sb; try reflexivity;
    destruct (ea ?= eb); simpl; try reflexivity;
    destruct (ma ?= mb)%positive; reflexivity.
Qed.

Lemma SFcompare_none (a b : spec_float) :
  SFcompare a b = None -> a = S754_nan \/ b = S754_nan.
Proof.
  destruct a as [sa|sa| |sa ma ea], b as [sb|sb| |sb mb eb]; simpl; auto;
    try discriminate; try (destruct sa, sb; discriminate);
    try (destruct sa; discriminate); try (destruct sb; discriminate).
Qed.

Lemma nao_nan (a : float) : is_nan a = false -> Prim2SF a <> S754_nan.
Proof.
  unfold is_nan. rewrite eqb_spec. intros H E. rewrite E in H.
  discriminate H.
Qed.

Lemma flt_fle (a b : float) :
  (a <? b)%float = true -> (a <=? b)%float = true.
Proof.
  rewrite ltb_spec, leb_spec. unfold SFltb, SFleb.
  destruct (SFcompare (Prim2SF a) (Prim2SF b)) as [[]|]; congruence.
Qed.

(** Numbers that are not [nan] are totally ordered. *)
Lemma fle_total (a b : float) :
  is_nan a = false -> is_nan b = false ->
  (a <? b)%float = false -> (b <=? a)%float = true.
Proof.
  intros Ha Hb. rewrite ltb_spec, leb_spec. unfold SFltb, SFleb.
  rewrite (SFcompare_antisym (Prim2SF a) (Prim2SF b)).
  destruct (SFcompare (Prim2SF a) (Prim2SF b)) as [[]|] eqn:E; simpl;
    try congruence.
  destruct (SFcompare_none _ _ E) as [H|H];
    [now destruct (nao_nan a Ha) | now destruct (nao_nan b Hb)].
Qed.

Lemma flt_de_nan (a b : float) :
  is_nan a = true \/ is_nan b = true -> (a <? b)%float = false.
Proof.
  unfold is_nan. rewrite !eqb_spec, ltb_spec. unfold SFeqb, SFltb.
  intros [H|H]; apply negb_true_iff in H.
  - destruct (Prim2SF a) as [sa|sa| |sa ma ea]; simpl in *;
      try discriminate; try (destruct sa; discriminate); [reflexivity|].
    rewrite Z.compare_refl in H.
    change (Pos.compare_cont Eq ma ma) with (Pos.compare ma ma) in H.
    rewrite Pos.compare_refl in H. destruct sa; discriminate.
  - destruct (Prim2SF b) as [sb|sb| |sb mb eb]; simpl in *;
      try discriminate; try (destruct sb; discriminate);
      [destruct (Prim2SF a); reflexivity|].
    rewrite Z.compare_refl in H.
    change (Pos.compare_cont Eq mb mb) with (Pos.compare mb mb) in H.
    rewrite Pos.compare_refl in H. destruct sb; discriminate.
Qed.

(** ** Axial capacity *)

Lemma bind_ok {A B} (c : res A) (k : A -> res B) (b : B) :
  bind c k = Ok b -> exists a, c = Ok a /\ k a = Ok b.
Proof. destruct c; simpl; try discriminate. eauto. Qed.

Lemma solicitacao_eqb_compressao s :
  solicitacao_eqb s compressao = true <-> s = compressao.
Proof. destruct s; simpl; split; congruence. Qed.

(** A quotient that is computed is the binary64 quotient, whatever the
    kind of the operands; a divisor that is not zero always gives one. *)
Lemma divide_ok num (a b x : float) :
  divide num a b = Ok x -> x = (a / b)%float.
Proof.
  destruct num; simpl; [|congruence].
  unfold py_div. destruct (b =? 0)%float; congruence.
Qed.

Lemma divide_de_truthy num (a b : float) :
  truthy b = true -> divide num a b = Ok (a / b)%float.
Proof.
  unfold truthy. intros H. apply negb_true_iff in H.
  destruct num; simpl; [|reflexivity]. unfold py_div. now rewrite H.
Qed.

Lemma esbeltez_corrigida_acima_de_375 num tipo_barra comprimento raio :
  truthy raio = true ->
  (375 <? esbeltez_real_de comprimento raio)%float = true ->
  exists ec,
    calcular_esbeltez_corrigida num tipo_barra comprimento raio = Ok ec
    /\ (200 <? ec)%float = true.
Proof.
  unfold esbeltez_real_de, calcular_esbeltez_corrigida.
  intros Hr. rewrite Hr, (divide_de_truthy _ _ _ Hr). cbn [bind].
  intros H.
  assert (H200 : (200 <? comprimento / raio)%float = true).
  { apply (flt_trans 200 375); [reflexivity | exact H]. }
  destruct (e_montante tipo_barra); [eauto|].
  destruct (comprimento / raio <=? 120)%float eqn:Hle; [|eauto].
  exfalso.
  assert (Hlt : (comprimento / raio <? 375)%float = true).
  { apply (fle_flt_trans _ 120); [exact Hle | reflexivity]. }
  apply flt_asym in Hlt. congruence.
Qed.

(** What the capacity blocks return: never the infeasible record, and a
    utilisation that is the guarded quotient. *)
Lemma capacidade_axial_taxa num dados_perfil forca_axial tipo_barra
  comprimento coef d E desc sol ct raio fy num_fy v :
  capacidade_axial num dados_perfil forca_axial tipo_barra comprimento coef d
    E desc sol ct raio fy num_fy = Ok v ->
  exists fadm, va_forca_axial_admissivel v = Some fadm
    /\ va_taxa_trabalho v = Some (taxa_de_trabalho forca_axial fadm).
Proof.
  unfold capacidade_axial. intros H.
  apply bind_ok in H as (ae & _ & H).
  destruct sol.
  - injection H as <-. simpl. eauto.
  - apply bind_ok in H as (ec & _ & H).
    apply bind_ok in H as ([fyc nc] & _ & H).
    apply bind_ok in H as ([fa na] & _ & H).
    injection H as <-. simpl. eauto.
Qed.

(** C7 (calcula_tensao_axial_admissivel), the claim as it stands fails:
    a leg of 10 m in compression on the example profile has a real
    slenderness above 150, yet with a material table that lacks the steel
    of the profile the call raises [KeyError], as the docstring of
    [obter_fy] says, instead of returning the infeasible record; and a
    diagonal in tension on a [dict] row with a zero radius of gyration, the
    tension limit enabled and the compression check forced, has the real
    slenderness 9999 above 375, yet the call raises [ZeroDivisionError]. *)
Lemma calcula_tensao_axial_admissivel_sem_registo_inviavel :
  ((150 <? esbeltez_real_de 1000
             (raio_de_giracao "montante" perfil_exemplo))%float = true /\
   calcula_tensao_axial_admissivel [] Python perfil_exemplo (-500) "montante"
     1000 0.9 1.59 MODULO_ELASTICIDADE_ACO false false None
   = Raise (KeyError "A572-50")) /\
  ((375 <? esbeltez_real_de 100
             (raio_de_giracao "diagonal" perfil_degenerado))%float = true /\
   calcula_tensao_axial_admissivel materiais_exemplo Python perfil_degenerado
     500 "diagonal" 100 0.9 1.59 MODULO_ELASTICIDADE_ACO true true None
   = Raise ZeroDivisionError).
Proof. repeat split; vm_compute; reflexivity. Qed.



(** ** Connection designer *)

Lemma in_py_range a b n : In n (py_range a b) <-> a <= n < b.
Proof.
  unfold py_range. rewrite in_map_iff. split.
  - intros (i & <- & Hi). apply in_seq in Hi. lia.
  - intros H. exists (Z.to_nat (n - a)). split; [lia|].
    apply in_seq. lia.
Qed.

Lemma py_pow2_ok (x y : float) : py_pow2 x = Ok y -> y = (x * x)%float.
Proof. unfold py_pow2. destruct (_ && _); congruence. Qed.

Section ligacao_viavel.
Variables (forca_axial : float) (tipo_barra : string)
  (perfil_nome : option string) (num_espessura : origem)
  (espessura_aba : float) (diametros_furos : list (string * float))
  (num_fv : origem) (fv_parafuso : float) (fu_peca : option float)
  (limite_parafusos planos_cisalhamento : option (list (string * Z)))
  (fatores_esmagamento : option (list float)) (df_perfis : tabela_perfis)
  (coef_minoracao : float).

Local Abbreviation testa_fator' :=
  (testa_fator forca_axial tipo_barra num_espessura espessura_aba
    diametros_furos num_fv fu_peca coef_minoracao).
Local Abbreviation laco_fatores' :=
  (laco_fatores forca_axial tipo_barra num_espessura espessura_aba
    diametros_furos num_fv fu_peca coef_minoracao).
Local Abbreviation testa_np' :=
  (testa_np forca_axial tipo_barra num_espessura espessura_aba diametros_furos
    num_fv fv_parafuso fu_peca fatores_esmagamento coef_minoracao).
Local Abbreviation laco_parafusos' :=
  (laco_parafusos forca_axial tipo_barra num_espessura espessura_aba
    diametros_furos num_fv fv_parafuso fu_peca fatores_esmagamento
    coef_minoracao).
Local Abbreviation avalia_par' :=
  (avalia_par forca_axial tipo_barra num_espessura espessura_aba
    diametros_furos num_fv fv_parafuso fu_peca coef_minoracao).

(** The three checks on a pair, in binary64: the force does not exceed the
    admissible shear force; the bearing stress does not exceed the
    admissible one; the larger of the two rates is at most 1. *)
Local Abbreviation cisalhamento area npf pf :=
  (coef_minoracao * npf * area * fv_parafuso * pf)%float.
Local Abbreviation contato npf :=
  (npf * lig_d_furo tipo_barra diametros_furos * espessura_aba)%float.
Local Abbreviation esmagamento fp fu := (coef_minoracao * fp * fu)%float.
Local Abbreviation taxa area npf pf fp fu :=
  (py_max (PrimFloat.div (abs forca_axial) (cisalhamento area npf pf))
     (PrimFloat.div (PrimFloat.div (abs forca_axial) (contato npf))
        (esmagamento fp fu))).
Local Abbreviation passa area npf pf fp fu :=
  (negb (PrimFloat.ltb (cisalhamento area npf pf) (abs forca_axial))
   && PrimFloat.leb (PrimFloat.div (abs forca_axial) (contato npf))
        (esmagamento fp fu)
   && PrimFloat.leb (taxa area npf pf fp fu) 1.0%float).

(** What the body of the inner loop returns is a feasible record for this
    very pair: the bearing check passed and the utilisation, the larger of
    the shear and bearing rates, is at most 1. *)
Lemma testa_fator_aceita n fc area planos fp lig :
  testa_fator' n fc area planos fp = Ok (Some lig) ->
  exists fu npf,
    fu_peca = Some fu /\ float_of_int n = Ok npf /\
    (abs forca_axial / contato npf <=? esmagamento fp fu)%float = true /\
    lig = ligacao_aceita tipo_barra diametros_furos coef_minoracao n fp fc
            (esmagamento fp fu * contato npf)%float
            (py_max (abs forca_axial / fc)
               (abs forca_axial / contato npf / esmagamento fp fu))%float
            area planos /\
    (tx_lig lig <=? 1.0)%float = true.
Proof.
  unfold testa_fator. intros H.
  apply bind_ok in H as (fu & Hfu & H).
  apply bind_ok in H as (npf & Hnpf & H).
  apply bind_ok in H as (ts & Hts & H).
  apply divide_ok in Hts. subst ts.
  destruct (_ <=? _)%float eqn:Hb; [|discriminate].
  apply bind_ok in H as (txc & Htxc & H).
  apply bind_ok in H as (txe & Htxe & H).
  apply divide_ok in Htxc, Htxe. subst txc txe.
  destruct (py_max _ _ <=? 1)%float eqn:Htx; [|discriminate].
  injection H as <-.
  destruct fu_peca as [fu'|]; [|discriminate]. injection Hfu as ->.
  exists fu, npf. repeat split; auto.
Qed.

Lemma testa_fator_rejeita n fc area planos fp :
  testa_fator' n fc area planos fp = Ok None ->
  exists fu npf,
    fu_peca = Some fu /\ float_of_int n = Ok npf /\
    (abs forca_axial / contato npf <=? esmagamento fp fu)%float
    && (py_max (abs forca_axial / fc)
          (abs forca_axial / contato npf / esmagamento fp fu) <=? 1.0)%float
    = false.
Proof.
  unfold testa_fator. intros H.
  apply bind_ok in H as (fu & Hfu & H).
  apply bind_ok in H as (npf & Hnpf & H).
  apply bind_ok in H as (ts & Hts & H).
  apply divide_ok in Hts. subst ts.
  destruct fu_peca as [fu'|]; [|discriminate]. injection Hfu as ->.
  exists fu, npf. split; [reflexivity|]. split; [exact Hnpf|].
  destruct (_ <=? _)%float eqn:Hb; [|reflexivity].
  apply bind_ok in H as (txc & Htxc & H).
  apply bind_ok in H as (txe & Htxe & H).
  apply divide_ok in Htxc, Htxe. subst txc txe.
  destruct (py_max _ _ <=? 1)%float eqn:Htx; [discriminate|reflexivity].
Qed.

Lemma laco_fatores_primeiro n fc area planos fatores lig :
  laco_fatores' n fc area planos fatores = Ok (Some lig) ->
  exists pre fp pos,
    fatores = pre ++ fp :: pos /\
    Forall (fun f => testa_fator' n fc area planos f = Ok None) pre /\
    testa_fator' n fc area planos fp = Ok (Some lig).
Proof.
  induction fatores as [|f fs IH]; simpl; [discriminate|].
  intros H. apply bind_ok in H as (r & Hr & H).
  destruct r as [l|].
  - injection H as ->. exists [], f, fs. auto.
  - destruct (IH H) as (pre & fp & pos & -> & Hpre & Hfp).
    exists (f :: pre), fp, pos. auto.
Qed.

Lemma laco_fatores_nenhum n fc area planos fatores :
  laco_fatores' n fc area planos fatores = Ok None ->
  Forall (fun f => testa_fator' n fc area planos f = Ok None) fatores.
Proof.
  induction fatores as [|f fs IH]; simpl; [constructor|].
  intros H. apply bind_ok in H as (r & Hr & H).
  destruct r; [discriminate|]. auto.
Qed.

(** A bolt count the outer loop passes over rejects every pair it heads. *)
Lemma testa_np_nenhum area planos n fatores :
  fatores_esmagamento = Some fatores ->
  testa_np' area planos n = Ok None ->
  Forall (fun p => avalia_par' area planos p = Ok None)
    (map (pair n) fatores).
Proof.
  unfold testa_np, avalia_par. intros Hf H.
  apply Forall_forall. intros p Hp. apply in_map_iff in Hp as (f & <- & Hin).
  cbn [fst snd].
  destruct (_ && _); [reflexivity|].
  apply bind_ok in H as (fc & -> & H). cbn [bind].
  destruct (fc <? abs forca_axial)%float; [reflexivity|].
  rewrite Hf in H. cbn [bind nao_none] in H.
  apply laco_fatores_nenhum in H. rewrite Forall_forall in H. now apply H.
Qed.

Lemma testa_np_aceita area planos n lig :
  testa_np' area planos n = Ok (Some lig) ->
  exists fatores pre fp pos,
    fatores_esmagamento = Some fatores /\
    fatores = pre ++ fp :: pos /\
    Forall (fun p => avalia_par' area planos p = Ok None) (map (pair n) pre) /\
    avalia_par' area planos (n, fp) = Ok (Some lig).
Proof.
  unfold testa_np, avalia_par. intros H.
  cbn [fst snd].
  destruct (_ && _) eqn:Hpar; [discriminate|].
  apply bind_ok in H as (fc & Hfc & H). rewrite Hfc. cbn [bind].
  destruct (fc <? abs forca_axial)%float eqn:Hsh; [discriminate|].
  destruct fatores_esmagamento as [fs|]; [|discriminate].
  cbn [bind nao_none] in H.
  apply laco_fatores_primeiro in H as (pre & fp & pos & -> & Hpre & Hfp).
  exists (pre ++ fp :: pos)%list, pre, fp, pos. repeat split; auto.
  apply Forall_forall. intros p Hp. apply in_map_iff in Hp as (f & <- & Hin).
  cbn [fst snd]. rewrite Hpar, Hfc. cbn [bind]. rewrite Hsh.
  rewrite Forall_forall in Hpre. now apply Hpre.
Qed.

Lemma laco_parafusos_primeira area planos nps lig :
  laco_parafusos' area planos nps = Ok lig ->
  ligacao_viavel lig = true ->
  exists fatores pre par pos,
    fatores_esmagamento = Some fatores /\
    combinacoes nps fatores = pre ++ par :: pos /\
    Forall (fun p => avalia_par' area planos p = Ok None) pre /\
    avalia_par' area planos par = Ok (Some lig).
Proof.
  induction nps as [|n ns IH]; simpl.
  - intros H Hv. injection H as <-. discriminate.
  - intros H Hv. apply bind_ok in H as (r & Hr & H).
    destruct r as [l|].
    + injection H as ->.
      apply testa_np_aceita in Hr as (fs & pre & fp & pos & Hfs & -> & Hpre & Hacc).
      exists (pre ++ fp :: pos)%list, (map (pair n) pre), (n, fp),
        (map (pair n) pos ++ combinacoes ns (pre ++ fp :: pos))%list.
      repeat split; auto.
      unfold combinacoes. simpl. rewrite map_app. simpl.
      now rewrite <- app_assoc.
    + destruct (IH H Hv) as (fs & pre & par & pos & Hfs & Hc & Hpre & Hacc).
      exists fs, (map (pair n) fs ++ pre)%list, par, pos.
      repeat split; auto.
      * unfold combinacoes in *. simpl. rewrite Hc. now rewrite <- app_assoc.
      * apply Forall_app. split; [|exact Hpre].
        now apply testa_np_nenhum.
Qed.

(** The pair the loops return passes the parity of a leg and the three
    checks, and the record holds the quantities of this pair. *)
Lemma avalia_par_aceita area planos par lig :
  avalia_par' area planos par = Ok (Some lig) ->
  exists fu npf pf,
    fu_peca = Some fu /\ float_of_int (fst par) = Ok npf /\
    float_of_int planos = Ok pf /\
    (tipo_base_de tipo_barra = "montante" -> fst par mod 2 = 0) /\
    passa area npf pf (snd par) fu = true /\
    lig = ligacao_aceita tipo_barra diametros_furos coef_minoracao (fst par)
            (snd par) (cisalhamento area npf pf)
            (esmagamento (snd par) fu * contato npf)%float
            (taxa area npf pf (snd par) fu) area planos.
Proof.
  unfold avalia_par. intros H.
  destruct (_ && _) eqn:Hpar; [discriminate|].
  apply bind_ok in H as (fc & Hfc & H).
  destruct (fc <? abs forca_axial)%float eqn:Hsh; [discriminate|].
  apply testa_fator_aceita in H as (fu & npf & Hfu & Hnpf & Hb & Hlig & Htx).
  unfold forca_adm_cisalhamento_de in Hfc. rewrite Hnpf in Hfc.
  cbn [bind] in Hfc. apply bind_ok in Hfc as (pf & Hpf & Hfc).
  injection Hfc as <-.
  exists fu, npf, pf. repeat split; auto.
  - intros Hm. unfold lig_tipo_base in Hpar. rewrite Hm in Hpar.
    cbn [String.eqb Ascii.eqb Bool.eqb andb] in Hpar.
    apply negb_false_iff in Hpar. now apply Z.eqb_eq.
  - rewrite Hsh, Hb. cbn [negb andb]. rewrite Hlig in Htx. exact Htx.
Qed.

(** A pair the loops pass over fails the parity of a leg or one of the
    three checks. *)
Lemma avalia_par_rejeitada area planos par :
  avalia_par' area planos par = Ok None ->
  (tipo_base_de tipo_barra = "montante" /\ fst par mod 2 <> 0) \/
  exists npf pf,
    float_of_int (fst par) = Ok npf /\ float_of_int planos = Ok pf /\
    forall fu, fu_peca = Some fu -> passa area npf pf (snd par) fu = false.
Proof.
  unfold avalia_par. intros H.
  destruct (_ && _) eqn:Hpar.
  { left. apply andb_true_iff in Hpar as [Hm Hodd].
    split; [now apply String.eqb_eq in Hm|].
    apply negb_true_iff, Z.eqb_neq in Hodd. exact Hodd. }
  right. apply bind_ok in H as (fc & Hfc & H).
  unfold forca_adm_cisalhamento_de in Hfc.
  apply bind_ok in Hfc as (npf & Hnpf & Hfc).
  apply bind_ok in Hfc as (pf & Hpf & Hfc). injection Hfc as <-.
  exists npf, pf. split; [exact Hnpf|]. split; [exact Hpf|].
  intros fu Hfu.
  destruct (_ <? abs forca_axial)%float eqn:Hsh; [reflexivity|].
  apply testa_fator_rejeita in H as (fu' & npf' & Hfu' & Hnpf' & Hrej).
  rewrite Hfu in Hfu'. injection Hfu' as <-.
  rewrite Hnpf in Hnpf'. injection Hnpf' as <-.
  cbn [negb andb]. exact Hrej.
Qed.

(** When the loops end without a [return] the record is the infeasible
    one: no bolt count, zero admissible forces, utilisation 999. *)
Lemma laco_parafusos_inviavel area planos nps lig :
  laco_parafusos' area planos nps = Ok lig ->
  ligacao_viavel lig = false ->
  lig = ligacao_inviavel tipo_barra diametros_furos coef_minoracao area planos.
Proof.
  induction nps as [|n ns IH]; simpl; intros H Hv.
  - now injection H as <-.
  - apply bind_ok in H as (r & Hr & H). destruct r as [l|]; [|auto].
    injection H as ->. exfalso.
    apply testa_np_aceita in Hr as (? & ? & ? & ? & _ & _ & _ & Hacc).
    apply avalia_par_aceita in Hacc as (? & ? & ? & _ & _ & _ & _ & _ & Hl).
    rewrite Hl in Hv. discriminate Hv.
Qed.

End ligacao_viavel.

Lemma np_min_de_casos tipo_base df_perfis perfil_nome np_min :
  np_min_de tipo_base df_perfis perfil_nome = Ok np_min ->
  (tipo_base <> "montante" -> np_min = 1) /\
  (tipo_base = "montante" ->
   exists nome, perfil_nome = Some nome /\
     match linhas_do_perfil df_perfis nome with
     | [] => np_min = 4
     | dados_perfil :: _ =>
         int_round (Np_min dados_perfil) = Ok np_min \/
         (np_min = 4 /\ exists e, int_round (Np_min dados_perfil) = Raise e)
     end).
Proof.
  unfold np_min_de. intros H.
  destruct (String.eqb_spec tipo_base "montante") as [Hm|Hm].
  - split; [contradiction|]. intros _.
    destruct perfil_nome as [nome|]; [|discriminate].
    exists nome. split; [reflexivity|].
    destruct (linhas_do_perfil df_perfis nome) as [|d ?].
    + now injection H as <-.
    + destruct (int_round (Np_min d)) as [n|e|].
      * left. exact H.
      * right. split; [|now exists e].
        destruct e; try discriminate; now injection H as <-.
      * discriminate.
  - split; [|contradiction]. intros _. now injection H as <-.
Qed.

Lemma combinacoes_in nps fatores pre n fp pos :
  combinacoes nps fatores = pre ++ (n, fp) :: pos -> In n nps /\ In fp fatores.
Proof.
  intros H.
  assert (Hin : In (n, fp) (combinacoes nps fatores))
    by (rewrite H; apply in_elt).
  unfold combinacoes in Hin. apply in_flat_map in Hin as (m & Hm & Hin).
  apply in_map_iff in Hin as (f & Heq & Hf). injection Heq as -> ->. auto.
Qed.

(** C3 (dimensionar_ligacao, feasible result).  Whenever the connection
    designer returns a feasible record, the record carries a bolt count [n]
    and a bearing factor [fp] such that: [n] lies between the minimum count
    of the bar class and the class maximum read from [limite_parafusos]; the
    minimum is 1 for diagonals and horizontals and, for a leg, the rounded
    "Np min" of the first table row of the profile, with 4 as fallback when
    the profile is not in the table or the rounding fails inside the [try];
    for a leg [n] is even; [(n, fp)] passes the three checks: the force does
    not exceed the admissible shear force coefficient x count x bolt area x
    shear stress x planes, the bearing stress force / (count x hole
    diameter x thickness) does not exceed coefficient x factor x fu, and the
    utilisation, the larger of force / admissible shear force and bearing
    stress / admissible bearing stress, is at most 1; the record holds these
    quantities; and [(n, fp)] is the first such pair, bolt counts ascending
    from the minimum to the maximum and bearing factors in list order: every
    earlier pair is an odd count of a leg or fails one of the three checks. *)
Theorem dimensionar_ligacao_viavel_primeira_combinacao :
  forall forca_axial tipo_barra perfil_nome num_espessura espessura_aba
    diametros_furos num_fv fv_parafuso fu_peca limite_parafusos
    planos_cisalhamento fatores_esmagamento df_perfis coef_minoracao lig,
  dimensionar_ligacao forca_axial tipo_barra perfil_nome num_espessura
    espessura_aba diametros_furos num_fv fv_parafuso fu_peca limite_parafusos
    planos_cisalhamento fatores_esmagamento df_perfis coef_minoracao = Ok lig ->
  ligacao_viavel lig = true ->
  let tipo_base := tipo_base_de tipo_barra in
  let diametro :=
    match sget diametros_furos tipo_base with
    | Some d => d
    | None => 1.59%float
    end in
  let area := (py_pi * (diametro / 2 * (diametro / 2)))%float in
  let cisalhamento (npf pf : float) :=
    (coef_minoracao * npf * area * fv_parafuso * pf)%float in
  let contato (npf : float) := (npf * diametro * espessura_aba)%float in
  let esmagamento (fp fu : float) := (coef_minoracao * fp * fu)%float in
  let taxa (npf pf fp fu : float) :=
    py_max (abs forca_axial / cisalhamento npf pf)%float
      (abs forca_axial / contato npf / esmagamento fp fu)%float in
  let passa (npf pf fp fu : float) :=
    negb (cisalhamento npf pf <? abs forca_axial)%float
    && (abs forca_axial / contato npf <=? esmagamento fp fu)%float
    && (taxa npf pf fp fu <=? 1.0)%float in
  exists limites np_max np_min fatores planos_d num_planos pf fu n npf fp
         pre pos,
    limite_parafusos = Some limites /\
    sget limites tipo_base = Some np_max /\
    planos_cisalhamento = Some planos_d /\
    sget planos_d tipo_base = Some num_planos /\
    float_of_int num_planos = Ok pf /\
    fatores_esmagamento = Some fatores /\
    fu_peca = Some fu /\
    np_min_de tipo_base df_perfis perfil_nome = Ok np_min /\
    (tipo_base <> "montante" -> np_min = 1) /\
    (tipo_base = "montante" ->
     n mod 2 = 0 /\
     exists nome, perfil_nome = Some nome /\
       match linhas_do_perfil df_perfis nome with
       | [] => np_min = 4
       | dados_perfil :: _ =>
           int_round (Np_min dados_perfil) = Ok np_min \/
           (np_min = 4 /\ exists e, int_round (Np_min dados_perfil) = Raise e)
       end) /\
    np lig = Some n /\ fator_fp lig = Some fp /\
    np_min <= n <= np_max /\ In fp fatores /\
    float_of_int n = Ok npf /\
    combinacoes (py_range np_min (np_max + 1)) fatores
      = pre ++ (n, fp) :: pos /\
    passa npf pf fp fu = true /\
    forca_adm_cisalhamento lig = cisalhamento npf pf /\
    forca_adm_esmagamento lig = (esmagamento fp fu * contato npf)%float /\
    tx_lig lig = taxa npf pf fp fu /\
    (tx_lig lig <=? 1.0)%float = true /\
    Forall (fun par : Z * float =>
              (tipo_base = "montante" /\ fst par mod 2 <> 0) \/
              exists npf',
                float_of_int (fst par) = Ok npf' /\
                passa npf' pf (snd par) fu = false) pre.
Proof.
  intros until lig. intros H Hv tipo_base diametro area cisalhamento contato
    esmagamento taxa passa.
  unfold dimensionar_ligacao in H.
  apply bind_ok in H as (area' & Harea & H).
  apply bind_ok in H as (limites & Hlim & H).
  apply bind_ok in H as (np_max & Hmax & H).
  apply bind_ok in H as (planos_d & Hpl & H).
  apply bind_ok in H as (num_planos & Hnum & H).
  apply bind_ok in H as (np_min & Hmin & H).
  assert (Ea : area' = area).
  { unfold lig_area_parafuso in Harea.
    apply bind_ok in Harea as (q & Hq & Harea). injection Harea as <-.
    apply py_pow2_ok in Hq. now subst q. }
  subst area'.
  unfold lig_tipo_base in Hmin, Hmax, Hnum. fold tipo_base in Hmin, Hmax, Hnum.
  destruct limite_parafusos as [lims|]; [|discriminate].
  injection Hlim as ->.
  destruct planos_cisalhamento as [pls|]; [|discriminate].
  injection Hpl as ->.
  unfold sitem in Hmax, Hnum.
  destruct (sget limites tipo_base) as [m|] eqn:Hget; [|discriminate].
  injection Hmax as ->.
  destruct (sget planos_d tipo_base) as [k|] eqn:Hgetp; [|discriminate].
  injection Hnum as ->.
  pose proof (laco_parafusos_primeira _ _ _ _ _ _ _ _ _ _ _ _ _ _ H Hv)
    as (fatores & pre & [n fp] & pos & Hfs & Hc & Hpre & Hacc).
  pose proof (avalia_par_aceita _ _ _ _ _ _ _ _ _ _ _ _ _ Hacc)
    as (fu & npf & pf & Hfu & Hnpf & Hpf & Hpar & Hpassa & Hlig).
  cbn [fst snd] in *.
  destruct (np_min_de_casos _ _ _ _ Hmin) as [Hnl Hl].
  destruct (combinacoes_in _ _ _ _ _ _ Hc) as [Hin Hinf].
  apply in_py_range in Hin.
  exists limites, np_max, np_min, fatores, planos_d, num_planos, pf, fu, n,
    npf, fp, pre, pos.
  assert (Htx : (tx_lig lig <=? 1.0)%float = true).
  { rewrite Hlig. cbn [tx_lig ligacao_aceita].
    apply andb_true_iff in Hpassa as [_ Htx]. exact Htx. }
  repeat match goal with |- _ /\ _ => split end; auto; try lia;
    try (rewrite Hlig; reflexivity).
  apply Forall_forall. intros par Hin'.
  rewrite Forall_forall in Hpre.
  destruct (avalia_par_rejeitada _ _ _ _ _ _ _ _ _ _ _ _ (Hpre par Hin'))
    as [Hodd | (npf' & pf' & Hnpf' & Hpf' & Hrej)]; [now left|].
  right. exists npf'. split; [exact Hnpf'|].
  rewrite Hpf in Hpf'. injection Hpf' as <-. now apply Hrej.
Qed.

(** The other outcome of a call that returns: the infeasible record, with
    no bolt count, zero admissible forces and utilisation 999. *)
Lemma dimensionar_ligacao_inviavel_registo :
  forall forca_axial tipo_barra perfil_nome num_espessura espessura_aba
    diametros_furos num_fv fv_parafuso fu_peca limite_parafusos
    planos_cisalhamento fatores_esmagamento df_perfis coef_minoracao lig,
  dimensionar_ligacao forca_axial tipo_barra perfil_nome num_espessura
    espessura_aba diametros_furos num_fv fv_parafuso fu_peca limite_parafusos
    planos_cisalhamento fatores_esmagamento df_perfis coef_minoracao = Ok lig ->
  ligacao_viavel lig = false ->
  np lig = None /\ fator_fp lig = None /\
  forca_adm_cisalhamento lig = 0%float /\
  forca_adm_esmagamento lig = 0%float /\ tx_lig lig = 999%float.
Proof.
  intros until lig. intros H Hv. unfold dimensionar_ligacao in H.
  apply bind_ok in H as (area & _ & H).
  apply bind_ok in H as (limites & _ & H).
  apply bind_ok in H as (np_max & _ & H).
  apply bind_ok in H as (planos_d & _ & H).
  apply bind_ok in H as (num_planos & _ & H).
  apply bind_ok in H as (np_min & _ & H).
  rewrite (laco_parafusos_inviavel _ _ _ _ _ _ _ _ _ _ _ _ _ _ H Hv).
  repeat split.
Qed.

Lemma dimensionar_ligacao_viavel_primeira_combinacao_witness :
  exists lig n,
    ligacao_exemplo 0.5 = Ok lig /\ ligacao_viavel lig = true /\
    np lig = Some n /\ n mod 2 = 0 /\ 4 <= n <= 20 /\
    (tx_lig lig <=? 1.0)%float = true.
Proof.
  destruct (ligacao_exemplo 0.5) as [lig| |] eqn:E;
    [|exfalso; vm_compute in E; discriminate E
     |exfalso; vm_compute in E; discriminate E].
  assert (Hv : ligacao_viavel lig = true).
  { vm_compute in E. injection E as <-. reflexivity. }
  destruct (dimensionar_ligacao_viavel_primeira_combinacao _ _ _ _ _ _ _ _ _
              _ _ _ _ _ lig E Hv)
    as (limites & np_max & np_min & fatores & planos_d & num_planos & pf & fu
        & n & npf & fp & pre & pos & Hl & Hg & _ & _ & _ & Hf & _ & Hmin & _
        & Hleg & Hn & _ & Hb & _ & _ & _ & _ & _ & _ & _ & Htx & _).
  exists lig, n.
  injection Hl as <-. vm_compute in Hg. injection Hg as <-.
  vm_compute in Hmin. injection Hmin as <-.
  repeat split; auto; try lia.
  apply Hleg. reflexivity.
Defined.

(** ** Inputs on which the code raises or drops a bar *)

(** C1 (dimensionar_barras, soft mode).  With [interromper_se_inviavel]
    false and a single diagonal for which neither critical hypothesis finds a
    profile, the entry point does not return the all-absent triple: the bar
    is skipped by the [continue] of stage 4, nothing records it as "NENHUM",
    and the run ends with three empty, present containers. *)
Theorem dimensionar_barras_barra_inviavel_nao_devolve_none :
  dimensionamento_exemplo false = Ok (Some ([], [], [])) /\
  dimensionamento_exemplo false <> Ok None.
Proof.
  assert (H : dimensionamento_exemplo false = Ok (Some ([], [], [])))
    by (vm_compute; reflexivity).
  split; [exact H|]. rewrite H. discriminate.
Qed.

(** C2 (dimensionar_ligacao never raises).  With a zero flange thickness,
    the value the end-connection optimizer passes when the metadata lack
    ["t"], the first bolt count that passes the shear check divides by a zero
    contact area: the call raises [ZeroDivisionError] and returns no record,
    feasible or not. *)
Theorem dimensionar_ligacao_espessura_nula_levanta :
  ligacao_exemplo 0 = Raise ZeroDivisionError.
Proof. vm_compute. reflexivity. Qed.

(** The general shape of the failure of the axial evaluator: a bar that is
    not a leg, checked in compression, on a row of Python floats with a
    radius of gyration equal to zero. *)
Lemma calcula_tensao_axial_admissivel_raio_nulo
  df_materiais dados_perfil forca_axial tipo_barra comprimento_efetivo
  coef_minoracao diametro_furo modulo_elasticidade limitar forcar descontos
  fy_nominal :
  obter_fy dados_perfil df_materiais = Ok fy_nominal ->
  e_montante tipo_barra = false ->
  solicitacao_de forca_axial = compressao \/ forcar = true ->
  (raio_de_giracao tipo_barra dados_perfil =? 0)%float = true ->
  calcula_tensao_axial_admissivel df_materiais Python dados_perfil
    forca_axial tipo_barra comprimento_efetivo coef_minoracao diametro_furo
    modulo_elasticidade limitar forcar descontos = Raise ZeroDivisionError.
Proof.
  intros Hfy Hm Hsol Hr.
  unfold calcula_tensao_axial_admissivel. rewrite Hfy. cbn [bind].
  unfold reprovada_por_esbeltez.
  assert (Hc : (solicitacao_eqb (solicitacao_de forca_axial) compressao
                || forcar)%bool = true).
  { destruct Hsol as [-> | ->]; [reflexivity|apply orb_true_r]. }
  rewrite Hc, Hm.
  unfold calcular_esbeltez_corrigida, divide, py_div. rewrite Hr.
  reflexivity.
Qed.

(** C10 (calcula_tensao_axial_admissivel, degenerate geometry).  For a
    diagonal in compression whose profile has a zero radius of gyration the
    guarded slenderness is the sentinel 9999, yet the corrected slenderness
    of block 2 divides by the radius without a guard: the evaluator raises
    [ZeroDivisionError]. *)
Theorem calcula_tensao_axial_admissivel_raio_nulo_levanta :
  truthy (raio_de_giracao "diagonal" perfil_degenerado) = false /\
  esbeltez_real_de 100
    (raio_de_giracao "diagonal" perfil_degenerado) = 9999%float /\
  axial_degenerado = Raise ZeroDivisionError.
Proof.
  split; [reflexivity|]. split; [reflexivity|].
  unfold axial_degenerado.
  apply calcula_tensao_axial_admissivel_raio_nulo with (fy_nominal := 3515%float);
    try reflexivity.
  left. reflexivity.
Qed.

(** ** Admissible shear force against the bolt count *)


Lemma forca_exata_crescente coef area fv planos n :
  (0 < coef)%Q -> (0 < area)%Q -> (0 < fv)%Q -> 0 < planos ->
  (forca_adm_cisalhamento_exata coef n area fv planos
   < forca_adm_cisalhamento_exata coef (n + 1) area fv planos)%Q.
Proof.
  intros Hc Ha Hf Hp. unfold forca_adm_cisalhamento_exata.
  assert (Hpl : (0 < inject_Z planos)%Q)
    by (change 0%Q with (inject_Z 0); now rewrite <- Zlt_Qlt).
  apply Qmult_lt_compat_r; [exact Hpl|].
  apply Qmult_lt_compat_r; [exact Hf|].
  apply Qmult_lt_compat_r; [exact Ha|].
  rewrite !(Qmult_comm coef).
  apply Qmult_lt_compat_r; [exact Hc|].
  rewrite <- Zlt_Qlt. lia.
Qed.



(** ** Reinforcement loop *)

Section laco_de_reforco.

Variables (sort_values : tabela_perfis -> tabela_perfis)
  (df_materiais : tabela_materiais) (df_perfis : tabela_perfis)
  (coef_minoracao : float) (diametros_furos : list (string * float))
  (descontos_area_liquida limite_parafusos planos_cisalhamento
     : option (list (string * Z)))
  (fatores_esmagamento : option (list float))
  (interromper_se_inviavel : bool)
  (metadados_barras : metadados_t) (ids_ligacao_necessaria : list string).

Local Abbreviation ciclo :=
  (ciclo_reforco sort_values df_materiais df_perfis coef_minoracao diametros_furos
    descontos_area_liquida limite_parafusos planos_cisalhamento
    fatores_esmagamento interromper_se_inviavel metadados_barras
    ids_ligacao_necessaria).
Local Abbreviation laco :=
  (laco_reforco sort_values df_materiais df_perfis coef_minoracao diametros_furos
    descontos_area_liquida limite_parafusos planos_cisalhamento
    fatores_esmagamento interromper_se_inviavel metadados_barras
    ids_ligacao_necessaria).
Local Abbreviation falhos :=
  (ciclos_falhos sort_values df_materiais df_perfis coef_minoracao diametros_furos
    descontos_area_liquida limite_parafusos planos_cisalhamento
    fatores_esmagamento interromper_se_inviavel metadados_barras
    ids_ligacao_necessaria).

(** The loop over any list of attempts, started with [c] cycles already
    counted, ends in one of three ways: a cycle with no failing member after
    [k] failed ones, all attempts failed, or a cycle that does not return. *)
Lemma laco_reforco_desfecho (tentativas : list Z) : forall st c,
  let n := List.length tentativas in
  let r := laco tentativas st c in
  (exists k st1 st', (k < n)%nat /\ falhos k st st1 /\
     ciclo st1 = Ok (st', true) /\ r = Ok (Convergiu st', (c + S k)%nat)) \/
  (exists st', falhos n st st' /\ r = Ok (Esgotou, (c + n)%nat)) \/
  (exists k st1, (k < n)%nat /\ falhos k st st1 /\
     (forall x, ciclo st1 <> Ok x) /\
     r = bind (ciclo st1) (fun _ => Ok (Esgotou, 0%nat))).
Proof.
  induction tentativas as [|t ts IH]; intros st c; cbn zeta.
  - right. left. exists st. split; [constructor|].
    simpl. now rewrite Nat.add_0_r.
  - cbn [List.length laco_reforco].
    destruct (ciclo st) as [[st1 ok]|e|] eqn:Hc.
    + cbn [bind]. destruct ok.
      * left. exists 0%nat, st, st1.
        split; [lia|]. split; [constructor|]. split; [exact Hc|].
        do 2 f_equal. lia.
      * destruct (IH st1 (S c)) as [(k & s1 & s' & Hk & Hf & Hs & Hr)
                                   |[(s' & Hf & Hr)|(k & s1 & Hk & Hf & Hn & Hr)]].
        -- left. exists (S k), s1, s'.
           split; [lia|]. split; [econstructor; eassumption|].
           split; [exact Hs|]. rewrite Hr. do 2 f_equal. lia.
        -- right. left. exists s'. split; [econstructor; eassumption|].
           rewrite Hr. do 2 f_equal. lia.
        -- right. right. exists (S k), s1.
           split; [lia|]. split; [econstructor; eassumption|].
           split; [exact Hn | exact Hr].
    + right. right. exists 0%nat, st.
      split; [lia|]. split; [constructor|]. rewrite Hc.
      split; [discriminate | reflexivity].
    + right. right. exists 0%nat, st.
      split; [lia|]. split; [constructor|]. rewrite Hc.
      split; [discriminate | reflexivity].
Qed.


End laco_de_reforco.

(** The loop on a bar that was never sized: ten failed cycles, then the
    exception with hard stop and the all-absent result without it. *)
Lemma reforco_exemplo_esgota :
  reforco_exemplo true
    = Raise (ValueError "Reforço de ligação não convergiu em 10 ciclos.") /\
  reforco_exemplo false = Ok None.
Proof. split; vm_compute; reflexivity. Qed.

(** C4, the claim as it stands fails: with hard stop, the loop that ran
    its ten cycles without convergence raises a plain [ValueError]; the code
    defines no exception class of its own, and none named
    [ReinforcementNotConvergedError]. *)
Lemma reforco_iterativo_levanta_value_error :
  exists e,
    reforco_exemplo true = Raise e /\
    nome_da_classe e = "ValueError" /\
    nome_da_classe e <> "ReinforcementNotConvergedError".
Proof.
  exists (ValueError "Reforço de ligação não convergiu em 10 ciclos.").
  split; [vm_compute; reflexivity|]. split; [reflexivity | discriminate].
Qed.

(** ** Equalisation of the leg profiles of a module *)

(** *** Dictionaries *)

Lemma sget_sset {V} (d : list (string * V)) k v k' :
  sget (sset d k v) k' = if String.eqb k' k then Some v else sget d k'.
Proof.
  unfold sget, sset. induction d as [|[k0 v0] d IH]; simpl.
  - destruct (String.eqb k' k); reflexivity.
  - destruct (String.eqb_spec k k0) as [->|Hk]; simpl.
    + destruct (String.eqb k' k0); reflexivity.
    + rewrite IH. destruct (String.eqb_spec k' k0) as [->|Hk'];
        [|reflexivity].
      destruct (String.eqb_spec k0 k); [congruence|reflexivity].
Qed.

Lemma sset_mesmo {V} (d : list (string * V)) k v :
  sget d k = Some v -> sset d k v = d.
Proof.
  unfold sget, sset. induction d as [|[k0 v0] d IH]; simpl; [discriminate|].
  destruct (String.eqb k k0); intros H.
  - now injection H as ->.
  - now rewrite IH.
Qed.

Lemma chaves_sset {V} (d : list (string * V)) k r v :
  sget d k = Some r -> map fst (sset d k v) = map fst d.
Proof.
  unfold sget, sset. induction d as [|[k0 v0] d IH]; simpl; [discriminate|].
  destruct (String.eqb k k0); intros H; simpl; [reflexivity|].
  now rewrite IH.
Qed.

Lemma sget_in_chaves {V} (d : list (string * V)) k v :
  sget d k = Some v -> In k (map fst d).
Proof.
  unfold sget. induction d as [|[k0 v0] d IH]; simpl; [discriminate|].
  destruct (String.eqb_spec k k0) as [->|Hk]; auto.
Qed.

Lemma in_sget {V} (d : list (string * V)) k v :
  NoDup (map fst d) -> In (k, v) d -> sget d k = Some v.
Proof.
  unfold sget. induction d as [|[k0 v0] d IH]; simpl; [contradiction|].
  intros Hnd [H|H].
  - injection H as -> ->. now rewrite String.eqb_refl.
  - inversion Hnd; subst.
    destruct (String.eqb_spec k k0) as [->|Hk]; [|auto].
    exfalso. apply H2. change k0 with (fst (k0, v)). now apply in_map.
Qed.

(** *** A loop that rewrites the entries of the listed keys *)

Section laco_pontual.
Context {V : Type} (f : V -> res V).

Local Abbreviation corpo :=
  (fun (acc : list (string * V)) (id : string) =>
     bind (sitem acc id)
       (fun r => bind (f r) (fun r' => Ok (sset acc id r')))).

Lemma laco_pontual_resultado (lista : list string) :
  NoDup lista -> forall acc acc',
  for_each lista acc corpo = Ok acc' ->
  map fst acc' = map fst acc /\
  (forall id, ~ In id lista -> sget acc' id = sget acc id) /\
  (forall id, In id lista ->
     exists r r', sget acc id = Some r /\ f r = Ok r' /\
       sget acc' id = Some r').
Proof.
  induction 1 as [|x l Hx Hnd IH]; intros acc acc' H; simpl in H.
  - injection H as <-. repeat split; auto. intros id [].
  - apply bind_ok in H as (acc1 & H1 & H).
    apply bind_ok in H1 as (r & Hr & H1).
    apply bind_ok in H1 as (r' & Hf & H1). injection H1 as <-.
    unfold sitem in Hr. destruct (sget acc x) as [r0|] eqn:Hg; [|discriminate].
    injection Hr as ->.
    destruct (IH _ _ H) as (Hk & Hfr & Hin).
    split; [|split].
    + rewrite Hk. eapply chaves_sset; eassumption.
    + intros id Hn. rewrite Hfr by (intros ?; apply Hn; now right).
      rewrite sget_sset. destruct (String.eqb_spec id x) as [->|]; auto.
      exfalso. apply Hn. now left.
    + intros id [<-|Hid].
      * exists r, r'. repeat split; auto.
        rewrite Hfr by exact Hx. rewrite sget_sset.
        now rewrite String.eqb_refl.
      * destruct (Hin id Hid) as (r1 & r1' & Hg1 & Hf1 & Hg1').
        exists r1, r1'. repeat split; auto.
        rewrite sget_sset in Hg1.
        destruct (String.eqb_spec id x) as [->|]; [contradiction|exact Hg1].
Qed.

Lemma laco_pontual_fixo (lista : list string) (acc : list (string * V)) :
  (forall id, In id lista -> exists r, sget acc id = Some r /\ f r = Ok r) ->
  for_each lista acc corpo = Ok acc.
Proof.
  induction lista as [|x l IH]; intros H; simpl; [reflexivity|].
  destruct (H x (or_introl eq_refl)) as (r & Hg & Hf).
  unfold sitem. rewrite Hg. cbn [bind]. rewrite Hf. cbn [bind].
  rewrite (sset_mesmo _ _ _ Hg). apply IH. intros id Hid. apply H. now right.
Qed.

End laco_pontual.

(** *** [max] with a key *)

Lemma flt_irrefl (a : float) : (a <? a)%float = false.
Proof.
  destruct (a <? a)%float eqn:E; [|reflexivity].
  now rewrite (flt_asym _ _ E) in E.
Qed.

Lemma py_max_by_in {A} (key : A -> float) (l : list A) : forall cur,
  In (py_max_by key cur l) (cur :: l).
Proof.
  induction l as [|x l IH]; intros cur; simpl; [auto|].
  destruct (IH (if (key cur <? key x)%float then x else cur)) as [H|H];
    [|auto].
  rewrite <- H. destruct (key cur <? key x)%float; auto.
Qed.

Lemma py_max_by_maior {A} (key : A -> float) (l : list A) : forall cur,
  (forall y, (key cur <? key y)%float = false -> 
     (key (py_max_by key cur l) <? key y)%float = false) /\
  (forall x, In x l -> (key (py_max_by key cur l) <? key x)%float = false).
Proof.
  induction l as [|x l IH]; intros cur; simpl.
  - split; [auto|intros ? []].
  - destruct (key cur <? key x)%float eqn:E.
    + destruct (IH x) as [Hk Hl]. split.
      * intros y Hy. apply Hk.
        destruct (key x <? key y)%float eqn:E2; [|reflexivity].
        now rewrite (flt_trans _ _ _ E E2) in Hy.
      * intros z [<-|Hz]; [apply Hk, flt_irrefl|now apply Hl].
    + destruct (IH cur) as [Hk Hl]. split.
      * exact Hk.
      * intros z [<-|Hz]; [now apply Hk|now apply Hl].
Qed.

Lemma py_max_by_nao_menor {A} (key : A -> float) cur (l : list A) x :
  In x (cur :: l) -> (key (py_max_by key cur l) <? key x)%float = false.
Proof.
  destruct (py_max_by_maior key l cur) as [Hk Hl].
  intros [<-|H]; [apply Hk, flt_irrefl|now apply Hl].
Qed.

Lemma py_max_by_constante {A} (key : A -> float) cur (l : list A) :
  (forall x, In x l -> x = cur) -> py_max_by key cur l = cur.
Proof.
  induction l as [|x l IH]; intros H; simpl; [reflexivity|].
  rewrite (H x (or_introl eq_refl)), flt_irrefl. apply IH.
  intros y Hy. apply H. now right.
Qed.

(** *** Re-verification against the final profile *)

Section igualacao.

Variables (df_montantes : tabela_perfis) (df_materiais : tabela_materiais)
  (coef_minoracao : float) (diametros_furos : list (string * float))
  (descontos_area_liquida : option (list (string * Z))).

Local Abbreviation reverifica_h :=
  (reverificar_hipotese df_materiais coef_minoracao diametros_furos
     descontos_area_liquida).
Local Abbreviation reverifica :=
  (reverificar_barra df_materiais coef_minoracao diametros_furos
     descontos_area_liquida).
Local Abbreviation areas := (perfis_areas_de df_montantes).
Local Abbreviation iguala_modulo :=
  (igualar_modulo df_montantes df_materiais coef_minoracao diametros_furos
     descontos_area_liquida).
Local Abbreviation iguala :=
  (igualar_perfis_montantes_por_modulo df_montantes df_materiais
     coef_minoracao diametros_furos descontos_area_liquida).

(** The slenderness of a leg on a row of [numpy.float64] cells is the
    binary64 quotient, an infinity or [nan] for a zero radius. *)
Lemma esbeltez_de_montante_numpy (c r : float) :
  calcular_esbeltez_corrigida Numpy "montante" c r = Ok (c / r)%float.
Proof. reflexivity. Qed.

Lemma reverificar_hipotese_campos linha P h h' :
  reverifica_h linha P h = Ok h' ->
  h_perfil_escolhido h' = P /\ h_tipo h' = h_tipo h /\
  h_modulo h' = h_modulo h /\ h_area_bruta h' = Some (A_cm2 linha) /\
  reverifica_h linha P h' = Ok h'.
Proof.
  unfold reverificar_hipotese. intros H.
  apply bind_ok in H as (c & Hc & H).
  apply bind_ok in H as (nd & Hnd & H).
  rewrite esbeltez_de_montante_numpy in H. cbn [bind] in H.
  injection H as <-.
  cbn [com_perfil_igualado com_axial h_perfil_escolhido h_tipo h_modulo
       h_area_bruta h_forca_axial h_comprimento_destravado].
  repeat split. rewrite Hc. cbn [bind]. rewrite Hnd. cbn [bind].
  rewrite esbeltez_de_montante_numpy. reflexivity.
Qed.

(** What step 3 writes for one hypothesis: the axial evaluation of the final
    row under the hypothesis' own force, type and unbraced length, then the
    four keys of the final profile. *)
Lemma reverificar_hipotese_explicita linha P h h' :
  reverifica_h linha P h = Ok h' ->
  exists comprimento novos_dados,
    h_comprimento_destravado h = Some comprimento /\
    calcula_tensao_axial_admissivel df_materiais Numpy linha
      (h_forca_axial h) (h_tipo h) comprimento coef_minoracao
      match sget diametros_furos "montante" with
      | Some d => d
      | None => 1.59%float
      end
      MODULO_ELASTICIDADE_ACO (0 <? h_forca_axial h)%float
      (h_forca_axial h <? 0)%float descontos_area_liquida = Ok novos_dados /\
    h' = com_perfil_igualado (com_axial h novos_dados) P (rx_cm linha)
           (A_cm2 linha) (comprimento / rx_cm linha)%float.
Proof.
  unfold reverificar_hipotese. intros H.
  apply bind_ok in H as (c & Hc & H).
  apply bind_ok in H as (nd & Hnd & H).
  rewrite esbeltez_de_montante_numpy in H. cbn [bind] in H.
  injection H as <-.
  destruct (h_comprimento_destravado h) as [c0|]; [|discriminate].
  injection Hc as ->. exists c, nd. repeat split. exact Hnd.
Qed.

Lemma map_res_ok {A B} (g : A -> res B) (l : list A) (l' : list B) :
  map_res g l = Ok l' -> Forall2 (fun x y => g x = Ok y) l l'.
Proof.
  revert l'. induction l as [|x l IH]; intros l' H; simpl in H.
  - injection H as <-. constructor.
  - apply bind_ok in H as (y & Hy & H). apply bind_ok in H as (ys & Hys & H).
    injection H as <-. constructor; auto.
Qed.

Lemma map_res_de_forall2 {A B} (g : A -> res B) (l : list A) (l' : list B) :
  Forall2 (fun x y => g x = Ok y) l l' -> map_res g l = Ok l'.
Proof.
  induction 1 as [|x y l l' Hxy _ IH]; simpl; [reflexivity|].
  rewrite Hxy. cbn [bind]. rewrite IH. reflexivity.
Qed.

Lemma map_res_ext {A B} (g g' : A -> res B) (l : list A) :
  (forall x, In x l -> g x = g' x) -> map_res g l = map_res g' l.
Proof.
  induction l as [|x l IH]; intros H; simpl; [reflexivity|].
  rewrite (H x (or_introl eq_refl)), IH; [reflexivity|].
  intros y Hy. apply H. now right.
Qed.

Lemma reverificar_barra_campos linha P r r' :
  reverifica linha P r = Ok r' ->
  rb_perfil_escolhido r' = P /\
  modulo_do_montante (rb_hipoteses r') = modulo_do_montante (rb_hipoteses r) /\
  Forall2 (fun nh nh' => fst nh' = fst nh /\
             reverifica_h linha P (snd nh) = Ok (snd nh'))
    (rb_hipoteses r) (rb_hipoteses r') /\
  reverifica linha P r' = Ok r'.
Proof.
  unfold reverificar_barra. intros H.
  apply bind_ok in H as (hs & Hhs & H). injection H as <-. cbn.
  apply map_res_ok in Hhs.
  split; [reflexivity|].
  assert (Hmod : modulo_do_montante hs = modulo_do_montante (rb_hipoteses r)
          /\ Forall2 (fun nh nh' => fst nh' = fst nh /\
               reverifica_h linha P (snd nh) = Ok (snd nh'))
               (rb_hipoteses r) hs
          /\ Forall2 (fun nh nh' =>
               bind (reverifica_h linha P (snd nh))
                 (fun h' => Ok (fst nh, h')) = Ok nh') hs hs).
  { induction Hhs as [|[n h] [n' h'] l l' Hx _ IH].
    - repeat split; constructor.
    - apply bind_ok in Hx as (h1 & Hh & Hx). cbn [fst snd] in *.
      injection Hx as <- <-.
      destruct (reverificar_hipotese_campos _ _ _ _ Hh)
        as (_ & Ht & Hm & _ & Hfix).
      destruct IH as (IH1 & IH2 & IH3).
      split; [|split].
      + simpl. rewrite Ht, Hm, IH1. reflexivity.
      + constructor; auto.
      + constructor; [|exact IH3]. cbn [fst snd]. now rewrite Hfix. }
  destruct Hmod as (Hm & Hf & Hfix).
  split; [exact Hm|]. split; [exact Hf|].
  rewrite (map_res_de_forall2 _ _ _ Hfix). reflexivity.
Qed.

(** *** The list [perfis_areas] *)

Lemma perfis_areas_de_ext (a b : resultados_t) (lista : list string) :
  (forall id, In id lista -> sget a id = sget b id) ->
  areas a lista = areas b lista.
Proof.
  intros H. unfold perfis_areas_de. f_equal.
  apply map_res_ext. intros id Hid. unfold sitem. now rewrite (H id Hid).
Qed.

Lemma perfis_areas_de_in (rs : resultados_t) (lista : list string) pas p :
  areas rs lista = Ok pas -> In p pas ->
  exists id r linha resto,
    In id lista /\ sget rs id = Some r /\ snd p = rb_perfil_escolhido r /\
    linhas_do_perfil df_montantes (snd p) = linha :: resto /\
    fst p = A_cm2 linha.
Proof.
  unfold perfis_areas_de. intros H Hp.
  apply bind_ok in H as (pares & Hpares & H). injection H as <-.
  apply in_flat_map in Hp as (o & Ho & Hp).
  destruct o as [q|]; [|contradiction]. destruct Hp as [<-|[]].
  apply map_res_ok in Hpares.
  induction Hpares as [|id o l l' Hx _ IH]; [contradiction|].
  destruct Ho as [->|Ho].
  - apply bind_ok in Hx as (r & Hr & Hx).
    unfold sitem in Hr. destruct (sget rs id) as [r0|] eqn:Hg; [|discriminate].
    injection Hr as ->.
    destruct (linhas_do_perfil df_montantes (rb_perfil_escolhido r))
      as [|linha resto] eqn:Hl; [discriminate|].
    injection Hx as <-. cbn [fst snd]. exists id, r, linha, resto.
    repeat split; auto. now left.
  - destruct (IH Ho) as (id' & r & linha & resto & Hin & Hrest).
    exists id', r, linha, resto. split; [now right|exact Hrest].
Qed.

(** Every bar whose profile is in the leg table is in [perfis_areas], with
    the gross area of the first row of its profile. *)
Lemma perfis_areas_de_completo (rs : resultados_t) (lista : list string) pas
  id r linha resto :
  areas rs lista = Ok pas -> In id lista -> sget rs id = Some r ->
  linhas_do_perfil df_montantes (rb_perfil_escolhido r) = linha :: resto ->
  In (A_cm2 linha, rb_perfil_escolhido r) pas.
Proof.
  unfold perfis_areas_de. intros H Hid Hg Hl.
  apply bind_ok in H as (pares & Hpares & H). injection H as <-.
  apply in_flat_map. exists (Some (A_cm2 linha, rb_perfil_escolhido r)).
  split; [|now left].
  apply map_res_ok in Hpares.
  induction Hpares as [|id' o l l' Hx _ IH]; [contradiction|].
  destruct Hid as [->|Hid]; [|right; now apply IH].
  left. unfold sitem in Hx. rewrite Hg in Hx. cbn [bind] in Hx.
  rewrite Hl in Hx. now injection Hx as <-.
Qed.

Lemma perfis_areas_de_igualado (rs : resultados_t) (lista : list string)
  P linha resto :
  linhas_do_perfil df_montantes P = linha :: resto ->
  (forall id, In id lista ->
     exists r, sget rs id = Some r /\ rb_perfil_escolhido r = P) ->
  areas rs lista = Ok (map (fun _ => (A_cm2 linha, P)) lista).
Proof.
  intros Hl H. unfold perfis_areas_de.
  assert (Hm : map_res
            (fun id_barra =>
               bind (sitem rs id_barra) (fun r =>
                 match linhas_do_perfil df_montantes (rb_perfil_escolhido r)
                 with
                 | [] => Ok None
                 | linha :: _ =>
                     Ok (Some (A_cm2 linha, rb_perfil_escolhido r))
                 end)) lista
          = Ok (map (fun _ => Some (A_cm2 linha, P)) lista)).
  { induction lista as [|id l IH]; [reflexivity|]. cbn [map_res map].
    destruct (H id (or_introl eq_refl)) as (r & Hg & Hp).
    replace (sitem rs id) with (Ok r) by (unfold sitem; now rewrite Hg).
    cbn [bind]. rewrite Hp, Hl. cbn [bind].
    rewrite IH; [reflexivity|]. intros y Hy. apply H. now right. }
  rewrite Hm. cbn [bind]. f_equal.
  clear. induction lista as [|id l IH]; [reflexivity|]. simpl. now rewrite IH.
Qed.

Local Abbreviation igualado :=
  (modulo_igualado df_montantes df_materiais coef_minoracao diametros_furos
     descontos_area_liquida).

(** *** One module *)

Lemma igualar_modulo_resultado (acc acc' : resultados_t) lista :
  NoDup lista -> iguala_modulo acc lista = Ok acc' ->
  map fst acc' = map fst acc /\
  (forall id, ~ In id lista -> sget acc' id = sget acc id) /\
  igualado acc acc' lista.
Proof.
  intros Hnd H. unfold igualar_modulo in H.
  apply bind_ok in H as (pas & Hpas & H).
  destruct pas as [|pa resto].
  - injection H as <-. repeat split; auto.
    exists []. split; [exact Hpas|]. auto.
  - apply bind_ok in H as (linha & Hl & H).
    destruct (laco_pontual_resultado _ lista Hnd _ _ H) as (Hk & Hfr & Hin).
    repeat split; auto.
    exists (pa :: resto). split; [exact Hpas|]. cbn zeta.
    exists linha. split; [exact Hl|exact Hin].
Qed.

Lemma igualado_ext (a a' b b' : resultados_t) lista :
  (forall id, In id lista -> sget a' id = sget a id) ->
  (forall id, In id lista -> sget b' id = sget b id) ->
  igualado a b lista -> igualado a' b' lista.
Proof.
  intros Ha Hb (pas & Hpas & H). exists pas. split.
  - rewrite <- Hpas. now apply perfis_areas_de_ext.
  - destruct pas as [|pa resto].
    + intros id Hid. rewrite Ha, Hb by exact Hid. now apply H.
    + cbn zeta in *. destruct H as (linha & Hl & H). exists linha.
      split; [exact Hl|]. intros id Hid.
      destruct (H id Hid) as (r & r' & H1 & H2 & H3).
      exists r, r'. rewrite Ha, Hb by exact Hid. auto.
Qed.

(** A module that is already equalised is left as it is. *)
Lemma igualar_modulo_fixo (rs rs' : resultados_t) lista :
  igualado rs rs' lista -> iguala_modulo rs' lista = Ok rs'.
Proof.
  intros (pas & Hpas & H). unfold igualar_modulo.
  destruct pas as [|pa resto].
  - rewrite (perfis_areas_de_ext rs' rs lista H), Hpas. reflexivity.
  - cbn zeta in H. destruct H as (linha & Hl & H).
    set (P := snd (py_max_by fst pa resto)) in *.
    destruct (linhas_do_perfil df_montantes P) as [|l0 lr] eqn:HP;
      [discriminate|]. injection Hl as ->.
    rewrite (perfis_areas_de_igualado rs' lista P linha lr HP).
    2:{ intros id Hid. destruct (H id Hid) as (r & r' & _ & Hr & Hg).
        exists r'. split; [exact Hg|].
        now destruct (reverificar_barra_campos _ _ _ _ Hr). }
    destruct lista as [|id0 l].
    { destruct (perfis_areas_de_in rs [] _ (py_max_by fst pa resto) Hpas
                  (py_max_by_in _ _ _)) as (? & ? & ? & ? & [] & _). }
    cbn [bind map].
    rewrite py_max_by_constante.
    2:{ intros x Hx. apply in_map_iff in Hx as (? & <- & _). reflexivity. }
    cbn [snd]. rewrite HP. cbn [iloc0 bind].
    apply laco_pontual_fixo. intros id Hid.
    destruct (H id Hid) as (r & r' & _ & Hr & Hg).
    exists r'. split; [exact Hg|].
    now destruct (reverificar_barra_campos _ _ _ _ Hr) as (_ & _ & _ & ?).
Qed.

(** *** All modules *)

Lemma igualar_grupos_resultado (G : list (Z * list string)) :
  NoDup (List.concat (map snd G)) -> forall acc acc',
  for_each G acc (fun res_atual g => iguala_modulo res_atual (snd g))
    = Ok acc' ->
  map fst acc' = map fst acc /\
  (forall id, ~ In id (List.concat (map snd G)) -> sget acc' id = sget acc id) /\
  Forall (fun g => igualado acc acc' (snd g)) G.
Proof.
  induction G as [|[m lista] G IH]; intros Hnd acc acc' H; simpl in H.
  - injection H as <-. repeat split; auto.
  - apply bind_ok in H as (acc1 & H1 & H). cbn [snd] in H1.
    cbn [map List.concat snd] in Hnd.
    pose proof (NoDup_app_remove_r _ _ Hnd) as Hl.
    pose proof (NoDup_app_remove_l _ _ Hnd) as HG.
    assert (Hdisj : forall id, In id lista ->
              ~ In id (List.concat (map snd G))).
    { intros id Hi Hc. revert Hnd Hi Hc. clear.
      induction lista as [|x l IHl]; simpl; [contradiction|].
      intros Hnd [->|Hi] Hc.
      - inversion Hnd; subst. apply H1. apply in_or_app. now right.
      - inversion Hnd; subst. now apply IHl. }
    destruct (igualar_modulo_resultado _ _ _ Hl H1) as (Hk1 & Hf1 & Hi1).
    destruct (IH HG _ _ H) as (Hk & Hf & Hi).
    split; [congruence|]. split.
    + intros id Hn. cbn [map List.concat snd] in Hn.
      rewrite Hf by (intros ?; apply Hn, in_or_app; now right).
      apply Hf1. intros ?; apply Hn, in_or_app; now left.
    + constructor.
      * cbn [snd]. apply (igualado_ext acc acc acc1 acc');
          [reflexivity | | exact Hi1].
        intros id Hid. apply Hf. now apply Hdisj.
      * rewrite Forall_forall in Hi |- *. intros g Hg.
        apply (igualado_ext acc1 acc acc' acc');
          [ | reflexivity | now apply Hi].
        intros id Hid. symmetry. apply Hf1. intros Hc.
        apply (Hdisj id Hc). apply in_concat. exists (snd g).
        split; [now apply in_map|exact Hid].
Qed.

Lemma igualar_grupos_fixo (G : list (Z * list string)) (rs : resultados_t) :
  Forall (fun g => iguala_modulo rs (snd g) = Ok rs) G ->
  for_each G rs (fun res_atual g => iguala_modulo res_atual (snd g)) = Ok rs.
Proof.
  induction 1 as [|g G Hg _ IH]; simpl; [reflexivity|].
  rewrite Hg. exact IH.
Qed.

End igualacao.

(** *** The groups of step 1 *)

Lemma dict_append_concat {K V} (eqb : K -> K -> bool)
  (d : list (K * list V)) k v :
  Permutation (List.concat (map snd (dict_append eqb d k v)))
    (v :: List.concat (map snd d)).
Proof.
  induction d as [|[k0 l] d IH]; simpl; [reflexivity|].
  destruct (eqb k k0); simpl.
  - rewrite <- app_assoc. simpl. symmetry. apply Permutation_middle.
  - rewrite IH. symmetry. apply Permutation_middle.
Qed.

Local Abbreviation passo_agrupar :=
  (fun (acc : list (Z * list string)) (b : string * resultado_barra) =>
     if String.eqb (rb_perfil_escolhido (snd b)) "" then acc
     else
       match modulo_do_montante (rb_hipoteses (snd b)) with
       | Some modulo => dict_append Z.eqb acc modulo (fst b)
       | None => acc
       end).

Lemma agrupar_invariante (rs : resultados_t) : forall acc,
  NoDup (map fst rs) -> NoDup (List.concat (map snd acc)) ->
  (forall id, In id (List.concat (map snd acc)) -> ~ In id (map fst rs)) ->
  let G := fold_left passo_agrupar rs acc in
  NoDup (List.concat (map snd G)) /\
  forall id, In id (List.concat (map snd G)) ->
    In id (List.concat (map snd acc)) \/
    exists r, In (id, r) rs /\
      String.eqb (rb_perfil_escolhido r) "" = false.
Proof.
  induction rs as [|[k r] rs IH]; intros acc Hk Hnd Hout; cbn zeta.
  - simpl. auto.
  - cbn [fold_left fst snd]. cbn [map fst] in Hk, Hout.
    inversion Hk as [|? ? Hkn Hk']; subst.
    assert (Hsame : forall acc1, acc1 = acc ->
              NoDup (List.concat (map snd (fold_left passo_agrupar rs acc1)))
              /\ forall id,
                 In id (List.concat
                          (map snd (fold_left passo_agrupar rs acc1))) ->
                 In id (List.concat (map snd acc)) \/
                 exists r0, In (id, r0) ((k, r) :: rs) /\
                   String.eqb (rb_perfil_escolhido r0) "" = false).
    { intros acc1 ->. destruct (IH acc Hk' Hnd) as [H1 H2].
      - intros id Hid Hin. apply (Hout id Hid). now right.
      - split; [exact H1|]. intros id Hid.
        destruct (H2 id Hid) as [?|(r0 & ? & ?)]; [now left|].
        right. exists r0. split; [now right|assumption]. }
    destruct (String.eqb (rb_perfil_escolhido r) "") eqn:He;
      [now apply Hsame|].
    destruct (modulo_do_montante (rb_hipoteses r)) as [m|];
      [|now apply Hsame].
    pose proof (dict_append_concat Z.eqb acc m k) as Hp.
    destruct (IH (dict_append Z.eqb acc m k) Hk') as [H1 H2].
    + apply (Permutation_NoDup (Permutation_sym Hp)). constructor; auto.
      intros Hin. apply (Hout k Hin). now left.
    + intros id Hid Hin.
      apply (Permutation_in _ Hp) in Hid. destruct Hid as [<-|Hid];
        [contradiction|]. apply (Hout id Hid). now right.
    + split; [exact H1|]. intros id Hid.
      destruct (H2 id Hid) as [Hid'|(r0 & ? & ?)].
      * apply (Permutation_in _ Hp) in Hid'. destruct Hid' as [<-|Hid'].
        -- right. exists r. split; [now left|exact He].
        -- now left.
      * right. exists r0. split; [now right|assumption].
Qed.

Lemma agrupar_membros (rs : resultados_t) :
  NoDup (map fst rs) ->
  NoDup (List.concat (map snd (agrupar_montantes_por_modulo rs))) /\
  forall id, In id (List.concat (map snd (agrupar_montantes_por_modulo rs))) ->
    exists r, sget rs id = Some r /\
      String.eqb (rb_perfil_escolhido r) "" = false.
Proof.
  intros Hk. destruct (agrupar_invariante rs [] Hk) as [H1 H2].
  - constructor.
  - intros ? [].
  - split; [exact H1|]. intros id Hid.
    destruct (H2 id Hid) as [[]|(r & Hin & He)].
    exists r. split; [now apply in_sget|exact He].
Qed.

Lemma agrupar_ext (rs rs' : resultados_t) :
  Forall2 (fun b b' =>
             fst b = fst b' /\
             String.eqb (rb_perfil_escolhido (snd b)) ""
               = String.eqb (rb_perfil_escolhido (snd b')) "" /\
             modulo_do_montante (rb_hipoteses (snd b))
               = modulo_do_montante (rb_hipoteses (snd b'))) rs rs' ->
  agrupar_montantes_por_modulo rs' = agrupar_montantes_por_modulo rs.
Proof.
  unfold agrupar_montantes_por_modulo. generalize (@nil (Z * list string)).
  intros acc H. revert acc.
  induction H as [|b b' l l' (Hf & He & Hm) _ IH]; intros acc;
    [reflexivity|].
  cbn [fold_left]. rewrite <- Hf, <- He, <- Hm. apply IH.
Qed.

Lemma forall2_por_chave {V} (R : V -> V -> Prop) (a : list (string * V)) :
  forall b, NoDup (map fst a) -> map fst b = map fst a ->
  (forall id r r', sget a id = Some r -> sget b id = Some r' -> R r r') ->
  Forall2 (fun x y => fst x = fst y /\ R (snd x) (snd y)) a b.
Proof.
  induction a as [|[k v] a IH]; intros [|[k' v'] b] Hnd Hk H;
    try discriminate; [constructor|].
  cbn [map fst] in Hk. injection Hk as -> Hk.
  inversion Hnd as [|? ? Hkn Hnd']; subst.
  constructor.
  - split; [reflexivity|]. apply (H k); unfold sget; simpl;
      now rewrite String.eqb_refl.
  - apply IH; auto. intros id r r' Ha Hb.
    assert (Hne : String.eqb id k = false).
    { destruct (String.eqb_spec id k) as [->|]; [|reflexivity].
      exfalso. apply Hkn. eapply sget_in_chaves; eassumption. }
    apply (H id); unfold sget; simpl; rewrite Hne; assumption.
Qed.

(** C8 (igualar_perfis_montantes_por_modulo).  On a result dictionary
    with distinct bar ids, when the equalisation returns, for every module
    group of step 1: if no bar of the module has its profile in the leg
    table the module is left untouched; otherwise the final profile is the
    profile of one of the module's bars, the first table row of no bar's
    profile has a strictly larger gross area than the first table row
    [linha_final] of the final profile, and every bar of the module ends with
    the final profile, each of its hypothesis dictionaries holding, under the
    same name, the result of [calcula_tensao_axial_admissivel] on
    [linha_final] for the hypothesis' own force, bar type and unbraced
    length (leg hole diameter, tension limit on a positive force, forced
    compression on a negative one), together with the name, radius of
    gyration, gross area and slenderness of the final profile.  Applying the
    equalisation to its own result returns that result unchanged. *)
Theorem igualar_perfis_montantes_por_modulo_maior_area_idempotente :
  forall df_montantes df_materiais coef_minoracao diametros_furos
    descontos_area_liquida (resultados resultados' : resultados_t),
  NoDup (map fst resultados) ->
  igualar_perfis_montantes_por_modulo df_montantes df_materiais
    coef_minoracao diametros_furos descontos_area_liquida resultados
    = Ok resultados' ->
  (forall modulo lista_barras,
     In (modulo, lista_barras) (agrupar_montantes_por_modulo resultados) ->
     ((forall id_barra r, In id_barra lista_barras ->
         sget resultados id_barra = Some r ->
         linhas_do_perfil df_montantes (rb_perfil_escolhido r) = []) ->
      forall id_barra, In id_barra lista_barras ->
        sget resultados' id_barra = sget resultados id_barra) /\
     (forall id_usada r_usada, In id_usada lista_barras ->
        sget resultados id_usada = Some r_usada ->
        linhas_do_perfil df_montantes (rb_perfil_escolhido r_usada) <> [] ->
      exists id_final r_final linha_final resto_final,
        let perfil_final := rb_perfil_escolhido r_final in
        In id_final lista_barras /\
        sget resultados id_final = Some r_final /\
        linhas_do_perfil df_montantes perfil_final
          = linha_final :: resto_final /\
        (forall id_barra r linha resto, In id_barra lista_barras ->
           sget resultados id_barra = Some r ->
           linhas_do_perfil df_montantes (rb_perfil_escolhido r)
             = linha :: resto ->
           (A_cm2 linha_final <? A_cm2 linha)%float = false) /\
        forall id_barra, In id_barra lista_barras ->
          exists r r',
            sget resultados id_barra = Some r /\
            sget resultados' id_barra = Some r' /\
            rb_perfil_escolhido r' = perfil_final /\
            Forall2
              (fun nh nh' =>
                 let h := snd nh in
                 let h' := snd nh' in
                 let forca_axial := h_forca_axial h in
                 fst nh' = fst nh /\
                 exists comprimento novos_dados,
                   h_comprimento_destravado h = Some comprimento /\
                   calcula_tensao_axial_admissivel df_materiais Numpy
                     linha_final forca_axial (h_tipo h) comprimento
                     coef_minoracao
                     match sget diametros_furos "montante" with
                     | Some d => d
                     | None => 1.59%float
                     end
                     MODULO_ELASTICIDADE_ACO (0 <? forca_axial)%float
                     (forca_axial <? 0)%float descontos_area_liquida
                     = Ok novos_dados /\
                   h_solicitacao h' = Some (va_solicitacao novos_dados) /\
                   h_viavel h' = va_viavel novos_dados /\
                   h_tensao_solicitante h'
                     = va_tensao_solicitante novos_dados /\
                   h_area_efetiva h' = va_area_efetiva novos_dados /\
                   h_forca_axial_admissivel h'
                     = va_forca_axial_admissivel novos_dados /\
                   h_taxa_trabalho h' = va_taxa_trabalho novos_dados /\
                   h_tensao_fy_corrigida h'
                     = va_tensao_fy_corrigida novos_dados /\
                   h_Fa h' = va_Fa novos_dados /\
                   h_Fa_reduzido h' = va_Fa_reduzido novos_dados /\
                   h_ft_admissivel h' = va_ft_admissivel novos_dados /\
                   h_esbeltez_tracao h' = va_esbeltez_tracao novos_dados /\
                   h_perfil_escolhido h' = perfil_final /\
                   h_raio h' = Some (rx_cm linha_final) /\
                   h_area_bruta h' = Some (A_cm2 linha_final) /\
                   h_esbeltez_corrigida h'
                     = Some (comprimento / rx_cm linha_final)%float /\
                   h_forca_axial h' = forca_axial /\
                   h_tipo h' = h_tipo h /\
                   h_modulo h' = h_modulo h /\
                   h_comprimento h' = h_comprimento h /\
                   h_comprimento_destravado h' = Some comprimento)
              (rb_hipoteses r) (rb_hipoteses r'))) /\
  igualar_perfis_montantes_por_modulo df_montantes df_materiais
    coef_minoracao diametros_furos descontos_area_liquida resultados'
    = Ok resultados'.
Proof.
  intros dfm dfmat coef diam desc rs rs' Hnd H.
  unfold igualar_perfis_montantes_por_modulo in H.
  destruct (agrupar_membros rs Hnd) as [HG Hmem].
  destruct (igualar_grupos_resultado dfm dfmat coef diam desc _ HG _ _ H)
    as (Hk & Hfr & Hig).
  rewrite Forall_forall in Hig.
  split.
  - intros m lista Hin. pose proof (Hig _ Hin) as Hi. cbn [snd] in Hi.
    destruct Hi as (pas & Hpas & Hi). split.
    + intros Hfora. destruct pas as [|pa resto]; [exact Hi|]. exfalso.
      destruct (perfis_areas_de_in dfm rs lista _ pa Hpas
                  (or_introl eq_refl))
        as (id & r & l0 & lr & Hid & Hg & Hs & Hrow & _).
      rewrite Hs, (Hfora id r Hid Hg) in Hrow. discriminate.
    + intros id0 r0 Hid0 Hg0 Hne.
      destruct (linhas_do_perfil dfm (rb_perfil_escolhido r0))
        as [|q0 resto0] eqn:Hl0; [now contradiction Hne|].
      pose proof (perfis_areas_de_completo dfm rs lista pas id0 r0 q0 resto0
                    Hpas Hid0 Hg0 Hl0) as Hin0.
      destruct pas as [|pa resto]; [contradiction|]. cbn zeta in Hi.
      destruct Hi as (linha & Hl & Hi).
      set (final := py_max_by fst pa resto) in *.
      destruct (perfis_areas_de_in dfm rs lista _ final Hpas
                  (py_max_by_in _ _ _))
        as (idf & rf & lf & lr & Hidf & Hgf & Hsf & Hrow & Harea).
      rewrite Hrow in Hl. injection Hl as ->.
      exists idf, rf, linha, lr. cbn zeta. rewrite <- Hsf.
      repeat split; auto.
      * intros id r q resto' Hid Hg Hq. rewrite <- Harea.
        apply (py_max_by_nao_menor fst pa resto
                 (A_cm2 q, rb_perfil_escolhido r)).
        exact (perfis_areas_de_completo dfm rs lista _ id r q resto'
                 Hpas Hid Hg Hq).
      * intros id Hid. destruct (Hi id Hid) as (r & r' & Hg & Hr & Hg').
        exists r, r'. split; [exact Hg|]. split; [exact Hg'|].
        destruct (reverificar_barra_campos _ _ _ _ _ _ _ _ Hr)
          as (Hp & _ & Hhs & _).
        split; [exact Hp|].
        clear - Hhs. induction Hhs as [|x y l l' (Hn & Hxy) _ IH];
          constructor; auto.
        cbn zeta. split; [exact Hn|].
        destruct (reverificar_hipotese_explicita _ _ _ _ _ _ _ _ Hxy)
          as (c & nd & Hc & Hnd & ->).
        exists c, nd. split; [exact Hc|]. split; [exact Hnd|].
        cbn. repeat split. exact Hc.
  - unfold igualar_perfis_montantes_por_modulo.
    assert (HG' : agrupar_montantes_por_modulo rs'
                  = agrupar_montantes_por_modulo rs).
    { apply agrupar_ext.
      apply (forall2_por_chave
               (fun r r' =>
                  String.eqb (rb_perfil_escolhido r) ""
                    = String.eqb (rb_perfil_escolhido r') "" /\
                  modulo_do_montante (rb_hipoteses r)
                    = modulo_do_montante (rb_hipoteses r')));
        [exact Hnd | exact Hk |].
      intros id r r' Hr Hr'.
      destruct (in_dec string_dec id
                  (List.concat
                     (map snd (agrupar_montantes_por_modulo rs))))
        as [Hin|Hout].
      - apply in_concat in Hin as (lista & Hl & Hid).
        apply in_map_iff in Hl as ([m lista'] & Heq & Hg).
        cbn [snd] in Heq. subst lista'.
        destruct (Hig _ Hg) as (pas & Hpas & Hi). cbn [snd] in *.
        destruct pas as [|pa resto].
        + rewrite (Hi id Hid), Hr in Hr'. injection Hr' as <-. auto.
        + cbn zeta in Hi. destruct Hi as (linha & _ & Hi).
          destruct (Hi id Hid) as (r0 & r0' & Hr0 & Hrv & Hr0').
          rewrite Hr in Hr0. injection Hr0 as <-.
          rewrite Hr' in Hr0'. injection Hr0' as <-.
          destruct (reverificar_barra_campos _ _ _ _ _ _ _ _ Hrv)
            as (Hp & Hm & _ & _).
          split; [|now rewrite Hm]. rewrite Hp.
          assert (Hmemb : forall i, In i lista ->
                    exists ri, sget rs i = Some ri /\
                      String.eqb (rb_perfil_escolhido ri) "" = false).
          { intros i Hi'. apply Hmem. apply in_concat. exists lista.
            split; [|exact Hi']. apply in_map_iff. now exists (m, lista). }
          destruct (Hmemb id Hid) as (ri & Hri & Hei).
          rewrite Hr in Hri. injection Hri as <-. rewrite Hei.
          destruct (perfis_areas_de_in dfm rs lista _
                      (py_max_by fst pa resto) Hpas (py_max_by_in _ _ _))
            as (i1 & r1 & _ & _ & Hi1 & Hg1 & Hs1 & _).
          destruct (Hmemb i1 Hi1) as (r1' & Hg1' & He1).
          rewrite Hg1 in Hg1'. injection Hg1' as <-.
          now rewrite Hs1, He1.
      - rewrite (Hfr id Hout), Hr in Hr'. injection Hr' as <-. auto. }
    rewrite HG'. apply igualar_grupos_fixo. apply Forall_forall.
    intros g Hg. eapply igualar_modulo_fixo. now apply Hig.
Qed.

Lemma igualar_perfis_montantes_por_modulo_witness :
  exists resultados',
    igualacao_exemplo resultados_exemplo = Ok resultados' /\
    igualacao_exemplo resultados' = Ok resultados' /\
    exists r1 r2,
      sget resultados' "1" = Some r1 /\ sget resultados' "2" = Some r2 /\
      rb_perfil_escolhido r1 = "L 75x75x6" /\
      rb_perfil_escolhido r2 = "L 75x75x6".
Proof.
  assert (E : exists resultados',
            igualacao_exemplo resultados_exemplo = Ok resultados')
    by (vm_compute; eexists; reflexivity).
  destruct E as (rs' & E). exists rs'. split; [exact E|].
  assert (Hnd : NoDup (map fst resultados_exemplo)).
  { repeat constructor; simpl; intuition discriminate. }
  destruct (igualar_perfis_montantes_por_modulo_maior_area_idempotente
              montantes_exemplo materiais_exemplo 0.9 diametros_exemplo None
              resultados_exemplo rs' Hnd E) as [Hmax Hid].
  split; [exact Hid|].
  destruct (Hmax 1 ["1"; "2"] (or_introl eq_refl)) as [_ Hm].
  destruct (Hm "1" _ (or_introl eq_refl) eq_refl)
    as (idf & rf & lf & resto & Hf); [vm_compute; discriminate|].
  cbv zeta in Hf. destruct Hf as (Hidf & Hgf & Hlf & Hmaior & Hb).
  assert (Hpf : rb_perfil_escolhido rf = "L 75x75x6").
  { destruct Hidf as [<-|[<-|[]]]; vm_compute in Hgf; injection Hgf as <-;
      [|reflexivity].
    vm_compute in Hlf. injection Hlf as <- <-.
    specialize (Hmaior "2" _ _ _ (or_intror (or_introl eq_refl))
                  eq_refl eq_refl).
    vm_compute in Hmaior. discriminate. }
  destruct (Hb "1" (or_introl eq_refl)) as (? & r1 & _ & Hg1 & Hp1 & _).
  destruct (Hb "2" (or_intror (or_introl eq_refl)))
    as (? & r2 & _ & Hg2 & Hp2 & _).
  exists r1, r2. repeat split; try assumption; congruence.
Defined.

(** ** End connections of the modules *)

Lemma for_each_app {A S} (corpo : S -> A -> res S) (l1 l2 : list A) :
  forall s s', for_each (l1 ++ l2) s corpo = Ok s' ->
  exists s1, for_each l1 s corpo = Ok s1 /\ for_each l2 s1 corpo = Ok s'.
Proof.
  induction l1 as [|x l1 IH]; intros s s' H; simpl in *.
  - eauto.
  - apply bind_ok in H as (s0 & Hx & H). rewrite Hx. cbn [bind]. eauto.
Qed.

Lemma max_por_resistencia_in (l : list dados_ligacao) : forall cur,
  In (max_por_resistencia cur l) (cur :: l).
Proof.
  induction l as [|x l IH]; intros cur; simpl; [auto|].
  destruct (IH (if tupla_gt (criterio_resistencia x)
                     (criterio_resistencia cur) then x else cur)) as [H|H];
    [|auto].
  rewrite <- H. destruct (tupla_gt _ _); auto.
Qed.

Lemma sget_atribui_a_todos (ids : list string) (L : ligacao) :
  forall (lf : ligacoes_t) id,
  (In id ids -> sget (atribui_a_todos lf ids L) id = Some L) /\
  (~ In id ids -> sget (atribui_a_todos lf ids L) id = sget lf id).
Proof.
  unfold atribui_a_todos.
  induction ids as [|x ids IH]; intros lf id; simpl.
  - split; [contradiction|reflexivity].
  - destruct (IH (sset lf x L) id) as [H1 H2]. split.
    + intros [->|Hin].
      * destruct (in_dec string_dec id ids) as [Hi|Hn]; [now apply H1|].
        rewrite (H2 Hn), sget_sset. now rewrite String.eqb_refl.
      * now apply H1.
    + intros Hn. rewrite H2 by tauto. rewrite sget_sset.
      destruct (String.eqb_spec id x) as [->|]; [|reflexivity].
      exfalso. apply Hn. now left.
Qed.

Section otimizacao.

Variables (ordem_conjunto : list string -> list string)
  (metadados : metadados_t) (esforcos_por_hipotese : esforcos_t)
  (df_materiais : tabela_materiais) (diametros_furos : list (string * float))
  (limite_parafusos planos_cisalhamento : option (list (string * Z)))
  (fatores_esmagamento : option (list float)) (df_perfis : tabela_perfis)
  (coef_minoracao : float).

Local Abbreviation candidatos :=
  (candidatos_de ordem_conjunto esforcos_por_hipotese).
Local Abbreviation dimensiona :=
  (dimensiona_candidato metadados esforcos_por_hipotese df_materiais
     diametros_furos limite_parafusos planos_cisalhamento fatores_esmagamento
     df_perfis coef_minoracao).
Local Abbreviation processa :=
  (processa_grupo ordem_conjunto metadados esforcos_por_hipotese df_materiais
     diametros_furos limite_parafusos planos_cisalhamento fatores_esmagamento
     df_perfis coef_minoracao).
Local Abbreviation otimiza :=
  (otimizar_ligacoes_montantes_extremidades ordem_conjunto metadados
     esforcos_por_hipotese df_materiais diametros_furos limite_parafusos
     planos_cisalhamento fatores_esmagamento df_perfis coef_minoracao).

(** What one group leaves in [ligacoes_forcadas]. *)
Lemma processa_grupo_resultado locais lf ids locais' lf' :
  processa (locais, lf) ids = Ok (locais', lf') ->
  exists cands,
    for_each (candidatos ids) (locais, []) dimensiona = Ok (locais', cands) /\
    match cands with
    | [] => lf' = lf
    | c :: cs =>
        exists L, lf' = atribui_a_todos lf ids L /\
          ((forall x, In x (c :: cs) -> np (snd x) = None) -> L = LigMarcada)
    end.
Proof.
  unfold processa_grupo. intros H.
  apply bind_ok in H as ([locais1 cands] & Hc & H).
  exists cands. destruct cands as [|c cs]; cbn [map] in H.
  - injection H as <- <-. auto.
  - destruct (np (max_por_resistencia (snd c) (map snd cs))) eqn:Hnp.
    + apply bind_ok in H as (final & Hf & H). injection H as <- <-.
      split; [exact Hc|]. exists (LigCompleta final). split; [reflexivity|].
      intros Hall. exfalso.
      destruct (max_por_resistencia_in (map snd cs) (snd c)) as [Hm|Hm].
      * rewrite <- Hm, (Hall c (or_introl eq_refl)) in Hnp. discriminate.
      * apply in_map_iff in Hm as (x & Hx & Hin).
        rewrite <- Hx, (Hall x (or_intror Hin)) in Hnp. discriminate.
    + injection H as <- <-. split; [exact Hc|]. exists LigMarcada. auto.
Qed.

Lemma processa_grupo_externos locais lf ids locais' lf' id :
  processa (locais, lf) ids = Ok (locais', lf') -> ~ In id ids ->
  sget lf' id = sget lf id.
Proof.
  intros H Hn. apply processa_grupo_resultado in H as (cands & _ & H).
  destruct cands as [|c cs]; [now subst|].
  destruct H as (L & -> & _). now apply sget_atribui_a_todos.
Qed.

Lemma grupos_seguintes_externos (pos : list (list string)) id :
  (forall g, In g pos -> ~ In id g) -> forall st st',
  for_each pos st processa = Ok st' -> sget (snd st') id = sget (snd st) id.
Proof.
  induction pos as [|g pos IH]; intros Hn st st' H; simpl in H.
  - now injection H as <-.
  - apply bind_ok in H as ([l1 lf1] & Hg & H). destruct st as [l0 lf0].
    rewrite (IH (fun g' Hg' => Hn g' (or_intror Hg')) _ _ H). cbn [snd].
    eapply processa_grupo_externos; [exact Hg|]. apply Hn. now left.
Qed.

(** C6 (otimizar_ligacoes_montantes_extremidades), amended.  First, a
    group whose candidate connections all have a null bolt count does not
    abort the run: its processing returns normally, having stored the mark
    [{"ligacao_viavel": False, "np": None}] under every member.  Second, in
    the returned mapping, a group that shares no bar with a group processed
    after it holds one and the same value under all its members whenever a
    candidate connection was found for it (the mark above when all the
    candidates have a null bolt count); when no candidate connection was
    found its members keep what the earlier groups stored. *)
Theorem otimizar_ligacoes_grupo_sem_sobreposicao :
  (forall locais lf ids locais1 c cs,
     for_each (candidatos ids) (locais, []) dimensiona
       = Ok (locais1, c :: cs) ->
     (forall x, In x (c :: cs) -> np (snd x) = None) ->
     processa (locais, lf) ids
       = Ok (locais1, atribui_a_todos lf ids LigMarcada) /\
     forall id, In id ids ->
       sget (atribui_a_todos lf ids LigMarcada) id = Some LigMarcada) /\
  (forall pre ids pos lf,
     map snd (grupos_por_modulo_de metadados) = pre ++ ids :: pos ->
     (forall g, In g pos -> forall id, In id ids -> ~ In id g) ->
     otimiza = Ok lf ->
     exists locais0 lf0 locais1 cands,
       for_each pre (mk_locais_otimizar None LinhaIndefinida, []) processa
         = Ok (locais0, lf0) /\
       for_each (candidatos ids) (locais0, []) dimensiona
         = Ok (locais1, cands) /\
       match cands with
       | [] => forall id, In id ids -> sget lf id = sget lf0 id
       | c :: cs =>
           exists L,
             (forall id, In id ids -> sget lf id = Some L) /\
             ((forall x, In x (c :: cs) -> np (snd x) = None) ->
              L = LigMarcada)
       end).
Proof.
  split.
  - intros locais lf ids locais1 c cs Hc Hall. split.
    + unfold processa_grupo. rewrite Hc. cbn [bind map].
      destruct (max_por_resistencia_in (map snd cs) (snd c)) as [Hm|Hm].
      * rewrite <- Hm, (Hall c (or_introl eq_refl)). reflexivity.
      * apply in_map_iff in Hm as (x & Hx & Hin).
        rewrite <- Hx, (Hall x (or_intror Hin)). reflexivity.
    + intros id Hid. now apply sget_atribui_a_todos.
  - intros pre ids pos lf Hg Hdisj H.
    unfold otimizar_ligacoes_montantes_extremidades in H.
    apply bind_ok in H as ([lfin lf'] & H & E). injection E as ->.
    rewrite Hg in H. apply for_each_app in H as ([locais0 lf0] & Hpre & H).
    cbn [for_each] in H. apply bind_ok in H as ([locais1 lf1] & Hgr & Hpos).
    assert (Hkeep : forall id, In id ids -> sget lf id = sget lf1 id).
    { intros id Hid.
      apply (grupos_seguintes_externos pos id
               (fun g Hin => Hdisj g Hin id Hid) _ _ Hpos). }
    apply processa_grupo_resultado in Hgr as (cands & Hc & Hr).
    exists locais0, lf0, locais1, cands.
    split; [exact Hpre|]. split; [exact Hc|].
    destruct cands as [|c cs].
    + subst lf1. exact Hkeep.
    + destruct Hr as (L & -> & HL). exists L. split; [|exact HL].
      intros id Hid. rewrite (Hkeep id Hid). now apply sget_atribui_a_todos.
Qed.

End otimizacao.

(** C6, counterexample.  Leg 1 is in the base group with leg 2 and in the
    top group with leg 3.  With 20000 kgf on leg 2 the base group is given a
    connection of 6 bolts; the top group, processed next, stores another
    connection, of 4 bolts, under legs 1 and 3.  In the returned mapping
    the two members of the base group hold different records, whichever
    way the set of candidates is iterated. *)
Lemma otimizar_ligacoes_grupos_sobrepostos :
  map snd (grupos_por_modulo_de metadados_sobrepostos)
    = [["1"; "2"]; ["1"; "3"]] /\
  (exists lf l1 l2,
     otimizacao_exemplo (fun l => l) = Ok lf /\
     sget lf "1" = Some (LigCompleta l1) /\
     sget lf "2" = Some (LigCompleta l2) /\
     np l1 = Some 4 /\ np l2 = Some 6 /\ l1 <> l2) /\
  (exists lf l1 l2,
     otimizacao_exemplo (@rev string) = Ok lf /\
     sget lf "1" = Some (LigCompleta l1) /\
     sget lf "2" = Some (LigCompleta l2) /\
     np l1 = Some 4 /\ np l2 = Some 6 /\ l1 <> l2).
Proof.
  split; [vm_compute; reflexivity|].
  split; vm_compute; do 3 eexists;
    (repeat (split; [reflexivity|])); discriminate.
Qed.

Lemma otimizar_ligacoes_grupo_sem_sobreposicao_witness :
  exists lf L,
    otimizacao_exemplo (fun l => l) = Ok lf /\
    sget lf "1" = Some L /\ sget lf "3" = Some L.
Proof.
  assert (E : exists lf, otimizacao_exemplo (fun l => l) = Ok lf)
    by (vm_compute; eexists; reflexivity).
  destruct E as (lf & E).
  destruct (proj2 (otimizar_ligacoes_grupo_sem_sobreposicao (fun l => l)
                     metadados_sobrepostos esforcos_sobrepostos
                     materiais_exemplo diametros_exemplo
                     limite_parafusos_exemplo planos_exemplo fatores_exemplo
                     [perfil_exemplo] 0.9)
              [["1"; "2"]] ["1"; "3"] [] lf eq_refl
              (fun g Hg => False_ind _ Hg) E)
    as (locais0 & lf0 & locais1 & cands & Hpre & Hc & Hr).
  vm_compute in Hpre. injection Hpre as <- <-.
  vm_compute in Hc. injection Hc as <- <-.
  destruct Hr as (L & HL & _).
  exists lf, L. split; [exact E|].
  split; apply HL; simpl; auto.
Defined.

(** ** Profile sweep and governing hypothesis *)

(** *** [min] with a key *)

Lemma py_min_by_in {A} (key : A -> float) (l : list A) : forall cur,
  In (py_min_by key cur l) (cur :: l).
Proof.
  induction l as [|x l IH]; intros cur; simpl; [auto|].
  destruct (IH (if (key x <? key cur)%float then x else cur)) as [H|H];
    [|auto].
  rewrite <- H. destruct (key x <? key cur)%float; auto.
Qed.

Lemma py_min_by_menor {A} (key : A -> float) (l : list A) : forall cur,
  (forall y, (key y <? key cur)%float = false ->
     (key y <? key (py_min_by key cur l))%float = false) /\
  (forall x, In x l -> (key x <? key (py_min_by key cur l))%float = false).
Proof.
  induction l as [|x l IH]; intros cur; simpl.
  - split; [auto|intros ? []].
  - destruct (key x <? key cur)%float eqn:E.
    + destruct (IH x) as [Hk Hl]. split.
      * intros y Hy. apply Hk.
        destruct (key y <? key x)%float eqn:E2; [|reflexivity].
        now rewrite (flt_trans _ _ _ E2 E) in Hy.
      * intros z [<-|Hz]; [apply Hk, flt_irrefl|now apply Hl].
    + destruct (IH cur) as [Hk Hl]. split.
      * exact Hk.
      * intros z [<-|Hz]; [now apply Hk|now apply Hl].
Qed.

Lemma py_min_by_nao_maior {A} (key : A -> float) cur (l : list A) x :
  In x (cur :: l) -> (key x <? key (py_min_by key cur l))%float = false.
Proof.
  destruct (py_min_by_menor key l cur) as [Hk Hl].
  intros [<-|H]; [apply Hk, flt_irrefl|now apply Hl].
Qed.

Section varredura.

Variables (df_materiais : tabela_materiais) (df_perfis : tabela_perfis)
  (coef_minoracao : float) (diametros_furos : list (string * float))
  (descontos_area_liquida limite_parafusos planos_cisalhamento
     : option (list (string * Z)))
  (fatores_esmagamento : option (list float)).

Variables (tipo_barra : string) (angulo comprimento : float)
  (limitar forcar : bool) (forca_axial : float).

Local Abbreviation avalia :=
  (avalia_perfil df_materiais df_perfis coef_minoracao diametros_furos
     descontos_area_liquida limite_parafusos planos_cisalhamento
     fatores_esmagamento tipo_barra angulo comprimento limitar forcar
     forca_axial).
Local Abbreviation sobrevive :=
  (perfil_sobrevive df_materiais df_perfis coef_minoracao diametros_furos
     descontos_area_liquida limite_parafusos planos_cisalhamento
     fatores_esmagamento tipo_barra angulo comprimento limitar forcar
     forca_axial).

(** One row of the table: either the list of viable profiles is left as
    it is and the row meets no acceptance record, or the row is appended
    with its axial record and meets all the criteria. *)
Lemma avalia_perfil_resultado pvs vl p pvs' vl' :
  avalia (pvs, vl) p = Ok (pvs', vl') ->
  (pvs' = pvs /\ forall va, ~ sobrevive p va) \/
  (exists va, pvs' = pvs ++ [(p, va)] /\ sobrevive p va).
Proof.
  unfold avalia_perfil. intros H.
  apply bind_ok in H as (rel & Hrel & H).
  destruct (25 <? rel)%float eqn:Hwt.
  { injection H as <- <-. left. split; [reflexivity|].
    intros va ((rel' & Hrel' & Hwt') & _). congruence. }
  apply bind_ok in H as (va & Hva & H).
  destruct (va_viavel va) eqn:Hv; cbn [negb] in H.
  2:{ injection H as <- <-. left. split; [reflexivity|].
      intros va' (_ & Hva' & Hv' & _). congruence. }
  apply bind_ok in H as (fy & Hfy & H).
  destruct (verifica_flexao_simples tipo_barra angulo comprimento
              (Wx_cm3 p) fy coef_minoracao) eqn:Hfl; cbn [negb] in H.
  2:{ injection H as <- <-. left. split; [reflexivity|].
      intros va' (_ & _ & _ & (fy' & Hfy' & Hfl') & _). congruence. }
  apply bind_ok in H as ([lig_ok vl1] & Hlig & H).
  assert (Hcon : (lig_ok = false /\ forall va', ~ sobrevive p va') \/
                 (lig_ok = true /\
                  (e_montante tipo_barra = false ->
                   exists lig,
                     ligacao_do_perfil df_materiais df_perfis coef_minoracao
                       diametros_furos limite_parafusos planos_cisalhamento
                       fatores_esmagamento forca_axial tipo_barra (Perfil p)
                       Python p
                       = Ok lig /\
                     (forca_adm_cisalhamento lig =? 0)%float = false /\
                     (forca_adm_esmagamento lig =? 0)%float = false /\
                     (1.0 <? py_max
                        (taxa_ou_999 (abs forca_axial)
                           (forca_adm_cisalhamento lig))
                        (taxa_ou_999 (abs forca_axial)
                           (forca_adm_esmagamento lig)))%float = false))).
  { destruct (e_montante tipo_barra) eqn:Hm; cbn [negb] in Hlig.
    - injection Hlig as <- <-. right. split; [reflexivity|discriminate].
    - apply bind_ok in Hlig as (lig & Hl & Hlig).
      destruct ((forca_adm_cisalhamento lig =? 0)%float
                || (forca_adm_esmagamento lig =? 0)%float) eqn:Hz.
      + injection Hlig as <- <-. left. split; [reflexivity|].
        intros va' (_ & _ & _ & _ & Hc & _).
        destruct (Hc Hm) as (lig' & Hl' & Hc1 & Hc2 & _).
        rewrite Hl in Hl'. injection Hl' as <-.
        rewrite Hc1, Hc2 in Hz. discriminate.
      + apply orb_false_iff in Hz as [Hz1 Hz2].
        injection Hlig as <- <-.
        destruct (1.0 <? _)%float eqn:Htx; cbn [negb].
        * left. split; [reflexivity|].
          intros va' (_ & _ & _ & _ & Hc & _).
          destruct (Hc Hm) as (lig' & Hl' & _ & _ & Htx').
          rewrite Hl in Hl'. injection Hl' as <-. congruence.
        * right. split; [reflexivity|]. intros _. exists lig. auto. }
  destruct Hcon as [(-> & Hno)|(-> & Hc)]; cbn [negb] in H.
  { injection H as <- <-. left. auto. }
  apply bind_ok in H as (alta & Halta & H).
  assert (Htaxa : (alta = true /\ forall va', ~ sobrevive p va') \/
                  (alta = false /\
                   (startswith tipo_barra "diagonal"
                    || startswith tipo_barra "horizontal" = true ->
                    exists taxa, va_taxa_trabalho va = Some taxa /\
                      (LIMITE_TAXA_TRABALHO_DIAG_HORIZ <? taxa)%float
                        = false))).
  { destruct (startswith tipo_barra "diagonal"
              || startswith tipo_barra "horizontal") eqn:Hd.
    - apply bind_ok in Halta as (taxa & Ht & Halta).
      destruct (va_taxa_trabalho va) as [t|] eqn:Hvt; [|discriminate].
      injection Ht as ->. injection Halta as <-.
      destruct (LIMITE_TAXA_TRABALHO_DIAG_HORIZ <? taxa)%float eqn:Hlim.
      + left. split; [reflexivity|].
        intros va' (_ & Hva' & _ & _ & _ & Ht').
        rewrite Hva in Hva'. injection Hva' as <-.
        destruct (Ht' Hd) as (taxa' & Hvt' & Hlim'). congruence.
      + right. split; [reflexivity|]. intros _. exists taxa. auto.
    - injection Halta as <-. right. split; [reflexivity|discriminate]. }
  destruct Htaxa as [(-> & Hno)|(-> & Ht)].
  { injection H as <- <-. left. auto. }
  injection H as <- <-. right. exists va. split; [reflexivity|].
  repeat split; eauto.
Qed.

Lemma sobrevive_unico p va va' :
  sobrevive p va -> sobrevive p va' -> va = va'.
Proof. intros (_ & H & _) (_ & H' & _). congruence. Qed.

(** The sweep over a table: the profiles appended are exactly the rows of
    the table that meet the criteria, in table order. *)
Lemma varredura_resultado (df_perf : tabela_perfis) : forall pvs vl pvs' vl',
  for_each df_perf (pvs, vl) avalia = Ok (pvs', vl') ->
  exists novos, pvs' = pvs ++ novos /\
    forall p va, In (p, va) novos <-> In p df_perf /\ sobrevive p va.
Proof.
  induction df_perf as [|q df IH]; intros pvs vl pvs' vl' H; simpl in H.
  - injection H as <- <-. exists []. split; [now rewrite app_nil_r|].
    intros p va. split; [intros []|intros [[] _]].
  - apply bind_ok in H as ([pvs1 vl1] & Hq & H).
    destruct (IH _ _ _ _ H) as (novos & -> & Hn).
    destruct (avalia_perfil_resultado _ _ _ _ _ Hq)
      as [(-> & Hno)|(vq & -> & Hs)].
    + exists novos. split; [reflexivity|]. intros p va. rewrite Hn.
      split; [intros [? ?]; split; [now right|assumption]|].
      intros [[<-|Hin] Hsv]; [now destruct (Hno va)|auto].
    + exists ((q, vq) :: novos). split; [now rewrite <- app_assoc|].
      intros p va. cbn [In]. rewrite Hn. split.
      * intros [E|[? ?]]; [injection E as <- <-; auto|auto].
      * intros [[<-|Hin] Hsv]; [|auto].
        left. f_equal. eapply sobrevive_unico; eassumption.
Qed.

End varredura.

Lemma area_trabalho_de d :
  area_trabalho d =
  match h_solicitacao d with
  | None => Raise (KeyError "solicitacao")
  | Some compressao =>
      bind (nao_none (h_Fa_reduzido d))
        (fun fa => divide (snd fa) (abs (h_forca_axial d)) (fst fa))
  | Some tracao =>
      bind (nao_none (h_ft_admissivel d))
        (fun ft => divide (snd ft) (abs (h_forca_axial d)) (fst ft))
  end.
Proof.
  unfold area_trabalho. destruct (h_solicitacao d) as [[|]|]; cbn [bind chave_de].
  - destruct (h_ft_admissivel d) as [[? ?]|]; reflexivity.
  - destruct (h_Fa_reduzido d) as [[? ?]|]; reflexivity.
  - reflexivity.
Qed.




(* ===================================================================== *)
(** * Further properties of the code *)
(* ===================================================================== *)

(** ** Further properties of the connection designer *)

Lemma abs_opp (x : float) : abs (- x) = abs x.
Proof.
  apply Prim2SF_inj. rewrite !abs_spec, opp_spec.
  destruct (Prim2SF x); reflexivity.
Qed.

Section ligacao_e_sinal.

Variables (forca_axial : float) (tipo_barra : string)
  (perfil_nome : option string) (num_espessura : origem)
  (espessura_aba : float)
  (diametros_furos : list (string * float)) (num_fv : origem)
  (fv_parafuso : float)
  (fu_peca : option float)
  (limite_parafusos planos_cisalhamento : option (list (string * Z)))
  (fatores_esmagamento : option (list float)) (df_perfis : tabela_perfis)
  (coef_minoracao : float).

Lemma testa_fator_sinal n fc area planos fp :
  testa_fator (- forca_axial) tipo_barra num_espessura espessura_aba diametros_furos num_fv
    fu_peca coef_minoracao n fc area planos fp
  = testa_fator forca_axial tipo_barra num_espessura espessura_aba diametros_furos num_fv fu_peca
      coef_minoracao n fc area planos fp.
Proof. unfold testa_fator. now rewrite abs_opp. Qed.

Lemma laco_fatores_sinal n fc area planos fatores :
  laco_fatores (- forca_axial) tipo_barra num_espessura espessura_aba diametros_furos num_fv
    fu_peca coef_minoracao n fc area planos fatores
  = laco_fatores forca_axial tipo_barra num_espessura espessura_aba diametros_furos num_fv fu_peca
      coef_minoracao n fc area planos fatores.
Proof.
  induction fatores as [|f fs IH]; [reflexivity|].
  cbn [laco_fatores]. now rewrite testa_fator_sinal, IH.
Qed.

Lemma testa_np_sinal area planos n :
  testa_np (- forca_axial) tipo_barra num_espessura espessura_aba diametros_furos num_fv
    fv_parafuso fu_peca fatores_esmagamento coef_minoracao area planos n
  = testa_np forca_axial tipo_barra num_espessura espessura_aba diametros_furos num_fv fv_parafuso
      fu_peca fatores_esmagamento coef_minoracao area planos n.
Proof.
  unfold testa_np. rewrite abs_opp.
  destruct (_ && _); [reflexivity|].
  destruct (forca_adm_cisalhamento_de _ _ _ _ _) as [fc| |]; cbn [bind];
    try reflexivity.
  destruct (fc <? abs forca_axial)%float; [reflexivity|].
  destruct fatores_esmagamento; cbn [bind nao_none]; [|reflexivity].
  apply laco_fatores_sinal.
Qed.

Lemma laco_parafusos_sinal area planos nps :
  laco_parafusos (- forca_axial) tipo_barra num_espessura espessura_aba diametros_furos num_fv
    fv_parafuso fu_peca fatores_esmagamento coef_minoracao area planos nps
  = laco_parafusos forca_axial tipo_barra num_espessura espessura_aba diametros_furos num_fv
      fv_parafuso fu_peca fatores_esmagamento coef_minoracao area planos nps.
Proof.
  induction nps as [|n ns IH]; [reflexivity|].
  cbn [laco_parafusos]. now rewrite testa_np_sinal, IH.
Qed.

(** X1 (dimensionar_ligacao).  The connection designed for a force and for its
    opposite are the same, record or exception: only the magnitude of the
    axial force enters the design. *)
Theorem dimensionar_ligacao_independe_do_sinal :
  dimensionar_ligacao (- forca_axial) tipo_barra perfil_nome num_espessura espessura_aba
    diametros_furos num_fv fv_parafuso fu_peca limite_parafusos planos_cisalhamento
    fatores_esmagamento df_perfis coef_minoracao
  = dimensionar_ligacao forca_axial tipo_barra perfil_nome num_espessura espessura_aba
      diametros_furos num_fv fv_parafuso fu_peca limite_parafusos
      planos_cisalhamento fatores_esmagamento df_perfis coef_minoracao.
Proof.
  unfold dimensionar_ligacao.
  destruct (lig_area_parafuso _ _) as [a| |]; cbn [bind]; try reflexivity.
  destruct (nao_none limite_parafusos) as [l| |]; cbn [bind]; try reflexivity.
  destruct (sitem l _) as [m| |]; cbn [bind]; try reflexivity.
  destruct (nao_none planos_cisalhamento) as [p| |]; cbn [bind];
    try reflexivity.
  destruct (sitem p _) as [k| |]; cbn [bind]; try reflexivity.
  destruct (np_min_de _ _ _) as [n| |]; cbn [bind]; try reflexivity.
  apply laco_parafusos_sinal.
Qed.

End ligacao_e_sinal.

Lemma py_range_prefixo a b c :
  b <= c -> exists resto, py_range a c = py_range a b ++ resto.
Proof.
  intros Hbc. unfold py_range.
  assert (Hn : (Z.to_nat (c - a) = Z.to_nat (b - a)
                 + (Z.to_nat (c - a) - Z.to_nat (b - a)))%nat) by lia.
  rewrite Hn, seq_app, map_app. eauto.
Qed.

Section ligacao_e_limites.

Variables (forca_axial : float) (tipo_barra : string)
  (perfil_nome : option string) (num_espessura : origem)
  (espessura_aba : float)
  (diametros_furos : list (string * float)) (num_fv : origem)
  (fv_parafuso : float)
  (fu_peca : option float)
  (planos_cisalhamento : option (list (string * Z)))
  (fatores_esmagamento : option (list float)) (df_perfis : tabela_perfis)
  (coef_minoracao : float).

Local Abbreviation dimensiona :=
  (fun limite_parafusos =>
     dimensionar_ligacao forca_axial tipo_barra perfil_nome num_espessura espessura_aba
       diametros_furos num_fv fv_parafuso fu_peca limite_parafusos
       planos_cisalhamento fatores_esmagamento df_perfis coef_minoracao).
Local Abbreviation laco :=
  (laco_parafusos forca_axial tipo_barra num_espessura espessura_aba diametros_furos num_fv
     fv_parafuso fu_peca fatores_esmagamento coef_minoracao).

Lemma laco_parafusos_prefixo area planos l1 l2 lig :
  laco area planos l1 = Ok lig -> ligacao_viavel lig = true ->
  laco area planos (l1 ++ l2) = Ok lig.
Proof.
  induction l1 as [|n l1 IH]; simpl; intros H Hv.
  - injection H as <-. discriminate.
  - destruct (testa_np _ _ _ _ _ _ _ _ _ _ _ _ n) as [[l|]| |];
      cbn [bind] in *; try discriminate; auto.
Qed.

(** X2 (dimensionar_ligacao).  A feasible connection does not change when the
    class maximum of [limite_parafusos] is raised: the scan goes up from the
    minimum count and returns at the first pair that passes. *)
Theorem dimensionar_ligacao_viavel_com_limite_maior :
  forall limites limites' np_max np_max' lig,
  sget limites (tipo_base_de tipo_barra) = Some np_max ->
  sget limites' (tipo_base_de tipo_barra) = Some np_max' ->
  np_max <= np_max' ->
  dimensiona (Some limites) = Ok lig -> ligacao_viavel lig = true ->
  dimensiona (Some limites') = Ok lig.
Proof.
  intros lim lim' M M' lig Hl Hl' HM H Hv. unfold dimensionar_ligacao in *.
  destruct (lig_area_parafuso _ _) as [a| |]; cbn [bind nao_none] in *;
    try discriminate.
  unfold sitem, lig_tipo_base in *. rewrite Hl in H. rewrite Hl'.
  cbn [bind] in *.
  destruct (nao_none planos_cisalhamento) as [p| |]; cbn [bind] in *;
    try discriminate.
  destruct (sget p _) as [k|]; cbn [bind] in *; try discriminate.
  destruct (np_min_de _ _ _) as [n| |]; cbn [bind] in *; try discriminate.
  destruct (py_range_prefixo n (M + 1) (M' + 1)) as (resto & ->); [lia|].
  now apply laco_parafusos_prefixo.
Qed.

(** X3 (dimensionar_ligacao).  When the class maximum is below the minimum
    bolt count (a leg whose "Np min" exceeds [limite_parafusos]), no bolt
    count is tried and the call returns the infeasible record. *)
Theorem dimensionar_ligacao_limite_abaixo_do_minimo :
  forall limites planos area np_max np_min num_planos,
  lig_area_parafuso tipo_barra diametros_furos = Ok area ->
  sget limites (tipo_base_de tipo_barra) = Some np_max ->
  planos_cisalhamento = Some planos ->
  sget planos (tipo_base_de tipo_barra) = Some num_planos ->
  np_min_de (tipo_base_de tipo_barra) df_perfis perfil_nome = Ok np_min ->
  np_max < np_min ->
  dimensiona (Some limites)
  = Ok (ligacao_inviavel tipo_barra diametros_furos coef_minoracao area
          num_planos).
Proof.
  intros lim pl a M n k Ha Hl -> Hk Hn Hlt. unfold dimensionar_ligacao.
  rewrite Ha. cbn [bind nao_none]. unfold sitem, lig_tipo_base.
  rewrite Hl, Hk. cbn [bind]. rewrite Hn. cbn [bind].
  unfold py_range. replace (Z.to_nat (M + 1 - n)) with 0%nat by lia.
  reflexivity.
Qed.

(** X4 (dimensionar_ligacao).  A bar class that is missing from
    [limite_parafusos] raises [KeyError] with the class name, whatever the
    force and the profile; so does a class missing from [planos_cisalhamento]
    once the limit has been read. *)
Theorem dimensionar_ligacao_classe_ausente :
  forall area,
  lig_area_parafuso tipo_barra diametros_furos = Ok area ->
  (forall limites,
     sget limites (tipo_base_de tipo_barra) = None ->
     dimensiona (Some limites) = Raise (KeyError (tipo_base_de tipo_barra)))
  /\
  (forall limites np_max planos,
     sget limites (tipo_base_de tipo_barra) = Some np_max ->
     planos_cisalhamento = Some planos ->
     sget planos (tipo_base_de tipo_barra) = None ->
     dimensiona (Some limites) = Raise (KeyError (tipo_base_de tipo_barra))).
Proof.
  intros a Ha. split.
  - intros lim Hl. unfold dimensionar_ligacao. rewrite Ha.
    cbn [bind nao_none]. unfold sitem, lig_tipo_base. now rewrite Hl.
  - intros lim M pl Hl -> Hp. unfold dimensionar_ligacao. rewrite Ha.
    cbn [bind nao_none]. unfold sitem, lig_tipo_base. now rewrite Hl, Hp.
Qed.

End ligacao_e_limites.

(** ** Axial and bending checks of the reinforcement *)

(** X5 (calcula_tensao_axial_admissivel).  For a leg whose radius of gyration
    is zero the sentinel slenderness 9999 does its work: under compression,
    under the forced compression check or with the tension limit enabled the
    call returns the infeasible record and does not raise, for a row of
    either kind of number. *)
Theorem calcula_tensao_axial_admissivel_montante_raio_nulo :
  forall df_materiais num dados_perfil forca_axial tipo_barra
    comprimento_efetivo coef_minoracao diametro_furo modulo_elasticidade
    limitar forcar descontos fy_nominal,
  obter_fy dados_perfil df_materiais = Ok fy_nominal ->
  e_montante tipo_barra = true ->
  truthy (rx_cm dados_perfil) = false ->
  solicitacao_de forca_axial = compressao \/ forcar = true \/ limitar = true ->
  calcula_tensao_axial_admissivel df_materiais num dados_perfil forca_axial
    tipo_barra comprimento_efetivo coef_minoracao diametro_furo
    modulo_elasticidade limitar forcar descontos
  = Ok (dicionario_inviavel (solicitacao_de forca_axial)).
Proof.
  intros dfm num p N tipo L coef d E limitar forcar desc fy Hfy Hm Hr Hc.
  unfold calcula_tensao_axial_admissivel. rewrite Hfy. cbn [bind].
  unfold reprovada_por_esbeltez, raio_de_giracao, esbeltez_real_de.
  rewrite Hm, Hr.
  destruct (solicitacao_de N); cbn [solicitacao_eqb orb].
  - destruct forcar; [reflexivity|].
    destruct limitar; [reflexivity|].
    destruct Hc as [Hc|[Hc|Hc]]; discriminate.
  - reflexivity.
Qed.

Section verificacao_da_norma.

Variables (num : origem) (perfil : perfil) (forca : float)
  (descontos_area_liquida : option (list (string * Z)))
  (coef_minoracao : float) (tipo_barra : string)
  (comprimento angulo_graus : float) (df_materiais : tabela_materiais)
  (diametros_furos : option (list (string * float))).

(** Under the forced compression check a profile beyond the slenderness
    limit of its class gets the infeasible record. *)
Lemma compressao_forcada_reprova_esbeltez fy_nominal diam limitar :
  obter_fy perfil df_materiais = Ok fy_nominal ->
  let raio := raio_de_giracao tipo_barra perfil in
  (e_montante tipo_barra = true /\
   (LIMITE_ESBELTEZ_MONTANTE <? esbeltez_real_de comprimento raio)%float
     = true) \/
  (e_montante tipo_barra = false /\
   exists ec,
     calcular_esbeltez_corrigida num tipo_barra comprimento raio = Ok ec /\
     (LIMITE_ESBELTEZ_DIAG_HORIZ <? ec)%float = true) ->
  calcula_tensao_axial_admissivel df_materiais num perfil forca tipo_barra
    comprimento coef_minoracao diam MODULO_ELASTICIDADE_ACO limitar true
    descontos_area_liquida
  = Ok (dicionario_inviavel (solicitacao_de forca)).
Proof.
  intros Hfy raio H. unfold calcula_tensao_axial_admissivel.
  rewrite Hfy. cbn [bind]. unfold reprovada_por_esbeltez.
  rewrite orb_true_r. fold raio.
  destruct H as [(Hm & Hl)|(Hm & ec & Hec & Hl)]; rewrite Hm.
  - cbn [bind]. now rewrite Hl.
  - rewrite Hec. cbn [bind]. now rewrite Hl.
Qed.

(** X6 (verificar_axial_flexao).  When the steel of the profile is in the
    material table and the slenderness limit of the compression check rejects
    the profile (a leg with real slenderness above 150, another bar with
    corrected slenderness above 200), the function does not return a rate
    above 1: [max] is applied to the [None] utilisation of the infeasible
    record and the call raises [TypeError]. *)
Theorem verificar_axial_flexao_esbeltez_levanta_type_error :
  forall fy_nominal,
  obter_fy perfil df_materiais = Ok fy_nominal ->
  let raio := raio_de_giracao tipo_barra perfil in
  (e_montante tipo_barra = true /\
   (LIMITE_ESBELTEZ_MONTANTE <? esbeltez_real_de comprimento raio)%float
     = true) \/
  (e_montante tipo_barra = false /\
   exists ec,
     calcular_esbeltez_corrigida num tipo_barra comprimento raio = Ok ec /\
     (LIMITE_ESBELTEZ_DIAG_HORIZ <? ec)%float = true) ->
  verificar_axial_flexao num perfil forca descontos_area_liquida
    coef_minoracao tipo_barra comprimento angulo_graus df_materiais
    diametros_furos
  = Raise TypeError.
Proof.
  intros fy Hfy raio H. unfold verificar_axial_flexao.
  rewrite (compressao_forcada_reprova_esbeltez fy _ false Hfy H).
  cbn [bind]. rewrite Hfy. reflexivity.
Qed.

End verificacao_da_norma.

(** ** Reinforcement of one leg *)

(** *** The sorting function of the example data meets the contract *)

Lemma insere_por_area_perm p l : Permutation (p :: l) (insere_por_area p l).
Proof.
  induction l as [|q l IH]; simpl; [reflexivity|].
  destruct (A_cm2 p <? A_cm2 q)%float; [reflexivity|].
  rewrite perm_swap. now constructor.
Qed.

Lemma in_insere_por_area p x l :
  In x (insere_por_area p l) <-> x = p \/ In x l.
Proof.
  split; intros H.
  - apply (Permutation_in _ (Permutation_sym (insere_por_area_perm p l))) in H.
    destruct H; auto.
  - apply (Permutation_in _ (insere_por_area_perm p l)).
    destruct H; [left|right]; auto.
Qed.

Lemma insere_por_area_ordenada p l :
  area_ausente p = false ->
  Forall (fun q => area_ausente q = false) l ->
  StronglySorted (fun a b => (A_cm2 a <=? A_cm2 b)%float = true) l ->
  StronglySorted (fun a b => (A_cm2 a <=? A_cm2 b)%float = true)
    (insere_por_area p l).
Proof.
  intros Hp Hl Hs. induction Hs as [|q l Hs IH Hq]; simpl.
  - repeat constructor.
  - inversion Hl as [|? ? Hvq Hvl]; subst.
    destruct (A_cm2 p <? A_cm2 q)%float eqn:E.
    + constructor; [now constructor|].
      constructor; [now apply flt_fle|].
      rewrite Forall_forall in *. intros x Hx.
      apply (fle_trans _ (A_cm2 q)); [now apply flt_fle | now apply Hq].
    + constructor; [now apply IH|].
      rewrite Forall_forall in *. intros x Hx.
      apply in_insere_por_area in Hx as [->|Hx]; [|now apply Hq].
      now apply fle_total.
Qed.

Lemma ordenacao_por_area (l : tabela_perfis) : forall acc,
  Forall (fun q => area_ausente q = false) l ->
  Forall (fun q => area_ausente q = false) acc ->
  StronglySorted (fun a b => (A_cm2 a <=? A_cm2 b)%float = true) acc ->
  let r := fold_left (fun acc p => insere_por_area p acc) l acc in
  Permutation (acc ++ l) r /\
  Forall (fun q => area_ausente q = false) r /\
  StronglySorted (fun a b => (A_cm2 a <=? A_cm2 b)%float = true) r.
Proof.
  induction l as [|p l IH]; intros acc Hl Hacc Hs; cbn zeta; simpl.
  - rewrite app_nil_r. auto.
  - inversion Hl as [|? ? Hp Hl']; subst.
    assert (Hacc' : Forall (fun q => area_ausente q = false)
                      (insere_por_area p acc)).
    { rewrite Forall_forall in *. intros x Hx.
      apply in_insere_por_area in Hx as [->|Hx]; auto. }
    destruct (IH (insere_por_area p acc) Hl' Hacc'
                (insere_por_area_ordenada _ _ Hp Hacc Hs)) as (HP & HF & HS).
    split; [|auto].
    rewrite <- HP. rewrite <- Permutation_middle.
    apply (Permutation_app_tail l (insere_por_area_perm p acc)).
Qed.

Lemma perm_de_particao {A} (f : A -> bool) (l : list A) :
  Permutation l (filter (fun x => negb (f x)) l ++ filter f l).
Proof.
  induction l as [|x l IH]; simpl; [reflexivity|].
  destruct (f x); simpl.
  - now apply Permutation_cons_app.
  - now constructor.
Qed.

Lemma sort_values_area_ordenada (df : tabela_perfis) :
  ordenada_por_area df (sort_values_area df).
Proof.
  unfold ordenada_por_area, sort_values_area.
  assert (Hv : Forall (fun q => area_ausente q = false)
                 (filter (fun p => negb (area_ausente p)) df)).
  { apply Forall_forall. intros x Hx. apply filter_In in Hx as [_ Hx].
    now apply negb_true_iff. }
  destruct (ordenacao_por_area _ [] Hv (Forall_nil _)
              (SSorted_nil _)) as (HP & HF & HS).
  cbn zeta in *. cbn [app] in HP.
  split.
  - rewrite (perm_de_particao area_ausente df) at 1.
    now apply Permutation_app_tail.
  - eexists _, _. split; [reflexivity|]. split; [exact HF|].
    split; [|exact HS].
    apply Forall_forall. intros x Hx. now apply filter_In in Hx as [_ Hx].
Qed.

Lemma in_skipn {A} (x : A) n l : In x (skipn n l) -> In x l.
Proof.
  revert l. induction n as [|n IH]; intros [|y l]; simpl; auto.
Qed.

(** *** Order of the rows of a sorted table *)

(** In a table that meets the contract no row has a strictly smaller area
    than a row before it. *)
Lemma ordenada_por_area_crescente df tabela pre linha pos :
  ordenada_por_area df tabela ->
  tabela = pre ++ linha :: pos ->
  Forall (fun q => (A_cm2 linha <? A_cm2 q)%float = false) pre /\
  Forall (fun q => (A_cm2 q <? A_cm2 linha)%float = false) pos.
Proof.
  intros (_ & validas & ausentes & Ht & Hv & Ha & Hs) E. subst tabela.
  assert (Hord : forall l1 x l2 y,
            validas ++ ausentes = l1 ++ x :: l2 -> In y l2 ->
            (A_cm2 y <? A_cm2 x)%float = false).
  { clear E pre linha pos. intros l1 x l2 y E Hy.
    destruct (area_ausente y) eqn:Ey;
      [apply flt_de_nan; now left|].
    destruct (area_ausente x) eqn:Ex;
      [apply flt_de_nan; now right|].
    (* both rows have an area: they lie in the sorted part *)
    revert l1 E Hs Hv.
    induction validas as [|v vs IH]; intros l1 E Hs Hv.
    - exfalso. cbn [app] in E. rewrite Forall_forall in Ha.
      assert (Hx : In x ausentes) by (rewrite E; apply in_elt).
      apply Ha in Hx. congruence.
    - inversion Hs as [|? ? Hs' Hmin]; subst.
      inversion Hv as [|? ? _ Hv']; subst.
      destruct l1 as [|z l1]; cbn [app] in E.
      + injection E as <- <-.
        apply in_app_iff in Hy as [Hy|Hy].
        * rewrite Forall_forall in Hmin.
          destruct (A_cm2 y <? A_cm2 v)%float eqn:Elt; [|reflexivity].
          apply flt_not_leb in Elt. rewrite (Hmin y Hy) in Elt.
          discriminate.
        * rewrite Forall_forall in Ha. apply Ha in Hy. congruence.
      + injection E as <- E. exact (IH l1 E Hs' Hv'). }
  split; apply Forall_forall; intros q Hq.
  - apply in_split in Hq as (p1 & p2 & ->).
    apply (Hord p1 q (p2 ++ linha :: pos) linha).
    + rewrite E. now rewrite <- app_assoc.
    + apply in_elt.
  - now apply (Hord pre linha pos q).
Qed.

Section reforco_de_um_montante.

Variables (sort_values : tabela_perfis -> tabela_perfis)
  (perfil_atual : string) (forca_axial : float)
  (df_perfis : tabela_perfis) (df_materiais : tabela_materiais)
  (diametros_furos : list (string * float))
  (limite_parafusos planos_cisalhamento : option (list (string * Z)))
  (fatores_esmagamento : option (list float)) (coef_minoracao : float)
  (descontos_area_liquida : option (list (string * Z)))
  (criterios_norma_fn :
     origem -> perfil -> float -> option (list (string * Z)) -> float ->
     string -> float -> float -> tabela_materiais ->
     option (list (string * float)) -> res float)
  (criterios_ligacao_fn :
     origem -> perfil -> float -> list (string * float) ->
     option (list (string * Z)) -> option (list (string * Z)) ->
     option (list float) -> float -> tabela_materiais -> tabela_perfis ->
     string -> res (dados_ligacao * float))
  (tipo_barra : string) (comprimento angulo_graus : float)
  (interromper_se_inviavel : bool).

Local Abbreviation diametro_montante :=
  (match sget diametros_furos "montante" with
   | Some d => d
   | None => 1.59%float
   end).
Local Abbreviation filtrada :=
  (filtrar_perfis_montante_reforco df_perfis diametro_montante).
Local Abbreviation tabela := (sort_values filtrada).
Local Abbreviation candidatas :=
  (skipn (indice_do_perfil tabela perfil_atual) tabela).
Local Abbreviation ligacao_de :=
  (fun linha =>
     criterios_ligacao_fn Numpy linha forca_axial diametros_furos
       limite_parafusos planos_cisalhamento fatores_esmagamento
       coef_minoracao df_materiais df_perfis tipo_barra).
Local Abbreviation norma_de :=
  (fun linha =>
     criterios_norma_fn Numpy linha forca_axial descontos_area_liquida
       coef_minoracao tipo_barra comprimento angulo_graus df_materiais
       (Some diametros_furos)).
Local Abbreviation rejeitada :=
  (fun linha =>
     exists lig tx_lig tx_norma,
       ligacao_de linha = Ok (lig, tx_lig) /\
       norma_de linha = Ok tx_norma /\
       (tx_lig <=? 1.0)%float && (tx_norma <=? 1.0)%float = false).
Local Abbreviation laco :=
  (laco_reforco_perfis forca_axial df_perfis df_materiais diametros_furos
     limite_parafusos planos_cisalhamento fatores_esmagamento coef_minoracao
     descontos_area_liquida criterios_norma_fn criterios_ligacao_fn
     tipo_barra comprimento angulo_graus interromper_se_inviavel).

Lemma laco_reforco_perfis_sucesso linhas nome lig :
  laco linhas = Ok (Some (nome, lig)) ->
  exists pre linha pos tx_lig tx_norma,
    linhas = pre ++ linha :: pos /\ nome = Perfil linha /\
    ligacao_de linha = Ok (lig, tx_lig) /\
    norma_de linha = Ok tx_norma /\
    (tx_lig <=? 1.0)%float = true /\ (tx_norma <=? 1.0)%float = true /\
    Forall rejeitada pre.
Proof.
  induction linhas as [|l ls IH]; cbn [laco_reforco_perfis]; intros H.
  - destruct interromper_se_inviavel; discriminate.
  - apply bind_ok in H as ([lg tl] & Hl & H).
    apply bind_ok in H as (tn & Hn & H).
    destruct ((tl <=? 1.0)%float && (tn <=? 1.0)%float) eqn:Hc.
    + injection H as <- <-. apply andb_true_iff in Hc as [H1 H2].
      exists [], l, ls, tl, tn. repeat split; auto.
    + destruct (IH H) as (pre & linha & pos & t1 & t2 & -> & Hrest).
      exists (l :: pre), linha, pos, t1, t2. split; [reflexivity|].
      destruct Hrest as (? & ? & ? & ? & ? & Hpre).
      repeat split; auto. constructor; [|exact Hpre].
      exists lg, tl, tn. auto.
Qed.

Lemma laco_reforco_perfis_rejeitadas pre resto :
  Forall rejeitada pre -> laco (pre ++ resto) = laco resto.
Proof.
  induction 1 as [|l ls (lg & tl & tn & Hl & Hn & Hc) _ IH]; [reflexivity|].
  cbn [app laco_reforco_perfis]. rewrite Hl. cbn [bind]. rewrite Hn.
  cbn [bind]. rewrite Hc. exact IH.
Qed.

Lemma laco_reforco_perfis_nenhum linhas :
  laco linhas = Ok None -> Forall rejeitada linhas.
Proof.
  induction linhas as [|l ls IH]; cbn [laco_reforco_perfis]; intros H;
    [constructor|].
  apply bind_ok in H as ([lg tl] & Hl & H).
  apply bind_ok in H as (tn & Hn & H).
  destruct ((tl <=? 1.0)%float && (tn <=? 1.0)%float) eqn:Hc;
    [discriminate|].
  constructor; [|auto]. exists lg, tl, tn. auto.
Qed.

(** X7 (reforcar_montante_ate_viavel).  With a sorting function that puts
    the filtered table in ascending order of gross area, rows without area
    last: when a profile is returned it is the first row, from the position
    of the current profile on in the sorted table, for which the connection
    rate and the normative rate are both at most 1; every row before it was
    evaluated, as a row of [numpy.float64] cells, and failed one of the two;
    no candidate before it has a strictly larger gross area and none after
    it a strictly smaller one, so every candidate of strictly smaller area
    was tried and rejected. The row comes from [df_perfis], is not flagged
    against use in a leg and accepts the leg bolt diameter. *)
Theorem reforcar_montante_ate_viavel_primeiro_perfil :
  forall nome lig,
  ordenada_por_area
    (filtrar_perfis_montante_reforco df_perfis diametro_montante) tabela ->
  reforcar_montante_ate_viavel sort_values perfil_atual forca_axial df_perfis
    df_materiais diametros_furos limite_parafusos planos_cisalhamento
    fatores_esmagamento coef_minoracao descontos_area_liquida
    criterios_norma_fn criterios_ligacao_fn tipo_barra comprimento
    angulo_graus interromper_se_inviavel
  = Ok (Some (nome, lig)) ->
  exists pre linha pos tx_lig tx_norma,
    candidatas = pre ++ linha :: pos /\ nome = Perfil linha /\
    ligacao_de linha = Ok (lig, tx_lig) /\
    norma_de linha = Ok tx_norma /\
    (tx_lig <=? 1.0)%float = true /\ (tx_norma <=? 1.0)%float = true /\
    Forall rejeitada pre /\
    Forall (fun q => (A_cm2 linha <? A_cm2 q)%float = false) pre /\
    Forall (fun q => (A_cm2 q <? A_cm2 linha)%float = false) pos /\
    (forall q, In q candidatas -> (A_cm2 q <? A_cm2 linha)%float = true ->
       rejeitada q) /\
    In linha df_perfis /\ nota_proibe_montante linha = false /\
    dmax_compativel diametro_montante linha = true.
Proof.
  intros nome lig Hord H. unfold reforcar_montante_ate_viavel in H.
  destruct (laco_reforco_perfis_sucesso _ _ _ H)
    as (pre & linha & pos & tl & tn & Hc & Hrest).
  assert (Hin : In linha tabela)
    by (apply (in_skipn _ (indice_do_perfil tabela perfil_atual));
        rewrite Hc; apply in_elt).
  apply (Permutation_in _ (Permutation_sym (proj1 Hord))) in Hin.
  unfold filtrar_perfis_montante_reforco, filtrar_por_diametro_parafuso in Hin.
  apply filter_In in Hin as [Hin Hd].
  apply filter_In in Hin as [Hin Hn].
  apply negb_true_iff in Hn.
  assert (Ht : tabela
               = (firstn (indice_do_perfil tabela perfil_atual) tabela ++ pre)
                 ++ linha :: pos).
  { rewrite <- app_assoc, <- Hc. symmetry. apply firstn_skipn. }
  destruct (ordenada_por_area_crescente _ _ _ _ _ Hord Ht) as [Hpre Hpos].
  apply Forall_app in Hpre as [_ Hpre].
  exists pre, linha, pos, tl, tn. split; [exact Hc|].
  destruct Hrest as (? & ? & ? & ? & ? & Hrej).
  repeat split; auto.
  intros q Hq Hlt. rewrite Hc in Hq.
  apply in_app_iff in Hq as [Hq|[<-|Hq]].
  - rewrite Forall_forall in Hrej. now apply Hrej.
  - rewrite flt_irrefl in Hlt. discriminate.
  - rewrite Forall_forall in Hpos. rewrite (Hpos q Hq) in Hlt. discriminate.
Qed.

(** X8 (reforcar_montante_ate_viavel).  Whatever order the sorting gives
    the table: the call ends without a profile only in soft mode, and then
    every candidate row was evaluated and failed; conversely, when every
    candidate row fails (an empty table included) the call raises
    [ValueError] in hard mode and returns [None] in soft mode. *)
Theorem reforcar_montante_ate_viavel_sem_perfil :
  (reforcar_montante_ate_viavel sort_values perfil_atual forca_axial
     df_perfis df_materiais diametros_furos limite_parafusos
     planos_cisalhamento fatores_esmagamento coef_minoracao
     descontos_area_liquida criterios_norma_fn criterios_ligacao_fn
     tipo_barra comprimento angulo_graus interromper_se_inviavel
   = Ok None ->
   interromper_se_inviavel = false /\ Forall rejeitada candidatas) /\
  (Forall rejeitada candidatas ->
   reforcar_montante_ate_viavel sort_values perfil_atual forca_axial
     df_perfis df_materiais diametros_furos limite_parafusos
     planos_cisalhamento fatores_esmagamento coef_minoracao
     descontos_area_liquida criterios_norma_fn criterios_ligacao_fn
     tipo_barra comprimento angulo_graus interromper_se_inviavel
   = if interromper_se_inviavel
     then Raise
            (ValueError "nenhum perfil atende ligacao e criterios normativos")
     else Ok None).
Proof.
  unfold reforcar_montante_ate_viavel. split.
  - intros H. split; [|now apply laco_reforco_perfis_nenhum].
    apply laco_reforco_perfis_nenhum in H as Hall.
    rewrite <- (app_nil_r candidatas) in H.
    rewrite (laco_reforco_perfis_rejeitadas _ [] Hall) in H.
    cbn [laco_reforco_perfis] in H.
    destruct interromper_se_inviavel; [discriminate|reflexivity].
  - intros Hall. rewrite <- (app_nil_r candidatas).
    now rewrite (laco_reforco_perfis_rejeitadas _ [] Hall).
Qed.

End reforco_de_um_montante.

Section reforco_com_a_norma.

Variables (sort_values : tabela_perfis -> tabela_perfis)
  (perfil_atual : string) (forca_axial : float)
  (df_perfis : tabela_perfis) (df_materiais : tabela_materiais)
  (diametros_furos : list (string * float))
  (limite_parafusos planos_cisalhamento : option (list (string * Z)))
  (fatores_esmagamento : option (list float)) (coef_minoracao : float)
  (descontos_area_liquida : option (list (string * Z)))
  (criterios_ligacao_fn :
     origem -> perfil -> float -> list (string * float) ->
     option (list (string * Z)) -> option (list (string * Z)) ->
     option (list float) -> float -> tabela_materiais -> tabela_perfis ->
     string -> res (dados_ligacao * float))
  (tipo_barra : string) (comprimento angulo_graus : float)
  (interromper_se_inviavel : bool).

Local Abbreviation diametro_montante :=
  (match sget diametros_furos "montante" with
   | Some d => d
   | None => 1.59%float
   end).
Local Abbreviation tabela :=
  (sort_values
     (filtrar_perfis_montante_reforco df_perfis diametro_montante)).
Local Abbreviation candidatas :=
  (skipn (indice_do_perfil tabela perfil_atual) tabela).
Local Abbreviation ligacao_de :=
  (fun linha =>
     criterios_ligacao_fn Numpy linha forca_axial diametros_furos
       limite_parafusos planos_cisalhamento fatores_esmagamento
       coef_minoracao df_materiais df_perfis tipo_barra).
Local Abbreviation norma_de :=
  (fun linha =>
     verificar_axial_flexao Numpy linha forca_axial descontos_area_liquida
       coef_minoracao tipo_barra comprimento angulo_graus df_materiais
       (Some diametros_furos)).

(** X9 (reforcar_montante_ate_viavel).  Whatever order the sorting gives the
    table: if the rows tried so far were rejected and the next candidate row
    of a leg has a real slenderness above 150, the reinforcement does not
    skip that row: once its connection has been designed the normative check
    raises [TypeError], with hard stop enabled or not. *)
Theorem reforcar_montante_ate_viavel_perfil_esbelto_levanta :
  forall pre linha pos lig tx_lig fy_nominal,
  candidatas = pre ++ linha :: pos ->
  Forall (fun l =>
            exists lg tl tn,
              ligacao_de l = Ok (lg, tl) /\ norma_de l = Ok tn /\
              (tl <=? 1.0)%float && (tn <=? 1.0)%float = false) pre ->
  ligacao_de linha = Ok (lig, tx_lig) ->
  obter_fy linha df_materiais = Ok fy_nominal ->
  e_montante tipo_barra = true ->
  (LIMITE_ESBELTEZ_MONTANTE
     <? esbeltez_real_de comprimento (rx_cm linha))%float = true ->
  reforcar_montante_ate_viavel sort_values perfil_atual forca_axial df_perfis
    df_materiais diametros_furos limite_parafusos planos_cisalhamento
    fatores_esmagamento coef_minoracao descontos_area_liquida
    verificar_axial_flexao criterios_ligacao_fn tipo_barra comprimento
    angulo_graus interromper_se_inviavel
  = Raise TypeError.
Proof.
  intros pre linha pos lig tl fy Hc Hpre Hl Hfy Hm Hs.
  unfold reforcar_montante_ate_viavel. rewrite Hc.
  erewrite laco_reforco_perfis_rejeitadas; [|exact Hpre].
  cbn [laco_reforco_perfis]. rewrite Hl. cbn [bind].
  unfold verificar_axial_flexao.
  rewrite (compressao_forcada_reprova_esbeltez Numpy linha forca_axial
             descontos_area_liquida coef_minoracao tipo_barra comprimento
             df_materiais fy _ false Hfy).
  - cbn [bind]. rewrite Hfy. reflexivity.
  - left. split; [exact Hm|]. unfold raio_de_giracao. now rewrite Hm.
Qed.

End reforco_com_a_norma.

(** ** Profile filters *)

Lemma filter_sublista {A} (f g : A -> bool) (l : list A) :
  (forall x, In x l -> g x = true -> f x = true) ->
  filter g (filter f l) = filter g l.
Proof.
  induction l as [|x l IH]; intros H; simpl; [reflexivity|].
  destruct (g x) eqn:Hg.
  - rewrite (H x (or_introl eq_refl) Hg). simpl. rewrite Hg.
    f_equal. apply IH. intros; apply H; simpl; auto.
  - destruct (f x); simpl; [rewrite Hg|]; apply IH; intros; apply H; simpl; auto.
Qed.

(** X10 (filtrar_por_diametro_parafuso).  The bolt-diameter filter keeps the
    rows of the table in their order, and a larger bolt never admits a profile
    that a smaller one excludes: filtering for [d2] a table already filtered
    for a smaller or equal [d1] gives the table filtered for [d2]. *)
Theorem filtrar_por_diametro_parafuso_encadeado
  (tabela : tabela_perfis) (d1 d2 : float) :
  (d1 <=? d2)%float = true ->
  filtrar_por_diametro_parafuso (filtrar_por_diametro_parafuso tabela d1) d2
  = filtrar_por_diametro_parafuso tabela d2.
Proof.
  intros Hd. unfold filtrar_por_diametro_parafuso.
  apply filter_sublista. intros p _. unfold dmax_compativel.
  destruct (D_max p); [|reflexivity].
  intros H. exact (fle_trans _ _ _ Hd H).
Qed.

(** ** Natural order of bar identifiers *)

Lemma filtra_string_app (f : ascii -> bool) (a b : string) :
  filtra_string f (a ++ b)%string
  = (filtra_string f a ++ filtra_string f b)%string.
Proof.
  induction a as [|c a IH]; simpl; [reflexivity|].
  destruct (f c); simpl; now rewrite IH.
Qed.

(** X11 (ordenar_id_barra).  A character that is neither a digit nor a letter
    is ignored by the sorting key wherever it stands in the identifier: the
    key of the identifier with the character is the key of the identifier
    without it (or the same error). *)
Theorem ordenar_id_barra_ignora_outros_caracteres
  (a b : string) (c : ascii) :
  is_digit c = false -> is_alpha c = false ->
  ordenar_id_barra (a ++ String c b) = ordenar_id_barra (a ++ b).
Proof.
  intros Hd Ha. unfold ordenar_id_barra.
  rewrite !filtra_string_app. simpl. now rewrite Hd, Ha.
Qed.

Lemma string_ltb_irrefl (s : string) : String.ltb s s = false.
Proof.
  unfold String.ltb. 
  assert (H := String.compare_antisym s s).
  destruct (s ?= s)%string; simpl in H; try reflexivity; discriminate.
Qed.

Lemma string_ltb_asym (s t : string) :
  String.ltb s t = true -> String.ltb t s = false.
Proof.
  unfold String.ltb. rewrite (String.compare_antisym s t).
  destruct (t ?= s)%string; simpl; congruence.
Qed.

Lemma string_ltb_trans (s t u : string) :
  String.ltb s t = true -> String.ltb t u = true -> String.ltb s u = true.
Proof.
  unfold String.ltb.
  destruct (s ?= t)%string eqn:H1; try discriminate.
  destruct (t ?= u)%string eqn:H2; try discriminate.
  intros _ _.
  apply OrderedTypeEx.String_as_OT.cmp_lt in H1, H2.
  assert (H := OrderedTypeEx.String_as_OT.lt_trans _ _ _ H1 H2).
  apply OrderedTypeEx.String_as_OT.cmp_lt in H.
  unfold OrderedTypeEx.String_as_OT.cmp in H. now rewrite H.
Qed.

Lemma string_ltb_total (s t : string) :
  String.ltb s t = false -> String.ltb t s = false -> s = t.
Proof.
  unfold String.ltb. rewrite (String.compare_antisym s t).
  destruct (t ?= s)%string eqn:H; simpl; try discriminate.
  intros _ _. symmetry. now apply String.compare_eq_iff.
Qed.

Lemma chave_lt_asym (a b : Z * string) :
  chave_lt a b = true -> chave_lt b a = false.
Proof.
  unfold chave_lt. destruct a as [n s], b as [m t]; simpl.
  rewrite !orb_true_iff, !andb_true_iff, orb_false_iff, andb_false_iff.
  rewrite !Z.ltb_lt, !Z.eqb_eq, Z.ltb_ge, Z.eqb_neq.
  intros [H|[H1 H2]].
  - split; [lia|left; lia].
  - split; [lia|right; now apply string_ltb_asym].
Qed.

Lemma chave_le_trans (a b c : Z * string) :
  chave_lt b a = false -> chave_lt c b = false -> chave_lt c a = false.
Proof.
  unfold chave_lt. destruct a as [n s], b as [m t], c as [k u]; simpl.
  rewrite !orb_false_iff, !andb_false_iff, !Z.ltb_ge, !Z.eqb_neq.
  intros [H1 H2] [H3 H4]. split; [lia|].
  destruct (Z.eq_dec k n) as [->|]; [right|left; assumption].
  assert (m = n) as -> by lia.
  destruct H2 as [H2|H2]; [congruence|].
  destruct H4 as [H4|H4]; [congruence|].
  destruct (String.ltb u s) eqn:E; [|reflexivity].
  destruct (String.ltb t u) eqn:E1.
  - rewrite (string_ltb_trans _ _ _ E1 E) in H2. discriminate.
  - rewrite (string_ltb_total _ _ E1 H4) in H2. congruence.
Qed.

Section ordenacao_natural.

Context {A : Type}.

Local Abbreviation antes_ou_igual :=
  (fun x y : (Z * string) * A => chave_lt (fst y) (fst x) = false).

Lemma insere_ordenado_perm (x : (Z * string) * A) l :
  Permutation (x :: l) (insere_ordenado x l).
Proof.
  induction l as [|y l IH]; simpl; [constructor; constructor|].
  destruct (chave_lt (fst x) (fst y)); [apply Permutation_refl|].
  eapply perm_trans; [apply perm_swap|]. now constructor.
Qed.

Lemma insere_ordenado_hdrel (x y : (Z * string) * A) l :
  antes_ou_igual y x -> HdRel antes_ou_igual y l ->
  HdRel antes_ou_igual y (insere_ordenado x l).
Proof.
  intros Hyx H. destruct l as [|z l]; simpl; [now constructor|].
  destruct (chave_lt (fst x) (fst z)); constructor; auto.
  now inversion H.
Qed.

Lemma insere_ordenado_sorted (x : (Z * string) * A) l :
  Sorted antes_ou_igual l -> Sorted antes_ou_igual (insere_ordenado x l).
Proof.
  induction 1 as [|y l Hs IH Hd]; simpl.
  - constructor; constructor.
  - destruct (chave_lt (fst x) (fst y)) eqn:E.
    + constructor; [now constructor|]. constructor.
      now apply chave_lt_asym.
    + constructor; [assumption|].
      apply insere_ordenado_hdrel; assumption.
Qed.

Lemma ordenacao_por_insercao (l acc : list ((Z * string) * A)) :
  Sorted antes_ou_igual acc ->
  Sorted antes_ou_igual (fold_left (fun acc x => insere_ordenado x acc) l acc)
  /\ Permutation (acc ++ l)
       (fold_left (fun acc x => insere_ordenado x acc) l acc).
Proof.
  revert acc. induction l as [|x l IH]; intros acc Hs; simpl.
  - rewrite app_nil_r. split; [assumption|apply Permutation_refl].
  - destruct (IH _ (insere_ordenado_sorted x acc Hs)) as [H1 H2].
    split; [assumption|].
    eapply perm_trans; [|exact H2].
    assert (HP := Permutation_app_tail l (insere_ordenado_perm x acc)).
    eapply perm_trans; [|exact HP].
    simpl. apply Permutation_sym, Permutation_middle.
Qed.

End ordenacao_natural.

Lemma map_res_chaves_ok (ids : list string) :
  (forall i, In i ids -> filtra_string is_digit i <> EmptyString) ->
  exists chaves,
    map_res (fun i => k <- ordenar_id_barra i ;; Ok (k, i)) ids = Ok chaves
    /\ map snd chaves = ids
    /\ Forall (fun c => ordenar_id_barra (snd c) = Ok (fst c)) chaves.
Proof.
  induction ids as [|i ids IH]; intros H; simpl.
  - exists []. repeat split; constructor.
  - destruct IH as (ch & E & Hm & Hf); [intros; apply H; simpl; auto|].
    assert (Hi := H i (or_introl eq_refl)).
    unfold ordenar_id_barra at 1.
    destruct (filtra_string is_digit i) eqn:Ed; [congruence|].
    simpl. rewrite E. simpl. eexists. split; [reflexivity|].
    split; [simpl; now rewrite Hm|].
    constructor; [|assumption]. simpl. unfold ordenar_id_barra. now rewrite Ed.
Qed.

Lemma map_res_chaves_erro (ids : list string) :
  (exists i, In i ids /\ filtra_string is_digit i = EmptyString) ->
  map_res (fun i => k <- ordenar_id_barra i ;; Ok (k, i)) ids
  = Raise (ValueError "invalid literal for int()").
Proof.
  induction ids as [|i ids IH]; intros (j & Hin & Hj); [destruct Hin|].
  simpl. unfold ordenar_id_barra at 1.
  destruct (filtra_string is_digit i) eqn:Ed; [reflexivity|].
  simpl. rewrite IH; [reflexivity|].
  destruct Hin as [->|Hin]; [congruence|eauto].
Qed.

(** X12 (ordenar_id_barra).  Sorting bar identifiers by their natural key
    raises [ValueError] as soon as one identifier has no digit; otherwise it
    returns the same identifiers, each as often as given, in an order in which
    no identifier comes after one with a greater key. *)
Theorem sorted_por_id_ordem_natural (ids : list string) :
  ((exists i, In i ids /\ filtra_string is_digit i = EmptyString) ->
   sorted_por_id ids = Raise (ValueError "invalid literal for int()"))
  /\
  ((forall i, In i ids -> filtra_string is_digit i <> EmptyString) ->
   exists l,
     sorted_por_id ids = Ok l /\ Permutation ids l /\
     StronglySorted
       (fun a b => exists ka kb,
          ordenar_id_barra a = Ok ka /\ ordenar_id_barra b = Ok kb /\
          chave_lt kb ka = false) l).
Proof.
  split.
  - intros H. unfold sorted_por_id. now rewrite (map_res_chaves_erro ids H).
  - intros H. destruct (map_res_chaves_ok ids H) as (ch & E & Hm & Hf).
    unfold sorted_por_id. rewrite E. simpl.
    destruct (ordenacao_por_insercao ch [] (Sorted_nil _)) as [Hs Hp].
    simpl in Hp.
    set (r := fold_left (fun acc x => insere_ordenado x acc) ch []) in *.
    eexists. split; [reflexivity|]. split.
    + rewrite <- Hm. now apply Permutation_map.
    + assert (Hfr : Forall (fun c => ordenar_id_barra (snd c) = Ok (fst c)) r).
      { rewrite Forall_forall in *. intros c Hc. apply Hf.
        eapply Permutation_in; [apply Permutation_sym; exact Hp|exact Hc]. }
      apply Sorted_StronglySorted in Hs;
        [|intros x y z; apply chave_le_trans].
      clearbody r. clear -Hs Hfr.
      induction Hs as [|c r Hs IH Hall]; simpl; constructor.
      * apply IH. now inversion Hfr.
      * inversion Hfr as [|? ? Hc Hr]; subst.
        rewrite Forall_forall in *. intros b Hb.
        apply in_map_iff in Hb as (d & <- & Hd).
        exists (fst c), (fst d). repeat split; auto.
Qed.

(** ** Bending check *)

Lemma fle_falso_de_nan (a b : float) :
  (a =? a)%float = false ->
  (b <=? a)%float = false /\ (a <=? b)%float = false.
Proof.
  rewrite eqb_spec, !leb_spec. unfold SFeqb, SFleb.
  destruct (Prim2SF a) as [sa|sa| |sa ma ea] eqn:Ea.
  - simpl. discriminate.
  - simpl. destruct sa; discriminate.
  - intros _. split; [destruct (Prim2SF b)|]; reflexivity.
  - simpl. rewrite Z.compare_refl.
    change (Pos.compare_cont Eq ma ma) with (Pos.compare ma ma).
    rewrite Pos.compare_refl. destruct sa; discriminate.
Qed.

(** X13 (verifica_flexao_simples).  A bar that is not a leg passes the bending
    check, whatever its length and section, when its angle is below 0, above
    360 or not a number: the check is applied only to angles inside the three
    listed ranges. *)
Theorem verifica_flexao_simples_fora_da_faixa
  (tipo_barra : string)
  (angulo_graus comprimento modulo_resistencia_flexao_x tensao_fy
   coef_minoracao : float) :
  (angulo_graus <? 0)%float = true \/ (360 <? angulo_graus)%float = true \/
  (angulo_graus =? angulo_graus)%float = false ->
  verifica_flexao_simples tipo_barra angulo_graus comprimento
    modulo_resistencia_flexao_x tensao_fy coef_minoracao = true.
Proof.
  intros H. unfold verifica_flexao_simples.
  destruct (e_montante tipo_barra); [reflexivity|].
  assert (E : ((0 <=? angulo_graus) && (angulo_graus <=? 45)
               || (135 <=? angulo_graus) && (angulo_graus <=? 225)
               || (315 <=? angulo_graus) && (angulo_graus <=? 360))%float
              = false).
  { destruct H as [H|[H|H]].
    - assert (H0 : forall c, (0 <=? c)%float = true ->
                (c <=? angulo_graus)%float = false).
      { intros c Hc. destruct (c <=? angulo_graus)%float eqn:E; [|reflexivity].
        pose proof (fle_flt_trans _ _ _ E H) as H1.
        pose proof (fle_flt_trans _ _ _ Hc H1) as H2.
        now rewrite flt_irrefl in H2. }
      rewrite (H0 0%float), (H0 135%float), (H0 315%float); reflexivity.
    - assert (H0 : forall c, (c <=? 360)%float = true ->
                (angulo_graus <=? c)%float = false).
      { intros c Hc. destruct (angulo_graus <=? c)%float eqn:E; [|reflexivity].
        pose proof (fle_trans _ _ _ E Hc) as H1.
        now rewrite (flt_not_leb _ _ H) in H1. }
      rewrite (H0 45%float), (H0 225%float), (H0 360%float) by reflexivity.
      rewrite !andb_false_r. reflexivity.
    - destruct (fle_falso_de_nan angulo_graus 0 H) as [-> _].
      destruct (fle_falso_de_nan angulo_graus 135 H) as [-> _].
      destruct (fle_falso_de_nan angulo_graus 315 H) as [-> _].
      reflexivity. }
  rewrite E. reflexivity.
Qed.

(** ** Leg positions and symmetric legs *)

Lemma set_mem_in x s : set_mem x s = true <-> In x s.
Proof.
  unfold set_mem. rewrite existsb_exists. split.
  - intros (y & Hy & E). apply String.eqb_eq in E. now subst.
  - intros H. exists x. split; [assumption|apply String.eqb_refl].
Qed.

Lemma in_set_add s y x : In x (set_add s y) <-> In x s \/ x = y.
Proof.
  unfold set_add. destruct (set_mem y s) eqn:E.
  - apply set_mem_in in E. split; [auto|]. intros [H| ->]; assumption.
  - rewrite in_app_iff. simpl. intuition.
Qed.

Lemma nodup_set_add s y : NoDup s -> NoDup (set_add s y).
Proof.
  intros H. unfold set_add. destruct (set_mem y s) eqn:E; [assumption|].
  apply NoDup_app; [assumption|repeat constructor; intros []|].
  intros x Hx [<-|[]]. apply set_mem_in in Hx. congruence.
Qed.

Lemma in_set_union s2 : forall s1 x,
  In x (set_union s1 s2) <-> In x s1 \/ In x s2.
Proof.
  unfold set_union. induction s2 as [|y s2 IH]; intros s1 x; simpl.
  - intuition.
  - rewrite IH, in_set_add. intuition.
Qed.

Lemma nodup_set_union s2 : forall s1, NoDup s1 -> NoDup (set_union s1 s2).
Proof.
  unfold set_union. induction s2 as [|y s2 IH]; intros s1 H; simpl;
    [assumption|]. apply IH. now apply nodup_set_add.
Qed.

Lemma startswith_app s p q :
  startswith s (p ++ q)%string = true -> startswith s p = true.
Proof.
  revert s. induction p as [|c p IH]; intros s; simpl.
  - destruct s; reflexivity.
  - destruct s as [|c' s]; [discriminate|]. simpl.
    destruct (Ascii.eqb c c'); simpl; [apply IH|discriminate].
Qed.

Lemma in_simetricos_de md tol ref id :
  In id (simetricos_de md tol ref) ->
  exists dref d m yrmin yrmax ymin ymax,
    sget md ref = Some dref /\ In (id, d) md /\ id <> ref /\
    e_montante (mb_tipo dref) = true /\ e_montante (mb_tipo d) = true /\
    startswith (mb_tipo d)
      (if contem "esq" (mb_tipo dref) then "montante_dir"
       else if contem "dir" (mb_tipo dref) then "montante_esq"
       else "montante") = true /\
    mb_modulo dref = Some m /\ mb_modulo d = Some m /\
    mb_y_min dref = Some yrmin /\ mb_y_max dref = Some yrmax /\
    mb_y_min d = Some ymin /\ mb_y_max d = Some ymax /\
    ((abs (yrmax - ymax) <? tol)%float
     || (abs (yrmin - ymin) <? tol)%float) = true.
Proof.
  unfold simetricos_de.
  destruct (sget md ref) as [dref|] eqn:Er; [|intros []].
  destruct (e_montante (mb_tipo dref)) eqn:Em; [|intros []]. cbn [negb].
  destruct (mb_modulo dref) as [m|] eqn:Emod; [|intros []].
  destruct (mb_y_min dref) as [yrmin|] eqn:Eymin; [|intros []].
  destruct (mb_y_max dref) as [yrmax|] eqn:Eymax; [|intros []].
  intros H. apply in_map_iff in H as ([id' d] & E & H). simpl in E. subst id'.
  apply filter_In in H as [Hin H]. cbn [fst snd] in H.
  rewrite !andb_true_iff, negb_true_iff in H.
  destruct H as [[[Hne Hst] Hmod] Hy].
  destruct (mb_modulo d) as [m'|] eqn:Emod'; [|discriminate].
  apply Z.eqb_eq in Hmod. subst m'.
  destruct (mb_y_min d) as [ymin|] eqn:Eymin'; [|discriminate].
  destruct (mb_y_max d) as [ymax|] eqn:Eymax'; [|discriminate].
  exists dref, d, m, yrmin, yrmax, ymin, ymax.
  repeat (split; [first [assumption|reflexivity]|]).
  split; [now apply String.eqb_neq|].
  split; [exact Em|].
  split.
  { unfold e_montante.
    destruct (contem "esq" (mb_tipo dref));
      [|destruct (contem "dir" (mb_tipo dref))]; [| |assumption].
    - exact (startswith_app _ "montante" "_dir" Hst).
    - exact (startswith_app _ "montante" "_esq" Hst). }
  repeat (split; [first [assumption|reflexivity]|]). assumption.
Qed.

Lemma simetricos_de_in md tol ref id dref d m yrmin yrmax ymin ymax :
  sget md ref = Some dref -> In (id, d) md -> id <> ref ->
  e_montante (mb_tipo dref) = true ->
  startswith (mb_tipo d)
    (if contem "esq" (mb_tipo dref) then "montante_dir"
     else if contem "dir" (mb_tipo dref) then "montante_esq"
     else "montante") = true ->
  mb_modulo dref = Some m -> mb_modulo d = Some m ->
  mb_y_min dref = Some yrmin -> mb_y_max dref = Some yrmax ->
  mb_y_min d = Some ymin -> mb_y_max d = Some ymax ->
  ((abs (yrmax - ymax) <? tol)%float
   || (abs (yrmin - ymin) <? tol)%float) = true ->
  In id (simetricos_de md tol ref).
Proof.
  intros Er Hin Hne Em Hst Emod Emod' Eymin Eymax Eymin' Eymax' Hy.
  unfold simetricos_de. rewrite Er, Em, Emod, Eymin, Eymax. cbn [negb].
  apply in_map_iff. exists (id, d). split; [reflexivity|].
  apply filter_In. split; [exact Hin|]. cbn [fst snd].
  rewrite Hst, Emod', Eymin', Eymax', Hy, Z.eqb_refl.
  apply String.eqb_neq in Hne. now rewrite Hne.
Qed.

Lemma in_ids_adicionais md tol ids : forall acc id,
  In id (fold_left
           (fun acc id_referencia =>
              set_union acc (simetricos_de md tol id_referencia)) ids acc) <->
  In id acc \/ exists ref, In ref ids /\ In id (simetricos_de md tol ref).
Proof.
  induction ids as [|r ids IH]; intros acc id; simpl.
  - split; [auto|]. intros [H|(? & [] & _)]. assumption.
  - rewrite IH, in_set_union. split.
    + intros [[H|H]|(ref & Hr & H)]; eauto.
    + intros [H|(ref & [<-|Hr] & H)]; eauto.
Qed.

Lemma nodup_ids_adicionais md tol ids : forall acc,
  NoDup acc ->
  NoDup (fold_left
           (fun acc id_referencia =>
              set_union acc (simetricos_de md tol id_referencia)) ids acc).
Proof.
  induction ids as [|r ids IH]; intros acc H; simpl; [assumption|].
  apply IH. now apply nodup_set_union.
Qed.

(** X14 (expandir_ligacoes_montantes_simetricos).  A bar is in the
    symmetric expansion exactly when it is one of the given bars or it is
    another bar of the metadata whose type starts with the leg prefix looked
    for (the opposite side when the given leg's type names a side, any leg
    otherwise), in the same module as one of the given legs, both with their
    levels set, and with the same top or the same base level within the
    tolerance; the result repeats no bar when the input does not. *)
Theorem expandir_ligacoes_montantes_simetricos_membros
  (metadados : metadados_t) (ids_originais : list string)
  (tolerancia : float) (id : string) :
  (In id (expandir_ligacoes_montantes_simetricos
            metadados ids_originais tolerancia) <->
   In id ids_originais \/
   exists ref dref d m yrmin yrmax ymin ymax,
     In ref ids_originais /\
     sget metadados ref = Some dref /\ In (id, d) metadados /\ id <> ref /\
     e_montante (mb_tipo dref) = true /\ e_montante (mb_tipo d) = true /\
     startswith (mb_tipo d)
       (if contem "esq" (mb_tipo dref) then "montante_dir"
        else if contem "dir" (mb_tipo dref) then "montante_esq"
        else "montante") = true /\
     mb_modulo dref = Some m /\ mb_modulo d = Some m /\
     mb_y_min dref = Some yrmin /\ mb_y_max dref = Some yrmax /\
     mb_y_min d = Some ymin /\ mb_y_max d = Some ymax /\
     ((abs (yrmax - ymax) <? tolerancia)%float
      || (abs (yrmin - ymin) <? tolerancia)%float) = true)
  /\
  (NoDup ids_originais ->
   NoDup (expandir_ligacoes_montantes_simetricos
            metadados ids_originais tolerancia)).
Proof.
  unfold expandir_ligacoes_montantes_simetricos. split.
  - rewrite in_set_union, in_ids_adicionais. simpl. split.
    + intros [H|[[]|(ref & Hr & H)]]; [now left|]. right.
      destruct (in_simetricos_de _ _ _ _ H)
        as (dref & d & m & a & b & c & e & Hs).
      exists ref, dref, d, m, a, b, c, e. split; [exact Hr|exact Hs].
    + intros [H|(ref & dref & d & m & a & b & c & e & Hr & H1 & H2 & H3 & H4
                 & _ & H6 & H7 & H8 & H9 & H10 & H11 & H12 & H13)];
        [now left|].
      right. right. exists ref. split; [exact Hr|].
      exact (simetricos_de_in _ _ _ _ _ _ _ _ _ _ _ H1 H2 H3 H4 H6 H7 H8 H9
               H10 H11 H12 H13).
  - intros H. now apply nodup_set_union.
Qed.

(** *** Groups built with [setdefault(...).append(...)] *)

Section grupos_por_chave.

Context {K V : Type} (eqb : K -> K -> bool).
Hypothesis eqb_igual : forall a b, eqb a b = true <-> a = b.

Lemma dict_append_origem (d : list (K * list V)) k v k' l' b :
  In (k', l') (dict_append eqb d k v) -> In b l' ->
  (k' = k /\ b = v) \/ exists l0, In (k', l0) d /\ In b l0.
Proof.
  induction d as [|[k0 l0] d IH]; simpl.
  - intros [E|[]] Hb. injection E as <- <-. destruct Hb as [<-|[]]. now left.
  - destruct (eqb k k0) eqn:Ek.
    + apply eqb_igual in Ek. subst k0.
      intros [E|Hin] Hb.
      * injection E as <- <-. apply in_app_iff in Hb as [Hb|[<-|[]]].
        -- right. exists l0. auto.
        -- now left.
      * right. exists l'. auto.
    + intros [E|Hin] Hb.
      * injection E as <- <-. right. exists l0. auto.
      * destruct (IH Hin Hb) as [?|(l1 & ? & ?)]; [now left|].
        right. exists l1. auto.
Qed.

Lemma dict_append_conserva (d : list (K * list V)) k v k' l0 :
  In (k', l0) d ->
  exists l', In (k', l') (dict_append eqb d k v) /\ incl l0 l'.
Proof.
  induction d as [|[k0 l1] d IH]; simpl; [intros []|].
  destruct (eqb k k0) eqn:Ek.
  - intros [E|Hin].
    + injection E as <- <-. exists (l1 ++ [v]). split; [now left|].
      intros x Hx. apply in_app_iff. now left.
    + exists l0. split; [now right|apply incl_refl].
  - intros [E|Hin].
    + injection E as <- <-. exists l1. split; [now left|apply incl_refl].
    + destruct (IH Hin) as (l' & ? & ?). exists l'. split; [now right|assumption].
Qed.

Lemma dict_append_novo (d : list (K * list V)) k v :
  exists l', In (k, l') (dict_append eqb d k v) /\ In v l'.
Proof.
  induction d as [|[k0 l1] d IH]; simpl.
  - exists [v]. split; left; reflexivity.
  - destruct (eqb k k0) eqn:Ek.
    + apply eqb_igual in Ek. subst k0. exists (l1 ++ [v]).
      split; [now left|]. apply in_app_iff. right. now left.
    + destruct IH as (l' & ? & ?). exists l'. split; [now right|assumption].
Qed.

End grupos_por_chave.

Lemma chave_grupo_eqb_igual (a b : Z * string) :
  chave_grupo_eqb a b = true <-> a = b.
Proof.
  unfold chave_grupo_eqb. destruct a as [m s], b as [n t]; simpl.
  rewrite andb_true_iff, Z.eqb_eq, String.eqb_eq. split.
  - intros [-> ->]. reflexivity.
  - intros E. injection E as -> ->. auto.
Qed.

Section escolha_dos_extremos.

Variable esforcos_por_barra : list (string * list float).

Local Abbreviation maximo := (py_max_by (fun v : float => v)).
Local Abbreviation minimo := (py_min_by (fun v : float => v)).

Local Abbreviation passo_extremos :=
  (fun e id_barra =>
     match sget esforcos_por_barra id_barra with
     | Some (x :: l) =>
         atualiza_extremos e id_barra (maximo x l) (minimo x l)
     | _ => e
     end).

Local Abbreviation extremos_validos :=
  (fun (bs : list string) (e : extremos) =>
     (forall b x l, In b bs -> sget esforcos_por_barra b = Some (x :: l) ->
        (tracao_maxima e <? maximo x l)%float = false /\
        (minimo x l <? compressao_maxima e)%float = false)
     /\ match melhor_tracao e with
        | Some r => In r bs /\ exists x l,
            sget esforcos_por_barra r = Some (x :: l) /\
            tracao_maxima e = maximo x l
        | None => tracao_maxima e = neg_infinity
        end
     /\ match melhor_compressao e with
        | Some r => In r bs /\ exists x l,
            sget esforcos_por_barra r = Some (x :: l) /\
            compressao_maxima e = minimo x l
        | None => compressao_maxima e = infinity
        end).

Lemma flt_falso_de_maior (t t' m : float) :
  (t <? m)%float = false -> (t <? t')%float = true -> (t' <? m)%float = false.
Proof.
  intros H1 H2. destruct (t' <? m)%float eqn:E; [|reflexivity].
  rewrite (flt_trans _ _ _ H2 E) in H1. discriminate.
Qed.

Lemma flt_falso_de_menor (c c' m : float) :
  (m <? c)%float = false -> (c' <? c)%float = true -> (m <? c')%float = false.
Proof.
  intros H1 H2. destruct (m <? c')%float eqn:E; [|reflexivity].
  rewrite (flt_trans _ _ _ E H2) in H1. discriminate.
Qed.

Lemma extremos_validos_passo bs e b :
  extremos_validos bs e -> extremos_validos (bs ++ [b]) (passo_extremos e b).
Proof.
  cbv beta. intros (Hall & Ht & Hc).
  assert (Hold : forall r, In r bs -> In r (bs ++ [b]))
    by (intros; apply in_app_iff; now left).
  assert (Hnew : In b (bs ++ [b]))
    by (apply in_app_iff; right; now left).
  destruct (sget esforcos_por_barra b) as [[|x l]|] eqn:Eb.
  - split; [|split].
    + intros b' x' l' Hin E. apply in_app_iff in Hin as [Hin|[<-|[]]];
        [exact (Hall _ _ _ Hin E)|congruence].
    + destruct (melhor_tracao e); [|assumption].
      destruct Ht as [? ?]. auto.
    + destruct (melhor_compressao e); [|assumption].
      destruct Hc as [? ?]. auto.
  - unfold atualiza_extremos.
    destruct (tracao_maxima e <? maximo x l)%float eqn:E1; cbn [compressao_maxima tracao_maxima melhor_tracao melhor_compressao];
    destruct (minimo x l <? compressao_maxima e)%float eqn:E2; cbn [compressao_maxima tracao_maxima melhor_tracao melhor_compressao].
    all: split; [|split].
    all: try (intros b' x' l' Hin E; apply in_app_iff in Hin as [Hin|[<-|[]]];
              [destruct (Hall b' x' l' Hin E) as [Ha Hb]
              |rewrite Eb in E; injection E as <- <-]).
    all: try (split; [first [apply flt_irrefl | assumption
                            | eapply flt_falso_de_maior; eassumption]
                     |first [apply flt_irrefl | assumption
                            | eapply flt_falso_de_menor; eassumption]]).
    all: try (split; [exact Hnew|]; exists x, l; split; [exact Eb|reflexivity]).
    all: try (destruct (melhor_tracao e); [destruct Ht; auto|assumption]).
    all: try (destruct (melhor_compressao e); [destruct Hc; auto|assumption]).
  - split; [|split].
    + intros b' x' l' Hin E. apply in_app_iff in Hin as [Hin|[<-|[]]];
        [exact (Hall _ _ _ Hin E)|congruence].
    + destruct (melhor_tracao e); [|assumption].
      destruct Ht as [? ?]. auto.
    + destruct (melhor_compressao e); [|assumption].
      destruct Hc as [? ?]. auto.
Qed.

Lemma extremos_validos_laco (bs : list string) : forall pre e,
  extremos_validos pre e ->
  extremos_validos (pre ++ bs) (fold_left passo_extremos bs e).
Proof.
  induction bs as [|b bs IH]; intros pre e H; simpl.
  - now rewrite app_nil_r.
  - replace (pre ++ b :: bs) with ((pre ++ [b]) ++ bs)
      by (rewrite <- app_assoc; reflexivity).
    apply IH. now apply extremos_validos_passo.
Qed.

Lemma extremos_validos_grupo (bs : list string) :
  extremos_validos bs (fold_left passo_extremos bs extremos_iniciais).
Proof.
  apply (extremos_validos_laco bs [] extremos_iniciais).
  split; [intros ? ? ? []|]. split; reflexivity.
Qed.

Local Abbreviation passo_grupo :=
  (fun ids (g : (Z * string) * list string) =>
     let e := fold_left passo_extremos (snd g) extremos_iniciais in
     adiciona_se_valido (adiciona_se_valido ids (melhor_tracao e))
       (melhor_compressao e)).

Lemma in_adiciona_se_valido s o id :
  In id (adiciona_se_valido s o) <->
  In id s \/ (o = Some id /\ id <> ""%string).
Proof.
  unfold adiciona_se_valido. destruct o as [i|].
  - destruct (String.eqb_spec i "") as [->|Hne].
    + split; [auto|]. intros [H|[E H]]; [assumption|]. congruence.
    + rewrite in_set_add. split.
      * intros [H| ->]; auto.
      * intros [H|[E H]]; [auto|]. injection E as ->. auto.
  - split; [auto|]. intros [H|[E _]]; [assumption|discriminate].
Qed.

Lemma in_escolhidos (grupos : list ((Z * string) * list string)) :
  forall ids id,
  In id (fold_left passo_grupo grupos ids) <->
  In id ids \/
  (id <> ""%string /\ exists g, In g grupos /\
     let e := fold_left passo_extremos (snd g) extremos_iniciais in
     melhor_tracao e = Some id \/ melhor_compressao e = Some id).
Proof.
  induction grupos as [|g grupos IH]; intros ids id; cbn [fold_left].
  - split; [auto|]. intros [H|(_ & g & [] & _)]. assumption.
  - rewrite IH, !in_adiciona_se_valido. cbn zeta. split.
    + intros [[[H|[E Hn]]|[E Hn]]|(Hn & g' & Hg & H)]; auto.
      * right. split; [assumption|]. exists g. split; [now left|auto].
      * right. split; [assumption|]. exists g. split; [now left|auto].
      * right. split; [assumption|]. exists g'. split; [now right|auto].
    + intros [H|(Hn & g' & [<-|Hg] & H)]; auto.
      * destruct H as [H|H]; auto.
      * right. split; [assumption|]. exists g'. auto.
Qed.

End escolha_dos_extremos.

Local Abbreviation passo_grupos_extremidade :=
  (fun (acc : list ((Z * string) * list string))
       (b : string * metadados_barra) =>
     let dados := snd b in
     if negb (e_montante (mb_tipo dados)) then acc
     else
       match mb_modulo dados with
       | None => acc
       | Some modulo =>
           let acc1 :=
             if marcado (mb_base_modulo dados)
             then dict_append chave_grupo_eqb acc (modulo, "base") (fst b)
             else acc in
           if marcado (mb_topo_estrutura dados)
           then dict_append chave_grupo_eqb acc1 (modulo, "topo") (fst b)
           else acc1
       end).

Local Abbreviation no_grupo :=
  (fun (k : Z * string) (d : metadados_barra) =>
     e_montante (mb_tipo d) = true /\ mb_modulo d = Some (fst k) /\
     ((snd k = "base" /\ marcado (mb_base_modulo d) = true) \/
      (snd k = "topo" /\ marcado (mb_topo_estrutura d) = true))).

Lemma grupos_extremidade_origem (md : metadados_t) : forall acc k l b,
  In (k, l) (fold_left passo_grupos_extremidade md acc) -> In b l ->
  (exists l0, In (k, l0) acc /\ In b l0) \/
  exists d, In (b, d) md /\ no_grupo k d.
Proof.
  induction md as [|[i d] md IH]; intros acc k l b Hin Hb; cbn [fold_left] in Hin.
  - left. eauto.
  - apply IH with (b := b) in Hin; [|assumption].
    destruct Hin as [(l0 & Hin & Hb0)|(d' & Hin & H)];
      [|right; exists d'; split; [now right|assumption]].
    cbn [fst snd] in Hin.
    destruct (e_montante (mb_tipo d)) eqn:Em; cbn [negb] in Hin;
      [|left; eauto].
    destruct (mb_modulo d) as [m|] eqn:Emod; [|left; eauto].
    destruct (marcado (mb_topo_estrutura d)) eqn:Et.
    + apply (dict_append_origem _ chave_grupo_eqb_igual) with (b := b) in Hin;
        [|assumption].
      destruct Hin as [[-> ->]|(l1 & Hin & Hb1)].
      * right. exists d. split; [now left|]. cbn [fst snd]. auto.
      * destruct (marcado (mb_base_modulo d)) eqn:Eb; [|left; eauto].
        apply (dict_append_origem _ chave_grupo_eqb_igual) with (b := b) in Hin;
          [|assumption].
        destruct Hin as [[-> ->]|(l2 & Hin & Hb2)]; [|left; eauto].
        right. exists d. split; [now left|]. cbn [fst snd]. auto.
    + destruct (marcado (mb_base_modulo d)) eqn:Eb; [|left; eauto].
      apply (dict_append_origem _ chave_grupo_eqb_igual) with (b := b) in Hin;
        [|assumption].
      destruct Hin as [[-> ->]|(l2 & Hin & Hb2)]; [|left; eauto].
      right. exists d. split; [now left|]. cbn [fst snd]. auto.
Qed.

Lemma grupos_extremidade_conserva (md : metadados_t) : forall acc k l0,
  In (k, l0) acc ->
  exists l, In (k, l) (fold_left passo_grupos_extremidade md acc) /\
    incl l0 l.
Proof.
  induction md as [|[i d] md IH]; intros acc k l0 Hin; cbn [fold_left].
  - exists l0. split; [assumption|apply incl_refl].
  - assert (Hstep : exists l1,
              In (k, l1) (passo_grupos_extremidade acc (i, d)) /\ incl l0 l1).
    { cbn [fst snd].
      destruct (e_montante (mb_tipo d)); cbn [negb];
        [|exists l0; split; [assumption|apply incl_refl]].
      destruct (mb_modulo d) as [m|];
        [|exists l0; split; [assumption|apply incl_refl]].
      assert (H1 : exists l1,
                In (k, l1)
                  (if marcado (mb_base_modulo d)
                   then dict_append chave_grupo_eqb acc (m, "base") i
                   else acc) /\ incl l0 l1).
      { destruct (marcado (mb_base_modulo d));
          [now apply dict_append_conserva
          |exists l0; split; [assumption|apply incl_refl]]. }
      destruct H1 as (l1 & H1 & Hi1).
      destruct (marcado (mb_topo_estrutura d)); [|eauto].
      destruct (dict_append_conserva chave_grupo_eqb _ (m, "topo") i _ _ H1)
        as (l2 & H2 & Hi2).
      exists l2. split; [assumption|]. eapply incl_tran; eassumption. }
    destruct Hstep as (l1 & H1 & Hi1).
    destruct (IH _ _ _ H1) as (l & H & Hi).
    exists l. split; [assumption|]. eapply incl_tran; eassumption.
Qed.

Lemma grupos_extremidade_completo (md : metadados_t) : forall acc b d k,
  In (b, d) md -> no_grupo k d ->
  exists l, In (k, l) (fold_left passo_grupos_extremidade md acc) /\ In b l.
Proof.
  induction md as [|[i d0] md IH]; intros acc b d k Hin H; [destruct Hin|].
  cbn [fold_left]. destruct Hin as [E|Hin]; [|eapply IH; eassumption].
  injection E as -> ->.
  destruct k as [m pos]. destruct H as (Hm & Hmod & Hpos). cbn [fst snd] in *.
  assert (Hstep : exists l1,
            In ((m, pos), l1) (passo_grupos_extremidade acc (b, d)) /\
            In b l1).
  { cbn [fst snd]. rewrite Hm, Hmod. cbn [negb].
    destruct Hpos as [[-> Hb]|[-> Ht]].
    - rewrite Hb.
      destruct (dict_append_novo chave_grupo_eqb chave_grupo_eqb_igual
                  acc (m, "base") b) as (l1 & H1 & Hb1).
      destruct (marcado (mb_topo_estrutura d)); [|eauto].
      destruct (dict_append_conserva chave_grupo_eqb _ (m, "topo") b _ _ H1)
        as (l2 & H2 & Hi2).
      exists l2. split; [assumption|now apply Hi2].
    - rewrite Ht. apply dict_append_novo. exact chave_grupo_eqb_igual. }
  destruct Hstep as (l1 & H1 & Hb1).
  destruct (grupos_extremidade_conserva md _ _ _ H1) as (l & Hl & Hi).
  exists l. split; [assumption|now apply Hi].
Qed.

(** X15 (identificar_montantes_com_ligacao).  When no bar has the empty
    identifier, the bars chosen for a connection check are legs of the
    metadata marked as module base or as top of the structure, each with at
    least one force; and for every such marked leg with forces, unless its
    greatest force is minus infinity or not a number, a chosen leg of the same
    module and mark has a greatest force that is not smaller, and likewise,
    unless its least force is plus infinity or not a number, a chosen leg of
    the same module and mark has a least force that is not greater. *)
Theorem identificar_montantes_com_ligacao_extremos
  (metadados : metadados_t) (esforcos_por_hipotese : esforcos_t) :
  ~ In ""%string (map fst metadados) ->
  let esforcos_por_barra := esforcos_por_barra_de esforcos_por_hipotese in
  let ids := identificar_montantes_com_ligacao metadados esforcos_por_hipotese in
  (forall id, In id ids ->
     exists d x l,
       In (id, d) metadados /\ e_montante (mb_tipo d) = true /\
       mb_modulo d <> None /\
       (marcado (mb_base_modulo d) = true \/
        marcado (mb_topo_estrutura d) = true) /\
       sget esforcos_por_barra id = Some (x :: l))
  /\
  (forall marca b d m x l,
     marca = mb_base_modulo \/ marca = mb_topo_estrutura ->
     In (b, d) metadados -> e_montante (mb_tipo d) = true ->
     mb_modulo d = Some m -> marcado (marca d) = true ->
     sget esforcos_por_barra b = Some (x :: l) ->
     ((neg_infinity <? py_max_by (fun v => v) x l)%float = true ->
      exists r dr xr lr,
        In r ids /\ In (r, dr) metadados /\ e_montante (mb_tipo dr) = true /\
        mb_modulo dr = Some m /\ marcado (marca dr) = true /\
        sget esforcos_por_barra r = Some (xr :: lr) /\
        (py_max_by (fun v => v) xr lr <? py_max_by (fun v => v) x l)%float
        = false)
     /\
     ((py_min_by (fun v => v) x l <? infinity)%float = true ->
      exists r dr xr lr,
        In r ids /\ In (r, dr) metadados /\ e_montante (mb_tipo dr) = true /\
        mb_modulo dr = Some m /\ marcado (marca dr) = true /\
        sget esforcos_por_barra r = Some (xr :: lr) /\
        (py_min_by (fun v => v) x l <? py_min_by (fun v => v) xr lr)%float
        = false)).
Proof.
  intros Hvazio epb ids.
  set (grupos := fold_left passo_grupos_extremidade metadados []).
  assert (Hids : forall id, In id ids <->
            id <> ""%string /\ exists g, In g grupos /\
              let e := fold_left
                         (fun e id_barra =>
                            match sget epb id_barra with
                            | Some (x :: l) =>
                                atualiza_extremos e id_barra
                                  (py_max_by (fun v => v) x l)
                                  (py_min_by (fun v => v) x l)
                            | _ => e
                            end) (snd g) extremos_iniciais in
              melhor_tracao e = Some id \/ melhor_compressao e = Some id).
  { intros id. unfold ids, identificar_montantes_com_ligacao.
    fold epb. fold grupos. rewrite (in_escolhidos epb grupos [] id).
    split; [intros [[]|H]; exact H|auto]. }
  assert (Horigem : forall k l r, In (k, l) grupos -> In r l ->
            exists d, In (r, d) metadados /\ no_grupo k d).
  { intros k l r Hg Hr.
    destruct (grupos_extremidade_origem metadados [] k l r Hg Hr)
      as [(? & [] & _)|H]. exact H. }
  split.
  - intros id Hid. apply Hids in Hid as (Hne & [k bs] & Hg & He).
    cbn [snd] in He.
    destruct (extremos_validos_grupo epb bs) as (_ & Ht & Hc).
    assert (Hin : In id bs /\ exists x l, sget epb id = Some (x :: l)).
    { destruct He as [He|He].
      - rewrite He in Ht. destruct Ht as (? & x & l & ? & _). eauto.
      - rewrite He in Hc. destruct Hc as (? & x & l & ? & _). eauto. }
    destruct Hin as (Hin & x & l & Ex).
    destruct (Horigem k bs id Hg Hin) as (d & Hd & Hm & Hmod & Hpos).
    exists d, x, l. split; [assumption|]. split; [assumption|].
    split; [congruence|]. split; [|assumption].
    destruct Hpos as [[_ ?]|[_ ?]]; auto.
  - intros marca b d m x l Hmarca Hd Hm Hmod Hflag Ex.
    assert (Hk : exists pos,
              no_grupo (m, pos) d /\
              forall d', no_grupo (m, pos) d' -> marcado (marca d') = true).
    { destruct Hmarca as [-> | ->].
      - exists "base"%string. split; [cbn [fst snd]; auto|].
        intros d' (_ & _ & [[_ ?]|[E _]]); [assumption|discriminate].
      - exists "topo"%string. split; [cbn [fst snd]; auto|].
        intros d' (_ & _ & [[E _]|[_ ?]]); [discriminate|assumption]. }
    destruct Hk as (pos & Hk & Hmarcas).
    destruct (grupos_extremidade_completo metadados [] b d (m, pos) Hd Hk)
      as (bs & Hg & Hb).
    fold grupos in Hg.
    destruct (extremos_validos_grupo epb bs) as (Hall & Ht & Hc).
    destruct (Hall b x l Hb Ex) as [Hmax Hmin].
    assert (Hescolhido : forall r, In r bs ->
              (melhor_tracao
                 (fold_left
                    (fun e id_barra =>
                       match sget epb id_barra with
                       | Some (x :: l) =>
                           atualiza_extremos e id_barra
                             (py_max_by (fun v => v) x l)
                             (py_min_by (fun v => v) x l)
                       | _ => e
                       end) bs extremos_iniciais) = Some r \/
               melhor_compressao
                 (fold_left
                    (fun e id_barra =>
                       match sget epb id_barra with
                       | Some (x :: l) =>
                           atualiza_extremos e id_barra
                             (py_max_by (fun v => v) x l)
                             (py_min_by (fun v => v) x l)
                       | _ => e
                       end) bs extremos_iniciais) = Some r) ->
              In r ids /\ exists dr, In (r, dr) metadados /\
                e_montante (mb_tipo dr) = true /\ mb_modulo dr = Some m /\
                marcado (marca dr) = true).
    { intros r Hr He.
      destruct (Horigem _ _ r Hg Hr) as (dr & Hdr & Hgr).
      split.
      - apply Hids. split.
        + intros ->. apply Hvazio. change ""%string with (fst (""%string, dr)).
          now apply in_map.
        + exists ((m, pos), bs). split; [assumption|exact He].
      - exists dr. split; [assumption|].
        destruct Hgr as (? & ? & ?). split; [assumption|].
        split; [assumption|]. apply Hmarcas. cbn [fst snd]. auto. }
    split.
    + intros Hfin.
      destruct (melhor_tracao _) as [r|] eqn:Er.
      * destruct Ht as (Hr & xr & lr & Exr & ET).
        destruct (Hescolhido r Hr (or_introl eq_refl)) as (Hin & dr & ? & ? & ? & ?).
        exists r, dr, xr, lr. rewrite <- ET.
        repeat (split; [assumption|]). assumption.
      * rewrite Ht in Hmax. congruence.
    + intros Hfin.
      destruct (melhor_compressao _) as [r|] eqn:Er.
      * destruct Hc as (Hr & xr & lr & Exr & EC).
        destruct (Hescolhido r Hr (or_intror eq_refl)) as (Hin & dr & ? & ? & ? & ?).
        exists r, dr, xr, lr. rewrite <- EC.
        repeat (split; [assumption|]). assumption.
      * rewrite Hc in Hmin. congruence.
Qed.

(** ** Marks of the ends of the modules *)

Lemma sget_dict_update {V} (md : list (string * V)) k (f : V -> V) k' :
  sget (dict_update String.eqb md k f) k'
  = if String.eqb k' k then option_map f (sget md k') else sget md k'.
Proof.
  unfold sget. induction md as [|[k0 v] md IH]; simpl.
  - destruct (String.eqb k' k); reflexivity.
  - destruct (String.eqb_spec k k0) as [->|Hk]; simpl.
    + destruct (String.eqb k' k0); reflexivity.
    + rewrite IH. destruct (String.eqb_spec k' k0) as [->|Hk'];
        [|reflexivity].
      destruct (String.eqb_spec k0 k); [congruence|reflexivity].
Qed.

Lemma chaves_dict_update {K V} (eqb : K -> K -> bool) (md : list (K * V))
  k (f : V -> V) :
  map fst (dict_update eqb md k f) = map fst md.
Proof.
  induction md as [|[k0 v] md IH]; simpl; [reflexivity|].
  destruct (eqb k k0); simpl; [reflexivity|now rewrite IH].
Qed.

Lemma dict_get_in {K V} (eqb : K -> K -> bool) (d : list (K * V)) k v :
  dict_get eqb d k = Some v -> exists k', In (k', v) d.
Proof.
  induction d as [|[k0 v0] d IH]; simpl; [discriminate|].
  destruct (eqb k k0).
  - intros E. injection E as ->. eauto.
  - intros E. destruct (IH E) as (k' & ?). eauto.
Qed.

Lemma iguais_por_chave {V} (a b : list (string * V)) :
  NoDup (map fst a) -> map fst b = map fst a ->
  (forall k, sget b k = sget a k) -> b = a.
Proof.
  revert b. induction a as [|[k v] a IH]; intros [|[k' v'] b] Hnd Hk H;
    try discriminate; [reflexivity|].
  cbn [map fst] in Hk. injection Hk as -> Hk.
  inversion Hnd as [|? ? Hkn Hnd']; subst.
  assert (E := H k). unfold sget in E. simpl in E.
  rewrite String.eqb_refl in E. injection E as ->.
  f_equal. apply IH; auto. intros id.
  destruct (String.eqb_spec id k) as [->|Hne].
  - assert (Hnone : forall (c : list (string * V)),
              ~ In k (map fst c) -> sget c k = None).
    { intros c. unfold sget. induction c as [|[k1 v1] c IHc]; simpl;
        [reflexivity|]. intros Hc.
      destruct (String.eqb_spec k k1) as [->|]; [exfalso; auto|].
      apply IHc. auto. }
    rewrite !Hnone; [reflexivity|assumption|now rewrite Hk].
  - assert (E := H id). unfold sget in E. simpl in E.
    apply String.eqb_neq in Hne. now rewrite Hne in E.
Qed.

Section marcas_de_extremidade.

Local Abbreviation sem_marcas :=
  (fun d : metadados_barra => com_marcas d None None None).

Local Abbreviation transforma :=
  (fun (T : string -> metadados_barra -> metadados_barra)
       (md md' : metadados_t) =>
     map fst md' = map fst md /\
     forall k, sget md' k = option_map (T k) (sget md k)).

Local Abbreviation toca :=
  (fun (K : string -> Prop)
       (T : string -> metadados_barra -> metadados_barra) =>
     forall k d, sem_marcas (T k d) = sem_marcas d /\ (~ K k -> T k d = d)).

Local Abbreviation fixa_em :=
  (fun (K : string -> Prop)
       (T : string -> metadados_barra -> metadados_barra) =>
     forall k d d', K k -> sem_marcas d = sem_marcas d' -> T k d = T k d').

Lemma com_marcas_sem_marcas d d' a b c :
  sem_marcas d = sem_marcas d' -> com_marcas d a b c = com_marcas d' a b c.
Proof.
  unfold com_marcas. intros H. injection H as -> -> -> -> -> -> -> -> ->.
  reflexivity.
Qed.

Lemma com_marcas_proprias d :
  com_marcas d (mb_base_modulo d) (mb_topo_modulo d) (mb_topo_estrutura d) = d.
Proof. destruct d; reflexivity. Qed.

Lemma transforma_uma k f md :
  transforma (fun k' d => if String.eqb k' k then f d else d)
    md (dict_update String.eqb md k f).
Proof.
  split; [apply chaves_dict_update|].
  intros k'. rewrite sget_dict_update.
  destruct (String.eqb k' k); [reflexivity|].
  now destruct (sget md k').
Qed.

Lemma transforma_seguida T1 T2 (a b c : metadados_t) :
  transforma T1 a b -> transforma T2 b c ->
  transforma (fun k d => T2 k (T1 k d)) a c.
Proof.
  intros [Hk1 H1] [Hk2 H2]. split; [congruence|].
  intros k. rewrite H2, H1. now destruct (sget a k).
Qed.

Lemma transforma_nada (md : metadados_t) :
  transforma (fun _ d => d) md md.
Proof. split; [reflexivity|]. intros k. now destruct (sget md k). Qed.

Lemma laco_de_marcas
  (g : string * (float * float) -> metadados_barra -> metadados_barra)
  (lista : list (string * (float * float))) :
  (forall b d, sem_marcas (g b d) = sem_marcas d) ->
  exists T,
    (forall md, transforma T md
       (fold_left (fun md b => dict_update String.eqb md (fst b) (g b))
          lista md)) /\
    toca (fun k => In k (map fst lista)) T /\
    ((forall b d d', sem_marcas d = sem_marcas d' -> g b d = g b d') ->
     fixa_em (fun k => In k (map fst lista)) T).
Proof.
  intros Hg. induction lista as [|b lista (T & HT & Htoca & Hfixa)].
  - exists (fun _ d => d). split; [|split].
    + intros md. exact (transforma_nada md).
    + intros k d. auto.
    + intros _ k d d' [].
  - exists (fun k d => T k (if String.eqb k (fst b) then g b d else d)).
    split; [|split].
    + intros md. cbn [fold_left].
      exact (transforma_seguida _ _ _ _ _
               (transforma_uma (fst b) (g b) md) (HT _)).
    + intros k d. destruct (Htoca k (if String.eqb k (fst b) then g b d else d))
        as [H1 H2]. split.
      * rewrite H1. destruct (String.eqb k (fst b)); [apply Hg|reflexivity].
      * intros Hn. cbn [map] in Hn.
        destruct (String.eqb_spec k (fst b)) as [->|Hne];
          [exfalso; apply Hn; now left|].
        apply H2. intros Hin. apply Hn. now right.
    + intros Hc k d d' Hk Hd.
      destruct (String.eqb_spec k (fst b)) as [->|Hne].
      * now rewrite (Hc b d d' Hd).
      * apply Hfixa; [exact Hc| |exact Hd].
        destruct Hk as [E|Hk]; [congruence|exact Hk].
Qed.

Lemma py_min_lista_none (l : list float) : py_min_lista l = None -> l = [].
Proof. destruct l; [reflexivity|discriminate]. Qed.

Lemma py_max_lista_none (l : list float) : py_max_lista l = None -> l = [].
Proof. destruct l; [reflexivity|discriminate]. Qed.

Lemma marca_base_topo_transforma (lista : list (string * (float * float))) :
  exists T,
    (forall md, transforma T md (marca_base_topo md lista)) /\
    toca (fun k => In k (map fst lista)) T /\
    fixa_em (fun k => In k (map fst lista)) T.
Proof.
  unfold marca_base_topo.
  destruct (py_min_lista (map (fun b => fst (snd b)) lista))
    as [menor_y|] eqn:Emin.
  - destruct (py_max_lista (map (fun b => snd (snd b)) lista))
      as [maior_y|] eqn:Emax.
    + destruct (laco_de_marcas
                  (fun b dados =>
                     com_marcas dados
                       (Some (perto (fst (snd b)) menor_y))
                       (Some (perto (snd (snd b)) maior_y))
                       (Some false)) lista)
        as (T & HT & Htoca & Hfixa); [reflexivity|].
      exists T. split; [exact HT|]. split; [exact Htoca|].
      apply Hfixa. intros b d d'. apply com_marcas_sem_marcas.
    + apply py_max_lista_none, map_eq_nil in Emax. subst lista.
      exists (fun _ d => d). split; [apply transforma_nada|].
      split; [auto|]. intros k d d' [].
  - apply py_min_lista_none, map_eq_nil in Emin. subst lista.
    exists (fun _ d => d). split; [apply transforma_nada|].
    split; [auto|]. intros k d d' [].
Qed.

Lemma marca_topo_estrutura_transforma
  (lista : list (string * (float * float))) :
  exists T,
    (forall md, transforma T md (marca_topo_estrutura md lista)) /\
    toca (fun k => In k (map fst lista)) T.
Proof.
  unfold marca_topo_estrutura.
  destruct (py_max_lista (map (fun b => snd (snd b)) lista))
    as [y_topo|].
  - destruct (laco_de_marcas
                (fun b dados =>
                   com_marcas dados (mb_base_modulo dados)
                     (mb_topo_modulo dados)
                     (Some (perto (snd (snd b)) y_topo))) lista)
      as (T & HT & Htoca & _); [reflexivity|].
    exists T. auto.
  - exists (fun _ d => d). split; [apply transforma_nada|]. auto.
Qed.

Local Abbreviation nos_grupos :=
  (fun (G : list (Z * list (string * (float * float)))) (k : string) =>
     exists g, In g G /\ In k (map fst (snd g))).

Lemma nos_grupos_dec (G : list (Z * list (string * (float * float)))) k :
  nos_grupos G k \/ ~ nos_grupos G k.
Proof.
  induction G as [|g G [IH|IH]].
  - right. intros (? & [] & _).
  - left. destruct IH as (g' & ? & ?). exists g'. split; [now right|assumption].
  - destruct (in_dec string_dec k (map fst (snd g))) as [Hin|Hn].
    + left. exists g. split; [now left|assumption].
    + right. intros (g' & [<-|Hg'] & Hin); [auto|].
      apply IH. exists g'. auto.
Qed.

Lemma marcas_dos_modulos (G : list (Z * list (string * (float * float)))) :
  exists T,
    (forall md, transforma T md
       (fold_left (fun md g => marca_base_topo md (snd g)) G md)) /\
    toca (nos_grupos G) T /\ fixa_em (nos_grupos G) T.
Proof.
  induction G as [|g G (T & HT & Htoca & Hfixa)].
  - exists (fun _ d => d). split; [intros; apply transforma_nada|].
    split; [auto|]. intros k d d' (? & [] & _).
  - destruct (marca_base_topo_transforma (snd g)) as (T0 & HT0 & Htoca0 & Hfixa0).
    exists (fun k d => T k (T0 k d)). split; [|split].
    + intros md. cbn [fold_left].
      exact (transforma_seguida _ _ _ _ _ (HT0 md) (HT _)).
    + intros k d. destruct (Htoca k (T0 k d)) as [H1 H2].
      destruct (Htoca0 k d) as [H3 H4]. split; [congruence|].
      intros Hn. rewrite H2, H4; [reflexivity| |].
      * intros Hin. apply Hn. exists g. split; [now left|assumption].
      * intros (g' & Hg' & Hin). apply Hn. exists g'. split; [now right|assumption].
    + intros k d d' (g' & [<-|Hg'] & Hin) Hd.
      * now rewrite (Hfixa0 k d d' Hin Hd).
      * apply Hfixa; [exists g'; auto|].
        destruct (Htoca0 k d) as [-> _]. destruct (Htoca0 k d') as [-> _].
        exact Hd.
Qed.

Local Abbreviation marcar_com :=
  (fun (G : list (Z * list (string * (float * float))))
       (metadados : metadados_t) =>
     let md := fold_left (fun md g => marca_base_topo md (snd g)) G metadados in
     match map fst G with
     | [] => md
     | m :: ms =>
         match dict_get Z.eqb G (fold_left Z.min ms m) with
         | Some lista_topo => marca_topo_estrutura md lista_topo
         | None => md
         end
     end).

Lemma marcar_com_transforma (G : list (Z * list (string * (float * float)))) :
  exists T,
    (forall md, transforma T md (marcar_com G md)) /\
    toca (nos_grupos G) T /\ fixa_em (nos_grupos G) T.
Proof.
  destruct (marcas_dos_modulos G) as (T & HT & Htoca & Hfixa). cbv zeta.
  destruct (map fst G) as [|m ms]; [exists T; auto|].
  destruct (dict_get Z.eqb G (fold_left Z.min ms m)) as [lista_topo|] eqn:Et;
    [|exists T; auto].
  destruct (dict_get_in _ _ _ _ Et) as (m' & Hin).
  destruct (marca_topo_estrutura_transforma lista_topo) as (T2 & HT2 & Htoca2).
  exists (fun k d => T2 k (T k d)). split; [|split].
  - intros md. exact (transforma_seguida _ _ _ _ _ (HT md) (HT2 _)).
  - intros k d. destruct (Htoca2 k (T k d)) as [H1 H2].
    destruct (Htoca k d) as [H3 H4]. split; [congruence|].
    intros Hn. rewrite H2, H4; [reflexivity|assumption|].
    intros Hk. apply Hn. exists (m', lista_topo). auto.
  - intros k d d' Hk Hd. now rewrite (Hfixa k d d' Hk Hd).
Qed.

Lemma marcar_com_idempotente
  (G : list (Z * list (string * (float * float)))) (md : metadados_t) :
  NoDup (map fst md) -> marcar_com G (marcar_com G md) = marcar_com G md.
Proof.
  intros Hnd. destruct (marcar_com_transforma G) as (T & HT & Htoca & Hfixa).
  destruct (HT md) as [Hk1 H1]. destruct (HT (marcar_com G md)) as [Hk2 H2].
  apply iguais_por_chave.
  - cbv zeta in Hk1. cbv zeta. now rewrite Hk1.
  - exact Hk2.
  - intros k. rewrite H2, H1. destruct (sget md k) as [d|]; [|reflexivity].
    cbn [option_map]. f_equal.
    destruct (Htoca k d) as [Hs Hid].
    destruct (Htoca k (T k d)) as [_ Hid'].
    destruct (nos_grupos_dec G k) as [Hk|Hn].
    + apply Hfixa; [exact Hk|exact Hs].
    + now apply Hid'.
Qed.

Local Abbreviation passo_montantes_por_modulo :=
  (fun (acc : list (Z * list (string * (float * float))))
       (b : string * metadados_barra) =>
     let dados := snd b in
     if negb (contem "montante" (mb_tipo dados)) then acc
     else
       match mb_modulo dados, mb_y_min dados, mb_y_max dados with
       | Some modulo, Some y_min, Some y_max =>
           dict_append Z.eqb acc modulo (fst b, (y_min, y_max))
       | _, _, _ => acc
       end).

Lemma montantes_por_modulo_ext (md md' : metadados_t) :
  Forall2 (fun b b' =>
             fst b = fst b' /\ sem_marcas (snd b) = sem_marcas (snd b'))
    md md' ->
  montantes_por_modulo_de md' = montantes_por_modulo_de md.
Proof.
  unfold montantes_por_modulo_de.
  generalize (@nil (Z * list (string * (float * float)))).
  intros acc H. revert acc.
  induction H as [|b b' l l' (Hf & Hs) _ IH]; intros acc; [reflexivity|].
  cbn [fold_left]. rewrite <- IH. f_equal.
  unfold com_marcas in Hs.
  injection Hs as Ht _ _ _ Hm Hy1 Hy2 _ _.
  now rewrite Hf, Ht, Hm, Hy1, Hy2.
Qed.

Lemma montantes_por_modulo_origem (md : metadados_t) : forall acc g k,
  In g (fold_left passo_montantes_por_modulo md acc) ->
  In k (map fst (snd g)) ->
  (exists g0, In g0 acc /\ In k (map fst (snd g0))) \/
  exists d, In (k, d) md /\ contem "montante" (mb_tipo d) = true /\
    mb_modulo d <> None /\ mb_y_min d <> None /\ mb_y_max d <> None.
Proof.
  induction md as [|[i d] md IH]; intros acc g k Hg Hk; cbn [fold_left] in Hg.
  - left. eauto.
  - destruct (IH _ g k Hg Hk) as [(g0 & Hg0 & Hk0)|(d' & Hin & H)];
      [|right; exists d'; split; [now right|assumption]].
    cbn [fst snd] in Hg0.
    destruct (contem "montante" (mb_tipo d)) eqn:Ec; cbn [negb] in Hg0;
      [|left; eauto].
    destruct (mb_modulo d) as [m|] eqn:Em; [|left; eauto].
    destruct (mb_y_min d) as [y1|] eqn:Ey1; [|left; eauto].
    destruct (mb_y_max d) as [y2|] eqn:Ey2; [|left; eauto].
    apply in_map_iff in Hk0 as (b & <- & Hb).
    destruct g0 as [m0 l0]. cbn [snd] in Hb.
    destruct (dict_append_origem Z.eqb Z.eqb_eq _ _ _ _ _ _ Hg0 Hb)
      as [[_ ->]|(l1 & Hin1 & Hb1)].
    + right. exists d. cbn [fst]. split; [now left|].
      rewrite Em, Ey1, Ey2. repeat split; congruence.
    + left. exists (m0, l1). split; [assumption|].
      cbn [snd]. now apply in_map.
Qed.

(** X16 (marcar_montantes_em_extremidades).  On metadata with distinct bar
    ids, marking the ends of the modules keeps the bars and their order and
    changes nothing but the three marks; a bar that is no leg, or lacks its
    module or one of its levels, keeps even those; and marking a second time
    changes nothing, so marks left by an earlier run do not influence the
    result. *)
Theorem marcar_montantes_em_extremidades_idempotente
  (metadados : metadados_t) :
  NoDup (map fst metadados) ->
  let marcados := marcar_montantes_em_extremidades metadados in
  map fst marcados = map fst metadados /\
  (forall k d, sget metadados k = Some d ->
     exists d', sget marcados k = Some d' /\
       com_marcas d' (mb_base_modulo d) (mb_topo_modulo d)
         (mb_topo_estrutura d) = d /\
       (contem "montante" (mb_tipo d) = false \/ mb_modulo d = None \/
        mb_y_min d = None \/ mb_y_max d = None -> d' = d)) /\
  marcar_montantes_em_extremidades marcados = marcados.
Proof.
  intros Hnd marcados.
  set (G := montantes_por_modulo_de metadados).
  assert (Em : marcados = marcar_com G metadados) by reflexivity.
  destruct (marcar_com_transforma G) as (T & HT & Htoca & Hfixa).
  destruct (HT metadados) as [Hk Hs]. rewrite <- Em in Hk, Hs.
  assert (Hcampos : forall k d, sget metadados k = Some d ->
            exists d', sget marcados k = Some d' /\
              sem_marcas d' = sem_marcas d /\
              (~ nos_grupos G k -> d' = d)).
  { intros k d E. exists (T k d). rewrite Hs, E.
    split; [reflexivity|]. apply Htoca. }
  split; [exact Hk|]. split.
  - intros k d E. destruct (Hcampos k d E) as (d' & E' & Hsm & Hfora).
    exists d'. split; [exact E'|]. split.
    + rewrite (com_marcas_sem_marcas d' d _ _ _ Hsm).
      apply com_marcas_proprias.
    + intros Hnao. apply Hfora. intros (g & Hg & Hin).
      destruct (montantes_por_modulo_origem metadados [] g k Hg Hin)
        as [(? & [] & _)|(d0 & Hd0 & Hc & Hm & Hy1 & Hy2)].
      apply (in_sget _ _ _ Hnd) in Hd0. rewrite E in Hd0.
      injection Hd0 as <-.
      destruct Hnao as [H|[H|[H|H]]]; congruence.
  - assert (EG : montantes_por_modulo_de marcados = G).
    { apply montantes_por_modulo_ext.
      apply forall2_por_chave with
        (R := fun d d' => sem_marcas d = sem_marcas d');
        [exact Hnd|exact Hk|].
      intros id r r' Hr Hr'. destruct (Hcampos id r Hr) as (d' & E' & Hsm & _).
      rewrite Hr' in E'. injection E' as <-. now symmetry. }
    change (marcar_montantes_em_extremidades marcados)
      with (marcar_com (montantes_por_modulo_de marcados) marcados).
    rewrite EG, Em. now apply marcar_com_idempotente.
Qed.

End marcas_de_extremidade.

(** ** Equalisation: what it leaves alone *)

Lemma agrupar_origem (rs : resultados_t) : forall acc m l id,
  In (m, l)
    (fold_left
       (fun (acc : list (Z * list string)) (b : string * resultado_barra) =>
          if String.eqb (rb_perfil_escolhido (snd b)) "" then acc
          else
            match modulo_do_montante (rb_hipoteses (snd b)) with
            | Some modulo => dict_append Z.eqb acc modulo (fst b)
            | None => acc
            end) rs acc) ->
  In id l ->
  (exists l0, In (m, l0) acc /\ In id l0) \/
  exists r, In (id, r) rs /\
    String.eqb (rb_perfil_escolhido r) "" = false /\
    modulo_do_montante (rb_hipoteses r) = Some m.
Proof.
  induction rs as [|[k r] rs IH]; intros acc m l id Hin Hid;
    cbn [fold_left] in Hin.
  - left. eauto.
  - destruct (IH _ m l id Hin Hid) as [(l0 & Hl0 & Hid0)|(r' & Hr' & H)];
      [|right; exists r'; split; [now right|assumption]].
    cbn [fst snd] in Hl0.
    destruct (String.eqb (rb_perfil_escolhido r) "") eqn:Ep; [left; eauto|].
    destruct (modulo_do_montante (rb_hipoteses r)) as [m'|] eqn:Em;
      [|left; eauto].
    destruct (dict_append_origem Z.eqb Z.eqb_eq _ _ _ _ _ _ Hl0 Hid0)
      as [[-> ->]|(l1 & Hl1 & Hid1)]; [|left; eauto].
    right. exists r. split; [now left|]. auto.
Qed.

Section igualacao_conserva.

Variables (df_montantes : tabela_perfis) (df_materiais : tabela_materiais)
  (coef_minoracao : float) (diametros_furos : list (string * float))
  (descontos_area_liquida : option (list (string * Z))).

Local Abbreviation mesma_hipotese :=
  (fun nh nh' : string * dados_hipotese =>
     fst nh' = fst nh /\
     h_forca_axial (snd nh') = h_forca_axial (snd nh) /\
     h_tipo (snd nh') = h_tipo (snd nh) /\
     h_modulo (snd nh') = h_modulo (snd nh) /\
     h_comprimento (snd nh') = h_comprimento (snd nh) /\
     h_comprimento_destravado (snd nh')
       = h_comprimento_destravado (snd nh) /\
     h_verificacao_ligacao (snd nh') = h_verificacao_ligacao (snd nh)).

Lemma reverificar_hipotese_conserva linha P h h' :
  reverificar_hipotese df_materiais coef_minoracao diametros_furos
    descontos_area_liquida linha P h = Ok h' ->
  h_forca_axial h' = h_forca_axial h /\ h_tipo h' = h_tipo h /\
  h_modulo h' = h_modulo h /\ h_comprimento h' = h_comprimento h /\
  h_comprimento_destravado h' = h_comprimento_destravado h /\
  h_verificacao_ligacao h' = h_verificacao_ligacao h.
Proof.
  unfold reverificar_hipotese. intros H.
  apply bind_ok in H as (c & Hc & H).
  apply bind_ok in H as (nd & Hnd & H).
  apply bind_ok in H as (ec & Hec & H).
  injection H as <-. cbn. auto 7.
Qed.

Lemma mesma_hipotese_refl (hs : list (string * dados_hipotese)) :
  Forall2 mesma_hipotese hs hs.
Proof. induction hs; constructor; auto 8. Qed.

(** X17 (igualar_perfis_montantes_por_modulo).  On a result dictionary with
    distinct bar ids, when the equalisation returns it has kept the bars and
    their order; every bar keeps its governing hypotheses and, in each
    hypothesis dictionary under the same name, its force, type, module,
    lengths and connection record (the connection is not designed again for
    the new profile); and a bar without a chosen profile, or with no leg
    hypothesis that names a module, is returned exactly as it was. *)
Theorem igualar_perfis_montantes_por_modulo_conserva
  (resultados resultados' : resultados_t) :
  NoDup (map fst resultados) ->
  igualar_perfis_montantes_por_modulo df_montantes df_materiais
    coef_minoracao diametros_furos descontos_area_liquida resultados
    = Ok resultados' ->
  map fst resultados' = map fst resultados /\
  forall id_barra r, sget resultados id_barra = Some r ->
    exists r',
      sget resultados' id_barra = Some r' /\
      rb_pior_caso r' = rb_pior_caso r /\
      rb_pior_ligacao r' = rb_pior_ligacao r /\
      rb_hipotese_tracao r' = rb_hipotese_tracao r /\
      rb_hipotese_compressao r' = rb_hipotese_compressao r /\
      Forall2 mesma_hipotese (rb_hipoteses r) (rb_hipoteses r') /\
      (rb_perfil_escolhido r = ""%string \/
       modulo_do_montante (rb_hipoteses r) = None -> r' = r).
Proof.
  intros Hnd H. unfold igualar_perfis_montantes_por_modulo in H.
  destruct (agrupar_membros resultados Hnd) as [HG _].
  destruct (igualar_grupos_resultado df_montantes df_materiais coef_minoracao
              diametros_furos descontos_area_liquida _ HG _ _ H)
    as (Hk & Hfr & Hig).
  rewrite Forall_forall in Hig.
  split; [exact Hk|]. intros id r Hr.
  assert (Hmesmo : sget resultados' id = Some r ->
            exists r', sget resultados' id = Some r' /\
              rb_pior_caso r' = rb_pior_caso r /\
              rb_pior_ligacao r' = rb_pior_ligacao r /\
              rb_hipotese_tracao r' = rb_hipotese_tracao r /\
              rb_hipotese_compressao r' = rb_hipotese_compressao r /\
              Forall2 mesma_hipotese (rb_hipoteses r) (rb_hipoteses r') /\
              (rb_perfil_escolhido r = ""%string \/
               modulo_do_montante (rb_hipoteses r) = None -> r' = r)).
  { intros E. exists r. repeat (split; [first [exact E|reflexivity]|]).
    split; [apply mesma_hipotese_refl|reflexivity]. }
  destruct (in_dec string_dec id
              (List.concat (map snd (agrupar_montantes_por_modulo resultados))))
    as [Hin|Hn].
  - apply in_concat in Hin as (l & Hl & Hid).
    apply in_map_iff in Hl as ([m l'] & E & Hg). cbn [snd] in E. subst l'.
    destruct (agrupar_origem resultados [] m l id Hg Hid)
      as [(? & [] & _)|(r0 & Hr0 & Hp & Hm)].
    apply (in_sget _ _ _ Hnd) in Hr0. rewrite Hr in Hr0. injection Hr0 as <-.
    destruct (Hig _ Hg) as (pas & Hpas & Hcase). cbn [snd] in Hcase.
    destruct pas as [|pa resto].
    + apply Hmesmo. rewrite (Hcase id Hid). exact Hr.
    + cbn zeta in Hcase. destruct Hcase as (linha & Hl & Hcase).
      destruct (Hcase id Hid) as (r1 & r' & Hr1 & Hrev & Hr').
      rewrite Hr in Hr1. injection Hr1 as <-.
      exists r'. split; [exact Hr'|].
      pose proof Hrev as Hrev0.
      unfold reverificar_barra in Hrev0.
      apply bind_ok in Hrev0 as (hs & Hhs & Hrev0). injection Hrev0 as <-.
      cbn [rb_pior_caso rb_pior_ligacao rb_hipotese_tracao
           rb_hipotese_compressao rb_hipoteses com_rb_perfil].
      repeat (split; [reflexivity|]). split.
      * apply map_res_ok in Hhs. clear -Hhs.
        induction Hhs as [|[n h] [n' h'] a b Hx _ IH]; constructor; [|exact IH].
        apply bind_ok in Hx as (h1 & Hh & Hx). cbn [fst snd] in *.
        injection Hx as <- <-.
        destruct (reverificar_hipotese_conserva _ _ _ _ Hh)
          as (? & ? & ? & ? & ? & ?).
        auto 8.
      * intros [Hvazio|Hnone].
        -- rewrite Hvazio in Hp. discriminate.
        -- congruence.
  - apply Hmesmo. rewrite (Hfr id Hn). exact Hr.
Qed.

End igualacao_conserva.

(** ** End connections: which bars receive one *)

Lemma dict_append_membros {K V} (eqb : K -> K -> bool)
  (d : list (K * list V)) k v k' l' b :
  In (k', l') (dict_append eqb d k v) -> In b l' ->
  b = v \/ exists k0 l0, In (k0, l0) d /\ In b l0.
Proof.
  induction d as [|[k0 l0] d IH]; simpl.
  - intros [E|[]] Hb. injection E as <- <-. destruct Hb as [<-|[]]. now left.
  - destruct (eqb k k0).
    + intros [E|Hin] Hb.
      * injection E as <- <-. apply in_app_iff in Hb as [Hb|[<-|[]]];
          [right; exists k0, l0; auto|now left].
      * right. exists k', l'. auto.
    + intros [E|Hin] Hb.
      * injection E as <- <-. right. exists k0, l0. auto.
      * destruct (IH Hin Hb) as [?|(k1 & l1 & ? & ?)]; [now left|].
        right. exists k1, l1. auto.
Qed.

Local Abbreviation passo_grupos_por_modulo :=
  (fun (acc : list (chave_extremidade * list string))
       (b : string * metadados_barra) =>
     let dados := snd b in
     if negb (e_montante (mb_tipo dados)) then acc
     else
       match mb_modulo dados, mb_y_min dados, mb_y_max dados with
       | Some modulo, Some y_min, Some y_max =>
           let acc1 :=
             if marcado (mb_base_modulo dados)
             then dict_append chave_extremidade_eqb acc
                    ((modulo, "base"), y_min) (fst b)
             else acc in
           if marcado (mb_topo_modulo dados)
              || marcado (mb_topo_estrutura dados)
           then dict_append chave_extremidade_eqb acc1
                  ((modulo, "topo"), y_max) (fst b)
           else acc1
       | _, _, _ => acc
       end).

Local Abbreviation montante_de_extremidade :=
  (fun d : metadados_barra =>
     e_montante (mb_tipo d) = true /\ mb_modulo d <> None /\
     mb_y_min d <> None /\ mb_y_max d <> None /\
     (marcado (mb_base_modulo d) = true \/
      marcado (mb_topo_modulo d) = true \/
      marcado (mb_topo_estrutura d) = true)).

Lemma grupos_por_modulo_origem (md : metadados_t) : forall acc g b,
  In g (fold_left passo_grupos_por_modulo md acc) -> In b (snd g) ->
  (exists g0, In g0 acc /\ In b (snd g0)) \/
  exists d, In (b, d) md /\ montante_de_extremidade d.
Proof.
  induction md as [|[i d] md IH]; intros acc g b Hg Hb; cbn [fold_left] in Hg.
  - left. eauto.
  - destruct (IH _ g b Hg Hb) as [(g0 & Hg0 & Hb0)|(d' & Hin & H)];
      [|right; exists d'; split; [now right|assumption]].
    cbn [fst snd] in Hg0.
    destruct (e_montante (mb_tipo d)) eqn:Em; cbn [negb] in Hg0;
      [|left; eauto].
    destruct (mb_modulo d) as [m|] eqn:Emod; [|left; eauto].
    destruct (mb_y_min d) as [y1|] eqn:Ey1; [|left; eauto].
    destruct (mb_y_max d) as [y2|] eqn:Ey2; [|left; eauto].
    assert (Hd : i = b ->
              (marcado (mb_base_modulo d) = true \/
               marcado (mb_topo_modulo d) = true \/
               marcado (mb_topo_estrutura d) = true) ->
              exists d0, In (b, d0) ((i, d) :: md) /\
                montante_de_extremidade d0).
    { intros -> Hm. exists d. split; [now left|].
      rewrite Emod, Ey1, Ey2. repeat split; try congruence; try exact Hm. }
    destruct g0 as [k0 l0]. cbn [snd] in Hb0.
    destruct (marcado (mb_topo_modulo d) || marcado (mb_topo_estrutura d))
      eqn:Et.
    + destruct (dict_append_membros _ _ _ _ _ _ _ Hg0 Hb0)
        as [->|(k1 & l1 & Hg1 & Hb1)].
      * right. apply (Hd eq_refl). right.
        apply orb_true_iff in Et. exact Et.
      * destruct (marcado (mb_base_modulo d)) eqn:Eb;
          [|left; exists (k1, l1); auto].
        destruct (dict_append_membros _ _ _ _ _ _ _ Hg1 Hb1)
          as [->|(k2 & l2 & Hg2 & Hb2)];
          [|left; exists (k2, l2); auto].
        right. apply (Hd eq_refl). now left.
    + destruct (marcado (mb_base_modulo d)) eqn:Eb;
        [|left; exists (k0, l0); auto].
      destruct (dict_append_membros _ _ _ _ _ _ _ Hg0 Hb0)
        as [->|(k2 & l2 & Hg2 & Hb2)];
        [|left; exists (k2, l2); auto].
      right. apply (Hd eq_refl). now left.
Qed.

Section otimizacao_chaves.

Variables (ordem_conjunto : list string -> list string)
  (metadados : metadados_t) (esforcos_por_hipotese : esforcos_t)
  (df_materiais : tabela_materiais) (diametros_furos : list (string * float))
  (limite_parafusos planos_cisalhamento : option (list (string * Z)))
  (fatores_esmagamento : option (list float)) (df_perfis : tabela_perfis)
  (coef_minoracao : float).

Local Abbreviation processa :=
  (processa_grupo ordem_conjunto metadados esforcos_por_hipotese df_materiais
     diametros_furos limite_parafusos planos_cisalhamento fatores_esmagamento
     df_perfis coef_minoracao).

Lemma processa_grupo_valores locais lf ids locais' lf' id L :
  processa (locais, lf) ids = Ok (locais', lf') ->
  sget lf' id = Some L ->
  sget lf id = Some L \/ (In id ids /\ lig_truthy L = true).
Proof.
  unfold processa_grupo. intros H HL.
  apply bind_ok in H as ([locais1 cands] & Hc & H).
  assert (Hatribui : forall L0, lig_truthy L0 = true ->
            lf' = atribui_a_todos lf ids L0 ->
            sget lf id = Some L \/ (In id ids /\ lig_truthy L = true)).
  { intros L0 HL0 ->.
    destruct (sget_atribui_a_todos ids L0 lf id) as [H1 H2].
    destruct (in_dec string_dec id ids) as [Hin|Hn].
    - right. split; [exact Hin|]. rewrite (H1 Hin) in HL.
      injection HL as <-. exact HL0.
    - left. now rewrite <- (H2 Hn). }
  destruct (map snd cands) as [|c cs].
  - injection H as <- <-. now left.
  - destruct (np (max_por_resistencia c cs)).
    + apply bind_ok in H as (final & Hf & H). injection H as <- <-.
      now apply (Hatribui (LigCompleta final)).
    + injection H as <- <-. now apply (Hatribui LigMarcada).
Qed.

Lemma grupos_valores (grupos : list (list string)) : forall st st' id L,
  for_each grupos st processa = Ok st' ->
  sget (snd st') id = Some L ->
  sget (snd st) id = Some L \/
  ((exists g, In g grupos /\ In id g) /\ lig_truthy L = true).
Proof.
  induction grupos as [|g grupos IH]; intros st st' id L H HL; simpl in H.
  - injection H as <-. now left.
  - apply bind_ok in H as ([l1 lf1] & Hg & H). destruct st as [l0 lf0].
    destruct st' as [l2 lf2].
    destruct (IH _ _ id L H HL) as [H1|[(g' & Hg' & Hid) Ht]].
    + cbn [snd] in H1.
      destruct (processa_grupo_valores _ _ _ _ _ _ _ Hg H1) as [?|[Hid Ht]];
        [now left|].
      right. split; [exists g; split; [now left|assumption]|assumption].
    + right. split; [exists g'; split; [now right|assumption]|assumption].
Qed.

(** X18 (otimizar_ligacoes_montantes_extremidades).  A bar holds an entry in
    the forced connections only if it is a leg of the metadata with its module
    and both levels, marked as base of a module, top of a module or top of the
    structure; and the entry is never the empty record: it is a designed
    connection or the mark of an infeasible group. *)
Theorem otimizar_ligacoes_montantes_extremidades_chaves
  (ligacoes_forcadas : ligacoes_t) (id_barra : string) (lig : ligacao) :
  otimizar_ligacoes_montantes_extremidades ordem_conjunto metadados
    esforcos_por_hipotese df_materiais diametros_furos limite_parafusos
    planos_cisalhamento fatores_esmagamento df_perfis coef_minoracao
    = Ok ligacoes_forcadas ->
  sget ligacoes_forcadas id_barra = Some lig ->
  lig_truthy lig = true /\
  exists dados,
    In (id_barra, dados) metadados /\
    e_montante (mb_tipo dados) = true /\ mb_modulo dados <> None /\
    mb_y_min dados <> None /\ mb_y_max dados <> None /\
    (marcado (mb_base_modulo dados) = true \/
     marcado (mb_topo_modulo dados) = true \/
     marcado (mb_topo_estrutura dados) = true).
Proof.
  intros H HL. unfold otimizar_ligacoes_montantes_extremidades in H.
  apply bind_ok in H as ([lfin lf'] & H & E). injection E as ->.
  destruct (grupos_valores _ _ _ id_barra lig H HL)
    as [Hnil|[(g & Hg & Hid) Ht]]; [discriminate|].
  split; [exact Ht|].
  apply in_map_iff in Hg as ([k l] & E & Hg). cbn [snd] in E. subst l.
  destruct (grupos_por_modulo_origem metadados [] (k, g) id_barra Hg Hid)
    as [(? & [] & _)|H0].
  exact H0.
Qed.

End otimizacao_chaves.

(** ** Sizing of all bars: inputs *)

Lemma for_each_app_eq {A S} (corpo : S -> A -> res S) (l1 l2 : list A) :
  forall s, for_each (l1 ++ l2) s corpo
            = bind (for_each l1 s corpo) (fun s1 => for_each l2 s1 corpo).
Proof.
  induction l1 as [|x l1 IH]; intros s; simpl; [reflexivity|].
  destruct (corpo s x); simpl; auto.
Qed.

Local Abbreviation coleta_barra :=
  (fun (estrutura : metadados_t) (st' : tipos_por_barra_t * metadados_t)
       (b : string * float) =>
     let '(tipos_por_barra, metadados_barras) := st' in
     let tipos' := regista_solicitacao tipos_por_barra (fst b) (snd b) in
     match sget metadados_barras (fst b) with
     | Some _ => Ok (tipos', metadados_barras)
     | None =>
         m <- sitem estrutura (fst b) ;;
         Ok (tipos', sset metadados_barras (fst b) m)
     end).

Local Abbreviation coleta_hipotese :=
  (fun (estruturas_por_hipotese : list (string * metadados_t))
       (st : tipos_por_barra_t * metadados_t)
       (hip : string * list (string * float)) =>
     estrutura <- sitem estruturas_por_hipotese (fst hip) ;;
     for_each (snd hip) st (coleta_barra estrutura)).

Local Abbreviation coleta_metadados_desde :=
  (fun (estruturas : list (string * metadados_t)) (esforcos : esforcos_t)
       (st : tipos_por_barra_t * metadados_t) =>
     for_each esforcos st (coleta_hipotese estruturas)).

Lemma coleta_barras_ok (estrutura : metadados_t)
  (barras : list (string * float)) :
  (forall b, In b barras -> sget estrutura (fst b) <> None) ->
  forall st, exists st', for_each barras st (coleta_barra estrutura) = Ok st'.
Proof.
  induction barras as [|b barras IH]; intros H st; simpl; [eauto|].
  destruct st as [tipos md].
  destruct (sget md (fst b)); cbn [bind].
  - apply IH. intros; apply H; now right.
  - unfold sitem. destruct (sget estrutura (fst b)) eqn:E;
      [|exfalso; exact (H b (or_introl eq_refl) E)].
    cbn [bind]. apply IH. intros; apply H; now right.
Qed.

Lemma coleta_hipoteses_ok (estruturas : list (string * metadados_t))
  (pre : esforcos_t) :
  (forall hip, In hip pre ->
     exists e, sget estruturas (fst hip) = Some e /\
       forall b, In b (snd hip) -> sget e (fst b) <> None) ->
  forall st, exists st',
    for_each pre st (coleta_hipotese estruturas) = Ok st'.
Proof.
  induction pre as [|hip pre IH]; intros H st; cbn [for_each]; [eauto|].
  destruct (H hip (or_introl eq_refl)) as (e & He & Hb).
  destruct (coleta_barras_ok e (snd hip) Hb st) as (st1 & Hst1).
  cbv beta iota zeta delta [sitem bind] in Hst1 |- *. rewrite He.
  cbv beta iota zeta. rewrite Hst1.
  apply IH. intros; apply H; now right.
Qed.

(** X19 (dimensionar_barras).  The sizing raises [KeyError] with the name of
    the hypothesis, whether or not it is asked to stop on an infeasible bar,
    when a force hypothesis has no structure of its name and the hypotheses
    before it have theirs, with every bar they load. *)
Theorem dimensionar_barras_hipotese_sem_estrutura
  (ordem_conjunto : list string -> list string)
  (sort_values : tabela_perfis -> tabela_perfis)
  (pre pos : esforcos_t) (nome : string) (barras : list (string * float))
  (estruturas_por_hipotese : list (string * metadados_t))
  (df_montantes df_diagonais_horizontais : tabela_perfis)
  (df_materiais : tabela_materiais) (df_perfis : tabela_perfis)
  (coef_minoracao : float) (diametros_furos : option (list (string * float)))
  (descontos_area_liquida limite_parafusos planos_cisalhamento
     : option (list (string * Z)))
  (fatores_esmagamento : option (list float))
  (interromper_se_inviavel : bool) :
  (forall hip, In hip pre ->
     exists e, sget estruturas_por_hipotese (fst hip) = Some e /\
       forall b, In b (snd hip) -> sget e (fst b) <> None) ->
  sget estruturas_por_hipotese nome = None ->
  dimensionar_barras ordem_conjunto sort_values
    (pre ++ (nome, barras) :: pos) estruturas_por_hipotese df_montantes df_diagonais_horizontais
    df_materiais df_perfis coef_minoracao diametros_furos
    descontos_area_liquida limite_parafusos planos_cisalhamento
    fatores_esmagamento interromper_se_inviavel
  = Raise (KeyError nome).
Proof.
  intros Hpre Hnome.
  assert (E : coleta_metadados (pre ++ (nome, barras) :: pos)
                estruturas_por_hipotese = Raise (KeyError nome)).
  { unfold coleta_metadados. rewrite for_each_app_eq.
    destruct (coleta_hipoteses_ok estruturas_por_hipotese pre Hpre ([], []))
      as (st & Hst).
    set (c := for_each pre _ _).
    assert (Ec : c = Ok st) by exact Hst.
    rewrite Ec. cbn [bind for_each fst]. unfold sitem. rewrite Hnome.
    reflexivity. }
  unfold dimensionar_barras, dimensionar_barras_corpo. rewrite E. reflexivity.
Qed.

Lemma coleta_sem_barras (estruturas : list (string * metadados_t))
  (esforcos : esforcos_t) :
  (forall hip, In hip esforcos ->
     snd hip = [] /\ sget estruturas (fst hip) <> None) ->
  forall st, coleta_metadados_desde estruturas esforcos st = Ok st.
Proof.
  induction esforcos as [|hip esforcos IH]; intros H st; cbn [for_each];
    [reflexivity|].
  destruct (H hip (or_introl eq_refl)) as [Hb He].
  cbv beta. unfold sitem.
  destruct (sget estruturas (fst hip)); [|congruence].
  rewrite Hb. cbn [bind for_each]. apply IH. intros; apply H; now right.
Qed.

(** X20 (dimensionar_barras).  When no force hypothesis loads any bar, and
    every hypothesis has its structure, the sizing returns normally for every
    configuration: no result, no forced connection and no bar that needs a
    connection. *)
Theorem dimensionar_barras_sem_barras
  (ordem_conjunto : list string -> list string)
  (sort_values : tabela_perfis -> tabela_perfis)
  (esforcos_por_hipotese : esforcos_t)
  (estruturas_por_hipotese : list (string * metadados_t))
  (df_montantes df_diagonais_horizontais : tabela_perfis)
  (df_materiais : tabela_materiais) (df_perfis : tabela_perfis)
  (coef_minoracao : float) (diametros_furos : option (list (string * float)))
  (descontos_area_liquida limite_parafusos planos_cisalhamento
     : option (list (string * Z)))
  (fatores_esmagamento : option (list float))
  (interromper_se_inviavel : bool) :
  (forall hip, In hip esforcos_por_hipotese ->
     snd hip = [] /\ sget estruturas_por_hipotese (fst hip) <> None) ->
  dimensionar_barras ordem_conjunto sort_values esforcos_por_hipotese
    estruturas_por_hipotese df_montantes
    df_diagonais_horizontais df_materiais df_perfis coef_minoracao
    diametros_furos descontos_area_liquida limite_parafusos
    planos_cisalhamento fatores_esmagamento interromper_se_inviavel
  = Ok (Some (([], []), [])).
Proof.
  intros H.
  assert (E : coleta_metadados esforcos_por_hipotese estruturas_por_hipotese
              = Ok ([], [])).
  { exact (coleta_sem_barras estruturas_por_hipotese esforcos_por_hipotese
             H ([], [])). }
  unfold dimensionar_barras, dimensionar_barras_corpo. rewrite E.
  reflexivity.
Qed.

(** ** The further properties on the example data *)

Lemma dimensionar_ligacao_viavel_com_limite_maior_witness :
  exists lig,
    ligacao_exemplo 0.5 = Ok lig /\ ligacao_viavel lig = true /\
    dimensionar_ligacao 5000 "montante_esq" (Some "L 50x50x5") Python 0.5
      diametros_exemplo Numpy 3200 (Some 4570%float)
      (Some [("montante", 30); ("diagonal", 2); ("horizontal", 2)])
      planos_exemplo fatores_exemplo [perfil_exemplo] 0.9 = Ok lig.
Proof.
  assert (E : exists lig,
            ligacao_exemplo 0.5 = Ok lig /\ ligacao_viavel lig = true)
    by (vm_compute; eexists; split; reflexivity).
  destruct E as (lig & E & Hv). exists lig.
  split; [exact E|]. split; [exact Hv|].
  apply (dimensionar_ligacao_viavel_com_limite_maior 5000 "montante_esq"
           (Some "L 50x50x5") Python 0.5 diametros_exemplo Numpy 3200
           (Some 4570%float)
           planos_exemplo fatores_exemplo [perfil_exemplo] 0.9
           [("montante", 20); ("diagonal", 2); ("horizontal", 2)]
           [("montante", 30); ("diagonal", 2); ("horizontal", 2)] 20 30 lig);
    [reflexivity|reflexivity|lia|exact E|exact Hv].
Defined.

Lemma dimensionar_ligacao_limite_abaixo_do_minimo_witness :
  exists lig,
    dimensionar_ligacao 5000 "montante_esq" (Some "L 50x50x5") Python 0.5
      diametros_exemplo Numpy 3200 (Some 4570%float)
      (Some [("montante", 2); ("diagonal", 2); ("horizontal", 2)])
      planos_exemplo fatores_exemplo [perfil_exemplo] 0.9 = Ok lig /\
    ligacao_viavel lig = false /\ np lig = None.
Proof.
  assert (Ea : exists area,
            lig_area_parafuso "montante_esq" diametros_exemplo = Ok area)
    by (vm_compute; eexists; reflexivity).
  destruct Ea as (area & Ea).
  exists (ligacao_inviavel "montante_esq" diametros_exemplo 0.9 area 1).
  split; [|split; reflexivity].
  apply (dimensionar_ligacao_limite_abaixo_do_minimo 5000 "montante_esq"
           (Some "L 50x50x5") Python 0.5 diametros_exemplo Numpy 3200
           (Some 4570%float)
           planos_exemplo fatores_exemplo [perfil_exemplo] 0.9
           [("montante", 2); ("diagonal", 2); ("horizontal", 2)]
           [("montante", 1); ("diagonal", 1); ("horizontal", 1)]
           area 2 4 1);
    [exact Ea|reflexivity|reflexivity|reflexivity|reflexivity|lia].
Defined.

Lemma dimensionar_ligacao_classe_ausente_witness :
  dimensionar_ligacao 5000 "montante_esq" (Some "L 50x50x5") Python 0.5
    diametros_exemplo Numpy 3200 (Some 4570%float)
    (Some [("diagonal", 2); ("horizontal", 2)])
    planos_exemplo fatores_exemplo [perfil_exemplo] 0.9
  = Raise (KeyError "montante").
Proof.
  assert (Ea : exists area,
            lig_area_parafuso "montante_esq" diametros_exemplo = Ok area)
    by (vm_compute; eexists; reflexivity).
  destruct Ea as (area & Ea).
  apply (proj1 (dimensionar_ligacao_classe_ausente 5000 "montante_esq"
                  (Some "L 50x50x5") Python 0.5 diametros_exemplo Numpy
                  3200 (Some 4570%float) planos_exemplo fatores_exemplo
                  [perfil_exemplo] 0.9 area Ea)).
  reflexivity.
Defined.

Lemma calcula_tensao_axial_admissivel_montante_raio_nulo_witness :
  calcula_tensao_axial_admissivel materiais_exemplo Python
    (mk_perfil "L 50x50x5" 4.8 0 0.98 5.0 0.5 0.6 3.0 3.77
       (Some 1.6%float) (Some "OK!") "A572-50" 4 2)
    (-500) "montante_esq" 100 0.9 1.59 MODULO_ELASTICIDADE_ACO false false
    None
  = Ok (dicionario_inviavel compressao).
Proof.
  apply (calcula_tensao_axial_admissivel_montante_raio_nulo materiais_exemplo
           Python
           (mk_perfil "L 50x50x5" 4.8 0 0.98 5.0 0.5 0.6 3.0 3.77
              (Some 1.6%float) (Some "OK!") "A572-50" 4 2)
           (-500) "montante_esq" 100 0.9 1.59 MODULO_ELASTICIDADE_ACO
           false false None 3515);
    [reflexivity|reflexivity|reflexivity|left; reflexivity].
Defined.

Lemma verificar_axial_flexao_esbeltez_levanta_type_error_witness :
  verificar_axial_flexao Numpy perfil_exemplo (-500) None 0.9 "montante_esq"
    1000 90 materiais_exemplo (Some diametros_exemplo)
  = Raise TypeError.
Proof.
  apply (verificar_axial_flexao_esbeltez_levanta_type_error Numpy
           perfil_exemplo (-500) None 0.9 "montante_esq" 1000 90 materiais_exemplo
           (Some diametros_exemplo) 3515);
    [reflexivity|left; split; reflexivity].
Defined.

(** On a table row ([numpy.float64] cells) of zero thickness the bearing
    stress is an infinity, no pair passes and the connection record is the
    infeasible one; the reinforcement goes on to the next row. *)
Lemma reforcar_montante_ate_viavel_espessura_nula :
  (exists lig,
     wrapper_ligacao_montante Numpy perfil_sem_espessura 15000
       diametros_exemplo limite_parafusos_exemplo planos_exemplo
       fatores_exemplo 0.9 materiais_exemplo montantes_sem_espessura
       "montante_esq" = Ok (lig, 999%float) /\
     ligacao_viavel lig = false /\ np lig = None) /\
  exists lig,
    reforcar_montante_ate_viavel sort_values_area "L 50x50x5" 15000
      montantes_sem_espessura materiais_exemplo diametros_exemplo
      limite_parafusos_exemplo planos_exemplo fatores_exemplo 0.9 None
      verificar_axial_flexao wrapper_ligacao_montante "montante_esq" 100 90
      true
    = Ok (Some ("L 75x75x6", lig)).
Proof.
  split; vm_compute; eexists; repeat split; reflexivity.
Qed.

Lemma reforcar_montante_ate_viavel_primeiro_perfil_witness :
  exists lig tx_lig tx_norma,
    reforcar_montante_ate_viavel sort_values_area "L 50x50x5" 15000
      montantes_exemplo materiais_exemplo diametros_exemplo
      limite_parafusos_exemplo planos_exemplo fatores_exemplo 0.9 None
      verificar_axial_flexao wrapper_ligacao_montante "montante_esq" 100 90
      true
    = Ok (Some ("L 75x75x6", lig)) /\
    wrapper_ligacao_montante Numpy perfil_maior 15000 diametros_exemplo
      limite_parafusos_exemplo planos_exemplo fatores_exemplo 0.9
      materiais_exemplo montantes_exemplo "montante_esq"
    = Ok (lig, tx_lig) /\
    verificar_axial_flexao Numpy perfil_maior 15000 None 0.9 "montante_esq"
      100 90 materiais_exemplo (Some diametros_exemplo) = Ok tx_norma /\
    (tx_lig <=? 1.0)%float = true /\ (tx_norma <=? 1.0)%float = true /\
    (A_cm2 perfil_maior <? A_cm2 perfil_exemplo)%float = false.
Proof.
  assert (E : exists lig,
            reforcar_montante_ate_viavel sort_values_area "L 50x50x5" 15000
              montantes_exemplo materiais_exemplo diametros_exemplo
              limite_parafusos_exemplo planos_exemplo fatores_exemplo 0.9
              None verificar_axial_flexao wrapper_ligacao_montante
              "montante_esq" 100 90 true
            = Ok (Some ("L 75x75x6", lig)))
    by (vm_compute; eexists; reflexivity).
  destruct E as (lig & E).
  destruct (reforcar_montante_ate_viavel_primeiro_perfil sort_values_area _ _
              _ _ _ _ _ _ _ _ _ _ _ _ _ _ _ _
              (sort_values_area_ordenada _) E)
    as (pre & linha & pos & tl & tn & Hc & Hn & Hl & Hv & H1 & H2 & _ & Hpre
        & _).
  assert (Hlinha : pre = [perfil_exemplo] /\ linha = perfil_maior).
  { vm_compute in Hc.
    destruct pre as [|p0 [|p1 pre]].
    - injection Hc as <- _. discriminate Hn.
    - injection Hc as <- <- _. split; reflexivity.
    - injection Hc as _ _ Hc. now destruct pre. }
  destruct Hlinha as [-> ->]. exists lig, tl, tn.
  repeat split; auto.
Defined.

Lemma reforcar_montante_ate_viavel_perfil_esbelto_levanta_witness :
  reforcar_montante_ate_viavel sort_values_area "L 50x50x5" 5000
    montantes_exemplo materiais_exemplo diametros_exemplo
    limite_parafusos_exemplo planos_exemplo fatores_exemplo 0.9 None
    verificar_axial_flexao wrapper_ligacao_montante "montante_esq" 1000 90
    false
  = Raise TypeError.
Proof.
  assert (El : exists lig tx_lig,
            wrapper_ligacao_montante Numpy perfil_exemplo 5000
              diametros_exemplo limite_parafusos_exemplo planos_exemplo
              fatores_exemplo 0.9 materiais_exemplo montantes_exemplo
              "montante_esq"
            = Ok (lig, tx_lig))
    by (vm_compute; do 2 eexists; reflexivity).
  destruct El as (lig & tl & El).
  apply (reforcar_montante_ate_viavel_perfil_esbelto_levanta sort_values_area
           "L 50x50x5" 5000 montantes_exemplo materiais_exemplo
           diametros_exemplo limite_parafusos_exemplo planos_exemplo
           fatores_exemplo 0.9 None wrapper_ligacao_montante "montante_esq"
           1000 90 false [] perfil_exemplo [perfil_maior] lig tl 3515);
    [reflexivity|constructor|exact El|reflexivity|reflexivity|reflexivity].
Defined.

Lemma filtrar_por_diametro_parafuso_encadeado_witness :
  filtrar_por_diametro_parafuso
    (filtrar_por_diametro_parafuso montantes_exemplo 1.0) 1.59
  = filtrar_por_diametro_parafuso montantes_exemplo 1.59.
Proof.
  apply (filtrar_por_diametro_parafuso_encadeado montantes_exemplo 1.0 1.59).
  reflexivity.
Defined.

Lemma ordenar_id_barra_ignora_outros_caracteres_witness :
  ordenar_id_barra "-5" = ordenar_id_barra "5".
Proof.
  apply (ordenar_id_barra_ignora_outros_caracteres "" "5" "-");
    reflexivity.
Defined.

Lemma identificar_montantes_com_ligacao_extremos_witness :
  exists r xr lr,
    In r (identificar_montantes_com_ligacao metadados_sobrepostos
            esforcos_sobrepostos) /\
    sget (esforcos_por_barra_de esforcos_sobrepostos) r = Some (xr :: lr) /\
    (py_max_by (fun v => v) xr lr <? 2000)%float = false.
Proof.
  assert (Hvazio : ~ In ""%string (map fst metadados_sobrepostos)).
  { vm_compute. intros [H|[H|[H|[]]]]; discriminate H. }
  assert (Hd : exists d,
            In ("1"%string, d) metadados_sobrepostos /\
            e_montante (mb_tipo d) = true /\ mb_modulo d = Some 1 /\
            marcado (mb_base_modulo d) = true).
  { vm_compute. eexists. split; [left; reflexivity|].
    split; [reflexivity|]. split; reflexivity. }
  destruct Hd as (d & Hin & Hm & Hmod & Hb).
  destruct (identificar_montantes_com_ligacao_extremos metadados_sobrepostos
              esforcos_sobrepostos Hvazio) as [_ H].
  destruct (H mb_base_modulo "1"%string d 1 2000%float [] (or_introl eq_refl)
              Hin Hm Hmod Hb eq_refl) as [Hmax _].
  destruct (Hmax eq_refl) as (r & dr & xr & lr & Hr & _ & _ & _ & _ & Hx & Hle).
  exists r, xr, lr. repeat split; assumption.
Defined.

Lemma marcar_montantes_em_extremidades_idempotente_witness :
  marcar_montantes_em_extremidades metadados_sobrepostos
  = metadados_sobrepostos.
Proof.
  assert (Hnd : NoDup ["1"%string; "2"%string; "3"%string]).
  { repeat constructor; simpl; intuition discriminate. }
  exact (proj2 (proj2 (marcar_montantes_em_extremidades_idempotente
                         [("1", montante_exemplo "montante_esq" 0 1000);
                          ("2", montante_exemplo "montante_dir" 0 500);
                          ("3", montante_exemplo "montante_dir" 500 1000)]
                         Hnd))).
Defined.

Lemma igualar_perfis_montantes_por_modulo_conserva_witness :
  exists resultados',
    igualacao_sem_raio resultados_exemplo = Ok resultados' /\
    map fst resultados' = ["1"%string; "2"%string] /\
    Forall (fun b =>
              Forall (fun nh =>
                        h_esbeltez_corrigida (snd nh) = Some infinity /\
                        h_viavel (snd nh) = false /\
                        h_forca_axial (snd nh) = (-1000)%float)
                (rb_hipoteses (snd b))) resultados'.
Proof.
  assert (E : exists resultados',
            igualacao_sem_raio resultados_exemplo = Ok resultados')
    by (vm_compute; eexists; reflexivity).
  destruct E as (rs' & E). exists rs'. split; [exact E|].
  assert (Hnd : NoDup (map fst resultados_exemplo)).
  { repeat constructor; simpl; intuition discriminate. }
  split.
  - exact (proj1 (igualar_perfis_montantes_por_modulo_conserva
                    [perfil_sem_raio] materiais_exemplo 0.9 diametros_exemplo
                    None resultados_exemplo rs' Hnd E)).
  - vm_compute in E. injection E as <-.
    repeat constructor.
Defined.

Lemma dimensionar_barras_hipotese_sem_estrutura_witness :
  dimensionar_barras (fun l => l) sort_values_area
    [("H1", [("1", 500%float)])] []
    [perfil_exemplo] [perfil_exemplo] materiais_exemplo [perfil_exemplo]
    0.9 None None limite_parafusos_exemplo planos_exemplo fatores_exemplo
    false
  = Raise (KeyError "H1").
Proof.
  apply (dimensionar_barras_hipotese_sem_estrutura (fun l => l)
           sort_values_area [] []
           "H1" [("1"%string, 500%float)] []);
    [intros hip []|reflexivity].
Defined.

Lemma dimensionar_barras_sem_barras_witness :
  dimensionar_barras (fun l => l) sort_values_area [("H1", [])]
    [("H1", [])]
    [perfil_exemplo] [perfil_exemplo] materiais_exemplo [perfil_exemplo]
    0.9 None None limite_parafusos_exemplo planos_exemplo fatores_exemplo
    true
  = Ok (Some (([], []), [])).
Proof.
  apply (dimensionar_barras_sem_barras (fun l => l) sort_values_area
           [("H1"%string, [])]
           [("H1"%string, [])]).
  intros hip [<-|[]]. split; [reflexivity|discriminate].
Defined.

Lemma otimizar_ligacoes_montantes_extremidades_chaves_witness :
  exists lf L dados,
    otimizacao_exemplo (fun l => l) = Ok lf /\ sget lf "1" = Some L /\
    lig_truthy L = true /\ In ("1"%string, dados) metadados_sobrepostos /\
    e_montante (mb_tipo dados) = true.
Proof.
  assert (E : exists lf L,
            otimizacao_exemplo (fun l => l) = Ok lf /\ sget lf "1" = Some L)
    by (vm_compute; do 2 eexists; split; reflexivity).
  destruct E as (lf & L & E & HL).
  destruct (otimizar_ligacoes_montantes_extremidades_chaves (fun l => l)
              metadados_sobrepostos esforcos_sobrepostos materiais_exemplo
              diametros_exemplo limite_parafusos_exemplo planos_exemplo
              fatores_exemplo [perfil_exemplo] 0.9 lf "1" L E HL)
    as (Ht & dados & Hin & Hm & _).
  exists lf, L, dados. auto.
Defined.

Lemma verifica_flexao_simples_fora_da_faixa_witness :
  verifica_flexao_simples "diagonal" (-30) 1000 0 3515 0.9 = true.
Proof.
  apply (verifica_flexao_simples_fora_da_faixa "diagonal" (-30) 1000 0 3515
           0.9).
  left. reflexivity.
Defined.
